(** * expo-shipkit: deployment ledger, version engine and config drift detector

    A shallow embedding of
      - [src/core/version/manager.ts]            (module [VersionManager]),
      - [src/core/deployment/tracker.ts]         (module [DeploymentTracker]),
      - [src/core/deployment/config-detector.ts] (module [ConfigDetector]),
      - [src/utils/fs.ts]                        (module [Fs]),
    together with the few JavaScript primitives these files rely on
    (modules [JS] and [Json]).  Documents read from disk are modelled at
    their declared TypeScript types ([ExpoAppJson], [DeploymentHistory],
    ...).  The statements proved about this code come last. *)

From Stdlib Require Import ZArith NArith Lia List Bool Ascii String.
From Stdlib Require Import Decimal DecimalString DecimalN.
From Stdlib Require Import Permutation Sorted.
Import ListNotations.

Set Warnings "-register-all".

Local Open Scope string_scope.
Local Open Scope Z_scope.

(* ================================================================== *)
(** * JavaScript primitives                                            *)
(* ================================================================== *)

Module JS.

(** ** Numbers

    The numbers the core computes with are version components and their
    differences.  They are modelled as mathematical integers plus [NaN];
    JavaScript agrees with integer arithmetic as long as every value stays
    within the safe-integer range (magnitude at most [2^53]), which is the
    range in which the theorems below speak about numerals. *)

Inductive number : Type :=
| NaN
| Num (z : Z).

Definition MAX_SAFE_INTEGER : Z := 2 ^ 53 - 1.

Definition add (a b : number) : number :=
  match a, b with
  | Num x, Num y => Num (x + y)
  | _, _ => NaN
  end.

Definition sub (a b : number) : number :=
  match a, b with
  | Num x, Num y => Num (x - y)
  | _, _ => NaN
  end.

(** [a < b]; every comparison with [NaN] is false. *)
Definition lt (a b : number) : bool :=
  match a, b with
  | Num x, Num y => x <? y
  | _, _ => false
  end.

(** [a > b]. *)
Definition gt (a b : number) : bool := lt b a.

(** [a !== b] on numbers; [NaN !== NaN] is true. *)
Definition strict_neq (a b : number) : bool :=
  match a, b with
  | Num x, Num y => negb (x =? y)
  | _, _ => true
  end.

(** [a ?? b]: the left operand unless it is [undefined] or [null]. *)
Definition nullish {A : Type} (a : option A) (b : A) : A :=
  match a with
  | Some x => x
  | None => b
  end.

(** ** Strings *)

Definition is_digit (c : ascii) : bool :=
  match c with
  | "0" | "1" | "2" | "3" | "4" | "5" | "6" | "7" | "8" | "9" => true
  | _ => false
  end%char.

Definition is_dot (c : ascii) : bool :=
  match c with
  | "."%char => true
  | _ => false
  end.

Fixpoint all_digits (s : string) : bool :=
  match s with
  | EmptyString => true
  | String c r => is_digit c && all_digits r
  end.

Fixpoint has_dot (s : string) : bool :=
  match s with
  | EmptyString => false
  | String c r => is_dot c || has_dot r
  end.

(** [Number(s)] for the strings that occur as version components: a run of
    decimal digits is its value, and the empty string is [0].  Every other
    string is sent to [NaN]; JavaScript also reads signs, blanks, exponents
    and radix prefixes, and no statement below relies on the value of
    [Number] on such strings. *)
Definition Number (s : string) : number :=
  match NilEmpty.uint_of_string s with
  | Some d => Num (Z.of_N (N.of_uint d))
  | None => NaN
  end.

(** Number-to-string conversion as performed by a template literal, for
    integers printed without exponent. *)
Definition toString (n : number) : string :=
  match n with
  | NaN => "NaN"
  | Num (Zneg p) => String "-"%char (NilZero.string_of_uint (Pos.to_uint p))
  | Num z => NilZero.string_of_uint (N.to_uint (Z.to_N z))
  end.

(** [s.split('.')]: the pieces between dots; always at least one piece. *)
Fixpoint split_dot (s : string) : list string :=
  match s with
  | EmptyString => [EmptyString]
  | String c r =>
      if is_dot c then EmptyString :: split_dot r
      else match split_dot r with
           | piece :: pieces => String c piece :: pieces
           | [] => [String c EmptyString]
           end
  end.

(** [pieces.join('.')]. *)
Fixpoint join_dot (pieces : list string) : string :=
  match pieces with
  | [] => EmptyString
  | [p] => p
  | p :: rest => p ++ String "."%char (join_dot rest)
  end.

(** ** [Array.prototype.sort]

    The sort of V8, for arrays of fewer than 64 elements: the run the array
    starts with is found (and turned round when it descends strictly), and
    every later element is put in by binary insertion.  The result of the
    comparator is read as a number, [NaN] counting as zero.  Arrays of 64
    elements or more are sorted in chunks of this kind that are then merged;
    when the comparator orders the elements consistently the outcome is the
    same, the one stable order. *)

Section Sort.

Context {A : Type} (compareFn : A -> A -> number).

(** The comparator's verdict on [x] against [y]. *)
Definition order (x y : A) : Z :=
  match compareFn x y with
  | NaN => 0
  | Num z => z
  end.

(** The elements of [l] that carry on the run after [prev], and those left. *)
Fixpoint run_tail (descending : bool) (prev : A) (l : list A)
  : list A * list A :=
  match l with
  | [] => ([], [])
  | cur :: rest =>
      if (if descending then order cur prev <? 0 else 0 <=? order cur prev)
      then let '(run, others) := run_tail descending cur rest in
           (cur :: run, others)
      else ([], l)
  end.

(** [CountAndMakeRun]: the run at the start of [l], ascending, and the
    elements after it. *)
Definition count_and_make_run (l : list A) : list A * list A :=
  match l with
  | x0 :: x1 :: rest =>
      let descending := order x1 x0 <? 0 in
      let '(run, others) := run_tail descending x1 rest in
      (if descending then List.rev (x0 :: x1 :: run) else x0 :: x1 :: run, others)
  | _ => (l, [])
  end.

(** The binary search of [BinaryInsertionSort] for the place of [pivot]
    between [left] and [right]; [todo] bounds the halvings still to come. *)
Fixpoint search (todo : nat) (pivot : A) (sorted : list A) (left right : nat)
  : nat :=
  match todo with
  | O => left
  | S todo' =>
      if (left <? right)%nat
      then let mid := (left + Nat.div2 (right - left))%nat in
           match nth_error sorted mid with
           | Some m =>
               if order pivot m <? 0
               then search todo' pivot sorted left mid
               else search todo' pivot sorted (S mid) right
           | None => left
           end
      else left
  end.

Definition binary_insert (sorted : list A) (pivot : A) : list A :=
  let at_ := search (List.length sorted) pivot sorted 0 (List.length sorted) in
  (firstn at_ sorted ++ pivot :: skipn at_ sorted)%list.

Definition Array_sort (l : list A) : list A :=
  let '(run, others) := count_and_make_run l in
  fold_left binary_insert others run.

End Sort.

(** ** Exceptions *)

(** [TypeError] is raised by the engine itself, on reading or writing a
    property of [undefined]; its message is the engine's. *)
Inductive exn : Type :=
| Error (message : string)
| SyntaxError
| TypeError.

Inductive outcome (A : Type) : Type :=
| Returns (a : A)
| Throws (e : exn).
Arguments Returns {A} a.
Arguments Throws {A} e.

(** [try { body } catch { return fallback }]. *)
Definition try_catch {A : Type} (body : outcome A) (fallback : A) : A :=
  match body with
  | Returns a => a
  | Throws _ => fallback
  end.

Definition bind {A B : Type} (m : outcome A) (k : A -> outcome B) : outcome B :=
  match m with
  | Returns a => k a
  | Throws e => Throws e
  end.

End JS.

Notation "x <- m ;; k" := (JS.bind m (fun x => k))
  (at level 61, m at next level, right associativity).
Notation "a ?? b" := (JS.nullish a b) (at level 40, left associativity).

(* ================================================================== *)
(** * Values of type [unknown] read from JSON documents                *)
(* ================================================================== *)

Module Json.

(** The text-level content of a JSON document.  Numbers are the integers
    build settings use (SDK levels and the like). *)
Inductive json : Type :=
| JNull
| JBool (b : bool)
| JNumber (z : Z)
| JString (s : string)
| JArray (items : list json)
| JObject (members : list (string * json)).

(** Run-time values.  [JSON.parse] builds new arrays and objects on every
    call: an object is identified by the parse that created it ([birth]) and
    by its place in the parsed document ([path]).  [VObjectPrototype] is
    [Object.prototype], and [VMethod owner name] the function that the
    built-in object [owner] holds under [name]. *)
Inductive value : Type :=
| VUndefined
| VNull
| VBool (b : bool)
| VNumber (n : JS.number)
| VString (s : string)
| VObject (birth : nat) (path : list string) (content : json)
| VObjectPrototype
| VMethod (owner name : string).

Fixpoint path_eqb (p q : list string) : bool :=
  match p, q with
  | [], [] => true
  | x :: p', y :: q' => String.eqb x y && path_eqb p' q'
  | _, _ => false
  end.

(** [a === b]: primitives by value, objects and functions by identity. *)
Definition strict_eq (a b : value) : bool :=
  match a, b with
  | VUndefined, VUndefined => true
  | VNull, VNull => true
  | VBool x, VBool y => Bool.eqb x y
  | VNumber x, VNumber y => negb (JS.strict_neq x y)
  | VString x, VString y => String.eqb x y
  | VObject b1 p1 _, VObject b2 p2 _ => Nat.eqb b1 b2 && path_eqb p1 p2
  | VObjectPrototype, VObjectPrototype => true
  | VMethod o1 n1, VMethod o2 n2 => String.eqb o1 o2 && String.eqb n1 n2
  | _, _ => false
  end.

(** [a !== b]. *)
Definition strict_neq (a b : value) : bool := negb (strict_eq a b).

(** The value [JSON.parse] number [birth] yields for the node at [path]. *)
Definition instantiate (birth : nat) (path : list string) (j : json) : value :=
  match j with
  | JNull => VNull
  | JBool b => VBool b
  | JNumber z => VNumber (JS.Num z)
  | JString s => VString s
  | JArray _ | JObject _ => VObject birth path j
  end.

(** What [JSON.stringify] writes for a value, as the document the text
    parses to; [None] where the value is left out (a property of an object
    whose value is [undefined] or a function).  [NaN] is written as
    [null]. *)
Definition stringify (v : value) : option json :=
  match v with
  | VUndefined => None
  | VNull => Some JNull
  | VBool b => Some (JBool b)
  | VNumber JS.NaN => Some JNull
  | VNumber (JS.Num z) => Some (JNumber z)
  | VString s => Some (JString s)
  | VObject _ _ content => Some content
  | VObjectPrototype => Some (JObject [])
  | VMethod _ _ => None
  end.

(** The own properties of a plain object, in insertion order. *)
Definition object (T : Type) : Type := list (string * T).

(** The own property [k] of [o], if there is one. *)
Fixpoint get {T : Type} (o : object T) (k : string) : option T :=
  match o with
  | [] => None
  | (k', v) :: rest => if String.eqb k' k then Some v else get rest k
  end.

(** The own property [k] set to [v]: overwritten in place, or added at the
    end. *)
Fixpoint set {T : Type} (o : object T) (k : string) (v : T) : object T :=
  match o with
  | [] => [(k, v)]
  | (k', v') :: rest =>
      if String.eqb k' k then (k', v) :: rest else (k', v') :: set rest k v
  end.

(** The property [k] rewritten in place by [f]; an object without that
    property is left alone. *)
Fixpoint update {T : Type} (o : object T) (k : string) (f : T -> T) : object T :=
  match o with
  | [] => []
  | (k', v) :: rest =>
      if String.eqb k' k then (k', f v) :: rest else (k', v) :: update rest k f
  end.

(** The own property [k] at type [unknown]: [undefined] when missing. *)
Definition read (o : object value) (k : string) : value :=
  match get o k with
  | Some v => v
  | None => VUndefined
  end.

(** [Object.keys(o)]. *)
Definition keys {T : Type} (o : object T) : list string := map fst o.

(** ** What objects inherit

    An object written as a literal or built by [JSON.parse] inherits from
    [Object.prototype]: its methods, and the accessor [__proto__]. *)

Definition Object_prototype_methods : list string :=
  [ "constructor"; "__defineGetter__"; "__defineSetter__"; "hasOwnProperty";
    "__lookupGetter__"; "__lookupSetter__"; "isPrototypeOf";
    "propertyIsEnumerable"; "toString"; "valueOf"; "toLocaleString" ].

(** The methods an array inherits from [Array.prototype] (ECMAScript 2023). *)
Definition Array_prototype_methods : list string :=
  [ "constructor"; "at"; "concat"; "copyWithin"; "fill"; "find"; "findIndex";
    "findLast"; "findLastIndex"; "lastIndexOf"; "pop"; "push"; "reverse";
    "shift"; "unshift"; "slice"; "sort"; "splice"; "includes"; "indexOf";
    "join"; "keys"; "entries"; "values"; "forEach"; "filter"; "flat";
    "flatMap"; "map"; "every"; "some"; "reduce"; "reduceRight"; "toReversed";
    "toSorted"; "toSpliced"; "with"; "toLocaleString"; "toString" ].

Definition mem (k : string) (names : list string) : bool :=
  existsb (String.eqb k) names.

(** The name is one every plain object answers to without having the
    property itself. *)
Definition inherited_name (k : string) : bool :=
  mem k ("__proto__" :: Object_prototype_methods).

(** What [o[k]] finds in a string-keyed map of [T]s ([Record<string, T>])
    whose prototype is [Object.prototype]. *)
Inductive member (T : Type) : Type :=
| Own (x : T)
| Inherited (name : string).
Arguments Own {T} x.
Arguments Inherited {T} name.

(** [o[k]]: the own property, else what [Object.prototype] holds under that
    name, else [undefined] ([None]). *)
Definition lookup {T : Type} (o : object T) (k : string) : option (member T) :=
  match get o k with
  | Some x => Some (Own x)
  | None => if inherited_name k then Some (Inherited k) else None
  end.

(** ** Plain objects of type [Record<string, unknown>]

    Such an object has its own properties and a prototype: that of a
    literal is [Object.prototype]; assigning to [__proto__] can replace it
    by [null] or by an array or object of a parsed document. *)

Inductive prototype : Type :=
| Object_prototype
| Null_prototype
| Parsed_prototype (birth : nat) (path : list string) (content : json).

Record plain : Type := {
  own : object value;
  proto : prototype
}.

(** [{}], and what [JSON.parse] builds for an object. *)
Definition literal (properties : object value) : plain :=
  {| own := properties; proto := Object_prototype |}.

(** The prototype as a value, as the getter [__proto__] returns it. *)
Definition prototype_value (p : prototype) : value :=
  match p with
  | Object_prototype => VObjectPrototype
  | Null_prototype => VNull
  | Parsed_prototype birth path content => VObject birth path content
  end.

(** What [Object.prototype] gives an object whose own prototype is
    [receiver] under the name [k]. *)
Definition from_Object_prototype (receiver : prototype) (k : string) : value :=
  if String.eqb k "__proto__" then prototype_value receiver
  else if mem k Object_prototype_methods then VMethod "Object.prototype" k
  else VUndefined.

(** The index an array holds an element under: the decimal numeral of a
    position, without leading zeros. *)
Definition array_index (k : string) : option nat :=
  match JS.Number k with
  | JS.Num z =>
      if String.eqb (JS.toString (JS.Num z)) k then Some (Z.to_nat z) else None
  | JS.NaN => None
  end.

(** The own property [k] of the array or object of parse [birth] found at
    [path]. *)
Definition own_member (birth : nat) (path : list string) (content : json)
                      (k : string) : option value :=
  match content with
  | JObject members =>
      option_map (instantiate birth (path ++ [k])) (get members k)
  | JArray items =>
      if String.eqb k "length"
      then Some (VNumber (JS.Num (Z.of_nat (List.length items))))
      else match array_index k with
           | Some i => option_map (instantiate birth (path ++ [k]))
                                  (nth_error items i)
           | None => None
           end
  | _ => None
  end.

(** What an object whose prototype is [p] inherits under the name [k]. *)
Definition inherited (p : prototype) (k : string) : value :=
  match p with
  | Null_prototype => VUndefined
  | Object_prototype => from_Object_prototype p k
  | Parsed_prototype birth path content =>
      match own_member birth path content k with
      | Some v => v
      | None =>
          match content with
          | JArray _ =>
              if mem k Array_prototype_methods
              then VMethod "Array.prototype" k
              else from_Object_prototype p k
          | _ => from_Object_prototype p k
          end
      end
  end.

(** [o[k]]. *)
Definition plain_get (o : plain) (k : string) : value :=
  match get (own o) k with
  | Some v => v
  | None => inherited (proto o) k
  end.

(** [members[k]] on the object of parse [birth] found at [path]. *)
Definition parsed_get (birth : nat) (path : list string)
                      (members : object json) (k : string) : value :=
  match get members k with
  | Some j => instantiate birth (path ++ [k]) j
  | None => from_Object_prototype Object_prototype k
  end.

(** An assignment to [__proto__] on an object with prototype [p] reaches
    the setter of [Object.prototype]: no object on the way holds a property
    of that name. *)
Definition reaches_setter (p : prototype) : bool :=
  match p with
  | Object_prototype => true
  | Null_prototype => false
  | Parsed_prototype _ _ (JObject members) =>
      match get members "__proto__" with
      | Some _ => false
      | None => true
      end
  | Parsed_prototype _ _ _ => true
  end.

(** The prototype the setter installs for [v]; it ignores what is neither
    an object nor [null].  (Of the functions, which are objects too, none
    is ever assigned to [__proto__] by this code: it assigns what it has
    read from a parsed object.) *)
Definition as_prototype (v : value) : option prototype :=
  match v with
  | VNull => Some Null_prototype
  | VObject birth path content => Some (Parsed_prototype birth path content)
  | VObjectPrototype => Some Object_prototype
  | _ => None
  end.

(** [o[k] = v].  The inherited properties are writable, so the assignment
    makes an own property, but for [__proto__] where the setter is reached. *)
Definition plain_set (o : plain) (k : string) (v : value) : plain :=
  if String.eqb k "__proto__"
     && match get (own o) k with Some _ => false | None => true end
     && reaches_setter (proto o)
  then match as_prototype v with
       | Some p => {| own := own o; proto := p |}
       | None => o
       end
  else {| own := set (own o) k v; proto := proto o |}.

(** [JSON.stringify(o)]: the own properties whose values are written. *)
Definition stringify_plain (o : plain) : object json :=
  flat_map (fun kv => match stringify (snd kv) with
                      | Some j => [(fst kv, j)]
                      | None => []
                      end)
           (own o).

(** The object [JSON.parse] number [birth] builds at [path]. *)
Definition instantiate_plain (birth : nat) (path : list string)
                             (members : object json) : plain :=
  literal (map (fun kj => (fst kj, instantiate birth (path ++ [fst kj]) (snd kj)))
               members).

End Json.

(* ================================================================== *)
(** * Declared types ([src/types/deployment.ts], [src/types/eas.ts])   *)
(* ================================================================== *)

Inductive Platform : Type := ios | android.

Inductive Profile : Type := development | preview | staging | production.

Inductive VersionBumpType : Type := patch | minor | major | none.

(** One entry of a [ProfileDeploymentStatus]: the key may be missing
    ([undefined]), hold [null], or hold the text of a timestamp. *)
Inductive Slot : Type :=
| Absent
| Null
| Stamp (iso : string).

Record ProfileDeploymentStatus : Type := {
  pds_preview : Slot;
  pds_production : Slot;
  pds_staging : Slot;
  pds_development : Slot
}.

Record DeploymentRecord : Type := {
  rec_ios : ProfileDeploymentStatus;
  rec_android : ProfileDeploymentStatus
}.

(** The snapshots as the tracker holds them; [getLastConfig] provides for
    a platform without one. *)
Record PlatformConfigSnapshot : Type := {
  snap_android : option Json.plain;
  snap_ios : option Json.plain
}.

Record DeploymentHistory : Type := {
  versions : Json.object DeploymentRecord;
  lastConfig : PlatformConfigSnapshot
}.

(** The deployments document as it is on disk: what the text of a
    [DeploymentHistory] parses to. *)
Record StoredSnapshot : Type := {
  stored_android : option (Json.object Json.json);
  stored_ios : option (Json.object Json.json)
}.

Record StoredHistory : Type := {
  stored_versions : Json.object DeploymentRecord;
  stored_lastConfig : StoredSnapshot
}.

Record ConfigChange : Type := {
  key : string;
  from : Json.value;
  to : Json.value
}.

Record SyncWarning : Type := {
  message : string;
  warn_platform : Platform;
  warn_profile : Profile
}.

Record VersionBumpResult : Type := {
  oldVersion : string;
  newVersion : string
}.

(** [ExpoBuildPropertiesConfig], as it sits in the document: each platform
    entry is an object whose members are read by name. *)
Record ExpoBuildPropertiesConfig : Type := {
  bp_android : option (Json.object Json.json);
  bp_ios : option (Json.object Json.json)
}.

(** An element of [expo.plugins]: a bare name, or a pair of a name and a
    configuration (which may be missing or falsy). *)
Inductive Plugin : Type :=
| PluginName (name : string)
| PluginEntry (name : string) (config : option ExpoBuildPropertiesConfig).

(** The entry [expo] of [app.json]; the code provides for a document
    without it, and for an entry without [version]. *)
Record Expo : Type := {
  version : option string;
  plugins : option (list Plugin)
}.

Record ExpoAppJson : Type := { expo : option Expo }.

Record PackageJson : Type := { pkg_version : string }.

Definition Platform_eqb (a b : Platform) : bool :=
  match a, b with
  | ios, ios | android, android => true
  | _, _ => false
  end.

Definition platform_name (p : Platform) : string :=
  match p with
  | ios => "ios"
  | android => "android"
  end.

Definition profile_name (p : Profile) : string :=
  match p with
  | development => "development"
  | preview => "preview"
  | staging => "staging"
  | production => "production"
  end.

(* ================================================================== *)
(** * File helpers ([src/utils/fs.ts])                                 *)
(* ================================================================== *)

Module Fs.

(** What a file holds, as far as [JSON.parse] is concerned: text that does
    not parse, or the document it parses to ([None] is the JSON [null]). *)
Inductive text (A : Type) : Type :=
| Garbage
| Document (doc : option A).
Arguments Garbage {A}.
Arguments Document {A} doc.

(** A path on disk: nothing there, or a file with its text. *)
Definition file (A : Type) : Type := option (text A).

Definition existsSync {A : Type} (f : file A) : bool :=
  match f with
  | Some _ => true
  | None => false
  end.

Definition readFileSync {A : Type} (f : file A) : JS.outcome (text A) :=
  match f with
  | Some t => JS.Returns t
  | None => JS.Throws (JS.Error "ENOENT: no such file or directory")
  end.

Definition JSON_parse {A : Type} (t : text A) : JS.outcome (option A) :=
  match t with
  | Document doc => JS.Returns doc
  | Garbage => JS.Throws JS.SyntaxError
  end.

Definition readJsonFile {A : Type} (f : file A) : option A :=
  JS.try_catch
    (if negb (existsSync f) then JS.Returns None
     else content <- readFileSync f ;; JSON_parse content)
    None.

(** The file left behind by [writeJsonFile(path, data)], for [data] given
    as the document [JSON.stringify] makes of it. *)
Definition writeJsonFile {A : Type} (data : A) : file A :=
  Some (Document (Some data)).

Definition fileExists {A : Type} (f : file A) : bool := existsSync f.

End Fs.

(** The three documents of a project directory the core touches. *)
Record Disk : Type := {
  app_json : Fs.file ExpoAppJson;
  package_json : Fs.file PackageJson;
  deployments_json : Fs.file StoredHistory
}.

Definition write_app_json (d : Disk) (a : ExpoAppJson) : Disk :=
  {| app_json := Fs.writeJsonFile a;
     package_json := package_json d;
     deployments_json := deployments_json d |}.

Definition write_package_json (d : Disk) (p : PackageJson) : Disk :=
  {| app_json := app_json d;
     package_json := Fs.writeJsonFile p;
     deployments_json := deployments_json d |}.

Definition write_deployments_json (d : Disk) (h : StoredHistory) : Disk :=
  {| app_json := app_json d;
     package_json := package_json d;
     deployments_json := Fs.writeJsonFile h |}.

(* ================================================================== *)
(** * Version engine ([src/core/version/manager.ts])                   *)
(* ================================================================== *)

Module VersionManager.

(** [appJson?.expo?.version]. *)
Definition version_of (appJson : option ExpoAppJson) : option string :=
  match appJson with
  | Some a => match expo a with
              | Some e => version e
              | None => None
              end
  | None => None
  end.

(** [appJson?.expo?.version ?? '0.0.0']. *)
Definition getCurrentVersion (d : Disk) : string :=
  version_of (Fs.readJsonFile (app_json d)) ?? "0.0.0".

Definition parseVersion (v : string) : JS.number * JS.number * JS.number :=
  let parts := map JS.Number (JS.split_dot v) in
  (nth_error parts 0 ?? JS.Num 0,
   nth_error parts 1 ?? JS.Num 0,
   nth_error parts 2 ?? JS.Num 0).

Definition calculateNewVersion (currentVersion : string)
                               (type : VersionBumpType) : string :=
  match type with
  | none => currentVersion
  | _ =>
      let '(maj, min, pat) := parseVersion currentVersion in
      match type with
      | major => JS.toString (JS.add maj (JS.Num 1)) ++ ".0.0"
      | minor =>
          JS.toString maj ++ "." ++ JS.toString (JS.add min (JS.Num 1)) ++ ".0"
      | patch =>
          JS.toString maj ++ "." ++ JS.toString min ++ "."
          ++ JS.toString (JS.add pat (JS.Num 1))
      | none => currentVersion
      end
  end.

(** [appJson.expo.version = v]: a [TypeError] when the document has no
    [expo] entry. *)
Definition set_app_version (appJson : ExpoAppJson) (v : string)
  : JS.outcome ExpoAppJson :=
  match expo appJson with
  | Some e =>
      JS.Returns {| expo := Some {| version := Some v; plugins := plugins e |} |}
  | None => JS.Throws JS.TypeError
  end.

Definition set_package_version (packageJson : PackageJson) (v : string)
  : PackageJson :=
  {| pkg_version := v |}.

(** The second of the two guarded writes. *)
Definition write_package (v : string) (d : Disk) : Disk :=
  match Fs.readJsonFile (package_json d) with
  | Some packageJson =>
      write_package_json d (set_package_version packageJson v)
  | None => d
  end.

(** The two guarded writes shared by [bump] and [setVersion], with the
    disk they leave behind: a manifest that cannot be read is skipped, and
    an exception while updating [app.json] comes before any write. *)
Definition write_both (v : string) (d : Disk) : JS.outcome unit * Disk :=
  match Fs.readJsonFile (app_json d) with
  | Some appJson =>
      match set_app_version appJson v with
      | JS.Returns appJson' =>
          (JS.Returns tt, write_package v (write_app_json d appJson'))
      | JS.Throws e => (JS.Throws e, d)
      end
  | None => (JS.Returns tt, write_package v d)
  end.

Definition bump (type : VersionBumpType) (d : Disk)
  : JS.outcome VersionBumpResult * Disk :=
  let old := getCurrentVersion d in
  match type with
  | none => (JS.Returns {| oldVersion := old; newVersion := old |}, d)
  | _ =>
      let new := calculateNewVersion old type in
      match write_both new d with
      | (JS.Returns _, d') =>
          (JS.Returns {| oldVersion := old; newVersion := new |}, d')
      | (JS.Throws e, d') => (JS.Throws e, d')
      end
  end.

(** *** The pattern [/^\d+\.\d+\.\d+$/]

    A run of digits is always followed by a dot or by the end of the input,
    neither of which is a digit, so matching the longest run is exact. *)

Fixpoint skip_digits (s : string) : string :=
  match s with
  | String c r => if JS.is_digit c then skip_digits r else s
  | EmptyString => EmptyString
  end.

(** [\d+]: what is left after one or more digits. *)
Definition digits_plus (s : string) : option string :=
  match s with
  | String c r => if JS.is_digit c then Some (skip_digits r) else None
  | EmptyString => None
  end.

(** [\.]: what is left after a dot. *)
Definition literal_dot (s : string) : option string :=
  match s with
  | String c r => if JS.is_dot c then Some r else None
  | EmptyString => None
  end.

(** [$]: the end of the input. *)
Definition end_of_input (s : string) : bool :=
  match s with
  | EmptyString => true
  | String _ _ => false
  end.

Definition then_match (m : option string) (k : string -> option string)
  : option string :=
  match m with
  | Some rest => k rest
  | None => None
  end.

Definition version_pattern_test (v : string) : bool :=
  match then_match (then_match (then_match (then_match
          (digits_plus v) literal_dot) digits_plus) literal_dot) digits_plus with
  | Some rest => end_of_input rest
  | None => false
  end.

Definition InvalidFormat (v : string) : JS.exn :=
  JS.Error ("Invalid version format: " ++ v ++ ". Expected format: x.y.z").

Definition setVersion (v : string) (d : Disk) : JS.outcome string * Disk :=
  if negb (version_pattern_test v) then (JS.Throws (InvalidFormat v), d)
  else match write_both v d with
       | (JS.Returns _, d') => (JS.Returns v, d')
       | (JS.Throws e, d') => (JS.Throws e, d')
       end.

(** [compareVersions]: the loop [for (let i = 0; i < 3; i++)] with its two
    early returns; [todo] counts the iterations still to run. *)
Fixpoint compare_loop (aParts bParts : list JS.number) (i todo : nat) : Z :=
  match todo with
  | O => 0
  | S todo' =>
      let aVal := nth_error aParts i ?? JS.Num 0 in
      let bVal := nth_error bParts i ?? JS.Num 0 in
      if JS.lt aVal bVal then -1
      else if JS.gt aVal bVal then 1
      else compare_loop aParts bParts (S i) todo'
  end.

Definition compareVersions (a b : string) : Z :=
  let aParts := map JS.Number (JS.split_dot a) in
  let bParts := map JS.Number (JS.split_dot b) in
  compare_loop aParts bParts 0 3.

Definition isNewerVersion (a b : string) : bool :=
  0 <? compareVersions a b.

End VersionManager.


(* ================================================================== *)
(** * Deployment ledger ([src/core/deployment/tracker.ts])             *)
(* ================================================================== *)

Module DeploymentTracker.

(** A [DeploymentTracker] instance ([data]) with the project directory it
    is bound to ([disk]) and a count of the documents parsed so far
    ([parses]), which tells the objects of different parses apart. *)
Record Tracker : Type := {
  data : DeploymentHistory;
  disk : Disk;
  parses : nat
}.

Definition createEmptyDeploymentRecord : DeploymentRecord :=
  {| rec_ios := {| pds_preview := Null; pds_production := Null;
                   pds_staging := Absent; pds_development := Absent |};
     rec_android := {| pds_preview := Null; pds_production := Null;
                       pds_staging := Absent; pds_development := Absent |} |}.

Definition createEmptyDeploymentHistory : DeploymentHistory :=
  {| versions := [];
     lastConfig := {| snap_android := Some (Json.literal []);
                      snap_ios := Some (Json.literal []) |} |}.

(** [status[platform]]. *)
Definition platform_status (r : DeploymentRecord) (p : Platform)
  : ProfileDeploymentStatus :=
  match p with
  | ios => rec_ios r
  | android => rec_android r
  end.

(** [status[platform][profile]]. *)
Definition profile_slot (s : ProfileDeploymentStatus) (p : Profile) : Slot :=
  match p with
  | preview => pds_preview s
  | production => pds_production s
  | staging => pds_staging s
  | development => pds_development s
  end.

Definition slot_of (r : DeploymentRecord) (pl : Platform) (pr : Profile) : Slot :=
  profile_slot (platform_status r pl) pr.

Definition set_profile_slot (s : ProfileDeploymentStatus) (p : Profile)
                            (x : Slot) : ProfileDeploymentStatus :=
  match p with
  | preview =>
      {| pds_preview := x; pds_production := pds_production s;
         pds_staging := pds_staging s; pds_development := pds_development s |}
  | production =>
      {| pds_preview := pds_preview s; pds_production := x;
         pds_staging := pds_staging s; pds_development := pds_development s |}
  | staging =>
      {| pds_preview := pds_preview s; pds_production := pds_production s;
         pds_staging := x; pds_development := pds_development s |}
  | development =>
      {| pds_preview := pds_preview s; pds_production := pds_production s;
         pds_staging := pds_staging s; pds_development := x |}
  end.

(** [record[platform][profile] = x]. *)
Definition set_slot (r : DeploymentRecord) (pl : Platform) (pr : Profile)
                    (x : Slot) : DeploymentRecord :=
  match pl with
  | ios => {| rec_ios := set_profile_slot (rec_ios r) pr x;
              rec_android := rec_android r |}
  | android => {| rec_ios := rec_ios r;
                  rec_android := set_profile_slot (rec_android r) pr x |}
  end.

(** Truthiness of a slot: only a non-empty string passes an [if]. *)
Definition truthy (s : Slot) : bool :=
  match s with
  | Stamp (String _ _) => true
  | _ => false
  end.

(** What is found under a version is a record or a member of
    [Object.prototype], an object or a function either way: it passes an
    [if] unless nothing is found. *)
Definition found {T : Type} (m : option (Json.member T)) : bool :=
  match m with
  | Some _ => true
  | None => false
  end.

(** [status[platform][profile]] on what [getVersionStatus] returned.  No
    member of [Object.prototype] has a property [ios] or [android], and
    reading a property of [undefined] is a [TypeError]. *)
Definition read_slot (status : Json.member DeploymentRecord) (pl : Platform)
                     (pr : Profile) : JS.outcome Slot :=
  match status with
  | Json.Own r => JS.Returns (slot_of r pl pr)
  | Json.Inherited _ => JS.Throws JS.TypeError
  end.

(** The document [JSON.stringify(this.data)] writes. *)
Definition stringify_history (h : DeploymentHistory) : StoredHistory :=
  {| stored_versions := versions h;
     stored_lastConfig :=
       {| stored_android :=
            option_map Json.stringify_plain (snap_android (lastConfig h));
          stored_ios :=
            option_map Json.stringify_plain (snap_ios (lastConfig h)) |} |}.

(** The history [JSON.parse] number [birth] builds from the document. *)
Definition parse_history (birth : nat) (doc : StoredHistory) : DeploymentHistory :=
  {| versions := stored_versions doc;
     lastConfig :=
       {| snap_android :=
            option_map (Json.instantiate_plain birth ["lastConfig"; "android"])
                       (stored_android (stored_lastConfig doc));
          snap_ios :=
            option_map (Json.instantiate_plain birth ["lastConfig"; "ios"])
                       (stored_ios (stored_lastConfig doc)) |} |}.

Definition load (birth : nat) (d : Disk) : DeploymentHistory :=
  if negb (Fs.fileExists (deployments_json d))
  then createEmptyDeploymentHistory
  else option_map (parse_history birth) (Fs.readJsonFile (deployments_json d))
       ?? createEmptyDeploymentHistory.

(** [new DeploymentTracker(projectRoot)] in a process that has parsed
    [n] documents so far. *)
Definition construct (d : Disk) (n : nat) : Tracker :=
  {| data := load n d;
     disk := d;
     parses := if Fs.fileExists (deployments_json d) then S n else n |}.

Definition save (t : Tracker) : Tracker :=
  {| data := data t;
     disk := write_deployments_json (disk t) (stringify_history (data t));
     parses := parses t |}.

Definition with_data (t : Tracker) (h : DeploymentHistory) : Tracker :=
  {| data := h; disk := disk t; parses := parses t |}.

(** [this.data.versions] replaced by [vs]. *)
Definition with_versions (t : Tracker) (vs : Json.object DeploymentRecord)
  : Tracker :=
  with_data t {| versions := vs; lastConfig := lastConfig (data t) |}.

Definition exists_ (t : Tracker) : bool :=
  Fs.fileExists (deployments_json (disk t)).

Definition initialize (t : Tracker) : Tracker :=
  save (with_data t createEmptyDeploymentHistory).

(** [this.data.versions[version] ?? createEmptyDeploymentRecord()]. *)
Definition getVersionStatus (t : Tracker) (v : string)
  : Json.member DeploymentRecord :=
  Json.lookup (versions (data t)) v ?? Json.Own createEmptyDeploymentRecord.

(** [updateStatus], with the tracker it leaves behind; [now] is the text
    [new Date().toISOString()] returns.  A record is created when nothing
    is found under the version; the slot is then assigned in what is found
    there, which fails unless that is a record. *)
Definition updateStatus (now : string) (v : string) (pl : Platform)
                        (pr : Profile) (t : Tracker)
  : JS.outcome unit * Tracker :=
  let t1 :=
    if negb (found (Json.lookup (versions (data t)) v))
    then with_versions t
           (Json.set (versions (data t)) v createEmptyDeploymentRecord)
    else t in
  match Json.lookup (versions (data t1)) v with
  | Some (Json.Own _) =>
      (JS.Returns tt,
       save (with_versions t1
               (Json.update (versions (data t1)) v
                  (fun r => set_slot r pl pr (Stamp now)))))
  | _ => (JS.Throws JS.TypeError, t1)
  end.

(** [this.data.lastConfig[platform] ?? {}]. *)
Definition getLastConfig (t : Tracker) (pl : Platform) : Json.plain :=
  match pl with
  | android => snap_android (lastConfig (data t))
  | ios => snap_ios (lastConfig (data t))
  end ?? Json.literal [].

Definition updateLastConfig (pl : Platform) (config : Json.plain)
                            (t : Tracker) : Tracker :=
  let lc := lastConfig (data t) in
  let lc' :=
    match pl with
    | android => {| snap_android := Some config; snap_ios := snap_ios lc |}
    | ios => {| snap_android := snap_android lc; snap_ios := Some config |}
    end in
  save (with_data t {| versions := versions (data t); lastConfig := lc' |}).

(** The comparator of [getAllVersions]: the loop over the first three
    parts, leaving at the first pair that differs. *)
Fixpoint order_loop (aParts bParts : list JS.number) (i todo : nat)
  : JS.number :=
  match todo with
  | O => JS.Num 0
  | S todo' =>
      let x := nth_error aParts i ?? JS.Num 0 in
      let y := nth_error bParts i ?? JS.Num 0 in
      if JS.strict_neq x y then JS.sub y x
      else order_loop aParts bParts (S i) todo'
  end.

Definition newest_first (a b : string) : JS.number :=
  let aParts := map JS.Number (JS.split_dot a) in
  let bParts := map JS.Number (JS.split_dot b) in
  order_loop aParts bParts 0 3.

Definition getAllVersions (t : Tracker) : list string :=
  JS.Array_sort newest_first (Json.keys (versions (data t))).

Definition otherPlatform (pl : Platform) : Platform :=
  if Platform_eqb pl ios then android else ios.

Section Host.

(** [new Date(iso).toLocaleString()], which depends on the host's locale. *)
Variable toLocaleString : string -> string.

Definition formatDate (isoString : Slot) : string :=
  match isoString with
  | Stamp (String c r) => toLocaleString (String c r)
  | _ => "Not deployed"
  end.

Definition checkSyncWarnings (t : Tracker) (v : string) (pl : Platform)
                             (pr : Profile) : JS.outcome (list SyncWarning) :=
  let warnings : list SyncWarning := [] in
  let status := getVersionStatus t v in
  let other := otherPlatform pl in
  otherDeployedAt <- read_slot status other pr ;;
  thisDeployedAt <- read_slot status pl pr ;;
  let warnings :=
    if truthy otherDeployedAt && negb (truthy thisDeployedAt)
    then (warnings ++
         [ {| message := platform_name other ++ " " ++ profile_name pr
                         ++ " was deployed on " ++ formatDate otherDeployedAt;
              warn_platform := other;
              warn_profile := pr |} ])%list
    else warnings in
  let warnings :=
    if truthy thisDeployedAt
    then (warnings ++
         [ {| message := platform_name pl ++ " " ++ profile_name pr
                         ++ " already deployed on " ++ formatDate thisDeployedAt;
              warn_platform := pl;
              warn_profile := pr |} ])%list
    else warnings in
  JS.Returns warnings.

End Host.

(** [!status[this][profile] && status[that][profile]], the right operand
    being read only when the left one holds. *)
Definition lacks_and_has (status : Json.member DeploymentRecord)
                         (this that : Platform) (pr : Profile)
  : JS.outcome bool :=
  here <- read_slot status this pr ;;
  if negb (truthy here)
  then there <- read_slot status that pr ;; JS.Returns (truthy there)
  else JS.Returns false.

Definition getMissingPlatforms (t : Tracker) (v : string) (pr : Profile)
  : JS.outcome (list Platform) :=
  let status := getVersionStatus t v in
  let missing : list Platform := [] in
  first <- lacks_and_has status ios android pr ;;
  let missing := if first then (missing ++ [ios])%list else missing in
  second <- lacks_and_has status android ios pr ;;
  let missing := if second then (missing ++ [android])%list else missing in
  JS.Returns missing.

Definition getData (t : Tracker) : DeploymentHistory := data t.

End DeploymentTracker.

(* ================================================================== *)
(** * Config drift detector ([src/core/deployment/config-detector.ts]) *)
(* ================================================================== *)

Module ConfigDetector.

Import DeploymentTracker.

Definition DEFAULT_CRITICAL_CONFIG (pl : Platform) : list string :=
  match pl with
  | android => ["minSdkVersion"; "targetSdkVersion"; "compileSdkVersion"]
  | ios => ["deploymentTarget"]
  end.

(** [Array.isArray(p) && p[0] === 'expo-build-properties']. *)
Definition is_build_properties (p : Plugin) : bool :=
  match p with
  | PluginEntry name _ => String.eqb name "expo-build-properties"
  | PluginName _ => false
  end.

(** The loop that copies the critical keys for which reading the platform
    entry gives a value; [birth] numbers the parse the values come from. *)
Definition extract_critical (birth : nat) (pl : Platform)
                            (platformConfig : Json.object Json.json)
                            (keys : list string) : Json.plain :=
  fold_left
    (fun config k =>
       let value := Json.parsed_get birth [platform_name pl] platformConfig k in
       if Json.strict_neq value Json.VUndefined
       then Json.plain_set config k value
       else config)
    keys (Json.literal []).

(** [appJson.expo?.plugins]. *)
Definition plugins_of (appJson : ExpoAppJson) : option (list Plugin) :=
  match expo appJson with
  | Some e => plugins e
  | None => None
  end.

(** [readCurrentPlatformConfig], given the outcome of reading [app.json] in
    parse number [birth]. *)
Definition platform_config_of (birth : nat) (pl : Platform)
                              (appJson : option ExpoAppJson)
                              (criticalKeys : option (list string))
  : Json.plain :=
  match appJson with
  | None => Json.literal []
  | Some appJson =>
      let plugins := plugins_of appJson ?? [] in
      match find is_build_properties plugins with
      | Some (PluginEntry _ (Some pluginConfig)) =>
          let platformConfig :=
            (if Platform_eqb pl android then bp_android pluginConfig
             else bp_ios pluginConfig) ?? [] in
          let keys := criticalKeys ?? DEFAULT_CRITICAL_CONFIG pl in
          extract_critical birth pl platformConfig keys
      | _ => Json.literal []
      end
  end.

(** One more [readJsonFile] call: the parse count moves on when there is a
    file to read. *)
Definition after_read {A : Type} (f : Fs.file A) (t : Tracker) : Tracker :=
  {| data := data t;
     disk := disk t;
     parses := if Fs.existsSync f then S (parses t) else parses t |}.

Definition readCurrentPlatformConfig (pl : Platform) (t : Tracker)
                                     (criticalKeys : option (list string))
  : Json.plain * Tracker :=
  let appJson := Fs.readJsonFile (app_json (disk t)) in
  (platform_config_of (parses t) pl appJson criticalKeys,
   after_read (app_json (disk t)) t).

(** The comparison loop of [detectConfigChanges]. *)
Definition compare_configs (currentConfig lastConfig : Json.plain)
                           (keys : list string) : list ConfigChange :=
  fold_left
    (fun changes k =>
       let current := Json.plain_get currentConfig k in
       let last := Json.plain_get lastConfig k in
       if Json.strict_neq current last
       then (changes ++
             [ {| key := k;
                  from := if Json.strict_neq last Json.VUndefined
                          then last else Json.VString "unset";
                  to := if Json.strict_neq current Json.VUndefined
                        then current else Json.VString "unset" |} ])%list
       else changes)
    keys [].

Definition detectConfigChanges (pl : Platform) (t : Tracker)
                               (criticalKeys : option (list string))
  : list ConfigChange * Tracker :=
  let '(currentConfig, t1) := readCurrentPlatformConfig pl t criticalKeys in
  let lastConfig := getLastConfig t1 pl in
  let keys := criticalKeys ?? DEFAULT_CRITICAL_CONFIG pl in
  (compare_configs currentConfig lastConfig keys, t1).

Definition hasConfigChanged (pl : Platform) (t : Tracker)
                            (criticalKeys : option (list string))
  : bool * Tracker :=
  let '(changes, t1) := detectConfigChanges pl t criticalKeys in
  (negb (Nat.eqb (List.length changes) 0), t1).

Definition updateTrackedConfig (pl : Platform) (t : Tracker)
                               (criticalKeys : option (list string))
  : Tracker :=
  let '(currentConfig, t1) := readCurrentPlatformConfig pl t criticalKeys in
  updateLastConfig pl currentConfig t1.

End ConfigDetector.

(* ================================================================== *)
(** * Vocabulary of the statements                                     *)
(* ================================================================== *)

(** A version component: a non-negative integer that stays a safe integer
    when it is incremented. *)
Definition component (z : Z) : Prop := 0 <= z < JS.MAX_SAFE_INTEGER.

(** The text of the version [(M, m, p)]. *)
Definition version_string (M m p : Z) : string :=
  JS.toString (JS.Num M) ++ "." ++ JS.toString (JS.Num m) ++ "."
  ++ JS.toString (JS.Num p).

(** A non-negative integer in decimal notation: one or more digits. *)
Definition numeral (s : string) : Prop :=
  s <> EmptyString /\ JS.all_digits s = true.

(** Exactly three dot-separated non-negative integers, and nothing else. *)
Definition three_dotted_integers (v : string) : Prop :=
  exists a b c : string,
    numeral a /\ numeral b /\ numeral c /\ v = a ++ "." ++ b ++ "." ++ c.

(** The text begins with a digit. *)
Definition starts_with_digit (s : string) : bool :=
  match s with
  | String c _ => JS.is_digit c
  | EmptyString => false
  end.

(** Part [i] of a version string as [compareVersions] reads it: the number
    of the [i]-th dot-separated piece, and [0] when there is no such piece. *)
Definition part (v : string) (i : nat) : JS.number :=
  nth_error (map JS.Number (JS.split_dot v)) i ?? JS.Num 0.

(** [app.json] can be read and holds an [expo] entry whose version is [v]. *)
Definition manifest_version (d : Disk) (v : string) : Prop :=
  exists appJson e,
    Fs.readJsonFile (app_json d) = Some appJson
    /\ expo appJson = Some e
    /\ version e = Some v.

(** [app.json] parses to a document without [expo] entry. *)
Definition lacks_expo (d : Disk) : bool :=
  match Fs.readJsonFile (app_json d) with
  | Some appJson => match expo appJson with
                    | Some _ => false
                    | None => true
                    end
  | None => false
  end.

(* ================================================================== *)
(** * Sample project states                                            *)
(* ================================================================== *)

Definition demo_app_json : ExpoAppJson :=
  {| expo := Some {| version := Some "1.2.3"; plugins := None |} |}.

Definition demo_disk : Disk :=
  {| app_json := Fs.writeJsonFile demo_app_json;
     package_json := Fs.writeJsonFile {| pkg_version := "1.2.3" |};
     deployments_json := None |}.

(** A project whose [app.json] is the document [{}]. *)
Definition bare_disk : Disk :=
  {| app_json := Fs.writeJsonFile {| expo := None |};
     package_json := Fs.writeJsonFile {| pkg_version := "1.2.3" |};
     deployments_json := None |}.

(** The slot holds a timestamp: it is neither missing nor [null]. *)
Definition has_timestamp (s : Slot) : bool :=
  match s with
  | Stamp _ => true
  | Absent | Null => false
  end.

(** Every timestamp the ledger holds is a non-empty text, as all those
    written by [updateStatus] are. *)
Definition well_stamped (t : DeploymentTracker.Tracker) : Prop :=
  forall v r pl pr,
    Json.get (versions (DeploymentTracker.data t)) v = Some r ->
    DeploymentTracker.slot_of r pl pr <> Stamp EmptyString.

(** The result holds the warning about the sibling platform and the
    warning about [pl] itself. *)
Definition both_warnings (ws : list SyncWarning) (pl : Platform) : Prop :=
  (exists w, In w ws /\ warn_platform w = DeploymentTracker.otherPlatform pl)
  /\ (exists w, In w ws /\ warn_platform w = pl).

(** The version key is present in the ledger. *)
Definition tracked (t : DeploymentTracker.Tracker) (v : string) : Prop :=
  In v (Json.keys (versions (DeploymentTracker.data t))).

(** The version is one the ledger can hold a record for without further
    ado: it is tracked already, or its text is not the name of a member of
    [Object.prototype]. *)
Definition recordable (t : DeploymentTracker.Tracker) (v : string) : Prop :=
  tracked t v \/ Json.inherited_name v = false.

(** The record the ledger holds for the version, or an empty one. *)
Definition record_of (t : DeploymentTracker.Tracker) (v : string)
  : DeploymentRecord :=
  Json.get (versions (DeploymentTracker.data t)) v
  ?? DeploymentTracker.createEmptyDeploymentRecord.



(** The public methods of [DeploymentTracker], as a driver calls them. *)
Inductive call : Type :=
| Call_exists
| Call_initialize
| Call_getVersionStatus (v : string)
| Call_updateStatus (now : string) (v : string) (pl : Platform) (pr : Profile)
| Call_getLastConfig (pl : Platform)
| Call_updateLastConfig (pl : Platform) (config : Json.plain)
| Call_getAllVersions
| Call_checkSyncWarnings (v : string) (pl : Platform) (pr : Profile)
| Call_getMissingPlatforms (v : string) (pr : Profile)
| Call_getData.

Definition is_query (c : call) : bool :=
  match c with
  | Call_initialize | Call_updateStatus _ _ _ _ | Call_updateLastConfig _ _ => false
  | _ => true
  end.

(** What a method hands back. *)
Inductive reply : Type :=
| Done
| Flag (b : bool)
| Status (status : Json.member DeploymentRecord)
| Config (config : Json.plain)
| Versions (vs : list string)
| Warnings (ws : list SyncWarning)
| Platforms (ps : list Platform)
| Data (h : DeploymentHistory).

(** The result of a method that only reads the tracker. *)
Definition answer {A : Type} (wrap : A -> reply) (r : JS.outcome A)
                  (t : DeploymentTracker.Tracker)
  : JS.outcome reply * DeploymentTracker.Tracker :=
  (a <- r ;; JS.Returns (wrap a), t).

(** A call of a public method: what it returns or throws, and the tracker
    it leaves behind. *)
Definition perform (toLocaleString : string -> string) (c : call)
                   (t : DeploymentTracker.Tracker)
  : JS.outcome reply * DeploymentTracker.Tracker :=
  match c with
  | Call_exists =>
      answer Flag (JS.Returns (DeploymentTracker.exists_ t)) t
  | Call_initialize =>
      (JS.Returns Done, DeploymentTracker.initialize t)
  | Call_getVersionStatus v =>
      answer Status (JS.Returns (DeploymentTracker.getVersionStatus t v)) t
  | Call_updateStatus now v pl pr =>
      let '(r, t') := DeploymentTracker.updateStatus now v pl pr t in
      (_ <- r ;; JS.Returns Done, t')
  | Call_getLastConfig pl =>
      answer Config (JS.Returns (DeploymentTracker.getLastConfig t pl)) t
  | Call_updateLastConfig pl config =>
      (JS.Returns Done, DeploymentTracker.updateLastConfig pl config t)
  | Call_getAllVersions =>
      answer Versions (JS.Returns (DeploymentTracker.getAllVersions t)) t
  | Call_checkSyncWarnings v pl pr =>
      answer Warnings
        (DeploymentTracker.checkSyncWarnings toLocaleString t v pl pr) t
  | Call_getMissingPlatforms v pr =>
      answer Platforms (DeploymentTracker.getMissingPlatforms t v pr) t
  | Call_getData =>
      answer Data (JS.Returns (DeploymentTracker.getData t)) t
  end.

(** A driver that makes the calls one after the other, going on after a
    call that throws. *)
Definition perform_all (toLocaleString : string -> string) (cs : list call)
                       (t : DeploymentTracker.Tracker)
  : DeploymentTracker.Tracker :=
  fold_left (fun t c => snd (perform toLocaleString c t)) cs t.

(** The operations the orchestration layer calls. *)
Inductive operation : Type :=
| Op_getCurrentVersion
| Op_bump (type : VersionBumpType)
| Op_setVersion (v : string)
| Op_compareVersions (a b : string)
| Op_isNewerVersion (a b : string)
| Op_ledger (c : call)
| Op_detectConfigChanges (pl : Platform) (criticalKeys : option (list string))
| Op_hasConfigChanged (pl : Platform) (criticalKeys : option (list string))
| Op_updateTrackedConfig (pl : Platform) (criticalKeys : option (list string)).

Definition with_disk (t : DeploymentTracker.Tracker) (d : Disk)
  : DeploymentTracker.Tracker :=
  {| DeploymentTracker.data := DeploymentTracker.data t;
     DeploymentTracker.disk := d;
     DeploymentTracker.parses := DeploymentTracker.parses t |}.

(** The result dropped. *)
Definition finish {A : Type} (r : JS.outcome A) : JS.outcome unit :=
  _ <- r ;; JS.Returns tt.

(** What an operation hands back to its caller, its result apart: that it
    returned or the exception it raised, and the state it leaves behind. *)
Definition run (toLocaleString : string -> string) (op : operation)
               (t : DeploymentTracker.Tracker)
  : JS.outcome unit * DeploymentTracker.Tracker :=
  match op with
  | Op_getCurrentVersion =>
      (finish (JS.Returns
                 (VersionManager.getCurrentVersion (DeploymentTracker.disk t))),
       t)
  | Op_bump type =>
      let '(r, d) := VersionManager.bump type (DeploymentTracker.disk t) in
      (finish r, with_disk t d)
  | Op_setVersion v =>
      let '(r, d) := VersionManager.setVersion v (DeploymentTracker.disk t) in
      (finish r, with_disk t d)
  | Op_compareVersions a b =>
      (finish (JS.Returns (VersionManager.compareVersions a b)), t)
  | Op_isNewerVersion a b =>
      (finish (JS.Returns (VersionManager.isNewerVersion a b)), t)
  | Op_ledger c =>
      let '(r, t') := perform toLocaleString c t in (finish r, t')
  | Op_detectConfigChanges pl criticalKeys =>
      let '(changes, t') := ConfigDetector.detectConfigChanges pl t criticalKeys in
      (finish (JS.Returns changes), t')
  | Op_hasConfigChanged pl criticalKeys =>
      let '(changed, t') := ConfigDetector.hasConfigChanged pl t criticalKeys in
      (finish (JS.Returns changed), t')
  | Op_updateTrackedConfig pl criticalKeys =>
      (JS.Returns tt, ConfigDetector.updateTrackedConfig pl t criticalKeys)
  end.


Definition empty_disk : Disk :=
  {| app_json := None; package_json := None; deployments_json := None |}.

Definition garbled_disk : Disk :=
  {| app_json := None; package_json := None;
     deployments_json := Some Fs.Garbage |}.

Definition sample_time : string := "2024-01-15T10:30:00.000Z".

(** A tracker on an empty project directory, initialized. *)
Definition fresh_tracker : DeploymentTracker.Tracker :=
  DeploymentTracker.initialize (DeploymentTracker.construct empty_disk 0).

(** The tracker after [updateStatus(v, pl, pr)]. *)
Definition record_one (now v : string) (pl : Platform) (pr : Profile)
                      (t : DeploymentTracker.Tracker)
  : DeploymentTracker.Tracker :=
  snd (DeploymentTracker.updateStatus now v pl pr t).

(** [updateStatus(v, pl, pr)] for each [v] in turn. *)
Definition record_all (vs : list string) (pl : Platform) (pr : Profile)
                      (t : DeploymentTracker.Tracker)
  : DeploymentTracker.Tracker :=
  fold_left (fun t v => record_one sample_time v pl pr t) vs t.

(** Each of the first three parts of the version string reads as a number,
    and as one that is a safe integer. *)
Definition numeric_version (v : string) : bool :=
  forallb (fun i => match part v i with
                    | JS.NaN => false
                    | JS.Num z => z <=? JS.MAX_SAFE_INTEGER
                    end)
          [0; 1; 2]%nat.

Definition number_value (n : JS.number) : Z :=
  match n with
  | JS.Num z => z
  | JS.NaN => 0
  end.

(** (major, minor, patch), missing parts being [0]. *)
Definition triple_of (v : string) : Z * Z * Z :=
  (number_value (part v 0), number_value (part v 1), number_value (part v 2)).

(** Component-wise numeric order on triples, the earlier component
    deciding: [x] is at least [y]. *)
Definition triple_ge (x y : Z * Z * Z) : Prop :=
  let '(x1, x2, x3) := x in
  let '(y1, y2, y3) := y in
  x1 > y1 \/ (x1 = y1 /\ (x2 > y2 \/ (x2 = y2 /\ x3 >= y3))).

(** Version [a] is not older than version [b]. *)
Definition not_older (a b : string) : Prop :=
  triple_ge (triple_of a) (triple_of b).

(** A ledger file in which ios holds an empty text as its preview
    timestamp for version 1.0.0, and android a proper one. *)
Definition blank_stamp_disk : Disk :=
  {| app_json := None;
     package_json := None;
     deployments_json :=
       Fs.writeJsonFile
         {| stored_versions :=
              [ ("1.0.0",
                 {| rec_ios := {| pds_preview := Stamp EmptyString;
                                  pds_production := Null;
                                  pds_staging := Absent;
                                  pds_development := Absent |};
                    rec_android := {| pds_preview := Stamp sample_time;
                                      pds_production := Null;
                                      pds_staging := Absent;
                                      pds_development := Absent |} |}) ];
            stored_lastConfig := {| stored_android := Some [];
                                    stored_ios := Some [] |} |} |}.

(** What a change reports for one side: the value, or the text ["unset"]
    when that side has no value. *)
Definition reported (v : Json.value) : Json.value :=
  match v with
  | Json.VUndefined => Json.VString "unset"
  | _ => v
  end.

(** The change reported for key [k]. *)
Definition change_of (currentConfig lastConfig : Json.plain)
                     (k : string) : ConfigChange :=
  {| key := k;
     from := reported (Json.plain_get lastConfig k);
     to := reported (Json.plain_get currentConfig k) |}.

(** The current and the stored value of [k] differ under [!==]. *)
Definition differs (currentConfig lastConfig : Json.plain)
                   (k : string) : bool :=
  Json.strict_neq (Json.plain_get currentConfig k) (Json.plain_get lastConfig k).

(** Not an array or object of a parsed document. *)
Definition primitive_value (v : Json.value) : bool :=
  match v with
  | Json.VObject _ _ _ => false
  | _ => true
  end.

(** None of the keys is the name of a member of [Object.prototype]. *)
Definition own_names (keys : list string) : Prop :=
  Forall (fun k => Json.inherited_name k = false) keys.

(** The object has the prototype of a literal. *)
Definition ordinary (o : Json.plain) : Prop :=
  Json.proto o = Json.Object_prototype.



(** The value, were its object one of parse [birth]. *)
Definition rebirth_value (birth : nat) (v : Json.value) : Json.value :=
  match v with
  | Json.VObject _ path content => Json.VObject birth path content
  | _ => v
  end.

Definition rebirth_prototype (birth : nat) (p : Json.prototype)
  : Json.prototype :=
  match p with
  | Json.Parsed_prototype _ path content =>
      Json.Parsed_prototype birth path content
  | _ => p
  end.

(** The object with the arrays and objects it refers to taken from parse
    [birth]. *)
Definition rebirth (birth : nat) (o : Json.plain) : Json.plain :=
  {| Json.own := map (fun kv => (fst kv, rebirth_value birth (snd kv)))
                     (Json.own o);
     Json.proto := rebirth_prototype birth (Json.proto o) |}.



(** A project whose build-properties entry lists extra Maven repositories,
    an array, for android next to the SDK levels. *)
Definition maven_app_json : ExpoAppJson :=
  {| expo :=
       Some
         {| version := Some "1.0.0";
            plugins :=
              Some [ PluginName "expo-router";
                     PluginEntry "expo-build-properties"
                       (Some {| bp_android :=
                                  Some [ ("minSdkVersion", Json.JNumber 24);
                                         ("targetSdkVersion", Json.JNumber 35);
                                         ("extraMavenRepos",
                                          Json.JArray
                                            [Json.JString "https://maven.example.com"]) ];
                                bp_ios :=
                                  Some [ ("deploymentTarget", Json.JString "15.1") ] |}) ]
         |} |}.

Definition maven_disk : Disk :=
  {| app_json := Fs.writeJsonFile maven_app_json;
     package_json := None;
     deployments_json := None |}.

Definition maven_tracker : DeploymentTracker.Tracker :=
  DeploymentTracker.construct maven_disk 0.

(** Where [readCurrentPlatformConfig] takes its values from: the platform
    entry of the build-properties plugin and the keys it copies (both empty
    when the document or the plugin entry is missing). *)
Definition critical_source (pl : Platform) (appJson : option ExpoAppJson)
                           (criticalKeys : option (list string))
  : Json.object Json.json * list string :=
  match appJson with
  | None => ([], [])
  | Some appJson =>
      match find ConfigDetector.is_build_properties
                 (ConfigDetector.plugins_of appJson ?? []) with
      | Some (PluginEntry _ (Some pluginConfig)) =>
          ((if Platform_eqb pl android then bp_android pluginConfig
            else bp_ios pluginConfig) ?? [],
           criticalKeys ?? ConfigDetector.DEFAULT_CRITICAL_CONFIG pl)
      | _ => ([], [])
      end
  end.

(** The project directory the unit tests of the version engine set up. *)
Definition test_disk : Disk :=
  {| app_json :=
       Fs.writeJsonFile
         {| expo := Some {| version := Some "1.0.0"; plugins := None |} |};
     package_json := Fs.writeJsonFile {| pkg_version := "1.0.0" |};
     deployments_json := None |}.

(* ================================================================== *)
(** * Further functions of the version engine                          *)
(* ================================================================== *)

(** [VersionManager.getVersionParts]: the parts of the current version. *)
Definition getVersionParts (d : Disk) : JS.number * JS.number * JS.number :=
  VersionManager.parseVersion (VersionManager.getCurrentVersion d).

(** Component-wise comparison of two triples, the earlier component
    deciding. *)
Definition triple_compare (x y : Z * Z * Z) : comparison :=
  let '(x1, x2, x3) := x in
  let '(y1, y2, y3) := y in
  match x1 ?= y1 with
  | Eq => match x2 ?= y2 with
          | Eq => x3 ?= y3
          | c => c
          end
  | c => c
  end.

Definition sign_of (c : comparison) : Z :=
  match c with
  | Lt => -1
  | Eq => 0
  | Gt => 1
  end.

(** How a write of version [v] relates the disk before ([d]) and after
    ([d']): a manifest that could be read holds [v] and keeps its other
    fields, a manifest that could not be read is as it was, and the
    deployments document is not touched. *)
Definition manifests_written (v : string) (d d' : Disk) : Prop :=
  match Fs.readJsonFile (app_json d) with
  | Some appJson =>
      exists e,
        expo appJson = Some e
        /\ Fs.readJsonFile (app_json d')
           = Some {| expo := Some {| version := Some v; plugins := plugins e |} |}
  | None => app_json d' = app_json d
  end
  /\ match Fs.readJsonFile (package_json d) with
     | Some _ => Fs.readJsonFile (package_json d') = Some {| pkg_version := v |}
     | None => package_json d' = package_json d
     end
  /\ deployments_json d' = deployments_json d.

(* ================================================================== *)
(** * Further vocabulary for the ledger                                *)
(* ================================================================== *)

(** No version key occurs twice among the properties of [versions]. *)
Definition versions_unique (t : DeploymentTracker.Tracker) : Prop :=
  NoDup (Json.keys (versions (DeploymentTracker.data t))).

(* ================================================================== *)
(** * Further vocabulary for the drift detector                        *)
(* ================================================================== *)

(** The platform entry of the build-properties plugin in the project's
    [app.json], as [readCurrentPlatformConfig] finds it. *)
Definition platform_entry (pl : Platform) (t : DeploymentTracker.Tracker)
  : Json.object Json.json :=
  fst (critical_source pl
         (Fs.readJsonFile (app_json (DeploymentTracker.disk t))) None).

(** The keys [readCurrentPlatformConfig] copies: the critical keys when the
    plugin entry is there, none otherwise. *)
Definition copied_keys (pl : Platform) (t : DeploymentTracker.Tracker)
                       (criticalKeys : option (list string)) : list string :=
  snd (critical_source pl
         (Fs.readJsonFile (app_json (DeploymentTracker.disk t))) criticalKeys).

(** The tracker [t] in a project whose files are now [d]. *)
Definition moved_to (t : DeploymentTracker.Tracker) (d : Disk)
  : DeploymentTracker.Tracker :=
  {| DeploymentTracker.data := DeploymentTracker.data t;
     DeploymentTracker.disk := d;
     DeploymentTracker.parses := DeploymentTracker.parses t |}.

(** A project whose android SDK levels were raised after [maven_disk]. *)
Definition raised_app_json : ExpoAppJson :=
  {| expo :=
       Some
         {| version := Some "1.0.0";
            plugins :=
              Some [ PluginEntry "expo-build-properties"
                       (Some {| bp_android :=
                                  Some [ ("minSdkVersion", Json.JNumber 26);
                                         ("targetSdkVersion", Json.JNumber 35);
                                         ("kotlinVersion", Json.JString "1.9.0") ];
                                bp_ios := None |}) ] |} |}.

(** A value equal under [===] to every value like it: not an array or
    object of a parsed document, and not [NaN]. *)
Definition plain_value (v : Json.value) : Prop :=
  match v with
  | Json.VObject _ _ _ => False
  | Json.VNumber JS.NaN => False
  | _ => True
  end.

Definition raised_disk : Disk :=
  {| app_json := Fs.writeJsonFile raised_app_json;
     package_json := None;
     deployments_json := None |}.

(** [maven_app_json] with other settings around the same SDK levels. *)
Definition tweaked_app_json : ExpoAppJson :=
  {| expo :=
       Some
         {| version := Some "2.0.0";
            plugins :=
              Some [ PluginEntry "expo-build-properties"
                       (Some {| bp_android :=
                                  Some [ ("kotlinVersion", Json.JString "1.9.0");
                                         ("targetSdkVersion", Json.JNumber 35);
                                         ("minSdkVersion", Json.JNumber 24) ];
                                bp_ios := None |}) ] |} |}.

Definition tweaked_disk : Disk :=
  {| app_json := Fs.writeJsonFile tweaked_app_json;
     package_json := None;
     deployments_json := None |}.

(* ================================================================== *)
(** * Running commands ([src/utils/exec.ts])                           *)
(* ================================================================== *)

Module Exec.

(** How a spawned command ends: the child closes, with an exit code or
    with none when a signal ended it, or spawning fails. *)
Inductive child_end : Type :=
| Close (code : option Z)
| SpawnError (error : JS.exn).

(** The host: how the [n]-th command run ends, what it does to the
    documents of the project directory while it runs, and the text
    [new Date().toISOString()] gives after [n] commands. *)
Record Host : Type := {
  spawn : nat -> string -> child_end;
  effect : nat -> string -> Disk -> Disk;
  toISOString : nat -> string
}.

(** A deployment run: the tracker with its project directory, and the
    commands run so far with the way each ended, oldest first. *)
Record Session : Type := {
  tracker : DeploymentTracker.Tracker;
  trace : list (string * child_end)
}.

(** Code that reads and writes the session and may throw. *)
Definition M (A : Type) : Type := Session -> JS.outcome A * Session.

Definition ret {A : Type} (a : A) : M A := fun s => (JS.Returns a, s).

Definition throw {A : Type} (e : JS.exn) : M A := fun s => (JS.Throws e, s).

Definition bindM {A B : Type} (m : M A) (k : A -> M B) : M B :=
  fun s =>
    match m s with
    | (JS.Returns a, s') => k a s'
    | (JS.Throws e, s') => (JS.Throws e, s')
    end.

(** A step that changes the tracker and cannot throw. *)
Definition on_tracker (f : DeploymentTracker.Tracker -> DeploymentTracker.Tracker)
  : M unit :=
  fun s => (JS.Returns tt, {| tracker := f (tracker s); trace := trace s |}).

(** [execInteractive(command)]: resolves to [code ?? 0] when the child
    closes, rejects when spawning fails. *)
Definition execInteractive (host : Host) (command : string) : M Z :=
  fun s =>
    let n := List.length (trace s) in
    let ending := spawn host n command in
    let commands := (trace s ++ [(command, ending)])%list in
    match ending with
    | Close code =>
        (JS.Returns (code ?? 0),
         {| tracker :=
              with_disk (tracker s)
                (effect host n command (DeploymentTracker.disk (tracker s)));
            trace := commands |})
    | SpawnError e =>
        (JS.Throws e, {| tracker := tracker s; trace := commands |})
    end.

End Exec.

Notation "x <~ m ;; k" := (Exec.bindM m (fun x => k))
  (at level 61, m at next level, right associativity).

(* ================================================================== *)
(** * Build and submit commands ([builder.ts], [submitter.ts])         *)
(* ================================================================== *)

Record PlatformBuildConfig : Type := { nonInteractive : bool }.

Record HooksConfig : Type := {
  preBuild : option string;
  postBuild : option string;
  preSubmit : option string;
  postSubmit : option string
}.

(** The fields of [ShipkitConfig] the deployment reads. *)
Record ShipkitConfig : Type := {
  platforms_ios : bool;
  platforms_android : bool;
  criticalConfig_android : list string;
  criticalConfig_ios : list string;
  build_android : PlatformBuildConfig;
  build_ios : PlatformBuildConfig;
  build_autoClearCache : bool;
  hooks : option HooksConfig
}.

(** [config?.criticalConfig[platform]]. *)
Definition criticalConfig_of (config : option ShipkitConfig) (pl : Platform)
  : option (list string) :=
  option_map (fun c => match pl with
                       | android => criticalConfig_android c
                       | ios => criticalConfig_ios c
                       end) config.

(** Truthiness of an optional string: set, and not empty. *)
Definition truthy_string (s : option string) : bool :=
  match s with
  | Some (String _ _) => true
  | _ => false
  end.

(** [parts.join(' ')]. *)
Definition join_spaces (parts : list string) : string := String.concat " " parts.

Module Builder.

Record BuildOptions : Type := {
  platform : Platform;
  profile : Profile;
  clearCache : option bool;
  config : option ShipkitConfig
}.

Definition buildEasCommand (options : BuildOptions) : string :=
  let parts := ["eas"; "build"] in
  let parts := (parts ++ ["--platform"; platform_name (platform options)])%list in
  let parts := (parts ++ ["--profile"; profile_name (profile options)])%list in
  let nonInteractive :=
    if Platform_eqb (platform options) android
    then option_map (fun c => nonInteractive (build_android c)) (config options)
         ?? true
    else option_map (fun c => nonInteractive (build_ios c)) (config options)
         ?? false in
  let parts :=
    if nonInteractive then (parts ++ ["--non-interactive"])%list else parts in
  let parts :=
    if clearCache options ?? false
    then (parts ++ ["--clear-cache"])%list else parts in
  join_spaces parts.

Definition runBuild (host : Exec.Host) (options : BuildOptions) : Exec.M Z :=
  Exec.execInteractive host (buildEasCommand options).

(** [results.set(platform, code)] on a [Map]. *)
Fixpoint map_set (results : list (Platform * Z)) (pl : Platform) (code : Z)
  : list (Platform * Z) :=
  match results with
  | [] => [(pl, code)]
  | (pl', code') :: rest =>
      if Platform_eqb pl' pl then (pl', code) :: rest
      else (pl', code') :: map_set rest pl code
  end.

(** The loop of [runBuilds], which leaves at the first failing build. *)
Fixpoint runBuilds_from (host : Exec.Host) (platforms : list Platform)
                        (pr : Profile) (clearCacheMap : Platform -> bool)
                        (cfg : option ShipkitConfig)
                        (results : list (Platform * Z))
  : Exec.M (list (Platform * Z)) :=
  match platforms with
  | [] => Exec.ret results
  | pl :: rest =>
      code <~ runBuild host {| platform := pl; profile := pr;
                               clearCache := Some (clearCacheMap pl);
                               config := cfg |} ;;
      let results := map_set results pl code in
      if negb (code =? 0) then Exec.ret results
      else runBuilds_from host rest pr clearCacheMap cfg results
  end.

Definition runBuilds (host : Exec.Host) (platforms : list Platform)
                     (pr : Profile) (clearCacheMap : Platform -> bool)
                     (cfg : option ShipkitConfig)
  : Exec.M (list (Platform * Z)) :=
  runBuilds_from host platforms pr clearCacheMap cfg [].

End Builder.

Module Submitter.

Definition buildSubmitCommand (pl : Platform) (pr : Profile) : string :=
  let parts := ["eas"; "submit"] in
  let parts := (parts ++ ["--platform"; platform_name pl])%list in
  let parts := (parts ++ ["--profile"; profile_name pr])%list in
  let parts := (parts ++ ["--latest"])%list in
  join_spaces parts.

Definition runSubmit (host : Exec.Host) (pl : Platform) (pr : Profile)
  : Exec.M Z :=
  Exec.execInteractive host (buildSubmitCommand pl pr).

Fixpoint runSubmits_from (host : Exec.Host) (platforms : list Platform)
                         (pr : Profile) (results : list (Platform * Z))
  : Exec.M (list (Platform * Z)) :=
  match platforms with
  | [] => Exec.ret results
  | pl :: rest =>
      code <~ runSubmit host pl pr ;;
      let results := Builder.map_set results pl code in
      if negb (code =? 0) then Exec.ret results
      else runSubmits_from host rest pr results
  end.

Definition runSubmits (host : Exec.Host) (platforms : list Platform)
                      (pr : Profile) : Exec.M (list (Platform * Z)) :=
  runSubmits_from host platforms pr [].

End Submitter.

(* ================================================================== *)
(** * The deploy command ([src/cli/commands/deploy.ts])                *)
(* ================================================================== *)

Module Deploy.

(** What the wizard has settled before the deployment starts. *)
Record Plan : Type := {
  shouldBuild : bool;
  shouldSubmit : bool;
  versionBump : VersionBumpType;
  targetVersion : string;
  enabledPlatforms : list Platform;
  profile : Profile;
  clearCache : Platform -> bool;
  config : option ShipkitConfig
}.

(** [config?.hooks?.<name>]. *)
Definition hook (name : HooksConfig -> option string)
                (cfg : option ShipkitConfig) : option string :=
  match cfg with
  | Some c => match hooks c with
              | Some h => name h
              | None => None
              end
  | None => None
  end.

(** [if (hook && condition) { body(hook) }]. *)
Definition when_hook (h : option string) (condition : bool)
                     (body : string -> Exec.M unit) : Exec.M unit :=
  if truthy_string h && condition
  then match h with
       | Some command => body command
       | None => Exec.ret tt
       end
  else Exec.ret tt.

Definition is_none (k : VersionBumpType) : bool :=
  match k with
  | none => true
  | _ => false
  end.

(** [tracker.updateStatus(targetVersion, platform, profile)] followed by
    [updateTrackedConfig(platform, tracker, cwd, config?.criticalConfig[platform])]. *)
Definition record_deployment (host : Exec.Host) (plan : Plan) (pl : Platform)
  : Exec.M unit :=
  fun s =>
    let now := Exec.toISOString host (List.length (Exec.trace s)) in
    match DeploymentTracker.updateStatus now (targetVersion plan) pl
            (profile plan) (Exec.tracker s) with
    | (JS.Returns _, t1) =>
        let t2 := ConfigDetector.updateTrackedConfig pl t1
                    (criticalConfig_of (config plan) pl) in
        (JS.Returns tt, {| Exec.tracker := t2; Exec.trace := Exec.trace s |})
    | (JS.Throws e, t1) =>
        (JS.Throws e, {| Exec.tracker := t1; Exec.trace := Exec.trace s |})
    end.

Definition build_options (plan : Plan) (pl : Platform) : Builder.BuildOptions :=
  {| Builder.platform := pl;
     Builder.profile := profile plan;
     Builder.clearCache := Some (clearCache plan pl);
     Builder.config := config plan |}.

(** [if (shouldBuild) { ... }]: the build, the check of its exit code and
    the record of the deployment. *)
Definition build_step (host : Exec.Host) (plan : Plan) (pl : Platform)
  : Exec.M unit :=
  if shouldBuild plan
  then buildCode <~ Builder.runBuild host (build_options plan pl) ;;
       if negb (buildCode =? 0)
       then Exec.throw (JS.Error ("Build failed for " ++ platform_name pl))
       else record_deployment host plan pl
  else Exec.ret tt.

(** [await execInteractive(hook, { cwd })], the exit code dropped. *)
Definition run_hook (host : Exec.Host) (command : string) : Exec.M unit :=
  _ <~ Exec.execInteractive host command ;; Exec.ret tt.

(** [if (shouldSubmit) { ... }]. *)
Definition submit_step (host : Exec.Host) (plan : Plan) (pl : Platform)
  : Exec.M unit :=
  if shouldSubmit plan
  then submitCode <~ Submitter.runSubmit host pl (profile plan) ;;
       if negb (submitCode =? 0)
       then Exec.throw (JS.Error ("Submit failed for " ++ platform_name pl))
       else Exec.ret tt
  else Exec.ret tt.

(** The body of the loop over the enabled platforms. *)
Definition platform_step (host : Exec.Host) (plan : Plan) (pl : Platform)
  : Exec.M unit :=
  _ <~ build_step host plan pl ;;
  _ <~ when_hook (hook postBuild (config plan)) (shouldBuild plan)
         (run_hook host) ;;
  _ <~ when_hook (hook preSubmit (config plan)) (shouldSubmit plan)
         (run_hook host) ;;
  submit_step host plan pl.

Fixpoint for_each (platforms : list Platform) (body : Platform -> Exec.M unit)
  : Exec.M unit :=
  match platforms with
  | [] => Exec.ret tt
  | pl :: rest => _ <~ body pl ;; for_each rest body
  end.

(** The pre-build hook, whose exit code is checked. *)
Definition preBuild_step (host : Exec.Host) (plan : Plan) : Exec.M unit :=
  when_hook (hook preBuild (config plan)) (shouldBuild plan)
    (fun command =>
       code <~ Exec.execInteractive host command ;;
       if negb (code =? 0)
       then Exec.throw (JS.Error "Pre-build hook failed")
       else Exec.ret tt).

(** [if (versionBump !== 'none') { versionManager.bump(versionBump) }]. *)
Definition bump_step (plan : Plan) : Exec.M unit :=
  if negb (is_none (versionBump plan))
  then fun s =>
         let '(r, d) := VersionManager.bump (versionBump plan)
                          (DeploymentTracker.disk (Exec.tracker s)) in
         (finish r,
          {| Exec.tracker := with_disk (Exec.tracker s) d;
             Exec.trace := Exec.trace s |})
  else Exec.ret tt.

(** [displayVersionStatus(version, status, true)]: of what it prints
    nothing is kept; it reads the four slots it shows. *)
Definition displayVersionStatus (status : Json.member DeploymentRecord)
  : JS.outcome unit :=
  _ <- DeploymentTracker.read_slot status ios preview ;;
  _ <- DeploymentTracker.read_slot status ios production ;;
  _ <- DeploymentTracker.read_slot status android preview ;;
  _ <- DeploymentTracker.read_slot status android production ;;
  JS.Returns tt.

(** The [try] block of the deploy action, from the pre-build hook to the
    reminder about platforms still missing; of the console output only the
    list behind that reminder is kept, as the result.  An exception leaves
    through the [catch], which reports it and ends the process. *)
Definition deployment (host : Exec.Host) (plan : Plan)
  : Exec.M (list Platform) :=
  _ <~ preBuild_step host plan ;;
  _ <~ bump_step plan ;;
  _ <~ for_each (enabledPlatforms plan) (platform_step host plan) ;;
  _ <~ when_hook (hook postSubmit (config plan)) (shouldSubmit plan)
         (run_hook host) ;;
  fun s =>
    let finalStatus :=
      DeploymentTracker.getVersionStatus (Exec.tracker s) (targetVersion plan) in
    (_ <- displayVersionStatus finalStatus ;;
     DeploymentTracker.getMissingPlatforms (Exec.tracker s)
       (targetVersion plan) (profile plan),
     s).

(** ** The wizard: from the choices to the plan *)

(** ['build' | 'submit' | 'build+submit']. *)
Inductive DeployAction : Type := build | submit | build_submit.

(** What the options of the command line and the prompts settle. *)
Record Choices : Type := {
  action : DeployAction;
  (** [options.versionBump] or the answer of [promptVersionBump], read
      only when the action builds *)
  bumpChoice : VersionBumpType;
  (** [None] stands for ['all'] *)
  platformChoice : option Platform;
  profileChoice : Profile;
  (** the answer of [promptClearCache(changes)] *)
  promptClearCache : list ConfigChange -> bool;
  (** [options.yes], or the answer of [promptConfirmation] *)
  confirmed : bool
}.

(** [config?.platforms.<p> === false]. *)
Definition disabled (cfg : option ShipkitConfig) (p : Platform) : bool :=
  match cfg with
  | Some c => negb (match p with
                    | ios => platforms_ios c
                    | android => platforms_android c
                    end)
  | None => false
  end.

(** The filter on the platforms chosen. *)
Definition enabled_platforms (cfg : option ShipkitConfig)
                             (platforms : list Platform) : list Platform :=
  filter (fun p =>
            if Platform_eqb p ios && disabled cfg ios then false
            else if Platform_eqb p android && disabled cfg android then false
            else true)
         platforms.

(** [clearCache[platform] = value]. *)
Definition set_clearCache (clearCache : Platform -> bool) (pl : Platform)
                          (value : bool) : Platform -> bool :=
  fun p => if Platform_eqb p pl then value else clearCache p.

(** The loop that looks for configuration changes and asks whether to
    clear the cache. *)
Fixpoint clear_cache_loop (cfg : option ShipkitConfig)
                          (ask : list ConfigChange -> bool)
                          (platforms : list Platform)
                          (t : DeploymentTracker.Tracker)
                          (clearCache : Platform -> bool)
  : (Platform -> bool) * DeploymentTracker.Tracker :=
  match platforms with
  | [] => (clearCache, t)
  | pl :: rest =>
      let '(changes, t1) :=
        ConfigDetector.detectConfigChanges pl t (criticalConfig_of cfg pl) in
      let clearCache :=
        if Nat.ltb 0 (List.length changes)
        then set_clearCache clearCache pl (ask changes)
        else clearCache in
      clear_cache_loop cfg ask rest t1 clearCache
  end.

(** How the wizard ends: with a plan to carry out, or with
    [process.exit(code)]. *)
Inductive wizard_end : Type :=
| Proceed (plan : Plan) (t : DeploymentTracker.Tracker)
| Exit (code : Z).

(** What the command does before the wizard: it shows the status of the
    current version and computes the two lists of platforms still missing
    for it.  An exception here is caught by nothing. *)
Definition opening_status (t : DeploymentTracker.Tracker)
                          (currentVersion : string)
  : JS.outcome (list Platform * list Platform) :=
  let currentStatus := DeploymentTracker.getVersionStatus t currentVersion in
  _ <- displayVersionStatus currentStatus ;;
  missingPreview <- DeploymentTracker.getMissingPlatforms t currentVersion
                      preview ;;
  missingProd <- DeploymentTracker.getMissingPlatforms t currentVersion
                   production ;;
  JS.Returns (missingPreview, missingProd).

(** The wizard, from the action chosen to the confirmation. *)
Definition wizard (cfg : option ShipkitConfig) (choices : Choices)
                  (t : DeploymentTracker.Tracker) : wizard_end :=
  let currentVersion :=
    VersionManager.getCurrentVersion (DeploymentTracker.disk t) in
  let shouldBuild := match action choices with
                     | build | build_submit => true
                     | submit => false
                     end in
  let shouldSubmit := match action choices with
                      | build_submit | submit => true
                      | build => false
                      end in
  let versionBump := if shouldBuild then bumpChoice choices else none in
  let targetVersion :=
    if shouldBuild && negb (is_none versionBump)
    then VersionManager.calculateNewVersion currentVersion versionBump
    else currentVersion in
  let platforms := match platformChoice choices with
                   | None => [ios; android]
                   | Some p => [p]
                   end in
  let enabledPlatforms := enabled_platforms cfg platforms in
  if Nat.eqb (List.length enabledPlatforms) 0 then Exit 1
  else
    let '(clearCache, t1) :=
      if shouldBuild && (option_map build_autoClearCache cfg ?? false)
      then clear_cache_loop cfg (promptClearCache choices) enabledPlatforms t
             (fun _ => false)
      else (fun _ => false, t) in
    if negb (confirmed choices) then Exit 0
    else Proceed {| shouldBuild := shouldBuild;
                    shouldSubmit := shouldSubmit;
                    versionBump := versionBump;
                    targetVersion := targetVersion;
                    enabledPlatforms := enabledPlatforms;
                    profile := profileChoice choices;
                    clearCache := clearCache;
                    config := cfg |} t1.

End Deploy.

(* ================================================================== *)
(** * The status command ([src/cli/commands/status.ts])                *)
(* ================================================================== *)

Module Status.

(** [allVersions.filter((v) => v !== currentVersion)]. *)
Definition previousVersions (allVersions : list string)
                            (currentVersion : string) : list string :=
  filter (fun v => negb (String.eqb v currentVersion)) allVersions.

(** [options.all ? previousVersions : previousVersions.slice(0, 3)]. *)
Definition versionsToShow (all : bool) (previousVersions : list string)
  : list string :=
  if all then previousVersions else firstn 3 previousVersions.

(** The number in the line [... and N more], when the command prints
    that line. *)
Definition more (all : bool) (previousVersions : list string) : option nat :=
  if Nat.ltb 0 (List.length (versionsToShow all previousVersions))
     && (negb all && Nat.ltb 3 (List.length previousVersions))
  then Some (List.length previousVersions - 3)%nat
  else None.

(** The section [Previous versions:] of the report: the versions shown,
    each with the record displayed for it, and the number of those left
    out. *)
Definition previous_section (all : bool) (t : DeploymentTracker.Tracker)
  : list (string * Json.member DeploymentRecord) * option nat :=
  let currentVersion :=
    VersionManager.getCurrentVersion (DeploymentTracker.disk t) in
  let allVersions := DeploymentTracker.getAllVersions t in
  let previous := previousVersions allVersions currentVersion in
  (map (fun v => (v, DeploymentTracker.getVersionStatus t v))
       (versionsToShow all previous),
   more all previous).

End Status.

(* ================================================================== *)
(** * Environment files ([src/core/config/environment.ts])             *)
(* ================================================================== *)

(** The string methods the parser of environment files uses.  Strings are
    sequences of code units below 256. *)
Module JSString.

Definition line_feed : ascii := "010"%char.
Definition double_quote : ascii := "034"%char.
Definition single_quote : ascii := "039"%char.

(** White space and line terminators, as [trim] sees them: tab, line feed,
    vertical tab, form feed, carriage return, space and no-break space. *)
Definition is_white_space (c : ascii) : bool :=
  match N_of_ascii c with
  | 9 | 10 | 11 | 12 | 13 | 32 | 160 => true
  | _ => false
  end%N.

Fixpoint trimStart (s : string) : string :=
  match s with
  | EmptyString => EmptyString
  | String c r => if is_white_space c then trimStart r else s
  end.

Fixpoint trimEnd (s : string) : string :=
  match s with
  | EmptyString => EmptyString
  | String c r =>
      match trimEnd r with
      | EmptyString =>
          if is_white_space c then EmptyString else String c EmptyString
      | r' => String c r'
      end
  end.

Definition trim (s : string) : string := trimEnd (trimStart s).

(** [s.split(sep)] for a separator of one code unit: the pieces between
    the separators; always at least one piece. *)
Fixpoint split (s : string) (sep : ascii) : list string :=
  match s with
  | EmptyString => [EmptyString]
  | String c r =>
      if Ascii.eqb c sep then EmptyString :: split r sep
      else match split r sep with
           | piece :: pieces => String c piece :: pieces
           | [] => [String c EmptyString]
           end
  end.

(** [s.startsWith(t)]. *)
Definition startsWith (s t : string) : bool := String.prefix t s.

(** [s.endsWith(t)]. *)
Fixpoint endsWith (s t : string) : bool :=
  if String.eqb s t then true
  else match s with
       | EmptyString => false
       | String _ r => endsWith r t
       end.

(** [s.indexOf(t)]; [None] stands for [-1]. *)
Fixpoint indexOf (s t : string) : option nat :=
  if String.prefix t s then Some O
  else match s with
       | EmptyString => None
       | String _ r => option_map S (indexOf r t)
       end.

(** [s.slice(start, end)], and [s.slice(start)] when [end_] is [None]:
    negative positions count from the end, and all are clamped to the
    string. *)
Definition slice (s : string) (start : Z) (end_ : option Z) : string :=
  let len := Z.of_nat (String.length s) in
  let position (p : Z) := if p <? 0 then Z.max (len + p) 0 else Z.min p len in
  let from := position start in
  let to := match end_ with
            | Some e => position e
            | None => len
            end in
  String.substring (Z.to_nat from) (Z.to_nat (Z.max (to - from) 0)) s.

(** Truthiness of a string: it is not empty. *)
Definition truthy (s : string) : bool :=
  match s with
  | EmptyString => false
  | String _ _ => true
  end.

End JSString.

Module Environment.

(** [env[key] = value] on a plain object: the inherited setter of the key
    [__proto__] drops a string, every other key becomes an own property. *)
Definition assign (env : Json.object string) (key value : string)
  : Json.object string :=
  if String.eqb key "__proto__" then env else Json.set env key value.

(** [Object.assign(env, parsed)]. *)
Definition Object_assign (env parsed : Json.object string)
  : Json.object string :=
  fold_left (fun env kv => assign env (fst kv) (snd kv)) parsed env.

(** The body of the loop of [parseEnvFile], for one line. *)
Definition parse_line (env : Json.object string) (line : string)
  : Json.object string :=
  let trimmed := JSString.trim line in
  if negb (JSString.truthy trimmed) || JSString.startsWith trimmed "#"
  then env
  else
    match JSString.indexOf trimmed "=" with
    | None => env
    | Some eqIndex =>
        let key :=
          JSString.trim (JSString.slice trimmed 0 (Some (Z.of_nat eqIndex))) in
        let value :=
          JSString.trim (JSString.slice trimmed (Z.of_nat eqIndex + 1) None) in
        let quoted (q : ascii) :=
          JSString.startsWith value (String q EmptyString)
          && JSString.endsWith value (String q EmptyString) in
        let wasQuoted :=
          quoted JSString.double_quote || quoted JSString.single_quote in
        let value :=
          if wasQuoted then JSString.slice value 1 (Some (-1)) else value in
        let value :=
          if negb wasQuoted
          then match JSString.indexOf value " #" with
               | Some commentIndex =>
                   JSString.trimEnd
                     (JSString.slice value 0 (Some (Z.of_nat commentIndex)))
               | None => value
               end
          else value in
        if JSString.truthy key then assign env key value else env
    end.

Definition parseEnvFile (content : string) : Json.object string :=
  fold_left parse_line (JSString.split content JSString.line_feed) [].

(** What a path of the project directory leads to. *)
Inductive entry : Type :=
| Missing
| Unreadable
| File (content : string).

(** [fileExists(filePath)]. *)
Definition fileExists (e : entry) : bool :=
  match e with
  | Missing => false
  | _ => true
  end.

(** [readFile(filePath)]: [null] when there is no file or reading fails. *)
Definition readFile (e : entry) : option string :=
  match e with
  | File content => Some content
  | _ => None
  end.

(** [loadEnvFiles(profile, projectRoot)]; [dir] gives what the name of a
    file leads to in the project root. *)
Definition loadEnvFiles (profile : option string) (dir : string -> entry)
  : Json.object string :=
  let named (suffix : string) : option string :=
    match profile with
    | Some p => if JSString.truthy p then Some (".env." ++ p ++ suffix) else None
    | None => None
    end in
  let filesToLoad :=
    flat_map (fun name => match name with
                          | Some n => [n]
                          | None => []
                          end)
      [Some ".env"; named EmptyString; Some ".env.local"; named ".local"] in
  fold_left
    (fun env fileName =>
       if fileExists (dir fileName)
       then match readFile (dir fileName) with
            | Some content =>
                if JSString.truthy content
                then Object_assign env (parseEnvFile content)
                else env
            | None => env
            end
       else env)
    filesToLoad [].

End Environment.

(* ================================================================== *)
(** * Error suggestions ([src/core/errors/suggestions.ts])             *)
(* ================================================================== *)

(** Regular expressions, as far as the error patterns use them: characters
    under the flag [i], [\s], [.], sequence, alternation and the
    quantifiers [*], [+] and [?].  [test] looks for a match anywhere in the
    string; for that question a lazy quantifier is as good as a greedy
    one, and a group is its content. *)
Module RegExp.

Inductive atom : Type :=
| Lit (c : ascii)
| WhiteSpace
| Dot.

(** The upper-case form of a letter from [a] to [z]; the patterns hold
    ASCII characters only, which under the flag [i] match their two cases
    and no code unit from 128 on. *)
Definition toUpperCase (c : ascii) : ascii :=
  let n := N_of_ascii c in
  if (97 <=? n)%N && (n <=? 122)%N then ascii_of_N (n - 32) else c.

(** Whether the atom matches the code unit [x]. *)
Definition atom_test (a : atom) (x : ascii) : bool :=
  match a with
  | Lit c => Ascii.eqb (toUpperCase c) (toUpperCase x)
  | WhiteSpace => JSString.is_white_space x
  | Dot => match N_of_ascii x with
           | 10 | 13 => false
           | _ => true
           end%N
  end.

Inductive regex : Type :=
| Fail
| Eps
| Atom (a : atom)
| Seq (r1 r2 : regex)
| Alt (r1 r2 : regex)
| Star (r : regex).

(** [r?] and [r+]. *)
Definition Opt (r : regex) : regex := Alt r Eps.
Definition Plus (r : regex) : regex := Seq r (Star r).

(** The characters of [s], one after the other. *)
Fixpoint text (s : string) : regex :=
  match s with
  | EmptyString => Eps
  | String c EmptyString => Atom (Lit c)
  | String c r => Seq (Atom (Lit c)) (text r)
  end.

(** [r1 r2 ... rn] and [r1|r2|...|rn]. *)
Fixpoint seq (rs : list regex) : regex :=
  match rs with
  | [] => Eps
  | [r] => r
  | r :: rest => Seq r (seq rest)
  end.

Fixpoint alt (rs : list regex) : regex :=
  match rs with
  | [] => Fail
  | [r] => r
  | r :: rest => Alt r (alt rest)
  end.

(** The expression matches the empty string. *)
Fixpoint nullable (r : regex) : bool :=
  match r with
  | Fail => false
  | Eps => true
  | Atom _ => false
  | Seq r1 r2 => nullable r1 && nullable r2
  | Alt r1 r2 => nullable r1 || nullable r2
  | Star _ => true
  end.

(** What is left to match once [x] has been read. *)
Fixpoint after (x : ascii) (r : regex) : regex :=
  match r with
  | Fail => Fail
  | Eps => Fail
  | Atom a => if atom_test a x then Eps else Fail
  | Seq r1 r2 =>
      if nullable r1 then Alt (Seq (after x r1) r2) (after x r2)
      else Seq (after x r1) r2
  | Alt r1 r2 => Alt (after x r1) (after x r2)
  | Star r1 => Seq (after x r1) (Star r1)
  end.

(** A match starts at the beginning of [s]. *)
Fixpoint matches_here (r : regex) (s : string) : bool :=
  nullable r
  || match s with
     | EmptyString => false
     | String x rest => matches_here (after x r) rest
     end.

(** [r.test(s)]: a match starts somewhere in [s]. *)
Fixpoint test (r : regex) (s : string) : bool :=
  matches_here r s
  || match s with
     | EmptyString => false
     | String _ rest => test r rest
     end.

End RegExp.

Module ErrorSuggestions.

Import RegExp.

Record ErrorSuggestion : Type := {
  title : string;
  steps : list string
}.

Record ErrorPattern : Type := {
  pattern : regex;
  suggestion : ErrorSuggestion
}.

(** [\s*], [\s+] and [.*?]. *)
Definition blanks : regex := Star (Atom WhiteSpace).
Definition blank : regex := Plus (Atom WhiteSpace).
Definition anything : regex := Star (Atom Dot).

(** A double quote inside a text. *)
Definition q : string := String JSString.double_quote EmptyString.

Definition ERROR_PATTERNS : list ErrorPattern :=
  [ {| pattern :=
         seq [text "credential"; Opt (text "s"); blanks;
              alt [seq [text "not"; blank; text "found"];
                   text "missing"; text "invalid"]];
       suggestion :=
         {| title := "Credentials Not Found";
            steps :=
              [ "Run " ++ q ++ "shipkit credentials check" ++ q
                ++ " to verify your credential setup";
                "For iOS: Ensure your .p8 key file exists in the keys/ directory";
                "For Android: Ensure your service account JSON key exists";
                "Run " ++ q ++ "shipkit credentials setup" ++ q
                ++ " to reconfigure" ] |} |};
    {| pattern :=
         seq [text "sdk"; blanks; text "version"; blanks;
              alt [text "mismatch"; text "incompatible";
                   seq [text "not"; blank; text "supported"]]];
       suggestion :=
         {| title := "SDK Version Mismatch";
            steps :=
              [ "Check expo-build-properties in app.json for SDK version settings";
                "Run " ++ q ++ "npx expo install --fix" ++ q
                ++ " to fix version mismatches";
                "Consider clearing the build cache: eas build --clear-cache";
                "Run " ++ q ++ "shipkit doctor" ++ q
                ++ " to check your project configuration" ] |} |};
    {| pattern :=
         alt [text "network"; text "connection"; text "timeout";
              text "ETIMEDOUT"; text "ECONNREFUSED"];
       suggestion :=
         {| title := "Network Error";
            steps :=
              [ "Check your internet connection";
                "If behind a proxy, configure npm proxy settings";
                "Try again in a few minutes — EAS servers may be temporarily unavailable";
                "Check https://status.expo.dev for service status" ] |} |};
    {| pattern := seq [text "build"; blanks; alt [text "failed"; text "error"]];
       suggestion :=
         {| title := "Build Failed";
            steps :=
              [ "Check the build logs on expo.dev for detailed error messages";
                "Run " ++ q ++ "eas build:list" ++ q
                ++ " to see recent build statuses";
                "Try clearing the build cache with --clear-cache";
                "Run " ++ q ++ "shipkit doctor" ++ q
                ++ " to check for common configuration issues";
                "Ensure all native dependencies are compatible with your SDK version" ] |} |};
    {| pattern :=
         seq [text "submit"; blanks;
              alt [text "failed"; text "error"; text "rejected"]];
       suggestion :=
         {| title := "Submission Failed";
            steps :=
              [ "Check your store credentials are properly configured";
                "For iOS: Verify your App Store Connect API key is still valid";
                "For Android: Verify your Google Play service account has permissions";
                "Run " ++ q ++ "shipkit credentials check" ++ q
                ++ " to validate credentials";
                "Check the app store console for any compliance issues" ] |} |};
    {| pattern :=
         alt [seq [text "not"; blank; text "logged"; blank; text "in"];
              text "authentication"; text "unauthorized"; text "401"];
       suggestion :=
         {| title := "Authentication Error";
            steps :=
              [ "Run " ++ q ++ "eas login" ++ q
                ++ " to log in to your Expo account";
                "If using CI/CD, ensure EXPO_TOKEN is set";
                "Check that your account has access to this project" ] |} |};
    {| pattern :=
         seq [alt [seq [text "bundle"; blanks; text "identifier"];
                   seq [text "package"; blanks; text "name"]];
              anything;
              alt [text "missing"; seq [text "not"; blank; text "set"];
                   text "required"]];
       suggestion :=
         {| title := "Missing App Identifier";
            steps :=
              [ "Set ios.bundleIdentifier in app.json (e.g., " ++ q
                ++ "com.yourcompany.appname" ++ q ++ ")";
                "Set android.package in app.json (e.g., " ++ q
                ++ "com.yourcompany.appname" ++ q ++ ")";
                "Run " ++ q ++ "shipkit init" ++ q
                ++ " to configure these interactively" ] |} |};
    {| pattern :=
         seq [alt [text "eas.json"; text "config"];
              anything;
              alt [seq [text "not"; blank; text "found"];
                   text "missing"; text "invalid"]];
       suggestion :=
         {| title := "Configuration Not Found";
            steps :=
              [ "Run " ++ q ++ "eas build:configure" ++ q
                ++ " to create eas.json";
                "Or run " ++ q ++ "shipkit init" ++ q
                ++ " which will generate eas.json for you";
                "Make sure you are in the project root directory" ] |} |};
    {| pattern :=
         seq [text "pre"; Opt (text "-"); text "build"; blank; text "hook";
              blank; text "failed"];
       suggestion :=
         {| title := "Pre-build Hook Failed";
            steps :=
              [ "Check the preBuild hook command in shipkit.config.ts";
                "Run the hook command manually to debug";
                "Remove or fix the hook if it is no longer needed" ] |} |};
    {| pattern :=
         alt [seq [text "code"; blanks; text "signing"];
              seq [text "provisioning"; blanks; text "profile"];
              text "certificate"];
       suggestion :=
         {| title := "Code Signing Issue";
            steps :=
              [ "For managed workflow: EAS handles code signing — run " ++ q
                ++ "eas credentials" ++ q;
                "Ensure your Apple Developer account is active";
                "Try " ++ q ++ "eas credentials --platform ios" ++ q
                ++ " to reconfigure";
                "Check that your provisioning profiles are not expired" ] |} |};
    {| pattern :=
         alt [text "ENOENT";
              seq [text "no"; blank; text "such"; blank; text "file"];
              seq [text "file"; blank; text "not"; blank; text "found"]];
       suggestion :=
         {| title := "File Not Found";
            steps :=
              [ "Verify the file path exists and is accessible";
                "Check that credential files are in the correct location (usually keys/)";
                "Ensure relative paths are relative to the project root";
                "Run " ++ q ++ "shipkit doctor" ++ q
                ++ " to check your project structure" ] |} |};
    {| pattern :=
         alt [seq [text "native"; blanks; text "module"];
              seq [text "cannot"; blank; text "find"; blank; text "module"];
              seq [text "module"; blank; text "not"; blank; text "found"]];
       suggestion :=
         {| title := "Module Resolution Error";
            steps :=
              [ "Run " ++ q ++ "npx expo install --fix" ++ q
                ++ " to resolve version mismatches";
                "Delete node_modules and run " ++ q ++ "npm install" ++ q
                ++ " again";
                "Check that native modules are compatible with your Expo SDK version";
                "For bare workflow, run " ++ q ++ "npx pod-install" ++ q
                ++ " for iOS" ] |} |};
    {| pattern :=
         alt [seq [text "provisioning"; anything; text "expired"];
              seq [text "certificate"; anything; text "expired"];
              seq [text "expired"; anything; text "certificate"]];
       suggestion :=
         {| title := "Expired Certificate/Profile";
            steps :=
              [ "Run " ++ q ++ "eas credentials --platform ios" ++ q
                ++ " to regenerate credentials";
                "Check Apple Developer Portal for expired certificates";
                "Revoke and recreate provisioning profiles if needed" ] |} |} ].

Definition findSuggestions (errorMessage : string) : list ErrorSuggestion :=
  map suggestion
      (filter (fun entry => RegExp.test (pattern entry) errorMessage)
              ERROR_PATTERNS).

Definition getBestSuggestion (errorMessage : string) : option ErrorSuggestion :=
  let suggestions := findSuggestions errorMessage in
  if Nat.ltb 0 (List.length suggestions) then nth_error suggestions 0 else None.

End ErrorSuggestions.

(* ================================================================== *)
(** * Vocabulary for deployment runs                                   *)
(* ================================================================== *)

(** The command ended in a way the callers take for success: exit code
    [0], or no exit code at all (a signal ended the child). *)
Definition succeeded (e : Exec.child_end) : bool :=
  match e with
  | Exec.Close None => true
  | Exec.Close (Some code) => code =? 0
  | Exec.SpawnError _ => false
  end.

Definition build_command (plan : Deploy.Plan) (pl : Platform) : string :=
  Builder.buildEasCommand (Deploy.build_options plan pl).

Definition submit_command (plan : Deploy.Plan) (pl : Platform) : string :=
  Submitter.buildSubmitCommand pl (Deploy.profile plan).

(** The pre-build hook the deployment runs, if it runs one. *)
Definition preBuild_hook (plan : Deploy.Plan) : option string :=
  if truthy_string (Deploy.hook preBuild (Deploy.config plan))
     && Deploy.shouldBuild plan
  then Deploy.hook preBuild (Deploy.config plan)
  else None.

(** The slot holds a timestamp of the host, written in a run whose
    commands [new] hold a build of [pl] that ended successfully. *)
Definition stamped_by (host : Exec.Host) (plan : Deploy.Plan)
                      (new : list (string * Exec.child_end)) (pl : Platform)
                      (x : Slot) : Prop :=
  exists n e,
    x = Stamp (Exec.toISOString host n)
    /\ In (build_command plan pl, e) new
    /\ succeeded e = true.

(** The slot of [(v, pl, pr)] in the ledger of the session. *)
Definition ledger_slot (s : Exec.Session) (v : string) (pl : Platform)
                       (pr : Profile) : Slot :=
  DeploymentTracker.slot_of (record_of (Exec.tracker s) v) pl pr.

(** The configuration snapshot of [pl] in the ledger of the session. *)
Definition ledger_snapshot (s : Exec.Session) (pl : Platform)
  : Json.plain :=
  DeploymentTracker.getLastConfig (Exec.tracker s) pl.

(** The ledger of the session, as held in memory. *)
Definition ledger (s : Exec.Session) : DeploymentHistory :=
  DeploymentTracker.data (Exec.tracker s).

(** The two manifests in the project directory of the session. *)
Definition manifests (s : Exec.Session)
  : Fs.file ExpoAppJson * Fs.file PackageJson :=
  (app_json (DeploymentTracker.disk (Exec.tracker s)),
   package_json (DeploymentTracker.disk (Exec.tracker s))).

(** No command of the host touches [app.json] or [package.json]. *)
Definition keeps_manifests (host : Exec.Host) : Prop :=
  forall n c d,
    app_json (Exec.effect host n c d) = app_json d
    /\ package_json (Exec.effect host n c d) = package_json d.

(** Why the command [c], which ended with [e], stops a deployment over the
    platforms [ps] with the exception [err]. *)
Inductive stop_reason (plan : Deploy.Plan) (ps : list Platform) (c : string)
  : Exec.child_end -> JS.exn -> Prop :=
| spawn_failed : forall err,
    stop_reason plan ps c (Exec.SpawnError err) err
| preBuild_failed : forall code,
    preBuild_hook plan = Some c ->
    stop_reason plan ps c (Exec.Close code) (JS.Error "Pre-build hook failed")
| build_failed : forall pl code,
    In pl ps -> c = build_command plan pl ->
    stop_reason plan ps c (Exec.Close code)
      (JS.Error ("Build failed for " ++ platform_name pl))
| submit_failed : forall pl code,
    In pl ps -> c = submit_command plan pl ->
    stop_reason plan ps c (Exec.Close code)
      (JS.Error ("Submit failed for " ++ platform_name pl)).

(** The commands [new], run from the session [s] on, end with a command
    that did not succeed, and that is why the run stopped with [err]. *)
Definition stopped_by (host : Exec.Host) (plan : Deploy.Plan)
                      (ps : list Platform) (s : Exec.Session)
                      (new : list (string * Exec.child_end)) (err : JS.exn)
  : Prop :=
  exists new' c e,
    new = (new' ++ [(c, e)])%list
    /\ e = Exec.spawn host (List.length (Exec.trace s ++ new')) c
    /\ succeeded e = false
    /\ stop_reason plan ps c e err.

(** The engine's own failure in a deployment that ends in the session
    [s']: a [TypeError], raised by a version bump into an [app.json] that
    parses to a document without [expo] entry, or for a target version that
    is not tracked and whose text names a member of [Object.prototype]. *)
Definition engine_failure (plan : Deploy.Plan) (s' : Exec.Session)
                          (err : JS.exn) : Prop :=
  err = JS.TypeError
  /\ ((Deploy.is_none (Deploy.versionBump plan) = false
       /\ lacks_expo (DeploymentTracker.disk (Exec.tracker s')) = true)
      \/ ~ recordable (Exec.tracker s') (Deploy.targetVersion plan)).

(** What a part of a deployment over the platforms [ps] does between the
    sessions [s] and [s']: it runs the commands [new]; it changes a slot of
    the ledger, or a snapshot, only for a platform whose build succeeded
    among them; and it throws only when its last command did not succeed,
    or when the engine itself fails. *)
Definition frame {A : Type} (host : Exec.Host) (plan : Deploy.Plan)
                 (ps : list Platform) (s : Exec.Session) (r : JS.outcome A)
                 (s' : Exec.Session) (new : list (string * Exec.child_end))
  : Prop :=
  Exec.trace s' = (Exec.trace s ++ new)%list
  /\ (Deploy.shouldBuild plan = false -> ledger s' = ledger s)
  /\ (forall v pl pr,
        ledger_slot s' v pl pr = ledger_slot s v pl pr
        \/ (v = Deploy.targetVersion plan /\ pr = Deploy.profile plan
            /\ Deploy.shouldBuild plan = true /\ In pl ps
            /\ stamped_by host plan new pl (ledger_slot s' v pl pr)))
  /\ (forall pl,
        ledger_snapshot s' pl = ledger_snapshot s pl
        \/ (Deploy.shouldBuild plan = true /\ In pl ps
            /\ exists e, In (build_command plan pl, e) new
                         /\ succeeded e = true))
  /\ (forall err, r = JS.Throws err ->
        stopped_by host plan ps s new err \/ engine_failure plan s' err).

Definition framed {A : Type} (host : Exec.Host) (plan : Deploy.Plan)
                  (ps : list Platform) (m : Exec.M A) : Prop :=
  forall s r s', m s = (r, s') -> exists new, frame host plan ps s r s' new.

(** The code leaves the manifests alone when the commands do. *)
Definition quiet {A : Type} (host : Exec.Host) (m : Exec.M A) : Prop :=
  keeps_manifests host ->
  forall s r s', m s = (r, s') -> manifests s' = manifests s.

(** Among the commands [new] the build of [pl] ended successfully, and
    the slot of the plan holds a timestamp of the host for [pl]. *)
Definition built (host : Exec.Host) (plan : Deploy.Plan)
                 (new : list (string * Exec.child_end)) (s : Exec.Session)
                 (pl : Platform) : Prop :=
  (exists n,
     ledger_slot s (Deploy.targetVersion plan) pl (Deploy.profile plan)
     = Stamp (Exec.toISOString host n))
  /\ exists e, In (build_command plan pl, e) new /\ succeeded e = true.

(** Among the commands [new] the submission of [pl] ended successfully. *)
Definition submitted (plan : Deploy.Plan)
                     (new : list (string * Exec.child_end)) (pl : Platform)
  : Prop :=
  exists e, In (submit_command plan pl, e) new /\ succeeded e = true.

(** The pre-build hook, if the deployment runs one from [s], succeeds. *)
Definition preBuild_passes (host : Exec.Host) (plan : Deploy.Plan)
                           (s : Exec.Session) : bool :=
  match preBuild_hook plan with
  | Some c => succeeded (Exec.spawn host (List.length (Exec.trace s)) c)
  | None => true
  end.

(** The disk after the version bump of the plan. *)
Definition bumped (plan : Deploy.Plan) (d : Disk) : Disk :=
  if Deploy.is_none (Deploy.versionBump plan) then d
  else snd (VersionManager.bump (Deploy.versionBump plan) d).

(** The loop [runBuilds] and [runSubmits] share: run the command of each
    platform in turn, note its exit code, and leave after the first code
    that is not zero. *)
Fixpoint run_each (host : Exec.Host) (command : Platform -> string)
                  (platforms : list Platform) (results : list (Platform * Z))
  : Exec.M (list (Platform * Z)) :=
  match platforms with
  | [] => Exec.ret results
  | pl :: rest =>
      code <~ Exec.execInteractive host (command pl) ;;
      let results := Builder.map_set results pl code in
      if negb (code =? 0) then Exec.ret results
      else run_each host command rest results
  end.

(** The outcome of such a loop over [platforms], in terms of the commands
    [new] it ran and the map [results] it returned: every command
    succeeded and every platform has the code 0, or the commands stop at
    the first one that failed and the map ends with that platform and its
    code. *)
Definition ran_until_failure (command : Platform -> string)
                             (platforms : list Platform)
                             (new : list (string * Exec.child_end))
                             (results : list (Platform * Z)) : Prop :=
  (results = map (fun p => (p, 0)) platforms
   /\ map fst new = map command platforms
   /\ Forall (fun ce => succeeded (snd ce) = true) new)
  \/ exists done failed later code good,
       platforms = (done ++ failed :: later)%list
       /\ code <> 0
       /\ results = (map (fun p => (p, 0)) done ++ [(failed, code)])%list
       /\ new = (good ++ [(command failed, Exec.Close (Some code))])%list
       /\ map fst good = map command done
       /\ Forall (fun ce => succeeded (snd ce) = true) good.

(** ** Vocabulary for environment files *)

(** The text holds no line feed. *)
Definition single_line (s : string) : Prop :=
  JSString.split s JSString.line_feed = [s].

(** The text neither starts nor ends with white space. *)
Definition tight (s : string) : Prop :=
  JSString.trimStart s = s /\ JSString.trimEnd s = s.

(** Every code unit of the text passes the test. *)
Fixpoint every (p : ascii -> bool) (s : string) : bool :=
  match s with
  | EmptyString => true
  | String c r => p c && every p r
  end.

(** A name a line of an environment file can bind: one line, not empty,
    without white space around it, without [=], not starting with [#], and
    not [__proto__]. *)
Definition env_key (key : string) : Prop :=
  key <> EmptyString
  /\ key <> "__proto__"
  /\ tight key
  /\ single_line key
  /\ JSString.indexOf key "=" = None
  /\ JSString.startsWith key "#" = false.

(** The value is wrapped in a pair of double or of single quotes. *)
Definition quoted (value : string) : bool :=
  (JSString.startsWith value (String JSString.double_quote EmptyString)
   && JSString.endsWith value (String JSString.double_quote EmptyString))
  || (JSString.startsWith value (String JSString.single_quote EmptyString)
      && JSString.endsWith value (String JSString.single_quote EmptyString)).

(** A value that can stand without quotes: one line, without white space
    around it, not wrapped in quotes, and without the start of an inline
    comment. *)
Definition bare_value (value : string) : Prop :=
  tight value
  /\ single_line value
  /\ quoted value = false
  /\ JSString.indexOf value " #" = None.

(** What the line binds, if it binds anything: the key and the value that
    [parse_line] assigns. *)
Definition binding (line : string) : option (string * string) :=
  match Environment.parse_line [] line with
  | [kv] => Some kv
  | _ => None
  end.

(** The first of the objects that holds the key gives the value. *)
Fixpoint first_defined (envs : list (Json.object string)) (k : string)
  : option string :=
  match envs with
  | [] => None
  | env :: rest =>
      match Json.get env k with
      | Some v => Some v
      | None => first_defined rest k
      end
  end.

(** What [loadEnvFiles] takes from a file: its bindings, or nothing when
    the file is missing, unreadable or empty. *)
Definition bindings_of (e : Environment.entry) : Json.object string :=
  match Environment.readFile e with
  | Some content => Environment.parseEnvFile content
  | None => []
  end.

(** ** Vocabulary for the error patterns *)

(** The strings a regular expression matches in full. *)
Inductive lang : RegExp.regex -> string -> Prop :=
| lang_eps : lang RegExp.Eps EmptyString
| lang_atom : forall a x,
    RegExp.atom_test a x = true ->
    lang (RegExp.Atom a) (String x EmptyString)
| lang_seq : forall r1 r2 s1 s2,
    lang r1 s1 -> lang r2 s2 -> lang (RegExp.Seq r1 r2) (s1 ++ s2)
| lang_alt_l : forall r1 r2 s, lang r1 s -> lang (RegExp.Alt r1 r2) s
| lang_alt_r : forall r1 r2 s, lang r2 s -> lang (RegExp.Alt r1 r2) s
| lang_star_nil : forall r, lang (RegExp.Star r) EmptyString
| lang_star_more : forall r s1 s2,
    lang r s1 -> lang (RegExp.Star r) s2 -> lang (RegExp.Star r) (s1 ++ s2).

(** Some part of the string matches the expression. *)
Definition found_in (r : RegExp.regex) (s : string) : Prop :=
  exists before part rest, s = before ++ part ++ rest /\ lang r part.

(** ** Sample runs *)

(** A host whose commands all succeed and leave the documents alone. *)
Definition obliging_host : Exec.Host :=
  {| Exec.spawn := fun _ _ => Exec.Close (Some 0);
     Exec.effect := fun _ _ d => d;
     Exec.toISOString := fun _ => sample_time |}.

(** A host on which the Android builds fail, and only they. *)
Definition android_failing_host : Exec.Host :=
  {| Exec.spawn := fun _ c =>
       if String.eqb c
            "eas build --platform android --profile production --non-interactive"
       then Exec.Close (Some 1)
       else Exec.Close (Some 0);
     Exec.effect := fun _ _ d => d;
     Exec.toISOString := fun _ => sample_time |}.

(** A host on which the hook [npm run notify] fails, and only it. *)
Definition hook_failing_host : Exec.Host :=
  {| Exec.spawn := fun _ c =>
       if String.eqb c "npm run notify"
       then Exec.Close (Some 1)
       else Exec.Close (Some 0);
     Exec.effect := fun _ _ d => d;
     Exec.toISOString := fun _ => sample_time |}.

Definition notifying_config : ShipkitConfig :=
  {| platforms_ios := true;
     platforms_android := true;
     criticalConfig_android := ["minSdkVersion"];
     criticalConfig_ios := ["deploymentTarget"];
     build_android := {| nonInteractive := true |};
     build_ios := {| nonInteractive := false |};
     build_autoClearCache := true;
     hooks := Some {| preBuild := None;
                      postBuild := Some "npm run notify";
                      preSubmit := Some "npm run notify";
                      postSubmit := Some "npm run notify" |} |}.

(** Build and submit both platforms for production after a patch bump of
    version 1.0.0. *)
Definition release_plan (config : option ShipkitConfig) : Deploy.Plan :=
  {| Deploy.shouldBuild := true;
     Deploy.shouldSubmit := true;
     Deploy.versionBump := patch;
     Deploy.targetVersion := "1.0.1";
     Deploy.enabledPlatforms := [ios; android];
     Deploy.profile := production;
     Deploy.clearCache := fun _ => false;
     Deploy.config := config |}.

(** The session at the start of a deployment in a project at version
    1.0.0 that has no deployments document yet. *)
Definition first_session : Exec.Session :=
  {| Exec.tracker := DeploymentTracker.construct test_disk 0;
     Exec.trace := [] |}.

(** The choices behind [release_plan]: build and submit everything for
    production after a patch bump, and clear the cache whenever asked. *)
Definition release_choices (action : Deploy.DeployAction) : Deploy.Choices :=
  {| Deploy.action := action;
     Deploy.bumpChoice := patch;
     Deploy.platformChoice := None;
     Deploy.profileChoice := production;
     Deploy.promptClearCache := fun _ => true;
     Deploy.confirmed := true |}.

(** A ledger with five versions, in a project directory without
    [app.json]. *)
Definition five_versions : DeploymentTracker.Tracker :=
  record_all ["1.0.0"; "2.0.0"; "1.2.0"; "1.10.0"; "0.9.0"] ios preview
    fresh_tracker.


(* ================================================================== *)
(** * Strings and numerals                                             *)
(* ================================================================== *)

Lemma digit_is_not_dot (c : ascii) :
  JS.is_digit c = true -> JS.is_dot c = false.
Proof.
  destruct c as [[|] [|] [|] [|] [|] [|] [|] [|]]; simpl;
    first [reflexivity | discriminate].
Qed.

Lemma all_digits_has_no_dot (s : string) :
  JS.all_digits s = true -> JS.has_dot s = false.
Proof.
  induction s as [|c s IH]; simpl; [reflexivity|].
  intros H. apply andb_true_iff in H as [Hc Hs].
  rewrite (digit_is_not_dot c Hc). simpl. auto.
Qed.

Lemma split_dot_single (s : string) :
  JS.has_dot s = false -> JS.split_dot s = [s].
Proof.
  induction s as [|c s IH]; simpl; [reflexivity|].
  intros H. apply orb_false_iff in H as [Hc Hs].
  rewrite Hc, (IH Hs). reflexivity.
Qed.

Lemma split_dot_app (s rest : string) :
  JS.has_dot s = false ->
  JS.split_dot (s ++ String "."%char rest) = s :: JS.split_dot rest.
Proof.
  induction s as [|c s IH]; simpl; [reflexivity|].
  intros H. apply orb_false_iff in H as [Hc Hs].
  rewrite Hc, (IH Hs). reflexivity.
Qed.

Lemma uint_text_all_digits (d : Decimal.uint) :
  JS.all_digits (NilEmpty.string_of_uint d) = true.
Proof. induction d; simpl; auto. Qed.

Lemma toString_all_digits (z : Z) :
  0 <= z -> JS.all_digits (JS.toString (JS.Num z)) = true.
Proof.
  intros Hz. destruct z as [|q|q]; [reflexivity| |lia].
  simpl. unfold NilZero.string_of_uint.
  destruct (Pos.to_uint q); try reflexivity; apply uint_text_all_digits.
Qed.

Lemma toString_nonempty (z : Z) :
  0 <= z -> JS.toString (JS.Num z) <> EmptyString.
Proof.
  intros Hz. destruct z as [|q|q]; [discriminate| |lia].
  simpl. unfold NilZero.string_of_uint.
  generalize (DecimalPos.Unsigned.to_uint_nonnil q).
  destruct (Pos.to_uint q); simpl; congruence.
Qed.

Lemma Number_toString (z : Z) :
  0 <= z -> JS.Number (JS.toString (JS.Num z)) = JS.Num z.
Proof.
  intros Hz. destruct z as [|q|q]; [reflexivity| |lia].
  unfold JS.Number, JS.toString. simpl Z.to_N. simpl N.to_uint.
  assert (Hq : NilZero.string_of_uint (Pos.to_uint q)
               = NilEmpty.string_of_uint (Pos.to_uint q)).
  { generalize (DecimalPos.Unsigned.to_uint_nonnil q).
    destruct (Pos.to_uint q); simpl; congruence. }
  rewrite Hq, NilEmpty.usu.
  change (Pos.to_uint q) with (N.to_uint (Npos q)).
  rewrite DecimalN.Unsigned.of_to. reflexivity.
Qed.

Lemma split_version_string (M m p : Z) :
  0 <= M -> 0 <= m -> 0 <= p ->
  JS.split_dot (version_string M m p)
  = [JS.toString (JS.Num M); JS.toString (JS.Num m); JS.toString (JS.Num p)].
Proof.
  intros HM Hm Hp. unfold version_string.
  change (JS.toString (JS.Num M) ++ "." ++ JS.toString (JS.Num m) ++ "."
          ++ JS.toString (JS.Num p))
    with (JS.toString (JS.Num M) ++ String "."%char
            (JS.toString (JS.Num m) ++ String "."%char (JS.toString (JS.Num p)))).
  rewrite split_dot_app
    by (apply all_digits_has_no_dot, toString_all_digits; assumption).
  rewrite split_dot_app
    by (apply all_digits_has_no_dot, toString_all_digits; assumption).
  rewrite split_dot_single
    by (apply all_digits_has_no_dot, toString_all_digits; assumption).
  reflexivity.
Qed.

Lemma parseVersion_version_string (M m p : Z) :
  0 <= M -> 0 <= m -> 0 <= p ->
  VersionManager.parseVersion (version_string M m p)
  = (JS.Num M, JS.Num m, JS.Num p).
Proof.
  intros HM Hm Hp. unfold VersionManager.parseVersion.
  rewrite split_version_string by assumption.
  cbn [map nth_error JS.nullish].
  rewrite !Number_toString by assumption. reflexivity.
Qed.

Lemma toString_zero : JS.toString (JS.Num 0) = "0".
Proof. reflexivity. Qed.

Lemma calculateNewVersion_patch (M m p : Z) :
  0 <= M -> 0 <= m -> 0 <= p ->
  VersionManager.calculateNewVersion (version_string M m p) patch
  = version_string M m (p + 1).
Proof.
  intros HM Hm Hp. unfold VersionManager.calculateNewVersion.
  rewrite parseVersion_version_string by assumption. reflexivity.
Qed.

Lemma calculateNewVersion_minor (M m p : Z) :
  0 <= M -> 0 <= m -> 0 <= p ->
  VersionManager.calculateNewVersion (version_string M m p) minor
  = version_string M (m + 1) 0.
Proof.
  intros HM Hm Hp. unfold VersionManager.calculateNewVersion.
  rewrite parseVersion_version_string by assumption. reflexivity.
Qed.

Lemma calculateNewVersion_major (M m p : Z) :
  0 <= M -> 0 <= m -> 0 <= p ->
  VersionManager.calculateNewVersion (version_string M m p) major
  = version_string (M + 1) 0 0.
Proof.
  intros HM Hm Hp. unfold VersionManager.calculateNewVersion.
  rewrite parseVersion_version_string by assumption.
  unfold version_string. rewrite toString_zero. reflexivity.
Qed.

(* ================================================================== *)
(** * Version engine                                                   *)
(* ================================================================== *)

Lemma readJsonFile_written {A : Type} (x : A) :
  Fs.readJsonFile (Fs.writeJsonFile x) = Some x.
Proof. reflexivity. Qed.

Lemma getCurrentVersion_manifest (d : Disk) (v : string) :
  manifest_version d v -> VersionManager.getCurrentVersion d = v.
Proof.
  intros [appJson [e [Hread [Hexpo Hver]]]].
  unfold VersionManager.getCurrentVersion, VersionManager.version_of.
  rewrite Hread, Hexpo, Hver. reflexivity.
Qed.

Lemma manifest_has_expo (d : Disk) (v : string) :
  manifest_version d v -> lacks_expo d = false.
Proof.
  intros [appJson [e [Hread [Hexpo _]]]]. unfold lacks_expo.
  rewrite Hread, Hexpo. reflexivity.
Qed.

(** What [write_both] does, by the state of [app.json]. *)
Lemma write_both_cases (v : string) (d : Disk) :
  match Fs.readJsonFile (app_json d) with
  | Some appJson =>
      match expo appJson with
      | Some e =>
          VersionManager.write_both v d
          = (JS.Returns tt,
             VersionManager.write_package v
               (write_app_json d
                  {| expo := Some {| version := Some v; plugins := plugins e |} |}))
      | None => VersionManager.write_both v d = (JS.Throws JS.TypeError, d)
      end
  | None =>
      VersionManager.write_both v d
      = (JS.Returns tt, VersionManager.write_package v d)
  end.
Proof.
  unfold VersionManager.write_both, VersionManager.set_app_version.
  destruct (Fs.readJsonFile (app_json d)) as [appJson|]; [|reflexivity].
  destruct (expo appJson); reflexivity.
Qed.

Lemma app_json_write_package (v : string) (d : Disk) :
  app_json (VersionManager.write_package v d) = app_json d.
Proof.
  unfold VersionManager.write_package.
  destruct (Fs.readJsonFile (package_json d)); reflexivity.
Qed.

(** With an [expo] entry in place, or without a readable [app.json], the
    two writes go through. *)
Lemma write_both_returns (v : string) (d : Disk) :
  lacks_expo d = false ->
  exists d', VersionManager.write_both v d = (JS.Returns tt, d').
Proof.
  intros H. pose proof (write_both_cases v d) as Hc. unfold lacks_expo in H.
  destruct (Fs.readJsonFile (app_json d)) as [appJson|]; [|eauto].
  destruct (expo appJson); [eauto | discriminate].
Qed.

Lemma write_both_throws (v : string) (d : Disk) :
  lacks_expo d = true ->
  VersionManager.write_both v d = (JS.Throws JS.TypeError, d).
Proof.
  intros H. pose proof (write_both_cases v d) as Hc. unfold lacks_expo in H.
  destruct (Fs.readJsonFile (app_json d)) as [appJson|]; [|discriminate].
  destruct (expo appJson); [discriminate | exact Hc].
Qed.

Lemma write_both_manifest (v v0 : string) (d : Disk) :
  manifest_version d v0 ->
  exists d', VersionManager.write_both v d = (JS.Returns tt, d')
             /\ manifest_version d' v.
Proof.
  intros [appJson [e [Hread [Hexpo _]]]].
  pose proof (write_both_cases v d) as Hc. rewrite Hread, Hexpo in Hc.
  eexists. split; [exact Hc|].
  exists {| expo := Some {| version := Some v; plugins := plugins e |} |},
         {| version := Some v; plugins := plugins e |}.
  rewrite app_json_write_package. repeat split.
Qed.

(** A bump other than [none] of a manifest at [v0]. *)
Lemma bump_manifest (type : VersionBumpType) (v0 : string) (d : Disk) :
  type <> none -> manifest_version d v0 ->
  exists d',
    VersionManager.bump type d
    = (JS.Returns {| oldVersion := v0;
                     newVersion := VersionManager.calculateNewVersion v0 type |},
       d')
    /\ manifest_version d' (VersionManager.calculateNewVersion v0 type).
Proof.
  intros Hty Hm.
  destruct (write_both_manifest (VersionManager.calculateNewVersion v0 type) v0 d Hm)
    as [d' [Hw Hm']].
  exists d'. split; [|exact Hm'].
  unfold VersionManager.bump. rewrite (getCurrentVersion_manifest d v0 Hm).
  destruct type; try congruence; rewrite Hw; reflexivity.
Qed.

(** C7, as stated, fails.  In a project directory without [app.json] the
    current version is [0.0.0] and a patch bump reports [0.0.1]; nothing
    is written, so a second patch bump reports [0.0.1] again and not
    [0.0.2].  Where [app.json] is the document [{}] the current version is
    [0.0.0] as well, and a patch bump throws instead of yielding [0.0.1]. *)
Lemma bump_without_manifest_repeats :
  VersionManager.getCurrentVersion empty_disk = version_string 0 0 0
  /\ fst (VersionManager.bump patch empty_disk)
     = JS.Returns {| oldVersion := version_string 0 0 0;
                     newVersion := version_string 0 0 1 |}
  /\ fst (VersionManager.bump patch (snd (VersionManager.bump patch empty_disk)))
     = JS.Returns {| oldVersion := version_string 0 0 0;
                     newVersion := version_string 0 0 1 |}
  /\ version_string 0 0 1 <> version_string 0 0 2
  /\ VersionManager.getCurrentVersion bare_disk = version_string 0 0 0
  /\ VersionManager.bump patch bare_disk = (JS.Throws JS.TypeError, bare_disk).
Proof. repeat split; discriminate. Qed.

(** C7, as the code has it.  With an [app.json] whose [expo] entry holds
    the version [(M, m, p)]: a patch bump yields [(M, m, p+1)] and a second
    one [(M, m, p+2)]; a minor bump yields [(M, m+1, 0)]; a major bump
    yields [(M+1, 0, 0)] whatever [m] and [p] were; [bump('none')] returns
    the version unchanged and leaves the disk as it was, for every state of
    the disk. *)
Theorem bump_arithmetic :
  forall (M m p : Z) (d : Disk),
    component M -> component m -> component p ->
    manifest_version d (version_string M m p) ->
    let v := version_string M m p in
    let once := VersionManager.bump patch d in
    let twice := VersionManager.bump patch (snd once) in
    fst once
    = JS.Returns {| oldVersion := v; newVersion := version_string M m (p + 1) |}
    /\ VersionManager.getCurrentVersion (snd once) = version_string M m (p + 1)
    /\ fst twice
       = JS.Returns {| oldVersion := version_string M m (p + 1);
                       newVersion := version_string M m (p + 2) |}
    /\ VersionManager.calculateNewVersion
         (VersionManager.calculateNewVersion v patch) patch
       = version_string M m (p + 2)
    /\ fst (VersionManager.bump minor d)
       = JS.Returns {| oldVersion := v; newVersion := version_string M (m + 1) 0 |}
    /\ fst (VersionManager.bump major d)
       = JS.Returns {| oldVersion := v; newVersion := version_string (M + 1) 0 0 |}
    /\ VersionManager.bump none d
       = (JS.Returns {| oldVersion := v; newVersion := v |}, d)
    /\ (forall d' : Disk,
          VersionManager.bump none d'
          = (JS.Returns {| oldVersion := VersionManager.getCurrentVersion d';
                           newVersion := VersionManager.getCurrentVersion d' |},
             d')
          /\ VersionManager.calculateNewVersion
               (VersionManager.getCurrentVersion d') none
             = VersionManager.getCurrentVersion d').
Proof.
  intros M m p d [HM _] [Hm _] [Hp _] Hmanifest v once twice.
  assert (Hcur : VersionManager.getCurrentVersion d = v)
    by (apply getCurrentVersion_manifest; exact Hmanifest).
  assert (Hp1 : VersionManager.calculateNewVersion v patch
                = version_string M m (p + 1))
    by (apply calculateNewVersion_patch; assumption).
  assert (Hp2 : VersionManager.calculateNewVersion
                  (version_string M m (p + 1)) patch
                = version_string M m (p + 2)).
  { rewrite calculateNewVersion_patch by lia. f_equal. lia. }
  destruct (bump_manifest patch v d ltac:(discriminate) Hmanifest)
    as [d1 [Honce Hm1]].
  fold once in Honce. rewrite Hp1 in Honce, Hm1.
  destruct (bump_manifest patch _ d1 ltac:(discriminate) Hm1)
    as [d2 [Htwice _]].
  rewrite Hp2 in Htwice.
  destruct (bump_manifest minor v d ltac:(discriminate) Hmanifest)
    as [d3 [Hminor _]].
  destruct (bump_manifest major v d ltac:(discriminate) Hmanifest)
    as [d4 [Hmajor _]].
  split; [rewrite Honce; reflexivity|].
  split; [rewrite Honce; apply getCurrentVersion_manifest; exact Hm1|].
  split; [unfold twice; rewrite Honce; cbn [snd]; rewrite Htwice; reflexivity|].
  split; [rewrite Hp1; exact Hp2|].
  split; [rewrite Hminor; unfold v;
          rewrite calculateNewVersion_minor by assumption; reflexivity|].
  split; [rewrite Hmajor; unfold v;
          rewrite calculateNewVersion_major by assumption; reflexivity|].
  split; [unfold VersionManager.bump; rewrite Hcur; reflexivity|].
  intros d'. split; reflexivity.
Qed.

Lemma component_small (z : Z) : 0 <= z < 1000 -> component z.
Proof. unfold component, JS.MAX_SAFE_INTEGER. lia. Qed.

Lemma demo_disk_manifest : manifest_version demo_disk (version_string 1 2 3).
Proof.
  exists demo_app_json, {| version := Some "1.2.3"; plugins := None |}.
  repeat split.
Qed.

Lemma bump_arithmetic_witness :
  fst (VersionManager.bump patch demo_disk)
  = JS.Returns {| oldVersion := "1.2.3"; newVersion := "1.2.4" |}.
Proof.
  exact (proj1 (bump_arithmetic 1 2 3 demo_disk
                  (component_small 1 ltac:(lia))
                  (component_small 2 ltac:(lia))
                  (component_small 3 ltac:(lia))
                  demo_disk_manifest)).
Defined.

(** ** The version pattern *)

Lemma is_dot_inv (c : ascii) : JS.is_dot c = true -> c = "."%char.
Proof.
  destruct c as [[|] [|] [|] [|] [|] [|] [|] [|]]; simpl;
    first [reflexivity | discriminate].
Qed.

Lemma append_empty_r (s : string) : s ++ EmptyString = s.
Proof. induction s; simpl; congruence. Qed.

Lemma skip_digits_app (a rest : string) :
  JS.all_digits a = true -> starts_with_digit rest = false ->
  VersionManager.skip_digits (a ++ rest) = rest.
Proof.
  intros Ha Hrest. induction a as [|c a IH]; simpl.
  - destruct rest as [|c r]; [reflexivity|].
    simpl in *. rewrite Hrest. reflexivity.
  - simpl in Ha. apply andb_true_iff in Ha as [Hc Ha].
    rewrite Hc. auto.
Qed.

Lemma digits_plus_app (a rest : string) :
  numeral a -> starts_with_digit rest = false ->
  VersionManager.digits_plus (a ++ rest) = Some rest.
Proof.
  intros [Hne Ha] Hrest. destruct a as [|c a]; [congruence|].
  simpl in *. apply andb_true_iff in Ha as [Hc Ha].
  rewrite Hc. f_equal. apply skip_digits_app; assumption.
Qed.

Lemma skip_digits_split (s : string) :
  exists a, JS.all_digits a = true /\ s = a ++ VersionManager.skip_digits s.
Proof.
  induction s as [|c s [a [Ha Hs]]]; simpl.
  - exists EmptyString. split; reflexivity.
  - destruct (JS.is_digit c) eqn:Hc.
    + exists (String c a). simpl. rewrite Hc, Ha. split; [reflexivity|].
      f_equal. exact Hs.
    + exists EmptyString. split; reflexivity.
Qed.

Lemma digits_plus_inv (s rest : string) :
  VersionManager.digits_plus s = Some rest ->
  exists a, numeral a /\ s = a ++ rest.
Proof.
  destruct s as [|c s]; simpl; [discriminate|].
  destruct (JS.is_digit c) eqn:Hc; [|discriminate].
  intros [= <-]. destruct (skip_digits_split s) as [a [Ha Hs]].
  exists (String c a). repeat split.
  - discriminate.
  - simpl. rewrite Hc, Ha. reflexivity.
  - simpl. f_equal. exact Hs.
Qed.

Lemma literal_dot_inv (s rest : string) :
  VersionManager.literal_dot s = Some rest -> s = String "."%char rest.
Proof.
  destruct s as [|c s]; simpl; [discriminate|].
  destruct (JS.is_dot c) eqn:Hc; [|discriminate].
  intros [= <-]. rewrite (is_dot_inv c Hc). reflexivity.
Qed.

Lemma version_pattern_sound (v : string) :
  VersionManager.version_pattern_test v = true -> three_dotted_integers v.
Proof.
  unfold VersionManager.version_pattern_test, VersionManager.then_match.
  destruct (VersionManager.digits_plus v) as [r1|] eqn:H1; [|discriminate].
  destruct (VersionManager.literal_dot r1) as [r2|] eqn:H2; [|discriminate].
  destruct (VersionManager.digits_plus r2) as [r3|] eqn:H3; [|discriminate].
  destruct (VersionManager.literal_dot r3) as [r4|] eqn:H4; [|discriminate].
  destruct (VersionManager.digits_plus r4) as [r5|] eqn:H5; [|discriminate].
  destruct r5; [intros _|discriminate].
  apply digits_plus_inv in H1 as [a [Ha ->]].
  apply literal_dot_inv in H2 as ->.
  apply digits_plus_inv in H3 as [b [Hb ->]].
  apply literal_dot_inv in H4 as ->.
  apply digits_plus_inv in H5 as [c [Hc ->]].
  exists a, b, c. rewrite append_empty_r.
  split; [exact Ha|]. split; [exact Hb|]. split; [exact Hc|]. reflexivity.
Qed.

Lemma version_pattern_complete (v : string) :
  three_dotted_integers v -> VersionManager.version_pattern_test v = true.
Proof.
  intros [a [b [c [Ha [Hb [Hc ->]]]]]].
  unfold VersionManager.version_pattern_test.
  change (a ++ "." ++ b ++ "." ++ c)
    with (a ++ String "."%char (b ++ String "."%char c)).
  rewrite (digits_plus_app a) by (assumption || reflexivity).
  cbn [VersionManager.then_match VersionManager.literal_dot JS.is_dot].
  rewrite (digits_plus_app b) by (assumption || reflexivity).
  cbn [VersionManager.then_match VersionManager.literal_dot JS.is_dot].
  rewrite <- (append_empty_r c).
  rewrite (digits_plus_app c) by (assumption || reflexivity).
  reflexivity.
Qed.
(* ================================================================== *)
(** * Objects as maps                                                  *)
(* ================================================================== *)

Section ObjectFacts.

Context {T : Type}.
Implicit Types (o : Json.object T) (k : string).

Lemma get_set_same o k (x : T) : Json.get (Json.set o k x) k = Some x.
Proof.
  induction o as [|[k' v] o IH]; simpl.
  - rewrite String.eqb_refl. reflexivity.
  - destruct (String.eqb k' k) eqn:E; simpl; rewrite E; auto.
Qed.

Lemma get_set_other o k k' (x : T) :
  k <> k' -> Json.get (Json.set o k x) k' = Json.get o k'.
Proof.
  intros Hne. induction o as [|[k0 v] o IH]; simpl.
  - apply String.eqb_neq in Hne. rewrite Hne. reflexivity.
  - destruct (String.eqb k0 k) eqn:E; simpl.
    + apply String.eqb_eq in E. subst k0.
      apply String.eqb_neq in Hne. rewrite Hne. reflexivity.
    + rewrite IH. reflexivity.
Qed.

Lemma get_update_same o k (f : T -> T) :
  Json.get (Json.update o k f) k = option_map f (Json.get o k).
Proof.
  induction o as [|[k' v] o IH]; simpl; [reflexivity|].
  destruct (String.eqb k' k) eqn:E; simpl; rewrite E; auto.
Qed.

Lemma get_update_other o k k' (f : T -> T) :
  k <> k' -> Json.get (Json.update o k f) k' = Json.get o k'.
Proof.
  intros Hne. induction o as [|[k0 v] o IH]; simpl; [reflexivity|].
  destruct (String.eqb k0 k) eqn:E; simpl.
  - apply String.eqb_eq in E. subst k0.
    apply String.eqb_neq in Hne. rewrite Hne. reflexivity.
  - rewrite IH. reflexivity.
Qed.

Lemma keys_get o k : In k (Json.keys o) <-> Json.get o k <> None.
Proof.
  unfold Json.keys. induction o as [|[k' v] o IH]; simpl.
  - split; [tauto | congruence].
  - destruct (String.eqb k' k) eqn:E.
    + apply String.eqb_eq in E. split; [discriminate | auto].
    + apply String.eqb_neq in E. rewrite <- IH. split; [|auto].
      intros [H|H]; [contradiction | exact H].
Qed.

Lemma get_values o k (x : T) : Json.get o k = Some x -> In x (map snd o).
Proof.
  induction o as [|[k' v] o IH]; simpl; [discriminate|].
  destruct (String.eqb k' k); [intros [= <-]; auto | auto].
Qed.

Lemma keys_update o k (f : T -> T) :
  Json.keys (Json.update o k f) = Json.keys o.
Proof.
  unfold Json.keys. induction o as [|[k' v] o IH]; simpl; [reflexivity|].
  destruct (String.eqb k' k); simpl; congruence.
Qed.

Lemma keys_set_new o k (x : T) :
  Json.get o k = None -> Json.keys (Json.set o k x) = (Json.keys o ++ [k])%list.
Proof.
  unfold Json.keys. induction o as [|[k' v] o IH]; simpl; [reflexivity|].
  destruct (String.eqb k' k); [discriminate|].
  intros H. simpl. rewrite IH by exact H. reflexivity.
Qed.

End ObjectFacts.

Section LookupFacts.

Context {T : Type}.
Implicit Types (o : Json.object T) (k : string).

Lemma lookup_own o k (x : T) :
  Json.get o k = Some x -> Json.lookup o k = Some (Json.Own x).
Proof. intros H. unfold Json.lookup. rewrite H. reflexivity. Qed.

Lemma lookup_missing o k :
  Json.get o k = None ->
  Json.lookup o k
  = if Json.inherited_name k then Some (Json.Inherited k) else None.
Proof. intros H. unfold Json.lookup. rewrite H. reflexivity. Qed.

Lemma lookup_own_inv o k (x : T) :
  Json.lookup o k = Some (Json.Own x) -> Json.get o k = Some x.
Proof.
  unfold Json.lookup. destruct (Json.get o k) as [y|].
  - intros [= ->]. reflexivity.
  - destruct (Json.inherited_name k); discriminate.
Qed.

End LookupFacts.

(* ================================================================== *)
(** * Deployment ledger                                                *)
(* ================================================================== *)

Lemma readJsonFile_none {A : Type} (f : Fs.file A) :
  Fs.readJsonFile f = None
  <-> f = None \/ f = Some Fs.Garbage \/ f = Some (Fs.Document None).
Proof.
  destruct f as [[|[doc|]]|]; unfold Fs.readJsonFile; simpl;
    split; intros H; try reflexivity; try discriminate; auto;
    destruct H as [H|[H|H]]; discriminate.
Qed.

(** C9.  When the deployments document is missing, or is present but does
    not parse, building the tracker yields the empty history: no version,
    and an empty snapshot for each platform.  [construct] is a function:
    it has a result for every state of the disk. *)
Theorem load_falls_back_to_empty :
  forall (d : Disk) (n : nat),
    deployments_json d = None \/ deployments_json d = Some Fs.Garbage ->
    let t := DeploymentTracker.construct d n in
    DeploymentTracker.data t = DeploymentTracker.createEmptyDeploymentHistory
    /\ versions (DeploymentTracker.data t) = []
    /\ (forall pl, DeploymentTracker.getLastConfig t pl = Json.literal [])
    /\ DeploymentTracker.getAllVersions t = []
    /\ DeploymentTracker.disk t = d.
Proof.
  intros d n H t.
  assert (Hdata : DeploymentTracker.data t
                  = DeploymentTracker.createEmptyDeploymentHistory).
  { unfold t, DeploymentTracker.construct, DeploymentTracker.load. simpl.
    destruct H as [-> | ->]; reflexivity. }
  repeat split.
  - exact Hdata.
  - rewrite Hdata. reflexivity.
  - intros pl. unfold DeploymentTracker.getLastConfig. rewrite Hdata.
    destruct pl; reflexivity.
  - unfold DeploymentTracker.getAllVersions. rewrite Hdata. reflexivity.
Qed.

Lemma load_falls_back_to_empty_witness :
  DeploymentTracker.data (DeploymentTracker.construct empty_disk 0)
  = DeploymentTracker.createEmptyDeploymentHistory
  /\ DeploymentTracker.data (DeploymentTracker.construct garbled_disk 0)
     = DeploymentTracker.createEmptyDeploymentHistory.
Proof.
  split.
  - exact (proj1 (load_falls_back_to_empty empty_disk 0 (or_introl eq_refl))).
  - exact (proj1 (load_falls_back_to_empty garbled_disk 0 (or_intror eq_refl))).
Defined.

(** ** What is found under a version *)

Lemma tracked_get (t : DeploymentTracker.Tracker) (v : string) :
  tracked t v <-> Json.get (versions (DeploymentTracker.data t)) v <> None.
Proof. apply keys_get. Qed.

Lemma recordable_dec (t : DeploymentTracker.Tracker) (v : string) :
  {recordable t v} + {~ recordable t v}.
Proof.
  unfold recordable.
  destruct (in_dec String.string_dec v
              (Json.keys (versions (DeploymentTracker.data t)))) as [Hin|Hout].
  - left. left. exact Hin.
  - destruct (Json.inherited_name v) eqn:E.
    + right. intros [H|H]; [exact (Hout H) | discriminate].
    + left. right. reflexivity.
Qed.

(** The three cases of [this.data.versions[version]]. *)
Lemma lookup_version (t : DeploymentTracker.Tracker) (v : string) :
  (exists r, Json.get (versions (DeploymentTracker.data t)) v = Some r
             /\ Json.lookup (versions (DeploymentTracker.data t)) v
                = Some (Json.Own r))
  \/ (Json.get (versions (DeploymentTracker.data t)) v = None
      /\ Json.inherited_name v = false
      /\ Json.lookup (versions (DeploymentTracker.data t)) v = None)
  \/ (Json.get (versions (DeploymentTracker.data t)) v = None
      /\ Json.inherited_name v = true
      /\ Json.lookup (versions (DeploymentTracker.data t)) v
         = Some (Json.Inherited v)).
Proof.
  unfold Json.lookup.
  destruct (Json.get (versions (DeploymentTracker.data t)) v) as [r|].
  - left. eauto.
  - destruct (Json.inherited_name v); [right; right | right; left]; auto.
Qed.

Lemma getVersionStatus_recordable (t : DeploymentTracker.Tracker) (v : string) :
  recordable t v ->
  DeploymentTracker.getVersionStatus t v = Json.Own (record_of t v).
Proof.
  intros Hrec. unfold DeploymentTracker.getVersionStatus, record_of.
  destruct (lookup_version t v)
    as [[r [Hget Hl]] | [[Hget [Hname Hl]] | [Hget [Hname Hl]]]];
    rewrite Hl, Hget; try reflexivity.
  destruct Hrec as [Htr|Hn]; [|congruence].
  apply tracked_get in Htr. contradiction.
Qed.

Lemma getVersionStatus_unrecordable (t : DeploymentTracker.Tracker) (v : string) :
  ~ recordable t v ->
  DeploymentTracker.getVersionStatus t v = Json.Inherited v.
Proof.
  intros Hrec. unfold DeploymentTracker.getVersionStatus.
  destruct (lookup_version t v)
    as [[r [Hget Hl]] | [[Hget [Hname Hl]] | [Hget [Hname Hl]]]];
    rewrite Hl; try reflexivity; exfalso; apply Hrec.
  - left. apply tracked_get. congruence.
  - right. exact Hname.
Qed.


(** ** Sync warnings and missing platforms *)

Lemma otherPlatform_differs (pl : Platform) :
  DeploymentTracker.otherPlatform pl <> pl.
Proof. destruct pl; discriminate. Qed.

(** What [checkSyncWarnings] returns, by the two tests it performs. *)
Lemma checkSyncWarnings_cases (f : string -> string)
      (t : DeploymentTracker.Tracker) (v : string) (pl : Platform) (pr : Profile) :
  recordable t v ->
  let status := record_of t v in
  let other := DeploymentTracker.otherPlatform pl in
  exists ws,
    DeploymentTracker.checkSyncWarnings f t v pl pr = JS.Returns ws
    /\ ((DeploymentTracker.truthy (DeploymentTracker.slot_of status pl pr) = true
         /\ exists m, ws = [ {| message := m; warn_platform := pl;
                                warn_profile := pr |} ])
        \/ (DeploymentTracker.truthy (DeploymentTracker.slot_of status pl pr) = false
            /\ DeploymentTracker.truthy (DeploymentTracker.slot_of status other pr)
               = true
            /\ exists m, ws = [ {| message := m; warn_platform := other;
                                   warn_profile := pr |} ])
        \/ (DeploymentTracker.truthy (DeploymentTracker.slot_of status pl pr) = false
            /\ DeploymentTracker.truthy (DeploymentTracker.slot_of status other pr)
               = false
            /\ ws = [])).
Proof.
  intros Hrec status other. unfold DeploymentTracker.checkSyncWarnings.
  rewrite (getVersionStatus_recordable t v Hrec). fold status. fold other.
  cbn [DeploymentTracker.read_slot JS.bind].
  destruct (DeploymentTracker.truthy (DeploymentTracker.slot_of status pl pr));
    destruct (DeploymentTracker.truthy (DeploymentTracker.slot_of status other pr));
    simpl; eexists; (split; [reflexivity|]); eauto 8.
Qed.

Lemma checkSyncWarnings_unrecordable (f : string -> string)
      (t : DeploymentTracker.Tracker) (v : string) (pl : Platform) (pr : Profile) :
  ~ recordable t v ->
  DeploymentTracker.checkSyncWarnings f t v pl pr = JS.Throws JS.TypeError.
Proof.
  intros Hrec. unfold DeploymentTracker.checkSyncWarnings.
  rewrite (getVersionStatus_unrecordable t v Hrec). reflexivity.
Qed.

(** C1, as the code has it.  For every ledger state and every
    (version, platform, profile), [checkSyncWarnings] returns at most one
    warning: the sibling-platform warning exactly when the sibling is
    deployed and this platform is not, the re-deployment warning exactly
    when this platform is deployed; the two never come together.  The call
    returns for every version that is tracked or does not bear the name of
    a member of [Object.prototype]. *)
Theorem checkSyncWarnings_exclusive :
  forall (f : string -> string) (t : DeploymentTracker.Tracker)
         (v : string) (pl : Platform) (pr : Profile),
    let other := DeploymentTracker.otherPlatform pl in
    (forall ws,
       DeploymentTracker.checkSyncWarnings f t v pl pr = JS.Returns ws ->
       exists status,
         DeploymentTracker.getVersionStatus t v = Json.Own status
         /\ (List.length ws <= 1)%nat
         /\ ((exists w, In w ws /\ warn_platform w = other)
             <-> DeploymentTracker.truthy
                   (DeploymentTracker.slot_of status other pr) = true
                 /\ DeploymentTracker.truthy
                      (DeploymentTracker.slot_of status pl pr) = false)
         /\ ((exists w, In w ws /\ warn_platform w = pl)
             <-> DeploymentTracker.truthy
                   (DeploymentTracker.slot_of status pl pr) = true)
         /\ ~ both_warnings ws pl)
    /\ (recordable t v ->
        exists ws, DeploymentTracker.checkSyncWarnings f t v pl pr = JS.Returns ws).
Proof.
  intros f t v pl pr other.
  pose proof (otherPlatform_differs pl) as Hne. fold other in Hne.
  split.
  2:{ intros Hrec. destruct (checkSyncWarnings_cases f t v pl pr Hrec)
        as [ws [Hws _]]. eauto. }
  intros ws Hret. destruct (recordable_dec t v) as [Hrec|Hrec].
  2:{ rewrite (checkSyncWarnings_unrecordable f t v pl pr Hrec) in Hret.
      discriminate. }
  exists (record_of t v).
  split; [apply getVersionStatus_recordable; exact Hrec|].
  destruct (checkSyncWarnings_cases f t v pl pr Hrec) as [ws' [Hws' Hcases]].
  rewrite Hws' in Hret. injection Hret as <-. fold other in Hcases.
  unfold both_warnings. fold other.
  destruct Hcases
    as [[Hthis [m ->]] | [[Hthis [Hother [m ->]]] | [Hthis [Hother ->]]]].
  - split; [simpl; lia|]. split; [|split].
    + split.
      * intros [w [[<-|[]] Hw]]. simpl in Hw. congruence.
      * intros [_ H]. congruence.
    + split; [auto|]. intros _. eexists. split; [left; reflexivity|reflexivity].
    + intros [[w [[<-|[]] Hw]] _]. simpl in Hw. congruence.
  - split; [simpl; lia|]. split; [|split].
    + split; [auto|]. intros _. eexists. split; [left; reflexivity|reflexivity].
    + split.
      * intros [w [[<-|[]] Hw]]. simpl in Hw. congruence.
      * congruence.
    + intros [_ [w [[<-|[]] Hw]]]. simpl in Hw. congruence.
  - split; [simpl; lia|]. split; [|split].
    + split; [intros [w [[] _]] | intros [H _]; congruence].
    + split; [intros [w [[] _]] | congruence].
    + intros [[w [[] _]] _].
Qed.

Lemma checkSyncWarnings_exclusive_witness :
  exists ws,
    DeploymentTracker.checkSyncWarnings (fun iso => iso)
      (record_one sample_time "1.0.0" ios preview fresh_tracker)
      "1.0.0" android preview
    = JS.Returns ws.
Proof.
  apply (proj2 (checkSyncWarnings_exclusive (fun iso => iso)
                  (record_one sample_time "1.0.0" ios preview fresh_tracker)
                  "1.0.0" android preview)).
  right. reflexivity.
Defined.

(** C1, as stated, fails: no ledger state and no arguments make
    [checkSyncWarnings] return both warnings in one call. *)
Lemma checkSyncWarnings_both_impossible :
  ~ exists (f : string -> string) (t : DeploymentTracker.Tracker)
           (v : string) (pl : Platform) (pr : Profile) (ws : list SyncWarning),
      DeploymentTracker.checkSyncWarnings f t v pl pr = JS.Returns ws
      /\ both_warnings ws pl.
Proof.
  intros [f [t [v [pl [pr [ws [Hret [[w1 [Hin1 Hw1]] [w2 [Hin2 Hw2]]]]]]]]]].
  pose proof (otherPlatform_differs pl) as Hne.
  destruct (recordable_dec t v) as [Hrec|Hrec].
  2:{ rewrite (checkSyncWarnings_unrecordable f t v pl pr Hrec) in Hret.
      discriminate. }
  destruct (checkSyncWarnings_cases f t v pl pr Hrec) as [ws' [Hws' Hcases]].
  rewrite Hws' in Hret. injection Hret as <-.
  destruct Hcases as [[_ [m ->]] | [[_ [_ [m ->]]] | [_ [_ ->]]]].
  - destruct Hin1 as [<-|[]]. simpl in Hw1. congruence.
  - destruct Hin2 as [<-|[]]. simpl in Hw2. congruence.
  - destruct Hin1.
Qed.

Lemma getMissingPlatforms_cases (t : DeploymentTracker.Tracker)
      (v : string) (pr : Profile) :
  recordable t v ->
  let status := record_of t v in
  DeploymentTracker.getMissingPlatforms t v pr
  = JS.Returns
      match DeploymentTracker.truthy (DeploymentTracker.slot_of status ios pr),
            DeploymentTracker.truthy (DeploymentTracker.slot_of status android pr) with
      | false, true => [ios]
      | true, false => [android]
      | _, _ => []
      end.
Proof.
  intros Hrec status. unfold DeploymentTracker.getMissingPlatforms.
  rewrite (getVersionStatus_recordable t v Hrec). fold status.
  unfold DeploymentTracker.lacks_and_has.
  cbn [DeploymentTracker.read_slot JS.bind].
  destruct (DeploymentTracker.truthy (DeploymentTracker.slot_of status ios pr));
    destruct (DeploymentTracker.truthy
                (DeploymentTracker.slot_of status android pr));
    reflexivity.
Qed.

Lemma getMissingPlatforms_unrecordable (t : DeploymentTracker.Tracker)
      (v : string) (pr : Profile) :
  ~ recordable t v ->
  DeploymentTracker.getMissingPlatforms t v pr = JS.Throws JS.TypeError.
Proof.
  intros Hrec. unfold DeploymentTracker.getMissingPlatforms.
  rewrite (getVersionStatus_unrecordable t v Hrec). reflexivity.
Qed.

Lemma truthy_has_timestamp (t : DeploymentTracker.Tracker) (v : string)
      (pl : Platform) (pr : Profile) :
  well_stamped t ->
  DeploymentTracker.truthy (DeploymentTracker.slot_of (record_of t v) pl pr)
  = has_timestamp (DeploymentTracker.slot_of (record_of t v) pl pr).
Proof.
  intros Hwell. unfold record_of.
  destruct (Json.get (versions (DeploymentTracker.data t)) v) as [r|] eqn:Hget.
  - cbn [JS.nullish]. specialize (Hwell v r pl pr Hget).
    destruct (DeploymentTracker.slot_of r pl pr) as [| |[|c iso]];
      try reflexivity. exfalso. apply Hwell. reflexivity.
  - destruct pl, pr; reflexivity.
Qed.

(** The platforms [getMissingPlatforms] lists, for a record [status]. *)
Lemma missing_iff (status : DeploymentRecord) (pr : Profile) (P : Platform) :
  In P match DeploymentTracker.truthy (DeploymentTracker.slot_of status ios pr),
             DeploymentTracker.truthy (DeploymentTracker.slot_of status android pr) with
       | false, true => [ios]
       | true, false => [android]
       | _, _ => []
       end
  <-> DeploymentTracker.truthy
        (DeploymentTracker.slot_of status (DeploymentTracker.otherPlatform P) pr) = true
      /\ DeploymentTracker.truthy (DeploymentTracker.slot_of status P pr) = false.
Proof.
  destruct P; cbv [DeploymentTracker.otherPlatform Platform_eqb];
    destruct (DeploymentTracker.truthy (DeploymentTracker.slot_of status ios pr));
    destruct (DeploymentTracker.truthy (DeploymentTracker.slot_of status android pr));
    simpl; intuition congruence.
Qed.

(** C4, as stated, fails.  In a ledger read from a file in which ios
    holds the empty text as preview timestamp of version 1.0.0 and android
    a proper one, ios has a timestamp that is not [null] and is returned
    all the same.  And for the untracked version ["constructor"], for which
    neither platform has a timestamp, the call throws instead of returning
    the empty sequence. *)
Lemma getMissingPlatforms_blank_stamp :
  has_timestamp
    (DeploymentTracker.slot_of
       (record_of (DeploymentTracker.construct blank_stamp_disk 0) "1.0.0")
       ios preview) = true
  /\ DeploymentTracker.getVersionStatus
       (DeploymentTracker.construct blank_stamp_disk 0) "1.0.0"
     = Json.Own (record_of (DeploymentTracker.construct blank_stamp_disk 0) "1.0.0")
  /\ DeploymentTracker.getMissingPlatforms
       (DeploymentTracker.construct blank_stamp_disk 0) "1.0.0" preview
     = JS.Returns [ios]
  /\ ~ tracked fresh_tracker "constructor"
  /\ DeploymentTracker.getMissingPlatforms fresh_tracker "constructor" preview
     = JS.Throws JS.TypeError.
Proof.
  split; [reflexivity|]. split; [reflexivity|]. split; [reflexivity|].
  split; [intros []|reflexivity].
Qed.

(** C4, as the code has it.  For a version that is tracked, or whose text
    is not the name of a member of [Object.prototype],
    [getMissingPlatforms] returns platform [P] exactly when the other
    platform is deployed for (version, profile) and [P] is not.  Deployed
    is what the code tests (a non-empty timestamp text), which on a ledger
    whose timestamps are non-empty is the same as holding a timestamp at
    all, neither [null] nor missing.  When neither platform is deployed the
    result is empty, and a platform that is deployed is never returned.
    After a single [updateStatus] for ios the result holds android and not
    ios; after one for each platform it is empty. *)
Theorem getMissingPlatforms_spec :
  (forall (t : DeploymentTracker.Tracker) (v : string) (pr : Profile),
     recordable t v ->
     let status := record_of t v in
     exists missing,
       DeploymentTracker.getVersionStatus t v = Json.Own status
       /\ DeploymentTracker.getMissingPlatforms t v pr = JS.Returns missing
       /\ (forall P,
             In P missing
             <-> DeploymentTracker.truthy
                   (DeploymentTracker.slot_of status
                      (DeploymentTracker.otherPlatform P) pr) = true
                 /\ DeploymentTracker.truthy
                      (DeploymentTracker.slot_of status P pr) = false)
       /\ (well_stamped t ->
           forall P,
             In P missing
             <-> has_timestamp
                   (DeploymentTracker.slot_of status
                      (DeploymentTracker.otherPlatform P) pr) = true
                 /\ has_timestamp (DeploymentTracker.slot_of status P pr) = false)
       /\ (DeploymentTracker.truthy (DeploymentTracker.slot_of status ios pr)
           = false ->
           DeploymentTracker.truthy (DeploymentTracker.slot_of status android pr)
           = false ->
           missing = [])
       /\ (forall P,
             DeploymentTracker.truthy (DeploymentTracker.slot_of status P pr) = true ->
             ~ In P missing)
       /\ (forall P,
             has_timestamp (DeploymentTracker.slot_of status P pr) = true ->
             well_stamped t -> ~ In P missing))
  /\ DeploymentTracker.getMissingPlatforms
       (record_one sample_time "1.0.0" ios preview fresh_tracker)
       "1.0.0" preview = JS.Returns [android]
  /\ DeploymentTracker.getMissingPlatforms
       (record_one sample_time "1.0.0" android preview
          (record_one sample_time "1.0.0" ios preview fresh_tracker))
       "1.0.0" preview = JS.Returns [].
Proof.
  split; [|split; reflexivity].
  intros t v pr Hrec status.
  eexists. split; [apply getVersionStatus_recordable; exact Hrec|].
  split; [apply getMissingPlatforms_cases; exact Hrec|]. fold status.
  split; [|split; [|split; [|split]]].
  - intros P. apply missing_iff.
  - intros Hwell P. unfold status.
    rewrite <- !(truthy_has_timestamp t v) by exact Hwell. apply missing_iff.
  - intros Hi Ha. rewrite Hi, Ha. reflexivity.
  - intros P HP Hin. apply missing_iff in Hin.
    destruct Hin as [_ Hin]. congruence.
  - intros P HP Hwell Hin. apply missing_iff in Hin. destruct Hin as [_ Hin].
    unfold status in *.
    rewrite (truthy_has_timestamp t v P pr Hwell) in Hin. congruence.
Qed.

(** ** Recording a deployment *)

Lemma slot_of_set_slot_same (r : DeploymentRecord) (pl : Platform)
      (pr : Profile) (x : Slot) :
  DeploymentTracker.slot_of (DeploymentTracker.set_slot r pl pr x) pl pr = x.
Proof. destruct pl, pr; reflexivity. Qed.

Lemma slot_of_set_slot_cases (r : DeploymentRecord) (pl pl' : Platform)
      (pr pr' : Profile) (x : Slot) :
  DeploymentTracker.slot_of (DeploymentTracker.set_slot r pl pr x) pl' pr' = x
  \/ DeploymentTracker.slot_of (DeploymentTracker.set_slot r pl pr x) pl' pr'
     = DeploymentTracker.slot_of r pl' pr'.
Proof. destruct pl, pr, pl', pr'; auto. Qed.

Lemma update_as_set {T : Type} (o : Json.object T) (k : string) (f : T -> T)
      (x : T) :
  Json.get o k = Some x -> Json.update o k f = Json.set o k (f x).
Proof.
  induction o as [|[k' y] o IH]; simpl; [discriminate|].
  destruct (String.eqb k' k).
  - intros [= ->]. reflexivity.
  - intros H. rewrite IH by exact H. reflexivity.
Qed.

Lemma update_set_new {T : Type} (o : Json.object T) (k : string) (f : T -> T)
      (x : T) :
  Json.get o k = None -> Json.update (Json.set o k x) k f = Json.set o k (f x).
Proof.
  induction o as [|[k' y] o IH]; simpl.
  - rewrite String.eqb_refl. reflexivity.
  - destruct (String.eqb k' k) eqn:E; [discriminate|].
    intros H. simpl. rewrite E, IH by exact H. reflexivity.
Qed.

(** The tracker [updateStatus] leaves behind when it returns: the record of
    the version, with the slot stamped, is set in the ledger, which is then
    saved. *)
Lemma updateStatus_recordable (now v : string) (pl : Platform) (pr : Profile)
      (t : DeploymentTracker.Tracker) :
  recordable t v ->
  DeploymentTracker.updateStatus now v pl pr t
  = (JS.Returns tt,
     DeploymentTracker.save
       (DeploymentTracker.with_versions t
          (Json.set (versions (DeploymentTracker.data t)) v
             (DeploymentTracker.set_slot (record_of t v) pl pr (Stamp now))))).
Proof.
  intros Hrec. unfold DeploymentTracker.updateStatus, record_of.
  destruct (lookup_version t v)
    as [[r [Hget Hl]] | [[Hget [Hname Hl]] | [Hget [Hname Hl]]]].
  - rewrite Hl. cbn [DeploymentTracker.found negb]. rewrite Hl, Hget.
    cbn [JS.nullish]. rewrite (update_as_set _ _ _ r Hget). reflexivity.
  - rewrite Hl. cbn [DeploymentTracker.found negb].
    cbn [DeploymentTracker.with_versions DeploymentTracker.with_data
         DeploymentTracker.data versions].
    rewrite (lookup_own _ _ _ (get_set_same _ _ _)), Hget. cbn [JS.nullish].
    rewrite update_set_new by exact Hget. reflexivity.
  - exfalso. destruct Hrec as [Htr|Hn]; [|congruence].
    apply tracked_get in Htr. contradiction.
Qed.

Lemma updateStatus_unrecordable (now v : string) (pl : Platform) (pr : Profile)
      (t : DeploymentTracker.Tracker) :
  ~ recordable t v ->
  DeploymentTracker.updateStatus now v pl pr t = (JS.Throws JS.TypeError, t).
Proof.
  intros Hrec. unfold DeploymentTracker.updateStatus.
  destruct (lookup_version t v)
    as [[r [Hget Hl]] | [[Hget [Hname Hl]] | [Hget [Hname Hl]]]].
  - exfalso. apply Hrec. left. apply tracked_get. congruence.
  - exfalso. apply Hrec. right. exact Hname.
  - rewrite Hl. cbn [DeploymentTracker.found negb]. rewrite Hl. reflexivity.
Qed.

Lemma versions_record_one (now v : string) (pl : Platform) (pr : Profile)
      (t : DeploymentTracker.Tracker) :
  versions (DeploymentTracker.data (record_one now v pl pr t))
  = if recordable_dec t v
    then Json.set (versions (DeploymentTracker.data t)) v
           (DeploymentTracker.set_slot (record_of t v) pl pr (Stamp now))
    else versions (DeploymentTracker.data t).
Proof.
  unfold record_one. destruct (recordable_dec t v) as [Hrec|Hrec].
  - rewrite (updateStatus_recordable now v pl pr t Hrec). reflexivity.
  - rewrite (updateStatus_unrecordable now v pl pr t Hrec). reflexivity.
Qed.

Lemma get_record_one_same (now v : string) (pl : Platform) (pr : Profile)
      (t : DeploymentTracker.Tracker) :
  recordable t v ->
  Json.get (versions (DeploymentTracker.data (record_one now v pl pr t))) v
  = Some (DeploymentTracker.set_slot (record_of t v) pl pr (Stamp now)).
Proof.
  intros Hrec. rewrite versions_record_one.
  destruct (recordable_dec t v); [apply get_set_same | contradiction].
Qed.

Lemma get_record_one_other (now v u : string) (pl : Platform) (pr : Profile)
      (t : DeploymentTracker.Tracker) :
  v <> u ->
  Json.get (versions (DeploymentTracker.data (record_one now v pl pr t))) u
  = Json.get (versions (DeploymentTracker.data t)) u.
Proof.
  intros Hne. rewrite versions_record_one.
  destruct (recordable_dec t v); [apply get_set_other; exact Hne | reflexivity].
Qed.

Lemma record_of_record_one_same (now v : string) (pl : Platform) (pr : Profile)
      (t : DeploymentTracker.Tracker) :
  recordable t v ->
  record_of (record_one now v pl pr t) v
  = DeploymentTracker.set_slot (record_of t v) pl pr (Stamp now).
Proof.
  intros Hrec. unfold record_of at 1.
  rewrite (get_record_one_same now v pl pr t Hrec). reflexivity.
Qed.

Lemma record_of_record_one_other (now v u : string) (pl : Platform)
      (pr : Profile) (t : DeploymentTracker.Tracker) :
  v <> u -> record_of (record_one now v pl pr t) u = record_of t u.
Proof.
  intros Hne. unfold record_of.
  rewrite (get_record_one_other now v u pl pr t Hne). reflexivity.
Qed.

Lemma tracked_record_one (now v u : string) (pl : Platform) (pr : Profile)
      (t : DeploymentTracker.Tracker) :
  tracked (record_one now v pl pr t) u
  <-> tracked t u \/ (u = v /\ recordable t v).
Proof.
  rewrite !tracked_get. destruct (String.string_dec v u) as [<-|Hne].
  - destruct (recordable_dec t v) as [Hrec|Hrec].
    + rewrite (get_record_one_same now v pl pr t Hrec).
      split; [auto | discriminate].
    + unfold record_one.
      rewrite (updateStatus_unrecordable now v pl pr t Hrec). cbn [snd].
      split; [auto|]. intros [H|[_ H]]; [exact H | contradiction].
  - rewrite (get_record_one_other now v u pl pr t Hne).
    split; [auto|]. intros [H|[H _]]; [exact H | congruence].
Qed.

(** ** The ledger invariant *)











(** ** Timestamps stay non-empty *)

Lemma well_stamped_empty (t : DeploymentTracker.Tracker) :
  versions (DeploymentTracker.data t) = [] -> well_stamped t.
Proof. intros Hnil v r pl pr. rewrite Hnil. discriminate. Qed.

Lemma well_stamped_record_one (now v : string) (pl : Platform) (pr : Profile)
      (t : DeploymentTracker.Tracker) :
  now <> EmptyString -> well_stamped t ->
  well_stamped (record_one now v pl pr t).
Proof.
  intros Hnow Hwell u r pl' pr' Hget.
  destruct (String.string_dec v u) as [<-|Hne].
  - destruct (recordable_dec t v) as [Hrec|Hrec].
    + rewrite (get_record_one_same now v pl pr t Hrec) in Hget.
      injection Hget as <-.
      destruct (slot_of_set_slot_cases (record_of t v) pl pl' pr pr' (Stamp now))
        as [-> | ->]; [congruence|].
      unfold record_of.
      destruct (Json.get (versions (DeploymentTracker.data t)) v) as [r|] eqn:Hold.
      * apply (Hwell v r pl' pr' Hold).
      * destruct pl', pr'; discriminate.
    + unfold record_one in Hget.
      rewrite (updateStatus_unrecordable now v pl pr t Hrec) in Hget.
      apply (Hwell v r pl' pr' Hget).
  - rewrite get_record_one_other in Hget by exact Hne.
    apply (Hwell u r pl' pr' Hget).
Qed.

Lemma getMissingPlatforms_spec_witness :
  exists missing,
    DeploymentTracker.getMissingPlatforms
      (record_one sample_time "1.0.0" ios preview fresh_tracker)
      "1.0.0" preview = JS.Returns missing
    /\ (In android missing
        <-> has_timestamp
              (DeploymentTracker.slot_of
                 (record_of
                    (record_one sample_time "1.0.0" ios preview fresh_tracker)
                    "1.0.0")
                 ios preview) = true
            /\ has_timestamp
                 (DeploymentTracker.slot_of
                    (record_of
                       (record_one sample_time "1.0.0" ios preview fresh_tracker)
                       "1.0.0")
                    android preview) = false).
Proof.
  destruct (proj1 getMissingPlatforms_spec
              (record_one sample_time "1.0.0" ios preview fresh_tracker)
              "1.0.0" preview (or_intror eq_refl))
    as [missing [_ [Hret [_ [Hstamped _]]]]].
  exists missing. split; [exact Hret|].
  apply (Hstamped
           (well_stamped_record_one sample_time "1.0.0" ios preview fresh_tracker
              ltac:(discriminate) (well_stamped_empty fresh_tracker eq_refl))
           android).
Defined.

(** ** Validation of the version text *)


(** What [setVersion] does, by the shape of its argument and the state of
    [app.json]. *)
Lemma setVersion_cases (v : string) (d : Disk) :
  (~ three_dotted_integers v ->
     VersionManager.setVersion v d
     = (JS.Throws (VersionManager.InvalidFormat v), d))
  /\ (three_dotted_integers v -> lacks_expo d = false ->
        exists d', VersionManager.setVersion v d = (JS.Returns v, d')
                   /\ VersionManager.write_both v d = (JS.Returns tt, d'))
  /\ (three_dotted_integers v -> lacks_expo d = true ->
        VersionManager.setVersion v d = (JS.Throws JS.TypeError, d)).
Proof.
  unfold VersionManager.setVersion. split; [|split].
  - intros Hno.
    destruct (VersionManager.version_pattern_test v) eqn:Htest; [|reflexivity].
    exfalso. apply Hno, version_pattern_sound, Htest.
  - intros Hshape Hexpo. rewrite (version_pattern_complete v Hshape). cbn [negb].
    destruct (write_both_returns v d Hexpo) as [d' Hw]. rewrite Hw. eauto.
  - intros Hshape Hexpo. rewrite (version_pattern_complete v Hshape). cbn [negb].
    rewrite (write_both_throws v d Hexpo). reflexivity.
Qed.









(** ** Comparison *)

Lemma nth_error_firstn_lt {A : Type} (l : list A) (n i : nat) :
  (i < n)%nat -> nth_error (firstn n l) i = nth_error l i.
Proof.
  revert l i. induction n as [|n IH]; intros l i Hi; [lia|].
  destruct l as [|x l]; [reflexivity|].
  destruct i as [|i]; [reflexivity|]. simpl. apply IH. lia.
Qed.

Lemma compare_loop_ext (aParts aParts' bParts bParts' : list JS.number)
                       (todo i : nat) :
  (forall j, (i <= j < i + todo)%nat ->
             nth_error aParts j = nth_error aParts' j
             /\ nth_error bParts j = nth_error bParts' j) ->
  VersionManager.compare_loop aParts bParts i todo
  = VersionManager.compare_loop aParts' bParts' i todo.
Proof.
  revert i. induction todo as [|todo IH]; intros i H; [reflexivity|].
  simpl. destruct (H i ltac:(lia)) as [-> ->].
  rewrite (IH (S i)) by (intros j Hj; apply H; lia). reflexivity.
Qed.

Lemma number_parts_firstn (a a' : string) (j : nat) :
  firstn 3 (JS.split_dot a) = firstn 3 (JS.split_dot a') ->
  (j < 3)%nat ->
  nth_error (map JS.Number (JS.split_dot a)) j
  = nth_error (map JS.Number (JS.split_dot a')) j.
Proof.
  intros H Hj.
  rewrite <- (nth_error_firstn_lt (map JS.Number (JS.split_dot a)) 3 j Hj).
  rewrite <- (nth_error_firstn_lt (map JS.Number (JS.split_dot a')) 3 j Hj).
  rewrite !firstn_map, H. reflexivity.
Qed.

Lemma compareVersions_firstn (a a' b b' : string) :
  firstn 3 (JS.split_dot a) = firstn 3 (JS.split_dot a') ->
  firstn 3 (JS.split_dot b) = firstn 3 (JS.split_dot b') ->
  VersionManager.compareVersions a b = VersionManager.compareVersions a' b'.
Proof.
  intros Ha Hb. unfold VersionManager.compareVersions.
  apply compare_loop_ext. intros j Hj.
  split; apply number_parts_firstn; (assumption || lia).
Qed.

Lemma lt_same (z : Z) : JS.lt (JS.Num z) (JS.Num z) = false.
Proof. simpl. apply Z.ltb_irrefl. Qed.

Lemma compareVersions_equal_parts (a b : string) :
  (forall i, (i < 3)%nat -> exists z, part a i = JS.Num z /\ part b i = JS.Num z) ->
  VersionManager.compareVersions a b = 0.
Proof.
  intros H. unfold VersionManager.compareVersions. unfold part in H.
  destruct (H 0%nat ltac:(lia)) as [z0 [Ha0 Hb0]].
  destruct (H 1%nat ltac:(lia)) as [z1 [Ha1 Hb1]].
  destruct (H 2%nat ltac:(lia)) as [z2 [Ha2 Hb2]].
  cbn [VersionManager.compare_loop].
  rewrite Ha0, Hb0, Ha1, Hb1, Ha2, Hb2.
  unfold JS.gt. rewrite !lt_same. reflexivity.
Qed.

(** C10.  [compareVersions] and [isNewerVersion] read only the first three
    dot-separated parts of their arguments: when those parts are numerically
    equal the result is [0] (and not newer) even if further parts follow, as
    for ["1.0.0.9"] against ["1.0.0"], and replacing either argument by one
    with the same first three parts never changes the result; [setVersion]
    rejects such a four-part string all the same. *)
Theorem compareVersions_ignores_extra_parts :
  (forall a b : string,
     (forall i, (i < 3)%nat ->
                exists z, part a i = JS.Num z /\ part b i = JS.Num z) ->
     VersionManager.compareVersions a b = 0
     /\ VersionManager.isNewerVersion a b = false)
  /\ (forall a a' b b' : string,
        firstn 3 (JS.split_dot a) = firstn 3 (JS.split_dot a') ->
        firstn 3 (JS.split_dot b) = firstn 3 (JS.split_dot b') ->
        VersionManager.compareVersions a b = VersionManager.compareVersions a' b'
        /\ VersionManager.isNewerVersion a b = VersionManager.isNewerVersion a' b')
  /\ VersionManager.compareVersions "1.0.0.9" "1.0.0" = 0
  /\ VersionManager.isNewerVersion "1.0.0.9" "1.0.0" = false
  /\ (forall d : Disk,
        VersionManager.setVersion "1.0.0.9" d
        = (JS.Throws (VersionManager.InvalidFormat "1.0.0.9"), d)).
Proof.
  split; [|split; [|repeat split]].
  - intros a b H. unfold VersionManager.isNewerVersion.
    rewrite (compareVersions_equal_parts a b H). split; reflexivity.
  - intros a a' b b' Ha Hb. unfold VersionManager.isNewerVersion.
    rewrite (compareVersions_firstn a a' b b' Ha Hb). split; reflexivity.
Qed.

Lemma compareVersions_ignores_extra_parts_witness :
  (VersionManager.compareVersions "1.0.0.9" "1.0.0" = 0
   /\ VersionManager.isNewerVersion "1.0.0.9" "1.0.0" = false)
  /\ (VersionManager.compareVersions "2.1.0.7.5" "2.0.9"
      = VersionManager.compareVersions "2.1.0" "2.0.9.beta"
      /\ VersionManager.isNewerVersion "2.1.0.7.5" "2.0.9"
         = VersionManager.isNewerVersion "2.1.0" "2.0.9.beta").
Proof.
  split.
  - apply (proj1 compareVersions_ignores_extra_parts "1.0.0.9" "1.0.0").
    intros i Hi.
    destruct i as [|[|[|i]]]; [exists 1 | exists 0 | exists 0 | lia];
      split; reflexivity.
  - apply (proj1 (proj2 compareVersions_ignores_extra_parts)
             "2.1.0.7.5" "2.1.0" "2.0.9" "2.0.9.beta"); reflexivity.
Defined.

(** ** Listing the versions, newest first *)

Section SortFacts.

Context {A : Type} (compareFn : A -> A -> JS.number).

Lemma run_tail_app (descending : bool) (prev : A) (l : list A) :
  (fst (JS.run_tail compareFn descending prev l)
   ++ snd (JS.run_tail compareFn descending prev l))%list = l.
Proof.
  revert prev. induction l as [|cur rest IH]; intros prev; [reflexivity|].
  cbn [JS.run_tail].
  destruct (if descending then JS.order compareFn cur prev <? 0
            else 0 <=? JS.order compareFn cur prev); [|reflexivity].
  specialize (IH cur).
  destruct (JS.run_tail compareFn descending cur rest) as [run others].
  cbn [fst snd] in *. simpl. f_equal. exact IH.
Qed.

Lemma count_and_make_run_perm (l : list A) :
  Permutation (fst (JS.count_and_make_run compareFn l)
               ++ snd (JS.count_and_make_run compareFn l)) l.
Proof.
  destruct l as [|x0 [|x1 rest]];
    [apply Permutation_refl | apply Permutation_refl |].
  cbn [JS.count_and_make_run].
  pose proof (run_tail_app (JS.order compareFn x1 x0 <? 0) x1 rest) as Happ.
  destruct (JS.run_tail compareFn (JS.order compareFn x1 x0 <? 0) x1 rest)
    as [run others].
  cbn [fst snd] in *. rewrite <- Happ.
  destruct (JS.order compareFn x1 x0 <? 0).
  - change (x0 :: x1 :: run ++ others)%list
      with ((x0 :: x1 :: run) ++ others)%list.
    apply Permutation_app_tail. apply Permutation_sym, Permutation_rev.
  - apply Permutation_refl.
Qed.

Lemma binary_insert_perm (sorted : list A) (pivot : A) :
  Permutation (JS.binary_insert compareFn sorted pivot) (pivot :: sorted).
Proof.
  unfold JS.binary_insert.
  set (n := JS.search compareFn _ pivot sorted 0 _).
  rewrite <- (firstn_skipn n sorted) at 3.
  apply Permutation_sym, Permutation_middle.
Qed.

Lemma fold_binary_insert_perm (others run : list A) :
  Permutation (fold_left (JS.binary_insert compareFn) others run)
              (run ++ others).
Proof.
  revert run. induction others as [|x others IH]; intros run; simpl.
  - rewrite app_nil_r. apply Permutation_refl.
  - eapply Permutation_trans; [apply IH|].
    eapply Permutation_trans;
      [apply Permutation_app_tail, binary_insert_perm|].
    simpl. apply Permutation_middle.
Qed.

Lemma Array_sort_perm (l : list A) : Permutation (JS.Array_sort compareFn l) l.
Proof.
  unfold JS.Array_sort.
  pose proof (count_and_make_run_perm l) as H.
  destruct (JS.count_and_make_run compareFn l) as [run others].
  eapply Permutation_trans; [apply fold_binary_insert_perm | exact H].
Qed.

(** When the comparator agrees with an order [before] on the elements
    ([keep]) of the array, the result is sorted by that order. *)
Variable keep : A -> Prop.
Variable before : A -> A -> Prop.
Hypothesis before_trans :
  forall x y z, keep x -> keep y -> keep z ->
                before x y -> before y z -> before x z.
Hypothesis goes_first :
  forall x y, keep x -> keep y -> JS.order compareFn x y < 0 -> before x y.
Hypothesis may_follow :
  forall x y, keep x -> keep y -> 0 <= JS.order compareFn x y -> before y x.

Lemma chain_sorted (l : list A) :
  Forall keep l -> Sorted before l -> StronglySorted before l.
Proof.
  intros Hk Hs. induction Hs as [|x l Hs IH Hhd]; [constructor|].
  inversion Hk as [|? ? Hx Hl]; subst.
  specialize (IH Hl). constructor; [exact IH|].
  destruct Hhd as [|y l Hxy]; [constructor|].
  inversion IH as [|? ? _ Hy]; subst. inversion Hl as [|? ? Hky Hkl]; subst.
  constructor; [exact Hxy|].
  rewrite Forall_forall in *. intros z Hz.
  apply (before_trans x y z); auto.
Qed.

Lemma sorted_snoc (R : A -> A -> Prop) (l : list A) (x y : A) :
  Sorted R (l ++ [x]) -> R x y -> Sorted R ((l ++ [x]) ++ [y]).
Proof.
  intros Hs Hxy. induction l as [|a l IH]; simpl in *.
  - repeat constructor. exact Hxy.
  - inversion Hs as [|? ? Hs' Hhd]; subst. constructor; [apply IH; exact Hs'|].
    destruct l; simpl in *; inversion Hhd; subst; constructor; assumption.
Qed.

Lemma sorted_rev (R : A -> A -> Prop) (l : list A) :
  Sorted (fun a b => R b a) l -> Sorted R (List.rev l).
Proof.
  intros Hs. induction Hs as [|x l Hs IH Hhd]; [constructor|].
  simpl. destruct Hhd as [|y l Hyx].
  - repeat constructor.
  - simpl in *. apply sorted_snoc; assumption.
Qed.

Lemma run_tail_keep (descending : bool) (prev : A) (l : list A) :
  Forall keep l ->
  Forall keep (fst (JS.run_tail compareFn descending prev l))
  /\ Forall keep (snd (JS.run_tail compareFn descending prev l)).
Proof.
  intros Hl. rewrite <- (run_tail_app descending prev l) in Hl.
  apply Forall_app in Hl. exact Hl.
Qed.

Lemma run_tail_ascending (prev : A) (l : list A) :
  keep prev -> Forall keep l ->
  Sorted before (prev :: fst (JS.run_tail compareFn false prev l)).
Proof.
  revert prev. induction l as [|cur rest IH]; intros prev Hp Hl.
  - repeat constructor.
  - inversion Hl as [|? ? Hc Hr]; subst. cbn [JS.run_tail].
    destruct (0 <=? JS.order compareFn cur prev) eqn:E.
    + specialize (IH cur Hc Hr).
      destruct (JS.run_tail compareFn false cur rest) as [run others].
      cbn [fst] in *. constructor; [exact IH|]. constructor.
      apply may_follow; [assumption | assumption | lia].
    + repeat constructor.
Qed.

Lemma run_tail_descending (prev : A) (l : list A) :
  keep prev -> Forall keep l ->
  Sorted (fun a b => before b a)
         (prev :: fst (JS.run_tail compareFn true prev l)).
Proof.
  revert prev. induction l as [|cur rest IH]; intros prev Hp Hl.
  - repeat constructor.
  - inversion Hl as [|? ? Hc Hr]; subst. cbn [JS.run_tail].
    destruct (JS.order compareFn cur prev <? 0) eqn:E.
    + specialize (IH cur Hc Hr).
      destruct (JS.run_tail compareFn true cur rest) as [run others].
      cbn [fst] in *. constructor; [exact IH|]. constructor.
      apply goes_first; [assumption | assumption | lia].
    + repeat constructor.
Qed.

Lemma count_and_make_run_sorted (l : list A) :
  Forall keep l ->
  StronglySorted before (fst (JS.count_and_make_run compareFn l))
  /\ Forall keep (fst (JS.count_and_make_run compareFn l))
  /\ Forall keep (snd (JS.count_and_make_run compareFn l)).
Proof.
  intros Hl.
  assert (Hkeep : Forall keep (fst (JS.count_and_make_run compareFn l))
                  /\ Forall keep (snd (JS.count_and_make_run compareFn l))).
  { apply Forall_app.
    apply (Permutation_Forall (Permutation_sym (count_and_make_run_perm l))).
    exact Hl. }
  split; [|exact Hkeep]. destruct Hkeep as [Hrun _].
  apply chain_sorted; [exact Hrun|]. clear Hrun.
  destruct l as [|x0 [|x1 rest]]; [constructor | repeat constructor |].
  inversion Hl as [|? ? H0 Hl1]; subst. inversion Hl1 as [|? ? H1 Hr]; subst.
  cbn [JS.count_and_make_run].
  pose proof (run_tail_ascending x1 rest H1 Hr) as Hasc.
  pose proof (run_tail_descending x1 rest H1 Hr) as Hdesc.
  destruct (JS.order compareFn x1 x0 <? 0) eqn:E.
  - destruct (JS.run_tail compareFn true x1 rest) as [run others].
    cbn [fst] in *. apply sorted_rev.
    constructor; [exact Hdesc|]. constructor.
    apply goes_first; [assumption | assumption | lia].
  - destruct (JS.run_tail compareFn false x1 rest) as [run others].
    cbn [fst] in *. constructor; [exact Hasc|]. constructor.
    apply may_follow; [assumption | assumption | lia].
Qed.

Lemma strongly_sorted_nth (l : list A) (i j : nat) (a b : A) :
  StronglySorted before l -> (i < j)%nat ->
  nth_error l i = Some a -> nth_error l j = Some b -> before a b.
Proof.
  intros Hs. revert i j. induction Hs as [|x l Hs IH Hx]; intros i j Hij Ha Hb.
  - destruct i; discriminate.
  - destruct j as [|j]; [lia|]. destruct i as [|i]; simpl in *.
    + injection Ha as <-. rewrite Forall_forall in Hx.
      apply Hx. eapply nth_error_In. exact Hb.
    + apply (IH i j); [lia | assumption | assumption].
Qed.

(** The place the binary search finds: everything to its left may stand
    before the pivot, and the pivot goes before what is at it or to its
    right. *)
Lemma search_spec (pivot : A) (sorted : list A) :
  keep pivot -> Forall keep sorted -> StronglySorted before sorted ->
  forall (todo left right : nat),
    (left <= right <= List.length sorted)%nat ->
    (right - left <= todo)%nat ->
    (forall i m, (i < left)%nat -> nth_error sorted i = Some m -> before m pivot) ->
    (forall i m, (right <= i)%nat -> nth_error sorted i = Some m -> before pivot m) ->
    let at_ := JS.search compareFn todo pivot sorted left right in
    (at_ <= List.length sorted)%nat
    /\ (forall i m, (i < at_)%nat -> nth_error sorted i = Some m -> before m pivot)
    /\ (forall i m, (at_ <= i)%nat -> nth_error sorted i = Some m -> before pivot m).
Proof.
  intros Hp Hk Hs. rewrite Forall_forall in Hk.
  induction todo as [|todo IH]; intros left right Hlr Htodo Hleft Hright.
  - cbn [JS.search]. assert (left = right) by lia. subst right.
    split; [lia|]. split; assumption.
  - cbn [JS.search]. destruct (left <? right)%nat eqn:E.
    2:{ apply Nat.ltb_ge in E. assert (left = right) by lia. subst right.
        split; [lia|]. split; assumption. }
    apply Nat.ltb_lt in E.
    set (mid := (left + Nat.div2 (right - left))%nat).
    assert (Hmid : (left <= mid < right)%nat).
    { unfold mid. assert (Hpos : (0 < right - left)%nat) by lia.
      pose proof (Nat.lt_div2 (right - left) Hpos) as Hhalf.
      revert Hhalf. generalize (Nat.div2 (right - left)). intros h Hhalf. lia. }
    destruct (nth_error sorted mid) as [m|] eqn:Hm.
    2:{ apply nth_error_None in Hm. lia. }
    assert (Hkm : keep m) by (apply Hk; eapply nth_error_In; exact Hm).
    destruct (JS.order compareFn pivot m <? 0) eqn:Ho.
    + apply IH; [lia | lia | exact Hleft |].
      intros i x Hi Hx.
      assert (Hpm : before pivot m)
        by (apply goes_first; [assumption | assumption | lia]).
      destruct (Nat.eq_dec i mid) as [->|Hne]; [congruence|].
      apply (before_trans pivot m x); try assumption.
      * apply Hk. eapply nth_error_In. exact Hx.
      * apply (strongly_sorted_nth sorted mid i); [assumption | lia | assumption | assumption].
    + apply IH; [lia | lia | | exact Hright].
      intros i x Hi Hx.
      assert (Hmp : before m pivot)
        by (apply may_follow; [assumption | assumption | lia]).
      destruct (Nat.eq_dec i mid) as [->|Hne]; [congruence|].
      apply (before_trans x m pivot); try assumption.
      * apply Hk. eapply nth_error_In. exact Hx.
      * apply (strongly_sorted_nth sorted i mid); [assumption | lia | assumption | assumption].
Qed.

Lemma strongly_sorted_app (l1 l2 : list A) :
  StronglySorted before l1 -> StronglySorted before l2 ->
  (forall a b, In a l1 -> In b l2 -> before a b) ->
  StronglySorted before (l1 ++ l2).
Proof.
  intros H1 H2 H12. induction H1 as [|x l1 H1 IH Hx]; [exact H2|].
  simpl. constructor.
  - apply IH. intros a b Ha Hb. apply H12; [right; exact Ha | exact Hb].
  - apply Forall_app. split; [exact Hx|].
    apply Forall_forall. intros b Hb. apply H12; [left; reflexivity | exact Hb].
Qed.

Lemma strongly_sorted_firstn (n : nat) (l : list A) :
  StronglySorted before l -> StronglySorted before (firstn n l).
Proof.
  intros Hs. revert n. induction Hs as [|x l Hs IH Hx]; intros n.
  - rewrite firstn_nil. constructor.
  - destruct n as [|n]; [constructor|]. simpl. constructor; [apply IH|].
    rewrite Forall_forall in *. intros y Hy. apply Hx.
    rewrite <- (firstn_skipn n l). apply in_or_app. left. exact Hy.
Qed.

Lemma strongly_sorted_skipn (n : nat) (l : list A) :
  StronglySorted before l -> StronglySorted before (skipn n l).
Proof.
  intros Hs. revert n. induction Hs as [|x l Hs IH Hx]; intros n.
  - rewrite skipn_nil. constructor.
  - destruct n as [|n]; [constructor; assumption | apply IH].
Qed.

Lemma in_firstn_nth (n : nat) (l : list A) (x : A) :
  In x (firstn n l) -> exists i, (i < n)%nat /\ nth_error l i = Some x.
Proof.
  revert l. induction n as [|n IH]; intros l Hin; [destruct Hin|].
  destruct l as [|y l]; [destruct Hin|].
  destruct Hin as [<-|Hin].
  - exists 0%nat. split; [lia | reflexivity].
  - destruct (IH l Hin) as [i [Hi Hx]]. exists (S i). split; [lia | exact Hx].
Qed.

Lemma in_skipn_nth (n : nat) (l : list A) (x : A) :
  In x (skipn n l) -> exists i, (n <= i)%nat /\ nth_error l i = Some x.
Proof.
  revert l. induction n as [|n IH]; intros l Hin.
  - apply In_nth_error in Hin. destruct Hin as [i Hi]. exists i.
    split; [lia | exact Hi].
  - destruct l as [|y l]; [destruct Hin|].
    destruct (IH l Hin) as [i [Hi Hx]]. exists (S i). split; [lia | exact Hx].
Qed.

Lemma binary_insert_sorted (sorted : list A) (pivot : A) :
  keep pivot -> Forall keep sorted -> StronglySorted before sorted ->
  StronglySorted before (JS.binary_insert compareFn sorted pivot).
Proof.
  intros Hp Hk Hs. unfold JS.binary_insert.
  destruct (search_spec pivot sorted Hp Hk Hs (List.length sorted) 0
              (List.length sorted))
    as [_ [Hleft Hright]]; [lia | lia | intros; lia | |].
  { intros i m Hi Hm.
    assert (Hsome : nth_error sorted i <> None) by congruence.
    apply nth_error_Some in Hsome. lia. }
  set (n := JS.search compareFn _ pivot sorted 0 _) in *.
  apply strongly_sorted_app.
  - apply strongly_sorted_firstn. exact Hs.
  - constructor; [apply strongly_sorted_skipn; exact Hs|].
    apply Forall_forall. intros x Hx.
    destruct (in_skipn_nth n sorted x Hx) as [i [Hi Hnth]].
    apply (Hright i x Hi Hnth).
  - intros a b Ha Hb.
    destruct (in_firstn_nth n sorted a Ha) as [i [Hi Hnth]].
    destruct Hb as [<-|Hb]; [apply (Hleft i a Hi Hnth)|].
    destruct (in_skipn_nth n sorted b Hb) as [j [Hj Hnth']].
    apply (strongly_sorted_nth sorted i j); [assumption | lia | assumption | assumption].
Qed.

Lemma fold_binary_insert_sorted (others run : list A) :
  Forall keep others -> Forall keep run -> StronglySorted before run ->
  StronglySorted before (fold_left (JS.binary_insert compareFn) others run).
Proof.
  revert run. induction others as [|x others IH]; intros run Ho Hr Hs; simpl.
  - exact Hs.
  - inversion Ho as [|? ? Hx Ho']; subst. apply IH.
    + exact Ho'.
    + apply (Permutation_Forall (Permutation_sym (binary_insert_perm run x))).
      constructor; assumption.
    + apply binary_insert_sorted; assumption.
Qed.

Lemma Array_sort_sorted (l : list A) :
  Forall keep l -> StronglySorted before (JS.Array_sort compareFn l).
Proof.
  intros Hl. unfold JS.Array_sort.
  destruct (count_and_make_run_sorted l Hl) as [Hs [Hrun Hothers]].
  destruct (JS.count_and_make_run compareFn l) as [run others].
  cbn [fst snd] in *. apply fold_binary_insert_sorted; assumption.
Qed.

End SortFacts.
Lemma numeric_version_parts (v : string) :
  numeric_version v = true ->
  exists z0 z1 z2,
    part v 0 = JS.Num z0 /\ part v 1 = JS.Num z1 /\ part v 2 = JS.Num z2.
Proof.
  unfold numeric_version. cbn [forallb].
  destruct (part v 0) as [|z0]; [discriminate|].
  destruct (part v 1) as [|z1]; [rewrite andb_false_r; discriminate|].
  destruct (part v 2) as [|z2]; [rewrite !andb_false_r; discriminate|].
  intros _. exists z0, z1, z2. auto.
Qed.

Lemma newest_first_unfold (a b : string) :
  DeploymentTracker.newest_first a b
  = if JS.strict_neq (part a 0) (part b 0) then JS.sub (part b 0) (part a 0)
    else if JS.strict_neq (part a 1) (part b 1) then JS.sub (part b 1) (part a 1)
    else if JS.strict_neq (part a 2) (part b 2) then JS.sub (part b 2) (part a 2)
    else JS.Num 0.
Proof. reflexivity. Qed.

Lemma compareVersions_unfold (a b : string) :
  VersionManager.compareVersions a b
  = if JS.lt (part a 0) (part b 0) then -1
    else if JS.gt (part a 0) (part b 0) then 1
    else if JS.lt (part a 1) (part b 1) then -1
    else if JS.gt (part a 1) (part b 1) then 1
    else if JS.lt (part a 2) (part b 2) then -1
    else if JS.gt (part a 2) (part b 2) then 1
    else 0.
Proof. reflexivity. Qed.

Ltac numeric_parts Ha Hb :=
  let a0 := fresh "a0" in let a1 := fresh "a1" in let a2 := fresh "a2" in
  let b0 := fresh "b0" in let b1 := fresh "b1" in let b2 := fresh "b2" in
  let Ea0 := fresh "Ea0" in let Ea1 := fresh "Ea1" in let Ea2 := fresh "Ea2" in
  let Eb0 := fresh "Eb0" in let Eb1 := fresh "Eb1" in let Eb2 := fresh "Eb2" in
  destruct (numeric_version_parts _ Ha) as [a0 [a1 [a2 [Ea0 [Ea1 Ea2]]]]];
  destruct (numeric_version_parts _ Hb) as [b0 [b1 [b2 [Eb0 [Eb1 Eb2]]]]];
  unfold not_older, triple_of, triple_ge;
  rewrite ?newest_first_unfold, ?compareVersions_unfold;
  rewrite ?Ea0, ?Ea1, ?Ea2, ?Eb0, ?Eb1, ?Eb2;
  cbn [JS.strict_neq JS.sub JS.gt JS.lt number_value].

Ltac split_tests :=
  repeat match goal with
         | |- context [?x =? ?y] => destruct (Z.eqb_spec x y); cbn [negb]
         | |- context [?x <? ?y] => destruct (Z.ltb_spec x y)
         | H : context [?x =? ?y] |- _ => destruct (Z.eqb_spec x y); cbn [negb] in H
         | H : context [?x <? ?y] |- _ => destruct (Z.ltb_spec x y)
         end.

Lemma newest_first_goes_first (x y : string) :
  numeric_version x = true -> numeric_version y = true ->
  JS.order DeploymentTracker.newest_first x y < 0 ->
  not_older x y.
Proof.
  intros Hx Hy. unfold JS.order. numeric_parts Hx Hy. intros H.
  split_tests; try lia.
Qed.

Lemma newest_first_may_follow (x y : string) :
  numeric_version x = true -> numeric_version y = true ->
  0 <= JS.order DeploymentTracker.newest_first x y ->
  not_older y x.
Proof.
  intros Hx Hy. unfold JS.order. numeric_parts Hx Hy. intros H.
  split_tests; try lia.
Qed.

Lemma not_older_trans (x y z : string) :
  not_older x y -> not_older y z -> not_older x z.
Proof.
  unfold not_older, triple_ge.
  destruct (triple_of x) as [[x1 x2] x3], (triple_of y) as [[y1 y2] y3],
           (triple_of z) as [[z1 z2] z3]. lia.
Qed.

Lemma not_older_compareVersions (a b : string) :
  numeric_version a = true -> numeric_version b = true ->
  (not_older a b <-> 0 <= VersionManager.compareVersions a b).
Proof.
  intros Ha Hb. numeric_parts Ha Hb. split_tests; lia.
Qed.

Lemma permutations_of_three {A : Type} (a b c : A) (l : list A) :
  Permutation l [a; b; c] ->
  l = [a; b; c] \/ l = [a; c; b] \/ l = [b; a; c]
  \/ l = [b; c; a] \/ l = [c; a; b] \/ l = [c; b; a].
Proof.
  intros H. pose proof (Permutation_length H) as Hlen.
  destruct l as [|x [|y [|z [|w l]]]]; try discriminate.
  assert (Hx : In x [a; b; c])
    by (apply (Permutation_in x H); left; reflexivity).
  destruct Hx as [<-|[<-|[<-|[]]]].
  - apply Permutation_cons_inv, Permutation_length_2_inv in H.
    destruct H as [H|H]; injection H as -> ->; auto.
  - assert (H' : Permutation (b :: [y; z]) (b :: [a; c])).
    { eapply Permutation_trans; [exact H | apply perm_swap]. }
    apply Permutation_cons_inv, Permutation_length_2_inv in H'.
    destruct H' as [H'|H']; injection H' as -> ->; auto 6.
  - assert (H' : Permutation (c :: [y; z]) (c :: [a; b])).
    { eapply Permutation_trans; [exact H|].
      eapply Permutation_trans; [apply perm_skip, perm_swap | apply perm_swap]. }
    apply Permutation_cons_inv, Permutation_length_2_inv in H'.
    destruct H' as [H'|H']; injection H' as -> ->; auto 7.
Qed.

(** C6, as stated, fails: with a key that is no version number among the
    tracked ones, here ["x"] recorded between ["1.0.0"] and ["2.0.0"], the
    comparator finds ["x"] equal to both and the listing comes back in the
    order of insertion, ["2.0.0"] after ["1.0.0"]. *)
Lemma getAllVersions_unsorted :
  DeploymentTracker.getAllVersions
    (record_all ["1.0.0"; "x"; "2.0.0"] ios preview fresh_tracker)
  = ["1.0.0"; "x"; "2.0.0"]
  /\ VersionManager.compareVersions "1.0.0" "2.0.0" = -1
  /\ ~ not_older "1.0.0" "2.0.0"
  /\ ~ StronglySorted not_older
        (DeploymentTracker.getAllVersions
           (record_all ["1.0.0"; "x"; "2.0.0"] ios preview fresh_tracker)).
Proof.
  assert (Hno : ~ not_older "1.0.0" "2.0.0").
  { unfold not_older, triple_ge. cbn. lia. }
  split; [reflexivity|]. split; [reflexivity|]. split; [exact Hno|].
  change (~ StronglySorted not_older ["1.0.0"; "x"; "2.0.0"]).
  intros Hs. inversion Hs as [|? ? _ Hall]; subst.
  inversion Hall as [|? ? _ Hall']; subst.
  inversion Hall' as [|? ? H _]; subst. exact (Hno H).
Qed.

(** C6, as the code has it.  [getAllVersions] returns exactly the tracked
    version strings, and when their parts are numbers (safe integers) the
    result is ordered newest first by (major, minor, patch) compared as
    numbers, the earlier part deciding and missing parts read as [0]: every
    entry is not older than any entry after it, which is the order
    [compareVersions] gives.  Recording ["1.0.0"], ["2.0.0"] and ["1.5.0"]
    in any order yields ["2.0.0"; "1.5.0"; "1.0.0"], and ["10.0.0"] comes
    before ["2.0.0"]. *)
Theorem getAllVersions_newest_first :
  (forall t : DeploymentTracker.Tracker,
     Permutation (DeploymentTracker.getAllVersions t)
                 (Json.keys (versions (DeploymentTracker.data t))))
  /\ (forall t : DeploymentTracker.Tracker,
        Forall (fun v => numeric_version v = true)
               (Json.keys (versions (DeploymentTracker.data t))) ->
        StronglySorted not_older (DeploymentTracker.getAllVersions t)
        /\ StronglySorted (fun a b => 0 <= VersionManager.compareVersions a b)
                          (DeploymentTracker.getAllVersions t))
  /\ (forall (order : list string) (pl : Platform) (pr : Profile),
        Permutation order ["1.0.0"; "2.0.0"; "1.5.0"] ->
        DeploymentTracker.getAllVersions (record_all order pl pr fresh_tracker)
        = ["2.0.0"; "1.5.0"; "1.0.0"])
  /\ DeploymentTracker.getAllVersions
       (record_all ["2.0.0"; "10.0.0"] ios preview fresh_tracker)
     = ["10.0.0"; "2.0.0"]
  /\ DeploymentTracker.getAllVersions
       (record_all ["10.0.0"; "2.0.0"] ios preview fresh_tracker)
     = ["10.0.0"; "2.0.0"].
Proof.
  split; [|split; [|split; [|split]]].
  - intros t. apply Array_sort_perm.
  - intros t Hnum.
    assert (Hsorted : StronglySorted not_older (DeploymentTracker.getAllVersions t)).
    { unfold DeploymentTracker.getAllVersions.
      apply (Array_sort_sorted DeploymentTracker.newest_first
               (fun v => numeric_version v = true) not_older).
      - intros x y z _ _ _. apply not_older_trans.
      - apply newest_first_goes_first.
      - apply newest_first_may_follow.
      - exact Hnum. }
    split; [exact Hsorted|].
    assert (Hall : Forall (fun v => numeric_version v = true)
                          (DeploymentTracker.getAllVersions t)).
    { apply (Permutation_Forall
               (Permutation_sym (Array_sort_perm DeploymentTracker.newest_first _))).
      exact Hnum. }
    clear Hnum. induction Hsorted as [|a l Hs IH Ha]; constructor.
    + apply IH. inversion Hall; assumption.
    + inversion Hall as [|? ? Hka Hkl]; subst.
      rewrite Forall_forall in *. intros b Hb.
      apply not_older_compareVersions; auto.
  - intros order pl pr H.
    destruct (permutations_of_three _ _ _ _ H)
      as [->|[->|[->|[->|[->| ->]]]]]; destruct pl, pr; reflexivity.
  - reflexivity.
  - reflexivity.
Qed.

Lemma getAllVersions_newest_first_witness :
  StronglySorted not_older
    (DeploymentTracker.getAllVersions
       (record_all ["1.0.0"; "2.0.0"; "1.5.0"] ios preview fresh_tracker))
  /\ DeploymentTracker.getAllVersions
       (record_all ["1.5.0"; "1.0.0"; "2.0.0"] android production fresh_tracker)
     = ["2.0.0"; "1.5.0"; "1.0.0"].
Proof.
  split.
  - apply (proj1 (proj2 getAllVersions_newest_first)).
    repeat constructor.
  - apply (proj1 (proj2 (proj2 getAllVersions_newest_first))).
    apply perm_trans with (l' := ["1.0.0"; "1.5.0"; "2.0.0"]);
      [apply perm_swap | apply perm_skip, perm_swap].
Defined.

(* ================================================================== *)
(** * Config drift detector                                            *)
(* ================================================================== *)

Lemma reported_spec (v : Json.value) :
  (if Json.strict_neq v Json.VUndefined then v else Json.VString "unset")
  = reported v.
Proof. destruct v; reflexivity. Qed.

Lemma compare_configs_from (currentConfig lastConfig : Json.plain)
      (keys : list string) (acc : list ConfigChange) :
  fold_left
    (fun changes k =>
       let current := Json.plain_get currentConfig k in
       let last := Json.plain_get lastConfig k in
       if Json.strict_neq current last
       then (changes ++
             [ {| key := k;
                  from := if Json.strict_neq last Json.VUndefined
                          then last else Json.VString "unset";
                  to := if Json.strict_neq current Json.VUndefined
                        then current else Json.VString "unset" |} ])%list
       else changes)
    keys acc
  = (acc ++ map (change_of currentConfig lastConfig)
                (filter (differs currentConfig lastConfig) keys))%list.
Proof.
  revert acc. induction keys as [|k keys IH]; intros acc; cbn [fold_left].
  - simpl. rewrite app_nil_r. reflexivity.
  - rewrite IH. cbn [filter].
    change (Json.strict_neq (Json.plain_get currentConfig k)
                            (Json.plain_get lastConfig k))
      with (differs currentConfig lastConfig k).
    rewrite !reported_spec.
    destruct (differs currentConfig lastConfig k); [|reflexivity].
    rewrite <- app_assoc. reflexivity.
Qed.

Lemma compare_configs_spec (currentConfig lastConfig : Json.plain)
      (keys : list string) :
  ConfigDetector.compare_configs currentConfig lastConfig keys
  = map (change_of currentConfig lastConfig)
        (filter (differs currentConfig lastConfig) keys).
Proof. apply (compare_configs_from currentConfig lastConfig keys []). Qed.



(** ** Names that are not inherited *)

Lemma inherited_name_false (k : string) :
  Json.inherited_name k = false ->
  String.eqb k "__proto__" = false
  /\ Json.mem k Json.Object_prototype_methods = false.
Proof.
  unfold Json.inherited_name, Json.mem. cbn [existsb]. intros H.
  apply orb_false_iff in H. exact H.
Qed.

Lemma from_Object_prototype_own_name (p : Json.prototype) (k : string) :
  Json.inherited_name k = false ->
  Json.from_Object_prototype p k = Json.VUndefined.
Proof.
  intros H. destruct (inherited_name_false k H) as [H1 H2].
  unfold Json.from_Object_prototype. rewrite H1, H2. reflexivity.
Qed.

Lemma plain_get_own (o : Json.plain) (k : string) :
  ordinary o -> Json.inherited_name k = false ->
  Json.plain_get o k = Json.read (Json.own o) k.
Proof.
  intros Ho Hk. unfold Json.plain_get, Json.read. rewrite Ho.
  destruct (Json.get (Json.own o) k); [reflexivity|].
  apply from_Object_prototype_own_name. exact Hk.
Qed.

Lemma plain_set_other (o : Json.plain) (k : string) (v : Json.value) :
  String.eqb k "__proto__" = false ->
  Json.plain_set o k v
  = {| Json.own := Json.set (Json.own o) k v; Json.proto := Json.proto o |}.
Proof. intros H. unfold Json.plain_set. rewrite H. reflexivity. Qed.

Lemma instantiate_defined (b : nat) (path : list string) (j : Json.json) :
  Json.strict_neq (Json.instantiate b path j) Json.VUndefined = true.
Proof. destruct j; reflexivity. Qed.

(** The loop of [readCurrentPlatformConfig], one key on. *)
Lemma extract_critical_step (birth : nat) (pl : Platform)
      (platformConfig : Json.object Json.json) (keys : list string)
      (config : Json.plain) (k : string) :
  fold_left
    (fun config k =>
       let value := Json.parsed_get birth [platform_name pl] platformConfig k in
       if Json.strict_neq value Json.VUndefined
       then Json.plain_set config k value
       else config)
    (k :: keys) config
  = fold_left
      (fun config k =>
         let value := Json.parsed_get birth [platform_name pl] platformConfig k in
         if Json.strict_neq value Json.VUndefined
         then Json.plain_set config k value
         else config)
      keys
      (let value := Json.parsed_get birth [platform_name pl] platformConfig k in
       if Json.strict_neq value Json.VUndefined
       then Json.plain_set config k value
       else config).
Proof. reflexivity. Qed.

(** Without [__proto__] among the keys the object built keeps the
    prototype of a literal. *)
Lemma extract_critical_ordinary (birth : nat) (pl : Platform)
      (platformConfig : Json.object Json.json) (keys : list string) :
  ~ In "__proto__" keys ->
  ordinary (ConfigDetector.extract_critical birth pl platformConfig keys).
Proof.
  unfold ConfigDetector.extract_critical.
  assert (H : forall config,
             ordinary config -> ~ In "__proto__" keys ->
             ordinary
               (fold_left
                  (fun config k =>
                     let value :=
                       Json.parsed_get birth [platform_name pl] platformConfig k in
                     if Json.strict_neq value Json.VUndefined
                     then Json.plain_set config k value
                     else config)
                  keys config)).
  { induction keys as [|k keys IH]; intros config Hc Hk; [exact Hc|].
    rewrite extract_critical_step. apply IH.
    - cbv zeta.
      destruct (Json.strict_neq _ Json.VUndefined); [|exact Hc].
      rewrite plain_set_other; [exact Hc|].
      apply String.eqb_neq. intros ->. apply Hk. left. reflexivity.
    - intros Hin. apply Hk. right. exact Hin. }
  apply H. reflexivity.
Qed.

Lemma own_names_no_proto (keys : list string) :
  own_names keys -> ~ In "__proto__" keys.
Proof.
  intros H Hin. unfold own_names in H. rewrite Forall_forall in H.
  specialize (H _ Hin). discriminate.
Qed.

Lemma platform_config_of_source (birth : nat) (pl : Platform)
      (appJson : option ExpoAppJson) (criticalKeys : option (list string)) :
  ConfigDetector.platform_config_of birth pl appJson criticalKeys
  = ConfigDetector.extract_critical birth pl
      (fst (critical_source pl appJson criticalKeys))
      (snd (critical_source pl appJson criticalKeys)).
Proof.
  unfold ConfigDetector.platform_config_of, critical_source.
  destruct appJson as [appJson|]; [|reflexivity].
  destruct (find ConfigDetector.is_build_properties
                 (ConfigDetector.plugins_of appJson ?? []))
    as [[name|name [pluginConfig|]]|]; reflexivity.
Qed.

(** The keys copied are critical keys. *)
Lemma critical_source_keys (pl : Platform) (appJson : option ExpoAppJson)
      (criticalKeys : option (list string)) (k : string) :
  In k (snd (critical_source pl appJson criticalKeys)) ->
  In k (criticalKeys ?? ConfigDetector.DEFAULT_CRITICAL_CONFIG pl).
Proof.
  unfold critical_source. destruct appJson as [appJson|]; [|intros []].
  destruct (find ConfigDetector.is_build_properties
                 (ConfigDetector.plugins_of appJson ?? []))
    as [[name|name [pluginConfig|]]|]; try (intros []). auto.
Qed.

Lemma platform_config_of_ordinary (birth : nat) (pl : Platform)
      (appJson : option ExpoAppJson) (criticalKeys : option (list string)) :
  ~ In "__proto__" (criticalKeys ?? ConfigDetector.DEFAULT_CRITICAL_CONFIG pl) ->
  ordinary (ConfigDetector.platform_config_of birth pl appJson criticalKeys).
Proof.
  intros H. rewrite platform_config_of_source.
  apply extract_critical_ordinary. intros Hin. apply H.
  apply (critical_source_keys pl appJson criticalKeys). exact Hin.
Qed.

Lemma own_names_default (pl : Platform) :
  own_names (ConfigDetector.DEFAULT_CRITICAL_CONFIG pl).
Proof. destruct pl; repeat constructor. Qed.





Example detectConfigChanges_reports_changed_level :
  fst (ConfigDetector.detectConfigChanges android
         (DeploymentTracker.updateLastConfig android
            (Json.literal [("targetSdkVersion", Json.VNumber (JS.Num 34));
                           ("minSdkVersion", Json.VNumber (JS.Num 24))])
            maven_tracker) None)
  = [ {| key := "targetSdkVersion";
         from := Json.VNumber (JS.Num 34);
         to := Json.VNumber (JS.Num 35) |} ].
Proof. reflexivity. Qed.

(** ** Committing a snapshot, then detecting *)

Section MapValues.

Context {T U : Type} (f : T -> U).

Lemma get_map_values (o : Json.object T) (k : string) :
  Json.get (map (fun kv => (fst kv, f (snd kv))) o) k
  = option_map f (Json.get o k).
Proof.
  induction o as [|[k' v] o IH]; simpl; [reflexivity|].
  destruct (String.eqb k' k); [reflexivity | exact IH].
Qed.

Lemma set_map_values (o : Json.object T) (k : string) (v : T) :
  Json.set (map (fun kv => (fst kv, f (snd kv))) o) k (f v)
  = map (fun kv => (fst kv, f (snd kv))) (Json.set o k v).
Proof.
  induction o as [|[k' v'] o IH]; simpl; [reflexivity|].
  destruct (String.eqb k' k); simpl; [reflexivity|]. rewrite IH. reflexivity.
Qed.

End MapValues.

Lemma rebirth_instantiate (b b' : nat) (path : list string) (j : Json.json) :
  rebirth_value b' (Json.instantiate b path j) = Json.instantiate b' path j.
Proof. destruct j; reflexivity. Qed.

Lemma rebirth_from_Object_prototype (b : nat) (p : Json.prototype) (k : string) :
  Json.from_Object_prototype (rebirth_prototype b p) k
  = rebirth_value b (Json.from_Object_prototype p k).
Proof.
  unfold Json.from_Object_prototype.
  destruct (String.eqb k "__proto__"); [destruct p; reflexivity|].
  destruct (Json.mem k Json.Object_prototype_methods); reflexivity.
Qed.

Lemma rebirth_parsed_get (b b' : nat) (path : list string)
      (members : Json.object Json.json) (k : string) :
  Json.parsed_get b' path members k
  = rebirth_value b' (Json.parsed_get b path members k).
Proof.
  unfold Json.parsed_get. destruct (Json.get members k) as [j|].
  - symmetry. apply rebirth_instantiate.
  - apply (rebirth_from_Object_prototype b' Json.Object_prototype k).
Qed.

Lemma rebirth_defined (b : nat) (v : Json.value) :
  Json.strict_neq (rebirth_value b v) Json.VUndefined
  = Json.strict_neq v Json.VUndefined.
Proof. destruct v; reflexivity. Qed.

Lemma rebirth_as_prototype (b : nat) (v : Json.value) :
  Json.as_prototype (rebirth_value b v)
  = option_map (rebirth_prototype b) (Json.as_prototype v).
Proof. destruct v; reflexivity. Qed.

Lemma rebirth_reaches_setter (b : nat) (p : Json.prototype) :
  Json.reaches_setter (rebirth_prototype b p) = Json.reaches_setter p.
Proof. destruct p; reflexivity. Qed.

Lemma rebirth_plain_set (b : nat) (o : Json.plain) (k : string) (v : Json.value) :
  Json.plain_set (rebirth b o) k (rebirth_value b v)
  = rebirth b (Json.plain_set o k v).
Proof.
  unfold Json.plain_set. cbn [rebirth Json.own Json.proto].
  rewrite get_map_values, rebirth_reaches_setter, rebirth_as_prototype.
  destruct (String.eqb k "__proto__"), (Json.get (Json.own o) k),
           (Json.reaches_setter (Json.proto o)); cbn [andb option_map];
    try (unfold rebirth; cbn [Json.own Json.proto];
         rewrite set_map_values; reflexivity).
  destruct (Json.as_prototype v); reflexivity.
Qed.

Lemma rebirth_rebirth (b b' : nat) (o : Json.plain) :
  rebirth b' (rebirth b o) = rebirth b' o.
Proof.
  unfold rebirth. cbn [Json.own Json.proto]. f_equal.
  - rewrite map_map. apply map_ext. intros [k v]. cbn [fst snd].
    destruct v; reflexivity.
  - destruct (Json.proto o); reflexivity.
Qed.

(** Reading [app.json] in another parse gives the same object, but for the
    parse its arrays and objects are of. *)
Lemma rebirth_extract (b b' : nat) (pl : Platform)
      (platformConfig : Json.object Json.json) (keys : list string) :
  ConfigDetector.extract_critical b' pl platformConfig keys
  = rebirth b' (ConfigDetector.extract_critical b pl platformConfig keys).
Proof.
  unfold ConfigDetector.extract_critical.
  assert (H : forall config,
             fold_left
               (fun config k =>
                  let value :=
                    Json.parsed_get b' [platform_name pl] platformConfig k in
                  if Json.strict_neq value Json.VUndefined
                  then Json.plain_set config k value
                  else config)
               keys (rebirth b' config)
             = rebirth b'
                 (fold_left
                    (fun config k =>
                       let value :=
                         Json.parsed_get b [platform_name pl] platformConfig k in
                       if Json.strict_neq value Json.VUndefined
                       then Json.plain_set config k value
                       else config)
                    keys config)).
  { induction keys as [|k keys IH]; intros config; [reflexivity|].
    rewrite !extract_critical_step. rewrite <- IH. f_equal. cbv zeta.
    rewrite (rebirth_parsed_get b b'), rebirth_defined.
    destruct (Json.strict_neq _ Json.VUndefined); [|reflexivity].
    apply rebirth_plain_set. }
  apply (H (Json.literal [])).
Qed.

Lemma rebirth_own_member (b b' : nat) (path : list string) (content : Json.json)
      (k : string) :
  Json.own_member b' path content k
  = option_map (rebirth_value b') (Json.own_member b path content k).
Proof.
  destruct content as [| | | |items|members]; try reflexivity;
    cbn [Json.own_member].
  - destruct (String.eqb k "length"); [reflexivity|].
    destruct (Json.array_index k) as [i|]; [|reflexivity].
    destruct (nth_error items i); [|reflexivity].
    cbn [option_map]. rewrite rebirth_instantiate. reflexivity.
  - destruct (Json.get members k); [|reflexivity].
    cbn [option_map]. rewrite rebirth_instantiate. reflexivity.
Qed.

Lemma rebirth_inherited (b : nat) (p : Json.prototype) (k : string) :
  Json.inherited (rebirth_prototype b p) k = rebirth_value b (Json.inherited p k).
Proof.
  destruct p as [| |b0 path content]; cbn [rebirth_prototype Json.inherited].
  - apply (rebirth_from_Object_prototype b Json.Object_prototype k).
  - reflexivity.
  - rewrite (rebirth_own_member b0 b).
    destruct (Json.own_member b0 path content k); [reflexivity|].
    cbn [option_map].
    pose proof (rebirth_from_Object_prototype b
                  (Json.Parsed_prototype b0 path content) k) as Hf.
    cbn [rebirth_prototype] in Hf.
    destruct content; try exact Hf.
    destruct (Json.mem k Json.Array_prototype_methods); [reflexivity | exact Hf].
Qed.

Lemma rebirth_plain_get (b : nat) (o : Json.plain) (k : string) :
  Json.plain_get (rebirth b o) k = rebirth_value b (Json.plain_get o k).
Proof.
  unfold Json.plain_get. cbn [rebirth Json.own Json.proto].
  rewrite get_map_values. destruct (Json.get (Json.own o) k); [reflexivity|].
  cbn [option_map]. apply rebirth_inherited.
Qed.

(** ** Values equal to themselves *)

Lemma path_eqb_refl (p : list string) : Json.path_eqb p p = true.
Proof.
  induction p as [|x p IH]; [reflexivity|].
  simpl. rewrite String.eqb_refl. exact IH.
Qed.

Lemma strict_eq_refl (v : Json.value) :
  v <> Json.VNumber JS.NaN -> Json.strict_eq v v = true.
Proof.
  destruct v as [| |x|[|z]|s|b p c| |o n]; intros H; cbn [Json.strict_eq];
    try reflexivity.
  - destruct x; reflexivity.
  - congruence.
  - cbn [JS.strict_neq]. rewrite Z.eqb_refl. reflexivity.
  - apply String.eqb_refl.
  - rewrite Nat.eqb_refl, path_eqb_refl. reflexivity.
  - rewrite !String.eqb_refl. reflexivity.
Qed.

Lemma instantiate_number (b : nat) (path : list string) (j : Json.json) :
  Json.instantiate b path j <> Json.VNumber JS.NaN.
Proof. destruct j; discriminate. Qed.

Lemma from_Object_prototype_number (p : Json.prototype) (k : string) :
  Json.from_Object_prototype p k <> Json.VNumber JS.NaN.
Proof.
  unfold Json.from_Object_prototype.
  destruct (String.eqb k "__proto__"); [destruct p; discriminate|].
  destruct (Json.mem k Json.Object_prototype_methods); discriminate.
Qed.

Lemma inherited_number (p : Json.prototype) (k : string) :
  Json.inherited p k <> Json.VNumber JS.NaN.
Proof.
  destruct p as [| |b path content]; cbn [Json.inherited].
  - apply from_Object_prototype_number.
  - discriminate.
  - destruct (Json.own_member b path content k) as [v|] eqn:Hown.
    + destruct content as [| | | |items|members]; cbn [Json.own_member] in Hown;
        try discriminate.
      * destruct (String.eqb k "length"); [injection Hown as <-; discriminate|].
        destruct (Json.array_index k) as [i|]; [|discriminate].
        destruct (nth_error items i); [|discriminate].
        injection Hown as <-. apply instantiate_number.
      * destruct (Json.get members k); [|discriminate].
        injection Hown as <-. apply instantiate_number.
    + destruct content; try apply from_Object_prototype_number.
      destruct (Json.mem k Json.Array_prototype_methods);
        [discriminate | apply from_Object_prototype_number].
Qed.

Lemma parsed_get_number (b : nat) (path : list string)
      (members : Json.object Json.json) (k : string) :
  Json.parsed_get b path members k <> Json.VNumber JS.NaN.
Proof.
  unfold Json.parsed_get. destruct (Json.get members k).
  - apply instantiate_number.
  - apply from_Object_prototype_number.
Qed.

Lemma get_set_cases {T : Type} (o : Json.object T) (k k' : string) (x y : T) :
  Json.get (Json.set o k x) k' = Some y ->
  y = x \/ Json.get o k' = Some y.
Proof.
  destruct (String.string_dec k k') as [<-|Hne].
  - rewrite get_set_same. intros [= <-]. auto.
  - rewrite get_set_other by exact Hne. auto.
Qed.

Lemma plain_set_number (o : Json.plain) (k : string) (v : Json.value) :
  v <> Json.VNumber JS.NaN ->
  (forall k' x, Json.get (Json.own o) k' = Some x -> x <> Json.VNumber JS.NaN) ->
  forall k' x,
    Json.get (Json.own (Json.plain_set o k v)) k' = Some x ->
    x <> Json.VNumber JS.NaN.
Proof.
  intros Hv Ho k' x. unfold Json.plain_set.
  destruct (String.eqb k "__proto__"
            && match Json.get (Json.own o) k with
               | Some _ => false
               | None => true
               end
            && Json.reaches_setter (Json.proto o)).
  - destruct (Json.as_prototype v); apply Ho.
  - cbn [Json.own]. intros H. apply get_set_cases in H as [-> | H];
      [exact Hv | apply (Ho k' x H)].
Qed.

Lemma extract_critical_number (b : nat) (pl : Platform)
      (platformConfig : Json.object Json.json) (keys : list string)
      (k : string) :
  Json.plain_get (ConfigDetector.extract_critical b pl platformConfig keys) k
  <> Json.VNumber JS.NaN.
Proof.
  assert (H : forall k' x,
             Json.get (Json.own (ConfigDetector.extract_critical b pl
                                   platformConfig keys)) k' = Some x ->
             x <> Json.VNumber JS.NaN).
  { unfold ConfigDetector.extract_critical.
    assert (Hfold : forall config,
               (forall k' x, Json.get (Json.own config) k' = Some x ->
                             x <> Json.VNumber JS.NaN) ->
               forall k' x,
                 Json.get
                   (Json.own
                      (fold_left
                         (fun config k =>
                            let value :=
                              Json.parsed_get b [platform_name pl]
                                platformConfig k in
                            if Json.strict_neq value Json.VUndefined
                            then Json.plain_set config k value
                            else config)
                         keys config)) k' = Some x ->
                 x <> Json.VNumber JS.NaN).
    { induction keys as [|k0 keys IH]; intros config Hc; [exact Hc|].
      rewrite extract_critical_step. apply IH. cbv zeta.
      destruct (Json.strict_neq _ Json.VUndefined); [|exact Hc].
      apply plain_set_number; [apply parsed_get_number | exact Hc]. }
    apply Hfold. intros k' x. discriminate. }
  unfold Json.plain_get.
  destruct (Json.get (Json.own _) k) as [x|] eqn:Hget.
  - apply (H k x Hget).
  - apply inherited_number.
Qed.

Lemma rebirth_primitive (b : nat) (v : Json.value) :
  primitive_value v = true -> rebirth_value b v = v.
Proof. destruct v; try reflexivity; discriminate. Qed.

Lemma filter_none {A : Type} (f : A -> bool) (l : list A) :
  (forall x, In x l -> f x = false) -> filter f l = [].
Proof.
  induction l as [|x l IH]; intros H; [reflexivity|].
  cbn [filter]. rewrite (H x) by (left; reflexivity).
  apply IH. intros y Hy. apply H. right. exact Hy.
Qed.

Lemma second_read_agrees (b b' : nat) (pl : Platform)
      (appJson : option ExpoAppJson) (criticalKeys : option (list string))
      (k : string) :
  primitive_value
    (Json.plain_get
       (ConfigDetector.platform_config_of b pl appJson criticalKeys) k) = true ->
  differs (ConfigDetector.platform_config_of b' pl appJson criticalKeys)
          (ConfigDetector.platform_config_of b pl appJson criticalKeys) k
  = false.
Proof.
  intros Hprim. unfold differs, Json.strict_neq.
  rewrite !platform_config_of_source in *.
  rewrite (rebirth_extract b b'), rebirth_plain_get.
  rewrite (rebirth_primitive b' _ Hprim).
  rewrite strict_eq_refl; [reflexivity | apply extract_critical_number].
Qed.

Lemma detect_after_commit (pl : Platform) (t : DeploymentTracker.Tracker)
      (criticalKeys : option (list string)) :
  let appJson := Fs.readJsonFile (app_json (DeploymentTracker.disk t)) in
  let first := DeploymentTracker.parses t in
  let second := DeploymentTracker.parses
                  (ConfigDetector.updateTrackedConfig pl t criticalKeys) in
  fst (ConfigDetector.detectConfigChanges pl
         (ConfigDetector.updateTrackedConfig pl t criticalKeys) criticalKeys)
  = ConfigDetector.compare_configs
      (ConfigDetector.platform_config_of second pl appJson criticalKeys)
      (ConfigDetector.platform_config_of first pl appJson criticalKeys)
      (criticalKeys ?? ConfigDetector.DEFAULT_CRITICAL_CONFIG pl).
Proof. destruct pl; reflexivity. Qed.

(** C2, as the code has it.  When no critical key of the current project
    configuration holds an array or an object, [updateTrackedConfig]
    followed by [detectConfigChanges] on the same tracker, the project
    configuration being the same for both, reports no change. *)
Theorem commit_then_detect_primitive :
  forall (pl : Platform) (t : DeploymentTracker.Tracker)
         (criticalKeys : option (list string)),
    (forall k,
       In k (criticalKeys ?? ConfigDetector.DEFAULT_CRITICAL_CONFIG pl) ->
       primitive_value
         (Json.plain_get
            (fst (ConfigDetector.readCurrentPlatformConfig pl t criticalKeys)) k)
       = true) ->
    fst (ConfigDetector.detectConfigChanges pl
           (ConfigDetector.updateTrackedConfig pl t criticalKeys) criticalKeys)
    = [].
Proof.
  intros pl t criticalKeys Hprim.
  rewrite detect_after_commit, compare_configs_spec.
  rewrite filter_none; [reflexivity|].
  intros k Hk. apply second_read_agrees. apply (Hprim k Hk).
Qed.

Lemma commit_then_detect_primitive_witness :
  fst (ConfigDetector.detectConfigChanges android
         (ConfigDetector.updateTrackedConfig android maven_tracker None) None)
  = [].
Proof.
  apply (commit_then_detect_primitive android maven_tracker None).
  intros k H. destruct H as [<-|[<-|[<-|[]]]]; reflexivity.
Defined.

(** C2, as stated, fails: with the array-valued key [extraMavenRepos] among
    the critical keys, detecting right after committing reports that key as
    changed, although the project configuration is the same. *)
Lemma commit_then_detect_array_changes :
  fst (ConfigDetector.detectConfigChanges android
         (ConfigDetector.updateTrackedConfig android maven_tracker
            (Some ["minSdkVersion"; "extraMavenRepos"]))
         (Some ["minSdkVersion"; "extraMavenRepos"]))
  = [ {| key := "extraMavenRepos";
         from := Json.VObject 0 ["android"; "extraMavenRepos"]
                   (Json.JArray [Json.JString "https://maven.example.com"]);
         to := Json.VObject 1 ["android"; "extraMavenRepos"]
                 (Json.JArray [Json.JString "https://maven.example.com"]) |} ]
  /\ fst (ConfigDetector.detectConfigChanges android
            (ConfigDetector.updateTrackedConfig android maven_tracker
               (Some ["minSdkVersion"; "extraMavenRepos"]))
            (Some ["minSdkVersion"; "extraMavenRepos"]))
     <> [].
Proof. split; [reflexivity | discriminate]. Qed.

(* ================================================================== *)
(** * The unit tests of the repository, replayed                       *)
(* ================================================================== *)

Example test_get_current_version :
  VersionManager.getCurrentVersion test_disk = "1.0.0".
Proof. reflexivity. Qed.

Example test_calculate_versions :
  map (fun '(v, type) => VersionManager.calculateNewVersion v type)
      [("1.0.0", patch); ("1.2.3", patch); ("1.0.0", minor); ("1.2.3", minor);
       ("1.0.0", major); ("1.2.3", major); ("1.2.3", none)]
  = ["1.0.1"; "1.2.4"; "1.1.0"; "1.3.0"; "2.0.0"; "2.0.0"; "1.2.3"].
Proof. reflexivity. Qed.

Example test_bump_version_in_both_files :
  VersionManager.bump patch test_disk
  = (JS.Returns {| oldVersion := "1.0.0"; newVersion := "1.0.1" |},
     {| app_json :=
          Fs.writeJsonFile
            {| expo := Some {| version := Some "1.0.1"; plugins := None |} |};
        package_json := Fs.writeJsonFile {| pkg_version := "1.0.1" |};
        deployments_json := None |}).
Proof. reflexivity. Qed.

Example test_set_specific_version :
  (fst (VersionManager.setVersion "2.5.0" test_disk),
   VersionManager.getCurrentVersion
     (snd (VersionManager.setVersion "2.5.0" test_disk)))
  = (JS.Returns "2.5.0", "2.5.0").
Proof. reflexivity. Qed.

Example test_throw_on_invalid_version_format :
  map (fun v => match fst (VersionManager.setVersion v test_disk) with
                | JS.Returns _ => false
                | JS.Throws _ => true
                end)
      ["invalid"; "1.0"; "1.0.0.0"]
  = [true; true; true].
Proof. reflexivity. Qed.

Example test_compare_versions :
  map (fun '(a, b) => VersionManager.compareVersions a b)
      [("1.0.0", "1.0.0"); ("2.5.3", "2.5.3"); ("1.0.0", "2.0.0");
       ("2.0.0", "1.0.0"); ("1.1.0", "1.2.0"); ("1.2.0", "1.1.0");
       ("1.0.1", "1.0.2"); ("1.0.2", "1.0.1")]
  = [0; 0; -1; 1; -1; 1; -1; 1].
Proof. reflexivity. Qed.

Example test_is_newer_version :
  map (fun '(a, b) => VersionManager.isNewerVersion a b)
      [("2.0.0", "1.0.0"); ("1.1.0", "1.0.0"); ("1.0.1", "1.0.0");
       ("1.0.0", "2.0.0"); ("1.0.0", "1.0.0")]
  = [true; true; true; false; false].
Proof. reflexivity. Qed.

Example test_initialize_empty_tracker :
  DeploymentTracker.exists_ (DeploymentTracker.construct empty_disk 0) = false
  /\ DeploymentTracker.exists_ fresh_tracker = true.
Proof. split; reflexivity. Qed.

Example test_empty_status_for_unknown_version :
  DeploymentTracker.getVersionStatus (DeploymentTracker.construct empty_disk 0) "1.0.0"
  = Json.Own DeploymentTracker.createEmptyDeploymentRecord.
Proof. reflexivity. Qed.

Example test_update_deployment_status :
  exists status,
    DeploymentTracker.getVersionStatus
      (record_one sample_time "1.0.0" ios preview fresh_tracker) "1.0.0"
    = Json.Own status
    /\ pds_preview (rec_ios status) = Stamp sample_time
    /\ pds_production (rec_ios status) = Null
    /\ pds_preview (rec_android status) = Null.
Proof. eexists. repeat split; reflexivity. Qed.

Example test_track_multiple_versions :
  DeploymentTracker.getAllVersions
    (record_one sample_time "1.1.0" ios production
       (record_one sample_time "1.0.0" android preview
          (record_one sample_time "1.0.0" ios preview fresh_tracker)))
  = ["1.1.0"; "1.0.0"].
Proof. reflexivity. Qed.

Example test_update_and_get_last_config :
  let config :=
    Json.literal [("minSdkVersion", Json.VNumber (JS.Num 24));
                  ("targetSdkVersion", Json.VNumber (JS.Num 35))] in
  let lastConfig :=
    DeploymentTracker.getLastConfig
      (DeploymentTracker.updateLastConfig android config fresh_tracker) android in
  Json.plain_get lastConfig "minSdkVersion" = Json.VNumber (JS.Num 24)
  /\ Json.plain_get lastConfig "targetSdkVersion" = Json.VNumber (JS.Num 35).
Proof. split; reflexivity. Qed.

Example test_format_null_as_not_deployed :
  forall toLocaleString, DeploymentTracker.formatDate toLocaleString Null = "Not deployed".
Proof. reflexivity. Qed.

(* ================================================================== *)
(** * Further properties of the version engine                         *)
(* ================================================================== *)

Lemma lt_asym (x y : JS.number) : JS.lt x y = true -> JS.lt y x = false.
Proof.
  destruct x as [|x], y as [|y]; simpl; try discriminate.
  intros H. apply Z.ltb_lt in H. apply Z.ltb_ge. lia.
Qed.

Lemma lt_irrefl (x : JS.number) : JS.lt x x = false.
Proof. destruct x as [|x]; [reflexivity | apply lt_same]. Qed.

Lemma compare_loop_antisym (aParts bParts : list JS.number) (todo i : nat) :
  VersionManager.compare_loop aParts bParts i todo
  = - VersionManager.compare_loop bParts aParts i todo.
Proof.
  revert i. induction todo as [|todo IH]; intros i; [reflexivity|].
  cbn [VersionManager.compare_loop]. unfold JS.gt.
  destruct (JS.lt (nth_error aParts i ?? JS.Num 0)
                  (nth_error bParts i ?? JS.Num 0)) eqn:Hab.
  - rewrite (lt_asym _ _ Hab). reflexivity.
  - destruct (JS.lt (nth_error bParts i ?? JS.Num 0)
                    (nth_error aParts i ?? JS.Num 0)); [reflexivity | apply IH].
Qed.

Lemma compare_loop_refl (aParts : list JS.number) (todo i : nat) :
  VersionManager.compare_loop aParts aParts i todo = 0.
Proof.
  revert i. induction todo as [|todo IH]; intros i; [reflexivity|].
  cbn [VersionManager.compare_loop]. unfold JS.gt.
  rewrite lt_irrefl. apply IH.
Qed.

Lemma compare_loop_range (aParts bParts : list JS.number) (todo i : nat) :
  VersionManager.compare_loop aParts bParts i todo = -1
  \/ VersionManager.compare_loop aParts bParts i todo = 0
  \/ VersionManager.compare_loop aParts bParts i todo = 1.
Proof.
  revert i. induction todo as [|todo IH]; intros i; [auto|].
  cbn [VersionManager.compare_loop].
  destruct (JS.lt _ _); [auto|]. destruct (JS.gt _ _); [auto | apply IH].
Qed.

(** X1.  For all strings [a] and [b]: [compareVersions(a, a)] is [0];
    [compareVersions(a, b)] is the opposite of [compareVersions(b, a)]; the
    result is one of [-1], [0], [1]; no version is newer than itself and two
    versions are never each newer than the other. *)
Theorem compareVersions_algebra :
  forall a b : string,
    VersionManager.compareVersions a a = 0
    /\ VersionManager.compareVersions a b = - VersionManager.compareVersions b a
    /\ (VersionManager.compareVersions a b = -1
        \/ VersionManager.compareVersions a b = 0
        \/ VersionManager.compareVersions a b = 1)
    /\ VersionManager.isNewerVersion a a = false
    /\ VersionManager.isNewerVersion a b && VersionManager.isNewerVersion b a = false.
Proof.
  intros a b. unfold VersionManager.isNewerVersion, VersionManager.compareVersions.
  split; [apply compare_loop_refl|].
  split; [apply compare_loop_antisym|].
  split; [apply compare_loop_range|].
  split; [rewrite compare_loop_refl; reflexivity|].
  rewrite (compare_loop_antisym (map JS.Number (JS.split_dot b))).
  destruct (compare_loop_range (map JS.Number (JS.split_dot a))
              (map JS.Number (JS.split_dot b)) 3 0) as [-> | [-> | ->]];
    reflexivity.
Qed.

Lemma compare_loop_antisym_versions (a b : string) :
  VersionManager.compareVersions a b = - VersionManager.compareVersions b a.
Proof. apply compare_loop_antisym. Qed.

Lemma compareVersions_triples (a b : string) :
  numeric_version a = true -> numeric_version b = true ->
  VersionManager.compareVersions a b
  = sign_of (triple_compare (triple_of a) (triple_of b)).
Proof.
  intros Ha Hb.
  destruct (numeric_version_parts _ Ha) as [a0 [a1 [a2 [Ea0 [Ea1 Ea2]]]]].
  destruct (numeric_version_parts _ Hb) as [b0 [b1 [b2 [Eb0 [Eb1 Eb2]]]]].
  rewrite compareVersions_unfold. unfold triple_of, triple_compare.
  rewrite Ea0, Ea1, Ea2, Eb0, Eb1, Eb2.
  cbn [JS.gt JS.lt number_value].
  destruct (Z.compare_spec a0 b0); split_tests; try lia; try reflexivity;
    destruct (Z.compare_spec a1 b1); split_tests; try lia; try reflexivity;
    destruct (Z.compare_spec a2 b2); split_tests; try lia; reflexivity.
Qed.

Lemma triple_compare_gt_trans (x y z : Z * Z * Z) :
  triple_compare x y = Gt -> triple_compare y z = Gt -> triple_compare x z = Gt.
Proof.
  destruct x as [[x1 x2] x3], y as [[y1 y2] y3], z as [[z1 z2] z3].
  unfold triple_compare.
  destruct (Z.compare_spec x1 y1), (Z.compare_spec y1 z1); try discriminate;
    destruct (Z.compare_spec x1 z1); try lia; try reflexivity;
    destruct (Z.compare_spec x2 y2), (Z.compare_spec y2 z2); try discriminate;
    destruct (Z.compare_spec x2 z2); try lia; try reflexivity;
    destruct (Z.compare_spec x3 y3), (Z.compare_spec y3 z3); try discriminate;
    destruct (Z.compare_spec x3 z3); try lia; reflexivity.
Qed.

Lemma triple_compare_eq (x y : Z * Z * Z) :
  triple_compare x y = Eq <-> x = y.
Proof.
  destruct x as [[x1 x2] x3], y as [[y1 y2] y3]. unfold triple_compare.
  destruct (Z.compare_spec x1 y1); [|split; [discriminate | intros [=]; lia] ..].
  destruct (Z.compare_spec x2 y2); [|split; [discriminate | intros [=]; lia] ..].
  destruct (Z.compare_spec x3 y3); [|split; [discriminate | intros [=]; lia] ..].
  subst. split; reflexivity.
Qed.

Lemma isNewerVersion_triples (a b : string) :
  numeric_version a = true -> numeric_version b = true ->
  (VersionManager.isNewerVersion a b = true
   <-> triple_compare (triple_of a) (triple_of b) = Gt).
Proof.
  intros Ha Hb. unfold VersionManager.isNewerVersion.
  rewrite (compareVersions_triples a b Ha Hb).
  destruct (triple_compare (triple_of a) (triple_of b));
    cbv [sign_of Z.ltb Z.compare]; split; intros H;
    first [reflexivity | discriminate].
Qed.

(** X2.  On version strings whose first three parts are numbers,
    [compareVersions] is the component-wise comparison of the
    (major, minor, patch) triples, missing parts counting as [0]: it is [0]
    exactly when the triples are equal, and [isNewerVersion] is
    transitive. *)
Theorem compareVersions_orders_triples :
  forall a b c : string,
    numeric_version a = true -> numeric_version b = true ->
    numeric_version c = true ->
    VersionManager.compareVersions a b
    = sign_of (triple_compare (triple_of a) (triple_of b))
    /\ (VersionManager.compareVersions a b = 0 <-> triple_of a = triple_of b)
    /\ (VersionManager.isNewerVersion a b = true ->
        VersionManager.isNewerVersion b c = true ->
        VersionManager.isNewerVersion a c = true).
Proof.
  intros a b c Ha Hb Hc. split; [apply compareVersions_triples; assumption|].
  split.
  - rewrite (compareVersions_triples a b Ha Hb), <- triple_compare_eq.
    destruct (triple_compare (triple_of a) (triple_of b));
      cbv [sign_of]; split; intros H; first [reflexivity | discriminate].
  - rewrite !isNewerVersion_triples by assumption.
    apply triple_compare_gt_trans.
Qed.

Lemma compareVersions_orders_triples_witness :
  VersionManager.compareVersions "1.2" "1.2.0" = 0
  /\ VersionManager.isNewerVersion "10.0.0" "1.9" = true.
Proof.
  split.
  - apply (proj1 (proj2 (compareVersions_orders_triples "1.2" "1.2.0" "1.0.0"
                           eq_refl eq_refl eq_refl))).
    reflexivity.
  - apply (proj2 (proj2 (compareVersions_orders_triples "10.0.0" "2.0.0" "1.9"
                           eq_refl eq_refl eq_refl))); reflexivity.
Defined.

Lemma part_version_string (M m p : Z) :
  0 <= M -> 0 <= m -> 0 <= p ->
  part (version_string M m p) 0 = JS.Num M
  /\ part (version_string M m p) 1 = JS.Num m
  /\ part (version_string M m p) 2 = JS.Num p.
Proof.
  intros HM Hm Hp. unfold part.
  rewrite split_version_string by assumption.
  cbn [map nth_error JS.nullish].
  rewrite !Number_toString by assumption. auto.
Qed.

Lemma triple_of_version_string (M m p : Z) :
  0 <= M -> 0 <= m -> 0 <= p ->
  triple_of (version_string M m p) = (M, m, p).
Proof.
  intros HM Hm Hp. unfold triple_of.
  destruct (part_version_string M m p HM Hm Hp) as [-> [-> ->]]. reflexivity.
Qed.

Lemma numeric_version_string (M m p : Z) :
  0 <= M <= JS.MAX_SAFE_INTEGER -> 0 <= m <= JS.MAX_SAFE_INTEGER ->
  0 <= p <= JS.MAX_SAFE_INTEGER ->
  numeric_version (version_string M m p) = true.
Proof.
  intros [HM HM'] [Hm Hm'] [Hp Hp']. unfold numeric_version. cbn [forallb].
  destruct (part_version_string M m p HM Hm Hp) as [-> [-> ->]].
  apply Z.leb_le in HM', Hm', Hp'. rewrite HM', Hm', Hp'. reflexivity.
Qed.

Lemma numeral_toString (z : Z) : 0 <= z -> numeral (JS.toString (JS.Num z)).
Proof.
  intros Hz. split; [apply toString_nonempty | apply toString_all_digits];
    exact Hz.
Qed.

Lemma version_string_well_formed (M m p : Z) :
  0 <= M -> 0 <= m -> 0 <= p ->
  VersionManager.version_pattern_test (version_string M m p) = true.
Proof.
  intros HM Hm Hp. apply version_pattern_complete.
  exists (JS.toString (JS.Num M)), (JS.toString (JS.Num m)),
         (JS.toString (JS.Num p)).
  split; [apply numeral_toString, HM|].
  split; [apply numeral_toString, Hm|].
  split; [apply numeral_toString, Hp | reflexivity].
Qed.

Lemma calculateNewVersion_triple (M m p : Z) (k : VersionBumpType) :
  0 <= M -> 0 <= m -> 0 <= p ->
  VersionManager.calculateNewVersion (version_string M m p) k
  = match k with
    | patch => version_string M m (p + 1)
    | minor => version_string M (m + 1) 0
    | major => version_string (M + 1) 0 0
    | none => version_string M m p
    end.
Proof.
  intros HM Hm Hp. destruct k.
  - apply calculateNewVersion_patch; assumption.
  - apply calculateNewVersion_minor; assumption.
  - apply calculateNewVersion_major; assumption.
  - reflexivity.
Qed.

(** X3.  Bumping a version [(M, m, p)] of safe non-negative integers by
    patch, minor or major gives a string that [isNewerVersion] ranks above
    the old one (and not the other way round), and that has the shape
    [setVersion] accepts: [setVersion] writes it on every disk whose
    [app.json] is missing, unreadable or has an [expo] entry, and ends
    with a [TypeError], the disk untouched, on a disk whose [app.json]
    parses to a document without [expo] entry. *)
Theorem bump_gives_newer_well_formed_version :
  forall (M m p : Z) (k : VersionBumpType),
    component M -> component m -> component p -> k <> none ->
    let v := version_string M m p in
    let v' := VersionManager.calculateNewVersion v k in
    VersionManager.isNewerVersion v' v = true
    /\ VersionManager.isNewerVersion v v' = false
    /\ VersionManager.compareVersions v v' = -1
    /\ VersionManager.version_pattern_test v' = true
    /\ (forall d : Disk,
          lacks_expo d = false ->
          exists d',
            VersionManager.setVersion v' d = (JS.Returns v', d')
            /\ VersionManager.write_both v' d = (JS.Returns tt, d'))
    /\ (forall d : Disk,
          lacks_expo d = true ->
          VersionManager.setVersion v' d = (JS.Throws JS.TypeError, d)).
Proof.
  intros M m p k [HM HM'] [Hm Hm'] [Hp Hp'] Hk v v'.
  assert (Hv : numeric_version v = true)
    by (apply numeric_version_string; lia).
  assert (Hshape : exists M' m' p',
             v' = version_string M' m' p'
             /\ 0 <= M' <= JS.MAX_SAFE_INTEGER /\ 0 <= m' <= JS.MAX_SAFE_INTEGER
             /\ 0 <= p' <= JS.MAX_SAFE_INTEGER
             /\ triple_compare (M', m', p') (M, m, p) = Gt).
  { unfold v', v. rewrite calculateNewVersion_triple by assumption.
    unfold JS.MAX_SAFE_INTEGER in *.
    destruct k; [| | |congruence].
    - exists M, m, (p + 1). repeat split; try lia.
      unfold triple_compare. rewrite !Z.compare_refl. apply Z.compare_gt_iff. lia.
    - exists M, (m + 1), 0. repeat split; try lia.
      unfold triple_compare. rewrite !Z.compare_refl.
      assert (E : (m + 1 ?= m) = Gt) by (apply Z.compare_gt_iff; lia).
      rewrite E. reflexivity.
    - exists (M + 1), 0, 0. repeat split; try lia.
      unfold triple_compare.
      assert (E : (M + 1 ?= M) = Gt) by (apply Z.compare_gt_iff; lia).
      rewrite E. reflexivity. }
  destruct Hshape as [M' [m' [p' [Ev' [HM2 [Hm2 [Hp2 Hgt]]]]]]].
  assert (Hv' : numeric_version v' = true)
    by (rewrite Ev'; apply numeric_version_string; assumption).
  assert (Hcmp : VersionManager.compareVersions v' v = 1).
  { rewrite (compareVersions_triples v' v Hv' Hv), Ev'. unfold v.
    rewrite !triple_of_version_string by lia. rewrite Hgt. reflexivity. }
  assert (Hrev : VersionManager.compareVersions v v' = -1).
  { rewrite compare_loop_antisym_versions, Hcmp. reflexivity. }
  assert (Htest : VersionManager.version_pattern_test v' = true)
    by (rewrite Ev'; apply version_string_well_formed; lia).
  pose proof (version_pattern_sound v' Htest) as Hthree.
  unfold VersionManager.isNewerVersion. rewrite Hcmp, Hrev.
  repeat split; try reflexivity; try assumption.
  - intros d Hd.
    exact (proj1 (proj2 (setVersion_cases v' d)) Hthree Hd).
  - intros d Hd.
    exact (proj2 (proj2 (setVersion_cases v' d)) Hthree Hd).
Qed.

Lemma bump_gives_newer_well_formed_version_witness :
  VersionManager.isNewerVersion
    (VersionManager.calculateNewVersion "1.9.9" minor) "1.9.9" = true.
Proof.
  exact (proj1 (bump_gives_newer_well_formed_version 1 9 9 minor
                  (component_small 1 ltac:(lia))
                  (component_small 9 ltac:(lia))
                  (component_small 9 ltac:(lia))
                  ltac:(discriminate))).
Defined.

Lemma write_package_manifests (v : string) (d : Disk) :
  match Fs.readJsonFile (package_json d) with
  | Some _ =>
      Fs.readJsonFile (package_json (VersionManager.write_package v d))
      = Some {| pkg_version := v |}
  | None => package_json (VersionManager.write_package v d) = package_json d
  end
  /\ deployments_json (VersionManager.write_package v d) = deployments_json d.
Proof.
  unfold VersionManager.write_package.
  destruct (Fs.readJsonFile (package_json d)) as [packageJson|] eqn:Hpkg;
    cbn [package_json deployments_json write_package_json];
    split; try reflexivity; try assumption.
Qed.

Lemma write_both_manifests (v : string) (d d' : Disk) :
  VersionManager.write_both v d = (JS.Returns tt, d') ->
  manifests_written v d d'.
Proof.
  intros H. pose proof (write_both_cases v d) as Hc.
  unfold manifests_written.
  destruct (Fs.readJsonFile (app_json d)) as [appJson|] eqn:Happ.
  - destruct (expo appJson) as [e|] eqn:He.
    + rewrite Hc in H. injection H as <-.
      split; [|exact (write_package_manifests v
                         (write_app_json d
                            {| expo := Some {| version := Some v;
                                               plugins := plugins e |} |}))].
      exists e. split; [reflexivity|].
      rewrite app_json_write_package. cbn [app_json write_app_json].
      apply readJsonFile_written.
    + rewrite Hc in H. discriminate.
  - rewrite Hc in H. injection H as <-.
    split; [apply app_json_write_package | exact (write_package_manifests v d)].
Qed.

Lemma write_both_outcomes (v : string) (d d' : Disk) (r : JS.outcome unit) :
  VersionManager.write_both v d = (r, d') ->
  (r = JS.Returns tt /\ lacks_expo d = false)
  \/ (r = JS.Throws JS.TypeError /\ d' = d /\ lacks_expo d = true).
Proof.
  intros H. pose proof (write_both_cases v d) as Hc. unfold lacks_expo.
  destruct (Fs.readJsonFile (app_json d)) as [appJson|].
  - destruct (expo appJson) as [e|]; rewrite Hc in H; injection H as <- <-;
      [left | right]; repeat split; reflexivity.
  - rewrite Hc in H. injection H as <- <-. left. split; reflexivity.
Qed.

Lemma write_both_current (v : string) (d : Disk) (appJson : ExpoAppJson) :
  Fs.readJsonFile (app_json d) = Some appJson ->
  expo appJson <> None ->
  exists d',
    VersionManager.write_both v d = (JS.Returns tt, d')
    /\ VersionManager.getCurrentVersion d' = v.
Proof.
  intros Happ Hexpo.
  destruct (expo appJson) as [e|] eqn:He; [|congruence].
  pose proof (write_both_cases v d) as Hc. rewrite Happ, He in Hc.
  eexists. split; [exact Hc|].
  apply getCurrentVersion_manifest.
  unfold manifest_version. rewrite app_json_write_package.
  cbn [app_json write_app_json]. rewrite readJsonFile_written.
  eexists; eexists; repeat split; reflexivity.
Qed.

Lemma bump_outcomes (k : VersionBumpType) (d d' : Disk)
      (r : JS.outcome VersionBumpResult) :
  VersionManager.bump k d = (r, d') ->
  (exists res, r = JS.Returns res)
  \/ (r = JS.Throws JS.TypeError /\ d' = d /\ k <> none
      /\ lacks_expo d = true).
Proof.
  intros H. unfold VersionManager.bump in H.
  destruct (VersionManager.write_both
              (VersionManager.calculateNewVersion
                 (VersionManager.getCurrentVersion d) k) d)
    as [[[]|e1] d1] eqn:Hw.
  - left. destruct k; injection H as <- _; eexists; reflexivity.
  - destruct (write_both_outcomes _ _ _ _ Hw) as [[Hr _]|[Hr [Hd Hl]]];
      [discriminate|].
    injection Hr as ->.
    destruct k; injection H as <- <-;
      [right; repeat split; try assumption; discriminate ..
      | left; eexists; reflexivity].
Qed.



(** X5.  On a disk whose [app.json] is missing, unreadable or has an
    [expo] entry, [setVersion] of the text of [(M, m, p)] returns; with a
    readable [app.json], [getVersionParts] then gives back [M], [m] and
    [p]; without one the current version is ["0.0.0"] with parts [0], [0],
    [0] before and after.  On a disk whose [app.json] parses to a document
    without [expo] entry [setVersion] ends with a [TypeError], and the
    current version stays ["0.0.0"]. *)
Theorem setVersion_getVersionParts_round_trip :
  forall (M m p : Z) (d : Disk),
    component M -> component m -> component p ->
    let v := version_string M m p in
    (lacks_expo d = false ->
     exists d',
       VersionManager.setVersion v d = (JS.Returns v, d')
       /\ (Fs.readJsonFile (app_json d) <> None ->
           VersionManager.getCurrentVersion d' = v
           /\ getVersionParts d' = (JS.Num M, JS.Num m, JS.Num p))
       /\ (Fs.readJsonFile (app_json d) = None ->
           VersionManager.getCurrentVersion d = "0.0.0"
           /\ getVersionParts d = (JS.Num 0, JS.Num 0, JS.Num 0)
           /\ VersionManager.getCurrentVersion d' = "0.0.0"
           /\ getVersionParts d' = (JS.Num 0, JS.Num 0, JS.Num 0)))
    /\ (lacks_expo d = true ->
        VersionManager.setVersion v d = (JS.Throws JS.TypeError, d)
        /\ VersionManager.getCurrentVersion d = "0.0.0"
        /\ getVersionParts d = (JS.Num 0, JS.Num 0, JS.Num 0)).
Proof.
  intros M m p d [HM _] [Hm _] [Hp _] v.
  assert (Hthree : three_dotted_integers v).
  { apply version_pattern_sound. unfold v.
    apply version_string_well_formed; assumption. }
  split.
  - intros Hd.
    destruct (proj1 (proj2 (setVersion_cases v d)) Hthree Hd) as [d' [Hs Hw]].
    exists d'. split; [exact Hs|]. split.
    + intros Hread.
      destruct (Fs.readJsonFile (app_json d)) as [appJson|] eqn:Happ;
        [|congruence].
      assert (Hcur : VersionManager.getCurrentVersion d' = v).
      { pose proof (write_both_manifests _ _ _ Hw) as [Hm' _].
        rewrite Happ in Hm'. destruct Hm' as [e [_ Hr]].
        apply getCurrentVersion_manifest. unfold manifest_version.
        eexists; eexists; repeat split; [exact Hr|reflexivity|reflexivity]. }
      split; [exact Hcur|]. unfold getVersionParts. rewrite Hcur.
      apply parseVersion_version_string; assumption.
    + intros Hnone.
      assert (Hsame : app_json d' = app_json d).
      { pose proof (write_both_manifests _ _ _ Hw) as [H _].
        rewrite Hnone in H. exact H. }
      unfold getVersionParts, VersionManager.getCurrentVersion.
      rewrite Hsame, Hnone. repeat split; reflexivity.
  - intros Hd. split; [exact (proj2 (proj2 (setVersion_cases v d)) Hthree Hd)|].
    unfold getVersionParts, VersionManager.getCurrentVersion, lacks_expo in *.
    destruct (Fs.readJsonFile (app_json d)) as [appJson|]; [|discriminate].
    cbn [VersionManager.version_of].
    destruct (expo appJson); [discriminate|]. split; reflexivity.
Qed.

Lemma setVersion_getVersionParts_round_trip_witness :
  exists d',
    VersionManager.setVersion (version_string 4 5 6) demo_disk
    = (JS.Returns (version_string 4 5 6), d')
    /\ (Fs.readJsonFile (app_json demo_disk) <> None ->
        VersionManager.getCurrentVersion d' = version_string 4 5 6
        /\ getVersionParts d' = (JS.Num 4, JS.Num 5, JS.Num 6))
    /\ (Fs.readJsonFile (app_json demo_disk) = None ->
        VersionManager.getCurrentVersion demo_disk = "0.0.0"
        /\ getVersionParts demo_disk = (JS.Num 0, JS.Num 0, JS.Num 0)
        /\ VersionManager.getCurrentVersion d' = "0.0.0"
        /\ getVersionParts d' = (JS.Num 0, JS.Num 0, JS.Num 0)).
Proof.
  exact (proj1 (setVersion_getVersionParts_round_trip 4 5 6 demo_disk
                  (component_small 4 ltac:(lia))
                  (component_small 5 ltac:(lia))
                  (component_small 6 ltac:(lia)))
           eq_refl).
Defined.

(* ================================================================== *)
(** * Further properties of the ledger                                 *)
(* ================================================================== *)

Lemma record_one_recordable (now v : string) (pl : Platform) (pr : Profile)
      (t : DeploymentTracker.Tracker) :
  recordable t v ->
  DeploymentTracker.updateStatus now v pl pr t
  = (JS.Returns tt, record_one now v pl pr t).
Proof.
  intros H. unfold record_one.
  rewrite (updateStatus_recordable now v pl pr t H). reflexivity.
Qed.

Lemma record_one_unrecordable (now v : string) (pl : Platform) (pr : Profile)
      (t : DeploymentTracker.Tracker) :
  ~ recordable t v -> record_one now v pl pr t = t.
Proof.
  intros H. unfold record_one.
  rewrite (updateStatus_unrecordable now v pl pr t H). reflexivity.
Qed.

Lemma record_one_saved (now v : string) (pl : Platform) (pr : Profile)
      (t : DeploymentTracker.Tracker) :
  recordable t v ->
  let t' := record_one now v pl pr t in
  lastConfig (DeploymentTracker.data t') = lastConfig (DeploymentTracker.data t)
  /\ app_json (DeploymentTracker.disk t') = app_json (DeploymentTracker.disk t)
  /\ package_json (DeploymentTracker.disk t')
     = package_json (DeploymentTracker.disk t)
  /\ deployments_json (DeploymentTracker.disk t')
     = Fs.writeJsonFile
         (DeploymentTracker.stringify_history (DeploymentTracker.data t'))
  /\ DeploymentTracker.parses t' = DeploymentTracker.parses t.
Proof.
  intros H t'. unfold t', record_one.
  rewrite (updateStatus_recordable now v pl pr t H).
  repeat split; reflexivity.
Qed.

Lemma getVersionStatus_same_get (t t' : DeploymentTracker.Tracker) (u : string) :
  Json.get (versions (DeploymentTracker.data t')) u
  = Json.get (versions (DeploymentTracker.data t)) u ->
  DeploymentTracker.getVersionStatus t' u
  = DeploymentTracker.getVersionStatus t u.
Proof.
  intros H. unfold DeploymentTracker.getVersionStatus, Json.lookup.
  rewrite H. reflexivity.
Qed.

Lemma getVersionStatus_record_one_other (now v u : string) (pl : Platform)
      (pr : Profile) (t : DeploymentTracker.Tracker) :
  v <> u ->
  DeploymentTracker.getVersionStatus (record_one now v pl pr t) u
  = DeploymentTracker.getVersionStatus t u.
Proof.
  intros Hne. apply getVersionStatus_same_get.
  apply get_record_one_other. exact Hne.
Qed.

Lemma recordable_record_one (now v : string) (pl : Platform) (pr : Profile)
      (t : DeploymentTracker.Tracker) (u : string) :
  recordable t u -> recordable (record_one now v pl pr t) u.
Proof.
  intros [H|H]; [left | right; exact H].
  apply tracked_record_one. left. exact H.
Qed.

Lemma slot_of_set_slot_other (r : DeploymentRecord) (pl pl' : Platform)
      (pr pr' : Profile) (x : Slot) :
  (pl', pr') <> (pl, pr) ->
  DeploymentTracker.slot_of (DeploymentTracker.set_slot r pl pr x) pl' pr'
  = DeploymentTracker.slot_of r pl' pr'.
Proof. destruct pl, pr, pl', pr'; intros H; try reflexivity; congruence. Qed.

(** X6.  For a version that is tracked, or whose text is not the name of a
    member of [Object.prototype], [updateStatus(v, pl, pr)] returns and
    changes one slot only: the slot holds the new timestamp, every other
    version answers [getVersionStatus] as before, every other (platform,
    profile) slot of [v] keeps its value, the configuration snapshots and
    the two manifests are untouched, and the deployments document on disk
    is what [JSON.stringify] writes for the new history.  For any other
    version [updateStatus] ends with a [TypeError] and changes nothing. *)
Theorem updateStatus_changes_one_slot :
  forall (now v : string) (pl : Platform) (pr : Profile)
         (t : DeploymentTracker.Tracker),
    (recordable t v ->
     exists t',
       DeploymentTracker.updateStatus now v pl pr t = (JS.Returns tt, t')
       /\ (forall u, u <> v ->
             DeploymentTracker.getVersionStatus t' u
             = DeploymentTracker.getVersionStatus t u)
       /\ DeploymentTracker.getVersionStatus t' v = Json.Own (record_of t' v)
       /\ DeploymentTracker.slot_of (record_of t' v) pl pr = Stamp now
       /\ (forall pl' pr', (pl', pr') <> (pl, pr) ->
             DeploymentTracker.slot_of (record_of t' v) pl' pr'
             = DeploymentTracker.slot_of (record_of t v) pl' pr')
       /\ lastConfig (DeploymentTracker.data t')
          = lastConfig (DeploymentTracker.data t)
       /\ app_json (DeploymentTracker.disk t')
          = app_json (DeploymentTracker.disk t)
       /\ package_json (DeploymentTracker.disk t')
          = package_json (DeploymentTracker.disk t)
       /\ Fs.readJsonFile (deployments_json (DeploymentTracker.disk t'))
          = Some (DeploymentTracker.stringify_history
                    (DeploymentTracker.data t')))
    /\ (~ recordable t v ->
        DeploymentTracker.updateStatus now v pl pr t
        = (JS.Throws JS.TypeError, t)).
Proof.
  intros now v pl pr t. split.
  - intros Hv. exists (record_one now v pl pr t).
    pose proof (record_one_saved now v pl pr t Hv) as [Hc [Ha [Hp [Hd _]]]].
    split; [apply record_one_recordable, Hv|].
    split; [intros u Hu; apply getVersionStatus_record_one_other; congruence|].
    split; [apply getVersionStatus_recordable, recordable_record_one, Hv|].
    rewrite (record_of_record_one_same now v pl pr t Hv).
    split; [apply slot_of_set_slot_same|].
    split; [intros pl' pr' Hne; apply slot_of_set_slot_other, Hne|].
    split; [exact Hc|]. split; [exact Ha|]. split; [exact Hp|].
    rewrite Hd. apply readJsonFile_written.
  - apply updateStatus_unrecordable.
Qed.

Lemma updateStatus_changes_one_slot_witness :
  exists t',
    DeploymentTracker.updateStatus sample_time "2.0.0" ios preview
      (record_one sample_time "1.0.0" android production fresh_tracker)
    = (JS.Returns tt, t')
    /\ (forall u, u <> "2.0.0" ->
          DeploymentTracker.getVersionStatus t' u
          = DeploymentTracker.getVersionStatus
              (record_one sample_time "1.0.0" android production fresh_tracker)
              u).
Proof.
  destruct (proj1 (updateStatus_changes_one_slot sample_time "2.0.0" ios preview
                     (record_one sample_time "1.0.0" android production
                        fresh_tracker))
              ltac:(right; reflexivity)) as [t' [H1 [H2 _]]].
  exists t'. split; [exact H1 | exact H2].
Defined.

Lemma mutators_save (f : string -> string) (c : call)
      (t t' : DeploymentTracker.Tracker) (r : reply) :
  is_query c = false ->
  perform f c t = (JS.Returns r, t') ->
  deployments_json (DeploymentTracker.disk t')
  = Fs.writeJsonFile
      (DeploymentTracker.stringify_history (DeploymentTracker.data t')).
Proof.
  intros Hq H.
  destruct c as [| |v|now v pl pr|pl|pl config| |v pl pr|v pr|];
    try discriminate Hq; cbn [perform] in H.
  - injection H as _ <-. reflexivity.
  - destruct (recordable_dec t v) as [Hv|Hv].
    + rewrite (record_one_recordable now v pl pr t Hv) in H.
      injection H as _ <-.
      exact (proj1 (proj2 (proj2 (proj2 (record_one_saved now v pl pr t Hv))))).
    + rewrite (updateStatus_unrecordable now v pl pr t Hv) in H. discriminate.
  - injection H as _ <-. destruct pl; reflexivity.
Qed.

Lemma mutators_throw (f : string -> string) (c : call)
      (t t' : DeploymentTracker.Tracker) (e : JS.exn) :
  is_query c = false ->
  perform f c t = (JS.Throws e, t') ->
  t' = t /\ e = JS.TypeError
  /\ exists now v pl pr, c = Call_updateStatus now v pl pr /\ ~ recordable t v.
Proof.
  intros Hq H.
  destruct c as [| |v|now v pl pr|pl|pl config| |v pl pr|v pr|];
    try discriminate Hq; cbn [perform] in H; try discriminate H.
  destruct (recordable_dec t v) as [Hv|Hv].
  - rewrite (record_one_recordable now v pl pr t Hv) in H. discriminate.
  - rewrite (updateStatus_unrecordable now v pl pr t Hv) in H.
    injection H as <- <-. repeat split.
    exists now, v, pl, pr. split; [reflexivity | exact Hv].
Qed.

Lemma exists_written (t : DeploymentTracker.Tracker) (doc : StoredHistory) :
  deployments_json (DeploymentTracker.disk t) = Fs.writeJsonFile doc ->
  DeploymentTracker.exists_ t = true.
Proof.
  intros H. unfold DeploymentTracker.exists_. rewrite H. reflexivity.
Qed.

Lemma reload_data (t : DeploymentTracker.Tracker) (n : nat) :
  deployments_json (DeploymentTracker.disk t)
  = Fs.writeJsonFile
      (DeploymentTracker.stringify_history (DeploymentTracker.data t)) ->
  DeploymentTracker.data (DeploymentTracker.construct (DeploymentTracker.disk t) n)
  = DeploymentTracker.parse_history n
      (DeploymentTracker.stringify_history (DeploymentTracker.data t)).
Proof.
  intros H. unfold DeploymentTracker.construct, DeploymentTracker.load.
  cbn [DeploymentTracker.data]. rewrite H. reflexivity.
Qed.

Lemma getMissingPlatforms_same_status (t t' : DeploymentTracker.Tracker)
      (v : string) (pr : Profile) :
  DeploymentTracker.getVersionStatus t' v
  = DeploymentTracker.getVersionStatus t v ->
  DeploymentTracker.getMissingPlatforms t' v pr
  = DeploymentTracker.getMissingPlatforms t v pr.
Proof.
  intros H. unfold DeploymentTracker.getMissingPlatforms. rewrite H. reflexivity.
Qed.

Lemma checkSyncWarnings_same_status (f : string -> string)
      (t t' : DeploymentTracker.Tracker) (v : string) (pl : Platform)
      (pr : Profile) :
  DeploymentTracker.getVersionStatus t' v
  = DeploymentTracker.getVersionStatus t v ->
  DeploymentTracker.checkSyncWarnings f t' v pl pr
  = DeploymentTracker.checkSyncWarnings f t v pl pr.
Proof.
  intros H. unfold DeploymentTracker.checkSyncWarnings. rewrite H. reflexivity.
Qed.

Lemma reload_getLastConfig (t : DeploymentTracker.Tracker) (n : nat)
      (pl : Platform) :
  deployments_json (DeploymentTracker.disk t)
  = Fs.writeJsonFile
      (DeploymentTracker.stringify_history (DeploymentTracker.data t)) ->
  DeploymentTracker.getLastConfig
    (DeploymentTracker.construct (DeploymentTracker.disk t) n) pl
  = Json.instantiate_plain n ["lastConfig"; platform_name pl]
      (Json.stringify_plain (DeploymentTracker.getLastConfig t pl)).
Proof.
  intros H. unfold DeploymentTracker.getLastConfig.
  rewrite (reload_data t n H).
  cbn [lastConfig DeploymentTracker.parse_history
       DeploymentTracker.stringify_history snap_android snap_ios
       stored_lastConfig stored_android stored_ios].
  destruct pl; cbn [platform_name].
  - destruct (snap_ios (lastConfig (DeploymentTracker.data t))); reflexivity.
  - destruct (snap_android (lastConfig (DeploymentTracker.data t))); reflexivity.
Qed.

(** X7.  After a mutating call that returned ([initialize], [updateStatus],
    [updateLastConfig]) the deployments document exists, and a tracker
    constructed anew on the same directory holds the same versions and
    answers [getVersionStatus], [getAllVersions], [getMissingPlatforms] and
    [checkSyncWarnings] as the old one; each of its snapshots is what
    [JSON.parse] builds from what [JSON.stringify] wrote for the old one.
    The one mutating call that can throw is [updateStatus] for an untracked
    version named like a member of [Object.prototype]; it changes
    nothing. *)
Theorem ledger_survives_reload :
  forall (f : string -> string) (c : call) (t : DeploymentTracker.Tracker)
         (n : nat),
    is_query c = false ->
    (forall (r : reply) (t' : DeploymentTracker.Tracker),
       perform f c t = (JS.Returns r, t') ->
       let t'' := DeploymentTracker.construct (DeploymentTracker.disk t') n in
       DeploymentTracker.exists_ t' = true
       /\ versions (DeploymentTracker.data t'')
          = versions (DeploymentTracker.data t')
       /\ (forall v, DeploymentTracker.getVersionStatus t'' v
                     = DeploymentTracker.getVersionStatus t' v)
       /\ DeploymentTracker.getAllVersions t''
          = DeploymentTracker.getAllVersions t'
       /\ (forall v pr, DeploymentTracker.getMissingPlatforms t'' v pr
                        = DeploymentTracker.getMissingPlatforms t' v pr)
       /\ (forall g v pl pr, DeploymentTracker.checkSyncWarnings g t'' v pl pr
                             = DeploymentTracker.checkSyncWarnings g t' v pl pr)
       /\ (forall pl,
             DeploymentTracker.getLastConfig t'' pl
             = Json.instantiate_plain n ["lastConfig"; platform_name pl]
                 (Json.stringify_plain
                    (DeploymentTracker.getLastConfig t' pl))))
    /\ (forall (e : JS.exn) (t' : DeploymentTracker.Tracker),
          perform f c t = (JS.Throws e, t') ->
          t' = t /\ e = JS.TypeError
          /\ exists now v pl pr,
               c = Call_updateStatus now v pl pr /\ ~ recordable t v).
Proof.
  intros f c t n Hc. split; [|intros e t' H; exact (mutators_throw f c t t' e Hc H)].
  intros r t' Hperf t''.
  pose proof (mutators_save f c t t' r Hc Hperf) as Hsaved.
  pose proof (reload_data t' n Hsaved) as Hdata. fold t'' in Hdata.
  assert (Hv : versions (DeploymentTracker.data t'')
               = versions (DeploymentTracker.data t'))
    by (rewrite Hdata; reflexivity).
  assert (Hstatus : forall v, DeploymentTracker.getVersionStatus t'' v
                              = DeploymentTracker.getVersionStatus t' v)
    by (intros v; apply getVersionStatus_same_get; rewrite Hv; reflexivity).
  split; [exact (exists_written t' _ Hsaved)|].
  split; [exact Hv|]. split; [exact Hstatus|].
  split; [unfold DeploymentTracker.getAllVersions; rewrite Hv; reflexivity|].
  split; [intros v pr; apply getMissingPlatforms_same_status, Hstatus|].
  split; [intros g v pl pr; apply checkSyncWarnings_same_status, Hstatus|].
  intros pl. exact (reload_getLastConfig t' n pl Hsaved).
Qed.

Lemma ledger_survives_reload_witness :
  DeploymentTracker.getAllVersions
    (DeploymentTracker.construct
       (DeploymentTracker.disk
          (record_one sample_time "3.1.4" ios production fresh_tracker)) 5)
  = DeploymentTracker.getAllVersions
      (record_one sample_time "3.1.4" ios production fresh_tracker).
Proof.
  exact (proj1 (proj2 (proj2 (proj2
           (proj1 (ledger_survives_reload (fun iso => iso)
                     (Call_updateStatus sample_time "3.1.4" ios production)
                     fresh_tracker 5 eq_refl)
              Done
              (record_one sample_time "3.1.4" ios production fresh_tracker)
              eq_refl))))).
Defined.

Lemma truthy_stamp (now : string) :
  now <> EmptyString -> DeploymentTracker.truthy (Stamp now) = true.
Proof. destruct now; [congruence | reflexivity]. Qed.

Lemma otherPlatform_pair (pl : Platform) (pr pr' : Profile) :
  (DeploymentTracker.otherPlatform pl, pr') <> (pl, pr).
Proof. destruct pl; discriminate. Qed.

Lemma pair_otherPlatform (pl : Platform) (pr pr' : Profile) :
  (pl, pr') <> (DeploymentTracker.otherPlatform pl, pr).
Proof. destruct pl; discriminate. Qed.

Lemma platform_cases (pl P : Platform) :
  P = pl \/ P = DeploymentTracker.otherPlatform pl.
Proof. destruct pl, P; auto. Qed.

Lemma otherPlatform_involutive (pl : Platform) :
  DeploymentTracker.otherPlatform (DeploymentTracker.otherPlatform pl) = pl.
Proof. destruct pl; reflexivity. Qed.

Lemma getMissingPlatforms_same_slots (t t' : DeploymentTracker.Tracker)
      (v v' : string) (pr pr' : Profile) :
  recordable t v -> recordable t' v' ->
  (forall P,
     DeploymentTracker.slot_of (record_of t' v') P pr'
     = DeploymentTracker.slot_of (record_of t v) P pr) ->
  DeploymentTracker.getMissingPlatforms t' v' pr'
  = DeploymentTracker.getMissingPlatforms t v pr.
Proof.
  intros Hv Hv' H.
  rewrite (getMissingPlatforms_cases t' v' pr' Hv'),
          (getMissingPlatforms_cases t v pr Hv).
  cbv zeta. rewrite (H ios), (H android). reflexivity.
Qed.

Lemma getMissingPlatforms_in (t : DeploymentTracker.Tracker) (v : string)
      (pr : Profile) (P : Platform) :
  recordable t v ->
  exists missing,
    DeploymentTracker.getMissingPlatforms t v pr = JS.Returns missing
    /\ (In P missing
        <-> DeploymentTracker.truthy
              (DeploymentTracker.slot_of (record_of t v)
                 (DeploymentTracker.otherPlatform P) pr) = true
            /\ DeploymentTracker.truthy
                 (DeploymentTracker.slot_of (record_of t v) P pr) = false).
Proof.
  intros Hv. eexists. split; [apply getMissingPlatforms_cases, Hv|].
  apply missing_iff.
Qed.

(** X8.  For a version that is tracked, or whose text is not the name of a
    member of [Object.prototype]: after [updateStatus(v, pl, pr)] with a
    non-empty timestamp, [getMissingPlatforms(v, pr)] returns a list that
    never holds [pl], and that holds the sibling platform exactly when the
    sibling was not deployed before; the answers for other profiles and
    other versions do not change; once the sibling is recorded too the
    answer is empty; and [checkSyncWarnings(v, pl, pr)] returns the single
    re-deployment warning. *)
Theorem recording_updates_missing_platforms :
  forall (now v : string) (pl : Platform) (pr : Profile)
         (t : DeploymentTracker.Tracker),
    now <> EmptyString ->
    recordable t v ->
    let other := DeploymentTracker.otherPlatform pl in
    exists t',
      DeploymentTracker.updateStatus now v pl pr t = (JS.Returns tt, t')
      /\ (exists missing,
            DeploymentTracker.getMissingPlatforms t' v pr = JS.Returns missing
            /\ ~ In pl missing
            /\ (In other missing
                <-> DeploymentTracker.truthy
                      (DeploymentTracker.slot_of (record_of t v) other pr)
                    = false))
      /\ (forall pr', pr' <> pr ->
            DeploymentTracker.getMissingPlatforms t' v pr'
            = DeploymentTracker.getMissingPlatforms t v pr')
      /\ (forall u pr', u <> v ->
            DeploymentTracker.getMissingPlatforms t' u pr'
            = DeploymentTracker.getMissingPlatforms t u pr')
      /\ (forall now', now' <> EmptyString ->
            exists t'',
              DeploymentTracker.updateStatus now' v other pr t'
              = (JS.Returns tt, t'')
              /\ DeploymentTracker.getMissingPlatforms t'' v pr = JS.Returns [])
      /\ (forall f, exists m,
            DeploymentTracker.checkSyncWarnings f t' v pl pr
            = JS.Returns
                [ {| message := m; warn_platform := pl; warn_profile := pr |} ]).
Proof.
  intros now v pl pr t Hnow Hv other.
  exists (record_one now v pl pr t).
  set (t' := record_one now v pl pr t).
  assert (Hv' : recordable t' v) by (apply recordable_record_one, Hv).
  assert (Hrec : record_of t' v
                 = DeploymentTracker.set_slot (record_of t v) pl pr (Stamp now))
    by (apply record_of_record_one_same, Hv).
  assert (Hthis : DeploymentTracker.slot_of (record_of t' v) pl pr = Stamp now)
    by (rewrite Hrec; apply slot_of_set_slot_same).
  assert (Hother : DeploymentTracker.slot_of (record_of t' v) other pr
                   = DeploymentTracker.slot_of (record_of t v) other pr)
    by (rewrite Hrec; apply slot_of_set_slot_other, otherPlatform_pair).
  split; [apply record_one_recordable, Hv|].
  split; [|split; [|split; [|split]]].
  - eexists. split; [apply getMissingPlatforms_cases, Hv'|]. cbv zeta. split.
    + intros Hin. apply missing_iff in Hin. destruct Hin as [_ Hin].
      rewrite Hthis, (truthy_stamp now Hnow) in Hin. discriminate.
    + rewrite missing_iff. unfold other in *. rewrite otherPlatform_involutive.
      rewrite Hthis, Hother, (truthy_stamp now Hnow). tauto.
  - intros pr' Hpr. apply getMissingPlatforms_same_slots; [exact Hv|exact Hv'|].
    intros P. rewrite Hrec. apply slot_of_set_slot_other. congruence.
  - intros u pr' Hu. apply getMissingPlatforms_same_status.
    apply getVersionStatus_record_one_other. congruence.
  - intros now' Hnow'. exists (record_one now' v other pr t').
    split; [apply record_one_recordable, Hv'|].
    rewrite getMissingPlatforms_cases by (apply recordable_record_one, Hv').
    cbv zeta.
    assert (Hboth : forall P,
               DeploymentTracker.truthy
                 (DeploymentTracker.slot_of
                    (record_of (record_one now' v other pr t') v) P pr)
               = true).
    { intros P. rewrite (record_of_record_one_same now' v other pr t' Hv').
      destruct (platform_cases pl P) as [-> | ->].
      - rewrite slot_of_set_slot_other by (apply pair_otherPlatform).
        rewrite Hthis. apply truthy_stamp, Hnow.
      - unfold other. rewrite slot_of_set_slot_same. apply truthy_stamp, Hnow'. }
    rewrite (Hboth ios), (Hboth android). reflexivity.
  - intros f.
    destruct (checkSyncWarnings_cases f t' v pl pr Hv')
      as [ws [Hws [[_ [m Hm]] | [[Hf _] | [Hf _]]]]].
    + exists m. rewrite Hws, Hm. reflexivity.
    + rewrite Hthis, (truthy_stamp now Hnow) in Hf. discriminate.
    + rewrite Hthis, (truthy_stamp now Hnow) in Hf. discriminate.
Qed.

Lemma recording_updates_missing_platforms_witness :
  exists t',
    DeploymentTracker.updateStatus sample_time "1.0.0" android staging
      fresh_tracker = (JS.Returns tt, t')
    /\ exists missing,
         DeploymentTracker.getMissingPlatforms t' "1.0.0" staging
         = JS.Returns missing
         /\ ~ In android missing.
Proof.
  destruct (recording_updates_missing_platforms sample_time "1.0.0" android
              staging fresh_tracker ltac:(discriminate) ltac:(right; reflexivity))
    as [t' [H1 [[missing [H2 [H3 _]]] _]]].
  exists t'. split; [exact H1|]. exists missing. split; [exact H2 | exact H3].
Defined.

(** X9.  For a version that is not tracked and whose text is not the name
    of a member of [Object.prototype], [getVersionStatus] returns the empty
    record ([null] for preview and production on both platforms), and
    [getMissingPlatforms] and [checkSyncWarnings] return nothing, whatever
    the platform and profile.  For an untracked version named like such a
    member, [getVersionStatus] returns that member, and the two other
    queries end with a [TypeError]. *)
Theorem untracked_version_is_blank :
  forall (t : DeploymentTracker.Tracker) (v : string),
    ~ tracked t v ->
    (Json.inherited_name v = false ->
     DeploymentTracker.getVersionStatus t v
     = Json.Own DeploymentTracker.createEmptyDeploymentRecord
     /\ (forall pr,
           DeploymentTracker.getMissingPlatforms t v pr = JS.Returns [])
     /\ (forall f pl pr,
           DeploymentTracker.checkSyncWarnings f t v pl pr = JS.Returns []))
    /\ (Json.inherited_name v = true ->
        DeploymentTracker.getVersionStatus t v = Json.Inherited v
        /\ (forall pr,
              DeploymentTracker.getMissingPlatforms t v pr
              = JS.Throws JS.TypeError)
        /\ (forall f pl pr,
              DeploymentTracker.checkSyncWarnings f t v pl pr
              = JS.Throws JS.TypeError)).
Proof.
  intros t v Hv.
  assert (Hget : Json.get (versions (DeploymentTracker.data t)) v = None).
  { destruct (Json.get (versions (DeploymentTracker.data t)) v) eqn:Hget;
      [|reflexivity].
    exfalso. apply Hv, tracked_get. congruence. }
  split; intros Hname.
  - assert (Hstatus : DeploymentTracker.getVersionStatus t v
                      = Json.Own DeploymentTracker.createEmptyDeploymentRecord).
    { unfold DeploymentTracker.getVersionStatus.
      rewrite (lookup_missing _ _ Hget), Hname. reflexivity. }
    split; [exact Hstatus|]. split.
    + intros pr. unfold DeploymentTracker.getMissingPlatforms.
      rewrite Hstatus. destruct pr; reflexivity.
    + intros f pl pr. unfold DeploymentTracker.checkSyncWarnings.
      rewrite Hstatus. destruct pl, pr; reflexivity.
  - assert (Hnot : ~ recordable t v).
    { intros [H|H]; [exact (Hv H) | congruence]. }
    split; [apply getVersionStatus_unrecordable, Hnot|]. split.
    + intros pr. apply getMissingPlatforms_unrecordable, Hnot.
    + intros f pl pr. apply checkSyncWarnings_unrecordable, Hnot.
Qed.

Lemma untracked_version_is_blank_witness :
  DeploymentTracker.getVersionStatus
    (record_one sample_time "1.0.0" ios preview fresh_tracker) "9.9.9"
  = Json.Own DeploymentTracker.createEmptyDeploymentRecord
  /\ DeploymentTracker.getVersionStatus
       (record_one sample_time "1.0.0" ios preview fresh_tracker) "valueOf"
     = Json.Inherited "valueOf".
Proof.
  split.
  - apply (proj1 (proj1 (untracked_version_is_blank
                           (record_one sample_time "1.0.0" ios preview
                              fresh_tracker) "9.9.9"
                           ltac:(intros [H|[]]; discriminate H))
                    eq_refl)).
  - apply (proj1 (proj2 (untracked_version_is_blank
                           (record_one sample_time "1.0.0" ios preview
                              fresh_tracker) "valueOf"
                           ltac:(intros [H|[]]; discriminate H))
                    eq_refl)).
Defined.

Lemma keys_record_one (now v : string) (pl : Platform) (pr : Profile)
      (t : DeploymentTracker.Tracker) :
  Json.keys (versions (DeploymentTracker.data (record_one now v pl pr t)))
  = if recordable_dec t v
    then match Json.get (versions (DeploymentTracker.data t)) v with
         | Some _ => Json.keys (versions (DeploymentTracker.data t))
         | None => (Json.keys (versions (DeploymentTracker.data t)) ++ [v])%list
         end
    else Json.keys (versions (DeploymentTracker.data t)).
Proof.
  rewrite versions_record_one.
  destruct (recordable_dec t v) as [Hv|Hv]; [|reflexivity].
  destruct (Json.get (versions (DeploymentTracker.data t)) v) as [r|] eqn:Hget.
  - rewrite <- (update_as_set _ v (fun _ => DeploymentTracker.set_slot
                                             (record_of t v) pl pr (Stamp now))
                  r Hget).
    apply keys_update.
  - apply keys_set_new. exact Hget.
Qed.

Lemma getAllVersions_in (t : DeploymentTracker.Tracker) (u : string) :
  In u (DeploymentTracker.getAllVersions t) <-> tracked t u.
Proof.
  unfold tracked, DeploymentTracker.getAllVersions.
  pose proof (Array_sort_perm DeploymentTracker.newest_first
                (Json.keys (versions (DeploymentTracker.data t)))) as Hperm.
  split; intros H.
  - apply (Permutation_in u Hperm). exact H.
  - apply (Permutation_in u (Permutation_sym Hperm)). exact H.
Qed.

Lemma versions_unique_record_one (now v : string) (pl : Platform)
      (pr : Profile) (t : DeploymentTracker.Tracker) :
  versions_unique t -> versions_unique (record_one now v pl pr t).
Proof.
  unfold versions_unique. intros H. rewrite keys_record_one.
  destruct (recordable_dec t v) as [Hv|Hv]; [|exact H].
  destruct (Json.get (versions (DeploymentTracker.data t)) v) eqn:Hget;
    [exact H|].
  apply (Permutation_NoDup (Permutation_cons_append _ v)).
  constructor; [|exact H]. rewrite keys_get. congruence.
Qed.

Lemma versions_unique_perform (f : string -> string) (c : call)
      (t : DeploymentTracker.Tracker) :
  versions_unique t -> versions_unique (snd (perform f c t)).
Proof.
  intros H.
  destruct c as [| |v|now v pl pr|pl|pl config| |v pl pr|v pr|];
    cbn [perform answer snd]; try exact H.
  - constructor.
  - replace (snd (let '(r, t') := DeploymentTracker.updateStatus now v pl pr t in
                  (_ <- r;; JS.Returns Done, t')))
      with (record_one now v pl pr t)
      by (unfold record_one;
          destruct (DeploymentTracker.updateStatus now v pl pr t); reflexivity).
    apply versions_unique_record_one, H.
Qed.

(** X10.  The ledger never holds a version key twice: this is so for the
    empty history and after [initialize], and every call keeps it so.  On
    such a ledger [getAllVersions] lists each tracked version once.  For a
    version [v] that is tracked, or whose text is not the name of a member
    of [Object.prototype], [updateStatus(v, ...)] adds [v] to the listing
    and nothing else: the listing grows by one when [v] was not tracked
    and keeps its length when it was.  For any other [v] the call throws
    and the listing stays as it was. *)
Theorem getAllVersions_lists_each_version_once :
  (forall (f : string -> string) (cs : list call) (d : Disk) (n : nat),
     deployments_json d = None \/ deployments_json d = Some Fs.Garbage ->
     versions_unique (perform_all f cs (DeploymentTracker.construct d n)))
  /\ (forall f cs t,
        versions_unique (perform_all f cs (DeploymentTracker.initialize t)))
  /\ (forall t, versions_unique t -> NoDup (DeploymentTracker.getAllVersions t))
  /\ (forall t u, In u (DeploymentTracker.getAllVersions t) <-> tracked t u)
  /\ (forall now v pl pr t,
        recordable t v ->
        exists t',
          DeploymentTracker.updateStatus now v pl pr t = (JS.Returns tt, t')
          /\ (forall u,
                In u (DeploymentTracker.getAllVersions t')
                <-> u = v \/ In u (DeploymentTracker.getAllVersions t))
          /\ List.length (DeploymentTracker.getAllVersions t')
             = if in_dec String.string_dec v (DeploymentTracker.getAllVersions t)
               then List.length (DeploymentTracker.getAllVersions t)
               else S (List.length (DeploymentTracker.getAllVersions t)))
  /\ (forall now v pl pr t,
        ~ recordable t v ->
        exists e,
          DeploymentTracker.updateStatus now v pl pr t = (JS.Throws e, t)).
Proof.
  assert (Hall : forall f cs t,
             versions_unique t -> versions_unique (perform_all f cs t)).
  { intros f cs. unfold perform_all.
    induction cs as [|c cs IH]; intros t H; cbn [fold_left]; [exact H|].
    apply IH, versions_unique_perform, H. }
  split; [|split; [|split; [|split; [|split]]]].
  - intros f cs d n H. apply Hall. unfold versions_unique.
    unfold DeploymentTracker.construct, DeploymentTracker.load. simpl.
    destruct H as [-> | ->]; constructor.
  - intros f cs t. apply Hall. constructor.
  - intros t H. unfold DeploymentTracker.getAllVersions.
    apply (Permutation_NoDup
             (Permutation_sym
                (Array_sort_perm DeploymentTracker.newest_first
                   (Json.keys (versions (DeploymentTracker.data t)))))).
    exact H.
  - apply getAllVersions_in.
  - intros now v pl pr t Hv. exists (record_one now v pl pr t).
    split; [apply record_one_recordable, Hv|]. split.
    + intros u. rewrite !getAllVersions_in. unfold tracked.
      rewrite keys_record_one.
      destruct (recordable_dec t v) as [_|Hn]; [|contradiction].
      destruct (Json.get (versions (DeploymentTracker.data t)) v) eqn:Hget.
      * split; [auto|]. intros [-> | H]; [|exact H].
        apply keys_get. congruence.
      * rewrite in_app_iff. simpl. intuition congruence.
    + assert (Hlen : List.length (DeploymentTracker.getAllVersions t)
                     = List.length
                         (Json.keys (versions (DeploymentTracker.data t)))).
      { apply Permutation_length.
        apply (Array_sort_perm DeploymentTracker.newest_first). }
      assert (Hlen' : List.length (DeploymentTracker.getAllVersions
                                     (record_one now v pl pr t))
                      = List.length
                          (Json.keys (versions (DeploymentTracker.data
                             (record_one now v pl pr t))))).
      { apply Permutation_length.
        apply (Array_sort_perm DeploymentTracker.newest_first). }
      rewrite Hlen', Hlen, keys_record_one.
      destruct (recordable_dec t v) as [_|Hn]; [|contradiction].
      destruct (in_dec String.string_dec v (DeploymentTracker.getAllVersions t))
        as [Hin|Hout].
      * apply getAllVersions_in, tracked_get in Hin.
        destruct (Json.get (versions (DeploymentTracker.data t)) v);
          [reflexivity | congruence].
      * destruct (Json.get (versions (DeploymentTracker.data t)) v) eqn:Hget.
        -- exfalso. apply Hout, getAllVersions_in, tracked_get. congruence.
        -- rewrite length_app. simpl. lia.
  - intros now v pl pr t Hv. exists JS.TypeError.
    apply updateStatus_unrecordable, Hv.
Qed.

Lemma getAllVersions_lists_each_version_once_witness :
  NoDup (DeploymentTracker.getAllVersions
           (perform_all (fun iso => iso)
              [Call_updateStatus sample_time "1.0.0" ios preview;
               Call_updateStatus sample_time "1.0.0" android preview;
               Call_updateStatus sample_time "1.1.0" ios preview]
              (DeploymentTracker.construct empty_disk 0))).
Proof.
  apply (proj1 (proj2 (proj2 getAllVersions_lists_each_version_once))).
  apply (proj1 getAllVersions_lists_each_version_once). left. reflexivity.
Defined.

(* ================================================================== *)
(** * Further properties of the drift detector                         *)
(* ================================================================== *)

Lemma critical_source_entry (pl : Platform) (appJson : option ExpoAppJson)
      (criticalKeys criticalKeys' : option (list string)) :
  fst (critical_source pl appJson criticalKeys)
  = fst (critical_source pl appJson criticalKeys').
Proof.
  unfold critical_source. destruct appJson as [appJson|]; [|reflexivity].
  destruct (find ConfigDetector.is_build_properties
              (ConfigDetector.plugins_of appJson ?? []))
    as [[name|name [pluginConfig|]]|]; reflexivity.
Qed.

Lemma copied_keys_cases (pl : Platform) (t : DeploymentTracker.Tracker)
      (criticalKeys : option (list string)) :
  copied_keys pl t criticalKeys = []
  \/ copied_keys pl t criticalKeys
     = criticalKeys ?? ConfigDetector.DEFAULT_CRITICAL_CONFIG pl.
Proof.
  unfold copied_keys, critical_source.
  destruct (Fs.readJsonFile (app_json (DeploymentTracker.disk t)))
    as [appJson|]; [|auto].
  destruct (find ConfigDetector.is_build_properties
              (ConfigDetector.plugins_of appJson ?? []))
    as [[name|name [pluginConfig|]]|]; auto.
Qed.

Lemma copied_keys_in (pl : Platform) (t : DeploymentTracker.Tracker)
      (criticalKeys : option (list string)) (k : string) :
  In k (copied_keys pl t criticalKeys) ->
  In k (criticalKeys ?? ConfigDetector.DEFAULT_CRITICAL_CONFIG pl).
Proof.
  destruct (copied_keys_cases pl t criticalKeys) as [E|E]; rewrite E;
    [intros [] | auto].
Qed.

Lemma existsb_eqb_in (k : string) (keys : list string) :
  existsb (String.eqb k) keys = true <-> In k keys.
Proof.
  rewrite existsb_exists. split.
  - intros [x [Hx E]]. apply String.eqb_eq in E. subst. exact Hx.
  - intros H. exists k. split; [exact H | apply String.eqb_refl].
Qed.

Lemma not_in_proto (k : string) (keys : list string) :
  ~ In "__proto__" keys -> In k keys -> String.eqb k "__proto__" = false.
Proof.
  intros Hno Hin. destruct (String.eqb_spec k "__proto__") as [->|]; [|reflexivity].
  contradiction.
Qed.

Lemma get_extract_from (birth : nat) (pl : Platform)
      (platformConfig : Json.object Json.json) (keys : list string)
      (k : string) (acc : Json.plain) :
  ~ In "__proto__" keys ->
  Json.get
    (Json.own
       (fold_left
          (fun config k =>
             let value :=
               Json.parsed_get birth [platform_name pl] platformConfig k in
             if Json.strict_neq value Json.VUndefined
             then Json.plain_set config k value
             else config)
          keys acc)) k
  = if existsb (String.eqb k) keys
       && Json.strict_neq
            (Json.parsed_get birth [platform_name pl] platformConfig k)
            Json.VUndefined
    then Some (Json.parsed_get birth [platform_name pl] platformConfig k)
    else Json.get (Json.own acc) k.
Proof.
  revert acc. induction keys as [|k0 keys IH]; intros acc Hno; [reflexivity|].
  rewrite extract_critical_step.
  rewrite IH by (intros H; apply Hno; right; exact H).
  cbn [existsb]. cbv zeta.
  assert (Hk0 : String.eqb k0 "__proto__" = false)
    by (apply (not_in_proto k0 (k0 :: keys) Hno); left; reflexivity).
  destruct (existsb (String.eqb k) keys) eqn:Hex; cbn [andb orb].
  - rewrite Bool.orb_true_r. cbn [andb].
    destruct (Json.strict_neq
                (Json.parsed_get birth [platform_name pl] platformConfig k)
                Json.VUndefined) eqn:Hdef; [reflexivity|].
    destruct (String.eqb_spec k k0) as [<-|Hne].
    + rewrite Hdef. reflexivity.
    + destruct (Json.strict_neq
                  (Json.parsed_get birth [platform_name pl] platformConfig k0)
                  Json.VUndefined); [|reflexivity].
      rewrite (plain_set_other _ _ _ Hk0). cbn [Json.own].
      apply get_set_other. congruence.
  - rewrite Bool.orb_false_r.
    destruct (String.eqb_spec k k0) as [<-|Hne]; cbn [andb].
    + destruct (Json.strict_neq
                  (Json.parsed_get birth [platform_name pl] platformConfig k)
                  Json.VUndefined) eqn:Hdef; [|reflexivity].
      rewrite (plain_set_other _ _ _ Hk0). cbn [Json.own].
      apply get_set_same.
    + destruct (Json.strict_neq
                  (Json.parsed_get birth [platform_name pl] platformConfig k0)
                  Json.VUndefined); [|reflexivity].
      rewrite (plain_set_other _ _ _ Hk0). cbn [Json.own].
      apply get_set_other. congruence.
Qed.

Lemma get_extract_critical (birth : nat) (pl : Platform)
      (platformConfig : Json.object Json.json) (keys : list string)
      (k : string) :
  ~ In "__proto__" keys ->
  Json.get
    (Json.own (ConfigDetector.extract_critical birth pl platformConfig keys)) k
  = if existsb (String.eqb k) keys
       && Json.strict_neq
            (Json.parsed_get birth [platform_name pl] platformConfig k)
            Json.VUndefined
    then Some (Json.parsed_get birth [platform_name pl] platformConfig k)
    else None.
Proof.
  intros Hno. unfold ConfigDetector.extract_critical.
  rewrite get_extract_from by exact Hno. reflexivity.
Qed.

Lemma current_config_of_source (pl : Platform) (t : DeploymentTracker.Tracker)
      (criticalKeys : option (list string)) :
  fst (ConfigDetector.readCurrentPlatformConfig pl t criticalKeys)
  = ConfigDetector.extract_critical (DeploymentTracker.parses t) pl
      (platform_entry pl t) (copied_keys pl t criticalKeys).
Proof.
  cbn [ConfigDetector.readCurrentPlatformConfig fst].
  rewrite platform_config_of_source. unfold platform_entry, copied_keys.
  rewrite (critical_source_entry pl _ criticalKeys None). reflexivity.
Qed.

Lemma copied_keys_no_proto (pl : Platform) (t : DeploymentTracker.Tracker)
      (criticalKeys : option (list string)) :
  ~ In "__proto__" (criticalKeys ?? ConfigDetector.DEFAULT_CRITICAL_CONFIG pl) ->
  ~ In "__proto__" (copied_keys pl t criticalKeys).
Proof. intros Hno H. apply Hno, (copied_keys_in pl t), H. Qed.

Lemma get_current_config (pl : Platform) (t : DeploymentTracker.Tracker)
      (criticalKeys : option (list string)) (k : string) :
  ~ In "__proto__" (criticalKeys ?? ConfigDetector.DEFAULT_CRITICAL_CONFIG pl) ->
  Json.get
    (Json.own (fst (ConfigDetector.readCurrentPlatformConfig pl t criticalKeys)))
    k
  = if existsb (String.eqb k) (copied_keys pl t criticalKeys)
       && Json.strict_neq
            (Json.parsed_get (DeploymentTracker.parses t) [platform_name pl]
               (platform_entry pl t) k)
            Json.VUndefined
    then Some (Json.parsed_get (DeploymentTracker.parses t) [platform_name pl]
                 (platform_entry pl t) k)
    else None.
Proof.
  intros Hno. rewrite current_config_of_source.
  apply get_extract_critical, copied_keys_no_proto, Hno.
Qed.

Lemma parsed_get_own_name (birth : nat) (path : list string)
      (members : Json.object Json.json) (k : string) :
  Json.inherited_name k = false ->
  Json.parsed_get birth path members k
  = match Json.get members k with
    | Some j => Json.instantiate birth (path ++ [k]) j
    | None => Json.VUndefined
    end.
Proof.
  intros Hk. unfold Json.parsed_get.
  destruct (Json.get members k); [reflexivity|].
  apply from_Object_prototype_own_name, Hk.
Qed.

Lemma keys_set_unique {T : Type} (o : Json.object T) (k : string) (x : T) :
  NoDup (Json.keys o) -> NoDup (Json.keys (Json.set o k x)).
Proof.
  intros H. destruct (Json.get o k) as [y|] eqn:Hget.
  - rewrite <- (update_as_set o k (fun _ => x) y Hget), keys_update. exact H.
  - rewrite keys_set_new by exact Hget.
    apply (Permutation_NoDup (Permutation_cons_append _ k)).
    constructor; [|exact H]. rewrite keys_get. congruence.
Qed.

Lemma plain_set_unique (o : Json.plain) (k : string) (v : Json.value) :
  NoDup (Json.keys (Json.own o)) ->
  NoDup (Json.keys (Json.own (Json.plain_set o k v))).
Proof.
  intros H. unfold Json.plain_set.
  destruct (String.eqb k "__proto__"
            && match Json.get (Json.own o) k with
               | Some _ => false
               | None => true
               end
            && Json.reaches_setter (Json.proto o)).
  - destruct (Json.as_prototype v); exact H.
  - cbn [Json.own]. apply keys_set_unique, H.
Qed.

Lemma extract_critical_unique (birth : nat) (pl : Platform)
      (platformConfig : Json.object Json.json) (keys : list string) :
  NoDup (Json.keys
           (Json.own
              (ConfigDetector.extract_critical birth pl platformConfig keys))).
Proof.
  unfold ConfigDetector.extract_critical.
  assert (H : forall acc : Json.plain,
             NoDup (Json.keys (Json.own acc)) ->
             NoDup (Json.keys
                      (Json.own
                         (fold_left
                            (fun config k =>
                               let value :=
                                 Json.parsed_get birth [platform_name pl]
                                   platformConfig k in
                               if Json.strict_neq value Json.VUndefined
                               then Json.plain_set config k value
                               else config) keys acc)))).
  { induction keys as [|k keys IH]; intros acc Hacc; [exact Hacc|].
    rewrite extract_critical_step. apply IH. cbv zeta.
    destruct (Json.strict_neq _ _); [apply plain_set_unique|]; exact Hacc. }
  apply H. constructor.
Qed.

Lemma strict_neq_undefined (v : Json.value) :
  Json.strict_neq v Json.VUndefined = true <-> v <> Json.VUndefined.
Proof.
  destruct v as [| |b|n|s|b p c| |o m]; cbn; split; try congruence;
    try discriminate; auto.
Qed.

Lemma get_current_config_entry (pl : Platform) (t : DeploymentTracker.Tracker)
      (criticalKeys : option (list string)) (k : string) (v : Json.value) :
  own_names (criticalKeys ?? ConfigDetector.DEFAULT_CRITICAL_CONFIG pl) ->
  Json.get
    (Json.own (fst (ConfigDetector.readCurrentPlatformConfig pl t criticalKeys)))
    k = Some v
  <-> In k (copied_keys pl t criticalKeys)
      /\ exists j, Json.get (platform_entry pl t) k = Some j
                   /\ v = Json.instantiate (DeploymentTracker.parses t)
                            [platform_name pl; k] j.
Proof.
  intros Hown. pose proof (own_names_no_proto _ Hown) as Hno.
  rewrite (get_current_config pl t _ k Hno).
  destruct (existsb (String.eqb k) (copied_keys pl t criticalKeys)) eqn:E;
    cbn [andb].
  - apply existsb_eqb_in in E.
    assert (Hk : Json.inherited_name k = false).
    { apply copied_keys_in in E.
      exact (proj1 (Forall_forall _ _) Hown k E). }
    rewrite (parsed_get_own_name _ _ _ _ Hk).
    destruct (Json.get (platform_entry pl t) k) as [j|].
    + replace (Json.strict_neq
                 (Json.instantiate (DeploymentTracker.parses t)
                    ([platform_name pl] ++ [k]) j) Json.VUndefined)
        with true by (symmetry; apply instantiate_defined).
      split.
      * intros [= <-]. split; [exact E|]. exists j. split; reflexivity.
      * intros [_ [j' [[= <-] ->]]]. reflexivity.
    + cbn. split; [discriminate|]. intros [_ [j [Hj _]]]. discriminate.
  - split; [discriminate|]. intros [Hin _].
    apply existsb_eqb_in in Hin. congruence.
Qed.

Lemma current_config_defined (pl : Platform)
      (t : DeploymentTracker.Tracker) (criticalKeys : option (list string))
      (k : string) :
  own_names (criticalKeys ?? ConfigDetector.DEFAULT_CRITICAL_CONFIG pl) ->
  Json.inherited_name k = false ->
  Json.plain_get
    (fst (ConfigDetector.readCurrentPlatformConfig pl t criticalKeys)) k
  <> Json.VUndefined
  <-> In k (Json.keys
              (Json.own
                 (fst (ConfigDetector.readCurrentPlatformConfig pl t
                         criticalKeys)))).
Proof.
  intros Hown Hk. pose proof (own_names_no_proto _ Hown) as Hno.
  rewrite plain_get_own;
    [|cbn [ConfigDetector.readCurrentPlatformConfig fst];
      apply platform_config_of_ordinary, Hno
     |exact Hk].
  rewrite keys_get. unfold Json.read.
  destruct (Json.get _ k) as [v|] eqn:Hv.
  - split; [congruence|]. intros _.
    apply (get_current_config_entry pl t criticalKeys k v Hown) in Hv.
    destruct Hv as [_ [j [_ ->]]].
    apply strict_neq_undefined, instantiate_defined.
  - split; congruence.
Qed.

(** X11.  As long as [__proto__] is not among the critical keys,
    [readCurrentPlatformConfig] returns an object with the prototype of a
    literal that holds a key exactly when the key is among the critical
    keys and reading it from the platform entry of the build-properties
    plugin gives a value, which it holds; no key comes twice.  When no
    critical key is the name of a member of [Object.prototype], these are
    the keys the platform entry defines, with the values found there:
    settings outside the critical keys and critical keys the project does
    not set are left out.  When [app.json] is missing or does not parse the
    result is empty. *)
Theorem readCurrentPlatformConfig_copies_defined_critical_keys :
  forall (pl : Platform) (t : DeploymentTracker.Tracker)
         (criticalKeys : option (list string)),
    let keys := criticalKeys ?? ConfigDetector.DEFAULT_CRITICAL_CONFIG pl in
    let config := fst (ConfigDetector.readCurrentPlatformConfig pl t criticalKeys) in
    (~ In "__proto__" keys ->
     ordinary config
     /\ (forall k v,
           Json.get (Json.own config) k = Some v <->
           In k (copied_keys pl t criticalKeys)
           /\ v = Json.parsed_get (DeploymentTracker.parses t) [platform_name pl]
                    (platform_entry pl t) k
           /\ v <> Json.VUndefined)
     /\ (forall k, In k (Json.keys (Json.own config)) -> In k keys))
    /\ (own_names keys ->
        (forall k v,
           Json.get (Json.own config) k = Some v <->
           In k (copied_keys pl t criticalKeys)
           /\ exists j, Json.get (platform_entry pl t) k = Some j
                        /\ v = Json.instantiate (DeploymentTracker.parses t)
                                 [platform_name pl; k] j)
        /\ (forall k, Json.inherited_name k = false ->
              (Json.plain_get config k <> Json.VUndefined
               <-> In k (Json.keys (Json.own config)))))
    /\ NoDup (Json.keys (Json.own config))
    /\ (Fs.readJsonFile (app_json (DeploymentTracker.disk t)) = None ->
        config = Json.literal []).
Proof.
  intros pl t criticalKeys keys config.
  assert (Hget : ~ In "__proto__" keys ->
             forall k v,
               Json.get (Json.own config) k = Some v <->
               In k (copied_keys pl t criticalKeys)
               /\ v = Json.parsed_get (DeploymentTracker.parses t)
                        [platform_name pl] (platform_entry pl t) k
               /\ v <> Json.VUndefined).
  { intros Hno k v. unfold config. rewrite (get_current_config pl t _ k Hno).
    destruct (existsb (String.eqb k) (copied_keys pl t criticalKeys)) eqn:E;
      cbn [andb].
    - apply existsb_eqb_in in E.
      destruct (Json.strict_neq _ Json.VUndefined) eqn:Hdef.
      + apply strict_neq_undefined in Hdef. split.
        * intros [= <-]. auto.
        * intros [_ [-> _]]. reflexivity.
      + split; [discriminate|]. intros [_ [-> Hv]].
        apply strict_neq_undefined in Hv. congruence.
    - split; [discriminate|]. intros [Hin _].
      apply existsb_eqb_in in Hin. congruence. }
  assert (Hord : ~ In "__proto__" keys -> ordinary config).
  { intros Hno. unfold config.
    cbn [ConfigDetector.readCurrentPlatformConfig fst].
    apply platform_config_of_ordinary, Hno. }
  split; [|split; [|split]].
  - intros Hno. split; [exact (Hord Hno)|]. split; [exact (Hget Hno)|].
    intros k Hk. apply keys_get in Hk.
    destruct (Json.get (Json.own config) k) as [v|] eqn:Hv; [|congruence].
    apply (Hget Hno) in Hv. destruct Hv as [Hin _].
    exact (copied_keys_in pl t criticalKeys k Hin).
  - intros Hown. split.
    + intros k v. apply get_current_config_entry, Hown.
    + intros k Hk. apply current_config_defined; assumption.
  - unfold config. rewrite current_config_of_source.
    apply extract_critical_unique.
  - intros Hnone. unfold config.
    cbn [ConfigDetector.readCurrentPlatformConfig fst]. rewrite Hnone. reflexivity.
Qed.

Lemma readCurrentPlatformConfig_copies_defined_critical_keys_witness :
  fst (ConfigDetector.readCurrentPlatformConfig ios
         (DeploymentTracker.construct empty_disk 0) None) = Json.literal []
  /\ ordinary (fst (ConfigDetector.readCurrentPlatformConfig android
                      maven_tracker None)).
Proof.
  split.
  - apply (proj2 (proj2 (proj2
             (readCurrentPlatformConfig_copies_defined_critical_keys ios
                (DeploymentTracker.construct empty_disk 0) None)))).
    reflexivity.
  - apply (proj1 (readCurrentPlatformConfig_copies_defined_critical_keys android
                    maven_tracker None)).
    intros [H|[H|[H|[]]]]; discriminate H.
Defined.

(** The critical key [__proto__]: a number under it is dropped by the
    inherited setter, and an object under it becomes the prototype of the
    result, which then answers for the properties of that object without
    holding any itself. *)
Example extract_critical_proto_number :
  ConfigDetector.extract_critical 0 android [("__proto__", Json.JNumber 5)]
    ["__proto__"]
  = Json.literal [].
Proof. reflexivity. Qed.

Example extract_critical_proto_object :
  let config :=
    ConfigDetector.extract_critical 0 android
      [("__proto__", Json.JObject [("minSdkVersion", Json.JNumber 24)])]
      ["__proto__"; "minSdkVersion"] in
  Json.own config = []
  /\ Json.plain_get config "minSdkVersion" = Json.VNumber (JS.Num 24)
  /\ Json.stringify_plain config = [].
Proof. vm_compute. repeat split; reflexivity. Qed.

Lemma strict_neq_plain (v1 v2 : Json.value) :
  plain_value v1 -> plain_value v2 ->
  (Json.strict_neq v1 v2 = true <-> v1 <> v2).
Proof.
  unfold Json.strict_neq.
  destruct v1 as [| |b1|[|z1]|s1|b1 p1 c1| |o1 m1],
           v2 as [| |b2|[|z2]|s2|b2 p2 c2| |o2 m2];
    simpl; intros H1 H2; try contradiction;
    try (split; [discriminate | congruence]);
    try (split; [intros _; discriminate | reflexivity]).
  - destruct b1, b2; simpl; split; congruence.
  - destruct (Z.eqb_spec z1 z2); simpl; split; congruence.
  - destruct (String.eqb_spec s1 s2); simpl; split; congruence.
  - destruct (String.eqb_spec o1 o2), (String.eqb_spec m1 m2); simpl; split;
      congruence.
Qed.

Lemma strict_neq_plain_false (v1 v2 : Json.value) :
  plain_value v1 -> plain_value v2 ->
  Json.strict_neq v1 v2 = false -> v1 = v2.
Proof.
  intros H1 H2 E.
  destruct (Json.strict_neq v1 v2) eqn:E'; [discriminate|].
  pose proof (strict_neq_plain v1 v2 H1 H2) as [_ Hback].
  destruct v1 as [| |b1|[|z1]|s1|b1 p1 c1| |o1 m1],
           v2 as [| |b2|[|z2]|s2|b2 p2 c2| |o2 m2];
    try contradiction; try reflexivity;
    try (rewrite Hback in E' by discriminate; discriminate).
  - destruct (Bool.bool_dec b1 b2) as [->|Hne]; [reflexivity|].
    rewrite Hback in E' by congruence. discriminate.
  - destruct (Z.eq_dec z1 z2) as [->|Hne]; [reflexivity|].
    rewrite Hback in E' by congruence. discriminate.
  - destruct (String.string_dec s1 s2) as [->|Hne]; [reflexivity|].
    rewrite Hback in E' by congruence. discriminate.
  - destruct (String.string_dec o1 o2) as [->|Hne];
      [|rewrite Hback in E' by congruence; discriminate].
    destruct (String.string_dec m1 m2) as [->|Hne]; [reflexivity|].
    rewrite Hback in E' by congruence. discriminate.
Qed.

Lemma read_current_plain (pl : Platform) (t : DeploymentTracker.Tracker)
      (criticalKeys : option (list string)) (k : string) :
  primitive_value
    (Json.plain_get
       (fst (ConfigDetector.readCurrentPlatformConfig pl t criticalKeys)) k)
  = true ->
  plain_value
    (Json.plain_get
       (fst (ConfigDetector.readCurrentPlatformConfig pl t criticalKeys)) k).
Proof.
  intros Hprim.
  assert (Hnum : Json.plain_get
                   (fst (ConfigDetector.readCurrentPlatformConfig pl t
                           criticalKeys)) k
                 <> Json.VNumber JS.NaN).
  { rewrite current_config_of_source. apply extract_critical_number. }
  destruct (Json.plain_get _ k) as [| |b|[|z]|s|b p c| |o m];
    cbn in *; try exact I; congruence.
Qed.

Lemma detect_after_commit_and_move (pl : Platform) (t : DeploymentTracker.Tracker)
      (criticalKeys : option (list string)) (d : Disk) :
  let t2 := moved_to (ConfigDetector.updateTrackedConfig pl t criticalKeys) d in
  fst (ConfigDetector.detectConfigChanges pl t2 criticalKeys)
  = ConfigDetector.compare_configs
      (fst (ConfigDetector.readCurrentPlatformConfig pl t2 criticalKeys))
      (fst (ConfigDetector.readCurrentPlatformConfig pl t criticalKeys))
      (criticalKeys ?? ConfigDetector.DEFAULT_CRITICAL_CONFIG pl).
Proof. destruct pl; reflexivity. Qed.

Lemma in_changes (current last : Json.plain) (keys : list string) (k : string) :
  In k (map key (ConfigDetector.compare_configs current last keys))
  <-> In k keys
      /\ Json.strict_neq (Json.plain_get current k) (Json.plain_get last k)
         = true.
Proof.
  rewrite compare_configs_spec, map_map. cbn [change_of key].
  rewrite map_id, filter_In. reflexivity.
Qed.

(** X12.  After [updateTrackedConfig], whatever the project's files become,
    as long as reading the critical keys gives no array or object before
    and after, [detectConfigChanges] on the same tracker reports a critical
    key exactly when what the present configuration gives for it differs
    from what the committed one gives (set, removed or altered), with the
    committed value as [from] and the present one as [to]; it reports
    nothing exactly when no critical key differs.  When no critical key is
    the name of a member of [Object.prototype], what the two objects give
    for a critical key is the property they hold themselves. *)
Theorem detectConfigChanges_finds_changed_scalars :
  forall (pl : Platform) (t : DeploymentTracker.Tracker)
         (criticalKeys : option (list string)) (d : Disk),
    let keys := criticalKeys ?? ConfigDetector.DEFAULT_CRITICAL_CONFIG pl in
    let committed := fst (ConfigDetector.readCurrentPlatformConfig pl t criticalKeys) in
    let t2 := moved_to (ConfigDetector.updateTrackedConfig pl t criticalKeys) d in
    let current := fst (ConfigDetector.readCurrentPlatformConfig pl t2 criticalKeys) in
    let changes := fst (ConfigDetector.detectConfigChanges pl t2 criticalKeys) in
    (forall k, In k keys ->
               primitive_value (Json.plain_get committed k) = true) ->
    (forall k, In k keys ->
               primitive_value (Json.plain_get current k) = true) ->
    (forall k, In k (map key changes)
               <-> In k keys
                   /\ Json.plain_get current k <> Json.plain_get committed k)
    /\ (forall c, In c changes ->
          from c = reported (Json.plain_get committed (key c))
          /\ to c = reported (Json.plain_get current (key c)))
    /\ (changes = [] <->
        forall k, In k keys ->
                  Json.plain_get current k = Json.plain_get committed k)
    /\ (own_names keys ->
        forall k, In k keys ->
          Json.plain_get current k = Json.read (Json.own current) k
          /\ Json.plain_get committed k = Json.read (Json.own committed) k).
Proof.
  intros pl t criticalKeys d keys committed t2 current changes Hold Hnew.
  assert (Hchanges : changes
                     = ConfigDetector.compare_configs current committed keys)
    by apply detect_after_commit_and_move.
  assert (Hdiff : forall k, In k keys ->
             (Json.strict_neq (Json.plain_get current k)
                              (Json.plain_get committed k) = true
              <-> Json.plain_get current k <> Json.plain_get committed k)).
  { intros k Hk. apply strict_neq_plain.
    - apply read_current_plain, Hnew, Hk.
    - apply read_current_plain, Hold, Hk. }
  assert (Hin : forall k, In k (map key changes)
                          <-> In k keys
                              /\ Json.plain_get current k
                                 <> Json.plain_get committed k).
  { intros k. rewrite Hchanges, in_changes. split.
    - intros [Hk E]. split; [exact Hk | apply (Hdiff k Hk), E].
    - intros [Hk E]. split; [exact Hk | apply (Hdiff k Hk), E]. }
  split; [exact Hin|]. split; [|split].
  - intros c Hc. rewrite Hchanges, compare_configs_spec in Hc.
    apply in_map_iff in Hc. destruct Hc as [k [<- _]]. split; reflexivity.
  - split.
    + intros Hnil k Hk.
      destruct (Json.strict_neq (Json.plain_get current k)
                                (Json.plain_get committed k)) eqn:E.
      * exfalso. assert (Hk' : In k (map key changes))
          by (apply Hin; split; [exact Hk | apply (Hdiff k Hk), E]).
        rewrite Hnil in Hk'. destruct Hk'.
      * apply strict_neq_plain_false in E;
          [exact E | apply read_current_plain, Hnew, Hk
           | apply read_current_plain, Hold, Hk].
    + intros Hsame. destruct changes as [|c rest] eqn:Ec; [reflexivity|].
      exfalso. assert (Hk : In (key c) (map key (c :: rest))) by (left; reflexivity).
      apply Hin in Hk. destruct Hk as [Hk Hne]. apply Hne, Hsame, Hk.
  - intros Hown k Hk.
    pose proof (own_names_no_proto keys Hown) as Hno.
    assert (Hname : Json.inherited_name k = false)
      by exact (proj1 (Forall_forall _ _) Hown k Hk).
    split; apply plain_get_own; try exact Hname;
      cbn [ConfigDetector.readCurrentPlatformConfig fst];
      apply platform_config_of_ordinary, Hno.
Qed.

Lemma detectConfigChanges_finds_changed_scalars_witness :
  In "minSdkVersion"
     (map key
        (fst (ConfigDetector.detectConfigChanges android
                (moved_to (ConfigDetector.updateTrackedConfig android
                             maven_tracker None) raised_disk)
                None)))
  <-> In "minSdkVersion" (ConfigDetector.DEFAULT_CRITICAL_CONFIG android)
      /\ Json.plain_get
           (fst (ConfigDetector.readCurrentPlatformConfig android
                   (moved_to (ConfigDetector.updateTrackedConfig android
                                maven_tracker None) raised_disk)
                   None)) "minSdkVersion"
         <> Json.plain_get
              (fst (ConfigDetector.readCurrentPlatformConfig android
                      maven_tracker None)) "minSdkVersion".
Proof.
  apply (proj1 (detectConfigChanges_finds_changed_scalars android maven_tracker
                  None raised_disk
                  ltac:(intros k [<-|[<-|[<-|[]]]]; reflexivity)
                  ltac:(intros k [<-|[<-|[<-|[]]]]; reflexivity))).
Defined.

Example detect_after_raising_min_sdk :
  fst (ConfigDetector.detectConfigChanges android
         (moved_to (ConfigDetector.updateTrackedConfig android maven_tracker None)
                   raised_disk) None)
  = [ {| key := "minSdkVersion";
         from := Json.VNumber (JS.Num 24);
         to := Json.VNumber (JS.Num 26) |} ].
Proof. reflexivity. Qed.

(** X13.  On a ledger whose snapshot for the platform is empty, as before
    the first build, and with critical keys none of which is the name of a
    member of [Object.prototype], [detectConfigChanges] reports exactly the
    critical keys the project sets, in the order of the critical-key list,
    each with ["unset"] as [from] and the project's value as [to]. *)
Theorem detectConfigChanges_without_snapshot :
  forall (pl : Platform) (t : DeploymentTracker.Tracker)
         (criticalKeys : option (list string)),
    DeploymentTracker.getLastConfig t pl = Json.literal [] ->
    let keys := criticalKeys ?? ConfigDetector.DEFAULT_CRITICAL_CONFIG pl in
    own_names keys ->
    let current := fst (ConfigDetector.readCurrentPlatformConfig pl t criticalKeys) in
    let changes := fst (ConfigDetector.detectConfigChanges pl t criticalKeys) in
    changes
    = map (fun k => {| key := k; from := Json.VString "unset";
                       to := Json.read (Json.own current) k |})
          (filter (fun k => existsb (String.eqb k) (Json.keys (Json.own current)))
                  keys)
    /\ (forall k, In k (map key changes)
                  <-> In k keys /\ In k (Json.keys (Json.own current))).
Proof.
  intros pl t criticalKeys Hlast keys Hown current changes.
  pose proof (own_names_no_proto keys Hown) as Hno.
  assert (Hchanges : changes
                     = ConfigDetector.compare_configs current (Json.literal [])
                         keys).
  { unfold changes, ConfigDetector.detectConfigChanges.
    cbn [ConfigDetector.readCurrentPlatformConfig fst].
    f_equal. destruct pl; exact Hlast. }
  assert (Hord : ordinary current).
  { unfold current. cbn [ConfigDetector.readCurrentPlatformConfig fst].
    apply platform_config_of_ordinary, Hno. }
  assert (Hdef : forall k, Json.inherited_name k = false ->
             (Json.plain_get current k <> Json.VUndefined
              <-> In k (Json.keys (Json.own current)))).
  { intros k Hk. apply current_config_defined; assumption. }
  assert (Hname : forall k, In k keys -> Json.inherited_name k = false)
    by (intros k Hk; exact (proj1 (Forall_forall _ _) Hown k Hk)).
  assert (Hlit : forall k, In k keys ->
             Json.plain_get (Json.literal []) k = Json.VUndefined).
  { intros k Hk. rewrite plain_get_own; [reflexivity|reflexivity|].
    apply Hname, Hk. }
  assert (Hdiffers : forall k, In k keys ->
             differs current (Json.literal []) k
             = existsb (String.eqb k) (Json.keys (Json.own current))).
  { intros k Hk. unfold differs. rewrite (Hlit k Hk).
    destruct (existsb (String.eqb k) (Json.keys (Json.own current))) eqn:E.
    - apply existsb_eqb_in, (Hdef k (Hname k Hk)) in E.
      apply strict_neq_undefined, E.
    - destruct (Json.strict_neq (Json.plain_get current k) Json.VUndefined)
        eqn:Er; [|reflexivity].
      apply strict_neq_undefined, (Hdef k (Hname k Hk)), existsb_eqb_in in Er.
      congruence. }
  assert (Hfilter : filter (differs current (Json.literal [])) keys
                    = filter (fun k => existsb (String.eqb k)
                                         (Json.keys (Json.own current))) keys).
  { clear - Hdiffers. induction keys as [|k keys IH]; [reflexivity|].
    cbn [filter]. rewrite (Hdiffers k) by (left; reflexivity).
    rewrite IH by (intros k' Hk'; apply Hdiffers; right; exact Hk').
    reflexivity. }
  assert (Heq : changes
                = map (fun k => {| key := k; from := Json.VString "unset";
                                   to := Json.read (Json.own current) k |})
                      (filter (fun k => existsb (String.eqb k)
                                          (Json.keys (Json.own current)))
                              keys)).
  { rewrite Hchanges, compare_configs_spec, Hfilter.
    apply map_ext_in. intros k Hk. apply filter_In in Hk. destruct Hk as [Hk Hex].
    unfold change_of. rewrite (Hlit k Hk).
    rewrite (plain_get_own current k Hord (Hname k Hk)).
    cbn [reported]. f_equal.
    apply existsb_eqb_in, (Hdef k (Hname k Hk)) in Hex.
    rewrite (plain_get_own current k Hord (Hname k Hk)) in Hex.
    destruct (Json.read (Json.own current) k); try reflexivity. congruence. }
  split; [exact Heq|].
  intros k. rewrite Heq, map_map. cbn [key]. rewrite map_id, filter_In.
  rewrite existsb_eqb_in. reflexivity.
Qed.

Lemma detectConfigChanges_without_snapshot_witness :
  fst (ConfigDetector.detectConfigChanges android maven_tracker None)
  = map (fun k => {| key := k; from := Json.VString "unset";
                     to := Json.read
                             (Json.own
                                (fst (ConfigDetector.readCurrentPlatformConfig
                                        android maven_tracker None))) k |})
        (filter (fun k => existsb (String.eqb k)
                            (Json.keys
                               (Json.own
                                  (fst (ConfigDetector.readCurrentPlatformConfig
                                          android maven_tracker None)))))
                (ConfigDetector.DEFAULT_CRITICAL_CONFIG android)).
Proof.
  exact (proj1 (detectConfigChanges_without_snapshot android maven_tracker None
                  eq_refl (own_names_default android))).
Defined.

Lemma extract_critical_ext (birth : nat) (pl : Platform)
      (pc pc' : Json.object Json.json) (keys : list string) :
  (forall k, In k keys -> Json.get pc' k = Json.get pc k) ->
  ConfigDetector.extract_critical birth pl pc' keys
  = ConfigDetector.extract_critical birth pl pc keys.
Proof.
  unfold ConfigDetector.extract_critical. generalize (Json.literal []).
  induction keys as [|k keys IH]; intros acc H; [reflexivity|].
  cbn [fold_left].
  assert (E : Json.parsed_get birth [platform_name pl] pc' k
              = Json.parsed_get birth [platform_name pl] pc k).
  { unfold Json.parsed_get. rewrite (H k) by (left; reflexivity). reflexivity. }
  rewrite E. apply IH. intros k' Hk'. apply H. right. exact Hk'.
Qed.

(** X14.  Only the critical keys count: two projects whose build-properties
    entries agree on the critical keys get the same result from
    [readCurrentPlatformConfig], [detectConfigChanges] and
    [hasConfigChanged] against the same ledger, whatever else their
    [app.json] says. *)
Theorem detectConfigChanges_ignores_other_settings :
  forall (pl : Platform) (t t' : DeploymentTracker.Tracker)
         (criticalKeys : option (list string)),
    DeploymentTracker.data t' = DeploymentTracker.data t ->
    DeploymentTracker.parses t' = DeploymentTracker.parses t ->
    copied_keys pl t' criticalKeys = copied_keys pl t criticalKeys ->
    (forall k, In k (copied_keys pl t criticalKeys) ->
               Json.get (platform_entry pl t') k = Json.get (platform_entry pl t) k) ->
    fst (ConfigDetector.readCurrentPlatformConfig pl t' criticalKeys)
    = fst (ConfigDetector.readCurrentPlatformConfig pl t criticalKeys)
    /\ fst (ConfigDetector.detectConfigChanges pl t' criticalKeys)
       = fst (ConfigDetector.detectConfigChanges pl t criticalKeys)
    /\ fst (ConfigDetector.hasConfigChanged pl t' criticalKeys)
       = fst (ConfigDetector.hasConfigChanged pl t criticalKeys).
Proof.
  intros pl t t' criticalKeys Hdata Hparses Hkeys Hagree.
  assert (Hread : fst (ConfigDetector.readCurrentPlatformConfig pl t' criticalKeys)
                  = fst (ConfigDetector.readCurrentPlatformConfig pl t criticalKeys)).
  { rewrite !current_config_of_source, Hparses, Hkeys.
    apply extract_critical_ext. exact Hagree. }
  assert (Hdetect : fst (ConfigDetector.detectConfigChanges pl t' criticalKeys)
                    = fst (ConfigDetector.detectConfigChanges pl t criticalKeys)).
  { unfold ConfigDetector.detectConfigChanges.
    destruct (ConfigDetector.readCurrentPlatformConfig pl t' criticalKeys)
      as [c' t1'] eqn:E'.
    destruct (ConfigDetector.readCurrentPlatformConfig pl t criticalKeys)
      as [c t1] eqn:E.
    cbn [fst] in *. subst c'.
    assert (Hlast : DeploymentTracker.getLastConfig t1' pl
                    = DeploymentTracker.getLastConfig t1 pl).
    { injection E as _ <-. injection E' as _ <-.
      unfold DeploymentTracker.getLastConfig, ConfigDetector.after_read.
      cbn [DeploymentTracker.data]. rewrite Hdata. reflexivity. }
    rewrite Hlast. reflexivity. }
  split; [exact Hread|]. split; [exact Hdetect|].
  unfold ConfigDetector.hasConfigChanged.
  destruct (ConfigDetector.detectConfigChanges pl t' criticalKeys) as [ch' u'].
  destruct (ConfigDetector.detectConfigChanges pl t criticalKeys) as [ch u].
  cbn [fst] in *. rewrite Hdetect. reflexivity.
Qed.

Lemma detectConfigChanges_ignores_other_settings_witness :
  fst (ConfigDetector.detectConfigChanges android
         (DeploymentTracker.construct tweaked_disk 0) None)
  = fst (ConfigDetector.detectConfigChanges android maven_tracker None).
Proof.
  apply (proj1 (proj2 (detectConfigChanges_ignores_other_settings android
                         maven_tracker (DeploymentTracker.construct tweaked_disk 0)
                         None eq_refl eq_refl eq_refl
                         ltac:(intros k [<-|[<-|[<-|[]]]]; reflexivity)))).
Defined.

(** X15.  [updateTrackedConfig] replaces the snapshot of its platform by
    what [readCurrentPlatformConfig] returns and saves the ledger: the
    deployments document on disk is what [JSON.stringify] writes for the
    new history, so that a tracker constructed anew finds as snapshot what
    [JSON.parse] builds from the written form of that object.  The other
    platform's snapshot, the deployment records and the manifests stay as
    they were.  When [app.json] cannot be read the stored snapshot becomes
    empty. *)
Theorem updateTrackedConfig_replaces_one_snapshot :
  forall (pl : Platform) (t : DeploymentTracker.Tracker)
         (criticalKeys : option (list string)),
    let t' := ConfigDetector.updateTrackedConfig pl t criticalKeys in
    DeploymentTracker.getLastConfig t' pl
    = fst (ConfigDetector.readCurrentPlatformConfig pl t criticalKeys)
    /\ DeploymentTracker.getLastConfig t' (DeploymentTracker.otherPlatform pl)
       = DeploymentTracker.getLastConfig t (DeploymentTracker.otherPlatform pl)
    /\ versions (DeploymentTracker.data t') = versions (DeploymentTracker.data t)
    /\ app_json (DeploymentTracker.disk t') = app_json (DeploymentTracker.disk t)
    /\ package_json (DeploymentTracker.disk t')
       = package_json (DeploymentTracker.disk t)
    /\ Fs.readJsonFile (deployments_json (DeploymentTracker.disk t'))
       = Some (DeploymentTracker.stringify_history (DeploymentTracker.data t'))
    /\ (forall n,
          DeploymentTracker.getLastConfig
            (DeploymentTracker.construct (DeploymentTracker.disk t') n) pl
          = Json.instantiate_plain n ["lastConfig"; platform_name pl]
              (Json.stringify_plain
                 (fst (ConfigDetector.readCurrentPlatformConfig pl t
                         criticalKeys))))
    /\ (Fs.readJsonFile (app_json (DeploymentTracker.disk t)) = None ->
        DeploymentTracker.getLastConfig t' pl = Json.literal []).
Proof.
  intros pl t criticalKeys t'.
  assert (Hlast : DeploymentTracker.getLastConfig t' pl
                  = fst (ConfigDetector.readCurrentPlatformConfig pl t criticalKeys))
    by (destruct pl; reflexivity).
  assert (Hsaved : deployments_json (DeploymentTracker.disk t')
                   = Fs.writeJsonFile
                       (DeploymentTracker.stringify_history
                          (DeploymentTracker.data t')))
    by (destruct pl; reflexivity).
  split; [exact Hlast|]. split; [destruct pl; reflexivity|].
  split; [destruct pl; reflexivity|]. split; [destruct pl; reflexivity|].
  split; [destruct pl; reflexivity|].
  split; [rewrite Hsaved; apply readJsonFile_written|].
  split.
  - intros n. rewrite (reload_getLastConfig t' n pl Hsaved), Hlast. reflexivity.
  - intros Hnone. rewrite Hlast.
    cbn [ConfigDetector.readCurrentPlatformConfig fst]. rewrite Hnone. reflexivity.
Qed.

Lemma updateTrackedConfig_replaces_one_snapshot_witness :
  DeploymentTracker.getLastConfig
    (ConfigDetector.updateTrackedConfig android
       (moved_to (ConfigDetector.updateTrackedConfig android maven_tracker None)
                 empty_disk)
       None)
    android
  = Json.literal [].
Proof.
  apply (proj2 (proj2 (proj2 (proj2 (proj2 (proj2 (proj2
           (updateTrackedConfig_replaces_one_snapshot android
              (moved_to (ConfigDetector.updateTrackedConfig android maven_tracker
                           None) empty_disk)
              None)))))))).
  reflexivity.
Defined.

(* ================================================================== *)
(** * Running commands, builds and deployments                         *)
(* ================================================================== *)

Lemma bindM_inv {A B : Type} (m : Exec.M A) (k : A -> Exec.M B)
      (s s' : Exec.Session) (r : JS.outcome B) :
  Exec.bindM m k s = (r, s') ->
  (exists a s1, m s = (JS.Returns a, s1) /\ k a s1 = (r, s'))
  \/ (exists e, m s = (JS.Throws e, s') /\ r = JS.Throws e).
Proof.
  unfold Exec.bindM. destruct (m s) as [[a|e] s1]; intros H.
  - left. exists a, s1. auto.
  - right. injection H as <- <-. exists e. auto.
Qed.

Lemma execInteractive_spec (host : Exec.Host) (command : string)
      (s s' : Exec.Session) (r : JS.outcome Z) :
  Exec.execInteractive host command s = (r, s') ->
  Exec.trace s'
  = (Exec.trace s
     ++ [(command, Exec.spawn host (List.length (Exec.trace s)) command)])%list
  /\ ledger s' = ledger s
  /\ (keeps_manifests host -> manifests s' = manifests s)
  /\ match Exec.spawn host (List.length (Exec.trace s)) command with
     | Exec.Close code => r = JS.Returns (code ?? 0)
     | Exec.SpawnError err => r = JS.Throws err
     end.
Proof.
  unfold Exec.execInteractive. intros H.
  destruct (Exec.spawn host (List.length (Exec.trace s)) command)
    as [code|err] eqn:E; injection H as <- <-;
    cbn [Exec.trace Exec.tracker]; repeat split; try reflexivity.
  intros Hk. unfold manifests. cbn [Exec.tracker with_disk DeploymentTracker.disk].
  destruct (Hk (List.length (Exec.trace s)) command
              (DeploymentTracker.disk (Exec.tracker s))) as [-> ->].
  reflexivity.
Qed.

Lemma succeeded_code (code : option Z) :
  succeeded (Exec.Close code) = ((code ?? 0) =? 0).
Proof. destruct code; reflexivity. Qed.

(** ** Framing *)

Lemma same_ledger_slots (s s' : Exec.Session) :
  ledger s' = ledger s ->
  forall v pl pr, ledger_slot s' v pl pr = ledger_slot s v pl pr.
Proof.
  intros Hl v pl pr. unfold ledger_slot, record_of.
  unfold ledger in Hl. rewrite Hl. reflexivity.
Qed.

Lemma same_ledger_snapshots (s s' : Exec.Session) :
  ledger s' = ledger s ->
  forall pl, ledger_snapshot s' pl = ledger_snapshot s pl.
Proof.
  intros Hl pl. unfold ledger_snapshot, DeploymentTracker.getLastConfig.
  unfold ledger in Hl. rewrite Hl. reflexivity.
Qed.

Lemma stamped_by_more (host : Exec.Host) (plan : Deploy.Plan)
      (new1 new new2 : list (string * Exec.child_end)) (pl : Platform)
      (x : Slot) :
  stamped_by host plan new pl x ->
  stamped_by host plan (new1 ++ new ++ new2) pl x.
Proof.
  intros (n & e & Hx & Hin & Hs). exists n, e. repeat split; try assumption.
  apply in_or_app. right. apply in_or_app. left. exact Hin.
Qed.

Lemma frame_quiet {A : Type} (host : Exec.Host) (plan : Deploy.Plan)
      (ps : list Platform) (s s' : Exec.Session) (r : JS.outcome A) :
  Exec.trace s' = Exec.trace s -> ledger s' = ledger s ->
  (forall err, r = JS.Throws err -> engine_failure plan s' err) ->
  frame host plan ps s r s' [].
Proof.
  intros Ht Hl He. unfold frame. rewrite app_nil_r.
  pose proof (same_ledger_slots s s' Hl) as Hs.
  pose proof (same_ledger_snapshots s s' Hl) as Hc.
  repeat split; auto.
Qed.

Lemma frame_ret {A : Type} (host : Exec.Host) (plan : Deploy.Plan)
      (ps : list Platform) (s s' : Exec.Session) (a : A) :
  Exec.trace s' = Exec.trace s -> ledger s' = ledger s ->
  frame host plan ps s (JS.Returns a) s' [].
Proof.
  intros Ht Hl. apply frame_quiet; [exact Ht | exact Hl|].
  intros err H. discriminate H.
Qed.

Lemma frame_seq {A B : Type} (host : Exec.Host) (plan : Deploy.Plan)
      (ps : list Platform) (s s1 s2 : Exec.Session) (a : A)
      (r : JS.outcome B) (new1 new2 : list (string * Exec.child_end)) :
  frame host plan ps s (JS.Returns a) s1 new1 ->
  frame host plan ps s1 r s2 new2 ->
  frame host plan ps s r s2 (new1 ++ new2).
Proof.
  intros (Ht1 & Hl1 & Hs1 & Hc1 & _) (Ht2 & Hl2 & Hs2 & Hc2 & He2).
  unfold frame. split; [|split; [|split; [|split]]].
  - rewrite Ht2, Ht1. symmetry. apply app_assoc.
  - intros Hb. rewrite (Hl2 Hb). exact (Hl1 Hb).
  - intros v pl pr.
    destruct (Hs2 v pl pr) as [E2|(Hv & Hp & Hb & Hin & Hst)].
    + destruct (Hs1 v pl pr) as [E1|(Hv & Hp & Hb & Hin & Hst)].
      * left. congruence.
      * right. repeat split; try assumption. rewrite E2.
        pose proof (stamped_by_more host plan [] new1 new2 pl _ Hst) as H.
        exact H.
    + right. repeat split; try assumption.
      pose proof (stamped_by_more host plan new1 new2 [] pl _ Hst) as H.
      rewrite app_nil_r in H. exact H.
  - intros pl.
    destruct (Hc2 pl) as [E2|(Hb & Hin & e & He & Hs)].
    + destruct (Hc1 pl) as [E1|(Hb & Hin & e & He & Hs)].
      * left. congruence.
      * right. repeat split; try assumption. exists e. split; [|exact Hs].
        apply in_or_app. left. exact He.
    + right. repeat split; try assumption. exists e. split; [|exact Hs].
      apply in_or_app. right. exact He.
  - intros err Hr.
    destruct (He2 err Hr) as [(new' & c & e & Hn & He & Hs & Hw)|Hengine];
      [left | right; exact Hengine].
    exists (new1 ++ new')%list, c, e. repeat split; try assumption.
    + rewrite Hn. apply app_assoc.
    + rewrite He, Ht1, app_assoc. reflexivity.
Qed.

Lemma frame_throws {A B : Type} (host : Exec.Host) (plan : Deploy.Plan)
      (ps : list Platform) (s s' : Exec.Session) (err : JS.exn)
      (new : list (string * Exec.child_end)) :
  frame (A := A) host plan ps s (JS.Throws err) s' new ->
  frame (A := B) host plan ps s (JS.Throws err) s' new.
Proof.
  intros (Ht & Hl & Hs & Hc & He). unfold frame. repeat split; try assumption.
  intros err' H. injection H as <-. apply He. reflexivity.
Qed.

Lemma framed_ret {A : Type} (host : Exec.Host) (plan : Deploy.Plan)
      (ps : list Platform) (a : A) :
  framed host plan ps (Exec.ret a).
Proof.
  intros s r s' H. injection H as <- <-. exists []. apply frame_ret; reflexivity.
Qed.

Lemma framed_bind {A B : Type} (host : Exec.Host) (plan : Deploy.Plan)
      (ps : list Platform) (m : Exec.M A) (k : A -> Exec.M B) :
  framed host plan ps m -> (forall a, framed host plan ps (k a)) ->
  framed host plan ps (Exec.bindM m k).
Proof.
  intros Hm Hk s r s' H.
  destruct (bindM_inv _ _ _ _ _ H) as [(a & s1 & H1 & H2)|(e & H1 & ->)].
  - destruct (Hm _ _ _ H1) as (new1 & F1).
    destruct (Hk a _ _ _ H2) as (new2 & F2).
    exists (new1 ++ new2)%list. exact (frame_seq _ _ _ _ _ _ _ _ _ _ F1 F2).
  - destruct (Hm _ _ _ H1) as (new1 & F1). exists new1.
    exact (frame_throws _ _ _ _ _ _ _ F1).
Qed.

Lemma frame_exec (host : Exec.Host) (plan : Deploy.Plan) (ps : list Platform)
      (command : string) (s s' : Exec.Session) (r : JS.outcome Z) :
  Exec.execInteractive host command s = (r, s') ->
  frame host plan ps s
    match r with
    | JS.Returns _ => JS.Returns tt
    | JS.Throws err => JS.Throws err
    end s'
    [(command, Exec.spawn host (List.length (Exec.trace s)) command)].
Proof.
  intros H. destruct (execInteractive_spec _ _ _ _ _ H) as (Ht & Hl & _ & Hr).
  pose proof (same_ledger_slots s s' Hl) as Hs.
  pose proof (same_ledger_snapshots s s' Hl) as Hc.
  unfold frame. repeat split; auto.
  intros err Herr.
  destruct (Exec.spawn host (List.length (Exec.trace s)) command)
    as [code|e] eqn:E; subst r; [discriminate Herr|].
  injection Herr as <-. left.
  exists [], command, (Exec.SpawnError e). rewrite app_nil_r.
  repeat split; auto. constructor.
Qed.

Lemma framed_run_hook (host : Exec.Host) (plan : Deploy.Plan)
      (ps : list Platform) (command : string) :
  framed host plan ps (Deploy.run_hook host command).
Proof.
  intros s r s' H. unfold Deploy.run_hook in H.
  destruct (bindM_inv _ _ _ _ _ H) as [(a & s1 & H1 & H2)|(e & H1 & ->)].
  - injection H2 as <- <-. eexists. exact (frame_exec _ plan ps _ _ _ _ H1).
  - eexists. exact (frame_exec _ plan ps _ _ _ _ H1).
Qed.

Lemma framed_when_hook (host : Exec.Host) (plan : Deploy.Plan)
      (ps : list Platform) (h : option string) (condition : bool)
      (body : string -> Exec.M unit) :
  (forall command, framed host plan ps (body command)) ->
  framed host plan ps (Deploy.when_hook h condition body).
Proof.
  intros Hb. unfold Deploy.when_hook.
  destruct (truthy_string h && condition); [|apply framed_ret].
  destruct h; [apply Hb|apply framed_ret].
Qed.

(** A command whose exit code is checked: the exception [err] leaves when
    the code is not zero, and the rest runs otherwise. *)
Lemma framed_checked (host : Exec.Host) (plan : Deploy.Plan)
      (ps : list Platform) (command : string) (err : JS.exn) :
  (forall code, stop_reason plan ps command (Exec.Close code) err) ->
  framed host plan ps
    (code <~ Exec.execInteractive host command ;;
     if negb (code =? 0) then Exec.throw err else Exec.ret tt).
Proof.
  intros Hw s r s' H.
  destruct (bindM_inv _ _ _ _ _ H) as [(a & s1 & H1 & H2)|(e & H1 & ->)].
  - pose proof (frame_exec _ plan ps _ _ _ _ H1) as F. cbv beta iota in F.
    destruct (execInteractive_spec _ _ _ _ _ H1) as (_ & _ & _ & Hr).
    destruct (Z.eqb_spec a 0) as [->|Hne]; cbn [negb] in H2;
      injection H2 as <- <-; eexists.
    + exact F.
    + destruct F as (Ht & Hl & Hs & Hc & _). unfold frame.
      split; [|split; [|split; [|split]]]; try eassumption.
      intros err' Herr. injection Herr as <-.
      destruct (Exec.spawn host (List.length (Exec.trace s)) command)
        as [code|e] eqn:E; [|discriminate Hr].
      injection Hr as ->. left.
      exists [], command, (Exec.Close code). rewrite app_nil_r.
      repeat split; auto.
      rewrite succeeded_code. apply Z.eqb_neq. exact Hne.
  - eexists. exact (frame_exec _ plan ps _ _ _ _ H1).
Qed.

Lemma Platform_eq_dec (a b : Platform) : {a = b} + {a <> b}.
Proof. decide equality. Qed.

Lemma Profile_eq_dec (a b : Profile) : {a = b} + {a <> b}.
Proof. decide equality. Qed.

Lemma updateTrackedConfig_keeps (pl : Platform)
      (t : DeploymentTracker.Tracker) (criticalKeys : option (list string)) :
  versions (DeploymentTracker.data
              (ConfigDetector.updateTrackedConfig pl t criticalKeys))
  = versions (DeploymentTracker.data t)
  /\ app_json (DeploymentTracker.disk
                 (ConfigDetector.updateTrackedConfig pl t criticalKeys))
     = app_json (DeploymentTracker.disk t)
  /\ package_json (DeploymentTracker.disk
                     (ConfigDetector.updateTrackedConfig pl t criticalKeys))
     = package_json (DeploymentTracker.disk t)
  /\ forall pl', pl' <> pl ->
       DeploymentTracker.getLastConfig
         (ConfigDetector.updateTrackedConfig pl t criticalKeys) pl'
       = DeploymentTracker.getLastConfig t pl'.
Proof.
  repeat split; try (destruct pl; reflexivity).
  intros pl' Hne. destruct pl, pl'; try reflexivity; congruence.
Qed.

Lemma record_of_same_versions (t t' : DeploymentTracker.Tracker) (v : string) :
  versions (DeploymentTracker.data t') = versions (DeploymentTracker.data t) ->
  record_of t' v = record_of t v.
Proof. intros H. unfold record_of. rewrite H. reflexivity. Qed.

Lemma record_deployment_spec (host : Exec.Host) (plan : Deploy.Plan)
      (pl : Platform) (s s' : Exec.Session) (r : JS.outcome unit) :
  Deploy.record_deployment host plan pl s = (r, s') ->
  Exec.trace s' = Exec.trace s
  /\ manifests s' = manifests s
  /\ ((r = JS.Returns tt
       /\ recordable (Exec.tracker s) (Deploy.targetVersion plan)
       /\ ledger_slot s' (Deploy.targetVersion plan) pl (Deploy.profile plan)
          = Stamp (Exec.toISOString host (List.length (Exec.trace s)))
       /\ (forall v pl' pr,
             (v, pl', pr) <> (Deploy.targetVersion plan, pl, Deploy.profile plan) ->
             ledger_slot s' v pl' pr = ledger_slot s v pl' pr)
       /\ (forall pl', pl' <> pl ->
             ledger_snapshot s' pl' = ledger_snapshot s pl'))
      \/ (r = JS.Throws JS.TypeError
          /\ ledger s' = ledger s
          /\ ~ recordable (Exec.tracker s') (Deploy.targetVersion plan))).
Proof.
  unfold Deploy.record_deployment. intros H.
  set (now := Exec.toISOString host (List.length (Exec.trace s))) in *.
  destruct (recordable_dec (Exec.tracker s) (Deploy.targetVersion plan))
    as [Hv|Hv].
  - rewrite (record_one_recordable now _ pl (Deploy.profile plan) _ Hv) in H.
    injection H as <- <-.
    set (t1 := record_one now (Deploy.targetVersion plan) pl
                 (Deploy.profile plan) (Exec.tracker s)).
    destruct (updateTrackedConfig_keeps pl t1
                (criticalConfig_of (Deploy.config plan) pl))
      as (Hvs & Ha & Hp & Hcfg).
    destruct (record_one_saved now (Deploy.targetVersion plan) pl
                (Deploy.profile plan) (Exec.tracker s) Hv)
      as (Hlc & Ha1 & Hp1 & _).
    fold t1 in Hlc, Ha1, Hp1.
    split; [reflexivity|]. split.
    { unfold manifests. cbn [Exec.tracker]. rewrite Ha, Hp, Ha1, Hp1.
      reflexivity. }
    left. split; [reflexivity|]. split; [exact Hv|].
    unfold ledger_slot, ledger_snapshot. cbn [Exec.tracker].
    split; [|split].
    + rewrite (record_of_same_versions _ _ _ Hvs). unfold t1.
      rewrite (record_of_record_one_same now _ pl _ _ Hv).
      apply slot_of_set_slot_same.
    + intros v pl' pr Hne. rewrite (record_of_same_versions _ _ _ Hvs).
      unfold t1.
      destruct (string_dec (Deploy.targetVersion plan) v) as [<-|Hvne].
      * rewrite (record_of_record_one_same now _ pl _ _ Hv).
        apply slot_of_set_slot_other. congruence.
      * rewrite record_of_record_one_other by exact Hvne. reflexivity.
    + intros pl' Hne. rewrite (Hcfg pl' Hne).
      unfold DeploymentTracker.getLastConfig. rewrite Hlc. reflexivity.
  - rewrite (updateStatus_unrecordable now _ pl (Deploy.profile plan) _ Hv) in H.
    injection H as <- <-.
    split; [reflexivity|]. split; [reflexivity|].
    right. split; [reflexivity|]. split; [reflexivity|exact Hv].
Qed.

(** The build of one platform, with the check of its exit code and the
    record that follows a success. *)
Lemma framed_build_step (host : Exec.Host) (plan : Deploy.Plan)
      (ps : list Platform) (pl : Platform) :
  In pl ps -> framed host plan ps (Deploy.build_step host plan pl).
Proof.
  intros Hin. unfold Deploy.build_step.
  destruct (Deploy.shouldBuild plan) eqn:Hb; [|apply framed_ret].
  intros s r s' H. unfold Builder.runBuild in H.
  destruct (bindM_inv _ _ _ _ _ H) as [(a & s1 & H1 & H2)|(e & H1 & ->)].
  - pose proof (frame_exec _ plan ps _ _ _ _ H1) as F. cbv beta iota in F.
    destruct (execInteractive_spec _ _ _ _ _ H1) as (_ & _ & _ & Hr).
    destruct (Exec.spawn host (List.length (Exec.trace s))
                (Builder.buildEasCommand (Deploy.build_options plan pl)))
      as [code|e] eqn:E; [|discriminate Hr].
    injection Hr as ->.
    destruct F as (Ht & Hl & Hs & Hc & _).
    assert (Hl1 : ledger s1 = ledger s)
      by (destruct (execInteractive_spec _ _ _ _ _ H1) as (_ & Hl1 & _);
          exact Hl1).
    pose proof (same_ledger_slots s s1 Hl1) as Hsame.
    pose proof (same_ledger_snapshots s s1 Hl1) as Hsnap.
    exists [(Builder.buildEasCommand (Deploy.build_options plan pl),
             Exec.Close code)].
    destruct (Z.eqb_spec (code ?? 0) 0) as [Hz|Hne]; cbn [negb] in H2.
    + destruct (record_deployment_spec _ _ _ _ _ _ H2)
        as (Ht2 & _ & [(-> & _ & Hnew & Hold & Hcfg)|(-> & Hl2 & Hno)]);
        [|unfold frame; split; [|split; [|split; [|split]]];
          [rewrite Ht2; exact Ht
          |intros Hnb; congruence
          |intros v pl' pr; left;
           rewrite (same_ledger_slots _ _ Hl2); apply Hsame
          |intros pl'; left;
           rewrite (same_ledger_snapshots _ _ Hl2); apply Hsnap
          |intros err Herr; injection Herr as <-; right;
           split; [reflexivity | right; exact Hno]]].
      assert (Hok : succeeded (Exec.Close code) = true)
        by (rewrite succeeded_code; apply Z.eqb_eq; exact Hz).
      unfold frame. split; [|split; [|split; [|split]]].
      * rewrite Ht2. exact Ht.
      * intros Hnb. congruence.
      * intros v pl' pr.
        destruct (string_dec v (Deploy.targetVersion plan)) as [->|Hv];
          [destruct (Platform_eq_dec pl' pl) as [->|Hp];
           [destruct (Profile_eq_dec pr (Deploy.profile plan)) as [->|Hr]|]|].
        -- right. repeat split; try assumption.
           eexists _, (Exec.Close code). split; [exact Hnew|].
           split; [left; reflexivity|exact Hok].
        -- left. rewrite Hold by congruence. apply Hsame.
        -- left. rewrite Hold by congruence. apply Hsame.
        -- left. rewrite Hold by congruence. apply Hsame.
      * intros pl'. destruct (Platform_eq_dec pl' pl) as [->|Hp].
        -- right. repeat split; try assumption.
           exists (Exec.Close code). split; [left; reflexivity|exact Hok].
        -- left. rewrite Hcfg by exact Hp. apply Hsnap.
      * intros err Herr. discriminate Herr.
    + injection H2 as <- <-.
      unfold frame. split; [|split; [|split; [|split]]]; try assumption.
      intros err Herr. injection Herr as <-. left.
      exists [], (Builder.buildEasCommand (Deploy.build_options plan pl)),
             (Exec.Close code).
      rewrite app_nil_r. split; [reflexivity|]. split; [auto|].
      split; [rewrite succeeded_code; apply Z.eqb_neq; exact Hne|].
      apply build_failed; [exact Hin|reflexivity].
  - eexists. exact (frame_exec _ plan ps _ _ _ _ H1).
Qed.

Lemma framed_submit_step (host : Exec.Host) (plan : Deploy.Plan)
      (ps : list Platform) (pl : Platform) :
  In pl ps -> framed host plan ps (Deploy.submit_step host plan pl).
Proof.
  intros Hin. unfold Deploy.submit_step.
  destruct (Deploy.shouldSubmit plan); [|apply framed_ret].
  unfold Submitter.runSubmit. apply framed_checked.
  intros code. apply submit_failed; [exact Hin|reflexivity].
Qed.

Lemma framed_hook (host : Exec.Host) (plan : Deploy.Plan)
      (ps : list Platform) (h : option string) (condition : bool) :
  framed host plan ps (Deploy.when_hook h condition (Deploy.run_hook host)).
Proof. apply framed_when_hook. intros command. apply framed_run_hook. Qed.

Lemma framed_platform_step (host : Exec.Host) (plan : Deploy.Plan)
      (ps : list Platform) (pl : Platform) :
  In pl ps -> framed host plan ps (Deploy.platform_step host plan pl).
Proof.
  intros Hin. unfold Deploy.platform_step.
  apply framed_bind; [apply framed_build_step; exact Hin|].
  intros _. apply framed_bind; [apply framed_hook|].
  intros _. apply framed_bind; [apply framed_hook|].
  intros _. apply framed_submit_step. exact Hin.
Qed.

Lemma framed_for_each (host : Exec.Host) (plan : Deploy.Plan)
      (ps qs : list Platform) :
  incl qs ps ->
  framed host plan ps (Deploy.for_each qs (Deploy.platform_step host plan)).
Proof.
  induction qs as [|pl qs IH]; intros Hincl; cbn [Deploy.for_each].
  - apply framed_ret.
  - apply framed_bind.
    + apply framed_platform_step. apply Hincl. left. reflexivity.
    + intros _. apply IH. intros x Hx. apply Hincl. right. exact Hx.
Qed.

Lemma framed_preBuild_step (host : Exec.Host) (plan : Deploy.Plan)
      (ps : list Platform) :
  framed host plan ps (Deploy.preBuild_step host plan).
Proof.
  unfold Deploy.preBuild_step, Deploy.when_hook.
  destruct (truthy_string (Deploy.hook preBuild (Deploy.config plan))
            && Deploy.shouldBuild plan) eqn:Hh; [|apply framed_ret].
  destruct (Deploy.hook preBuild (Deploy.config plan)) as [command|] eqn:Hc;
    [|apply framed_ret].
  apply framed_checked. intros code. apply preBuild_failed.
  unfold preBuild_hook. rewrite Hc, Hh. reflexivity.
Qed.

Lemma bump_step_spec (plan : Deploy.Plan) (s s' : Exec.Session)
      (r : JS.outcome unit) :
  Deploy.bump_step plan s = (r, s') ->
  Exec.trace s' = Exec.trace s
  /\ ledger s' = ledger s
  /\ DeploymentTracker.disk (Exec.tracker s')
     = bumped plan (DeploymentTracker.disk (Exec.tracker s))
  /\ (r = JS.Returns tt
      \/ (r = JS.Throws JS.TypeError
          /\ Deploy.is_none (Deploy.versionBump plan) = false
          /\ DeploymentTracker.disk (Exec.tracker s')
             = DeploymentTracker.disk (Exec.tracker s)
          /\ lacks_expo (DeploymentTracker.disk (Exec.tracker s)) = true)).
Proof.
  unfold Deploy.bump_step, bumped. intros H.
  destruct (Deploy.is_none (Deploy.versionBump plan)) eqn:Hnone;
    cbn [negb] in H.
  - injection H as <- <-. repeat split; try reflexivity. left. reflexivity.
  - destruct (VersionManager.bump (Deploy.versionBump plan)
                (DeploymentTracker.disk (Exec.tracker s))) as [r0 d] eqn:Hb.
    injection H as <- <-.
    cbn [Exec.trace Exec.tracker with_disk DeploymentTracker.disk snd].
    split; [reflexivity|]. split; [reflexivity|]. split; [reflexivity|].
    destruct (bump_outcomes _ _ _ _ Hb) as [[res ->]|(-> & -> & _ & Hl)].
    + left. reflexivity.
    + right. repeat split; assumption.
Qed.

Lemma framed_bump_step (host : Exec.Host) (plan : Deploy.Plan)
      (ps : list Platform) :
  framed host plan ps (Deploy.bump_step plan).
Proof.
  intros s r s' H.
  destruct (bump_step_spec _ _ _ _ H) as (Ht & Hl & _ & Hr).
  exists []. apply frame_quiet; [exact Ht | exact Hl|].
  intros err Herr.
  destruct Hr as [->|(-> & Hnone & Hd & Hlacks)]; [discriminate Herr|].
  injection Herr as <-. split; [reflexivity|]. left.
  split; [exact Hnone|]. rewrite Hd. exact Hlacks.
Qed.

Lemma displayVersionStatus_spec (t : DeploymentTracker.Tracker) (v : string) :
  (recordable t v
   /\ Deploy.displayVersionStatus (DeploymentTracker.getVersionStatus t v)
      = JS.Returns tt)
  \/ (~ recordable t v
      /\ Deploy.displayVersionStatus (DeploymentTracker.getVersionStatus t v)
         = JS.Throws JS.TypeError).
Proof.
  destruct (recordable_dec t v) as [Hv|Hv]; [left | right]; (split; [exact Hv|]).
  - rewrite (getVersionStatus_recordable t v Hv). reflexivity.
  - rewrite (getVersionStatus_unrecordable t v Hv). reflexivity.
Qed.

Lemma final_status_spec (plan : Deploy.Plan) (s s' : Exec.Session)
      (r : JS.outcome (list Platform)) :
  (let finalStatus :=
     DeploymentTracker.getVersionStatus (Exec.tracker s)
       (Deploy.targetVersion plan) in
   (_ <- Deploy.displayVersionStatus finalStatus ;;
    DeploymentTracker.getMissingPlatforms (Exec.tracker s)
      (Deploy.targetVersion plan) (Deploy.profile plan),
    s)) = (r, s') ->
  s' = s
  /\ ((recordable (Exec.tracker s) (Deploy.targetVersion plan)
       /\ r = DeploymentTracker.getMissingPlatforms (Exec.tracker s)
                (Deploy.targetVersion plan) (Deploy.profile plan)
       /\ exists missing, r = JS.Returns missing)
      \/ (~ recordable (Exec.tracker s) (Deploy.targetVersion plan)
          /\ r = JS.Throws JS.TypeError)).
Proof.
  cbv zeta. intros H. injection H as <- <-. split; [reflexivity|].
  destruct (displayVersionStatus_spec (Exec.tracker s) (Deploy.targetVersion plan))
    as [[Hv Hd]|[Hv Hd]]; rewrite Hd; cbn [JS.bind].
  - left. split; [exact Hv|]. split; [reflexivity|].
    rewrite (getMissingPlatforms_cases _ _ (Deploy.profile plan) Hv).
    eexists. reflexivity.
  - right. split; [exact Hv | reflexivity].
Qed.

Lemma framed_deployment (host : Exec.Host) (plan : Deploy.Plan) :
  framed host plan (Deploy.enabledPlatforms plan) (Deploy.deployment host plan).
Proof.
  unfold Deploy.deployment.
  apply framed_bind; [apply framed_preBuild_step|].
  intros _. apply framed_bind; [apply framed_bump_step|].
  intros _. apply framed_bind; [apply framed_for_each, incl_refl|].
  intros _. apply framed_bind; [apply framed_hook|].
  intros _ s r s' H.
  destruct (final_status_spec plan s s' r H)
    as (-> & [(_ & _ & missing & ->)|(Hv & ->)]); exists [].
  - apply frame_ret; reflexivity.
  - apply frame_quiet; try reflexivity.
    intros err Herr. injection Herr as <-.
    split; [reflexivity | right; exact Hv].
Qed.

(** ** What a run that returns has done *)

Lemma built_frame {A : Type} (host : Exec.Host) (plan : Deploy.Plan)
      (ps : list Platform) (pl : Platform) (s1 s2 : Exec.Session)
      (r : JS.outcome A) (new1 new2 : list (string * Exec.child_end)) :
  built host plan new1 s1 pl -> frame host plan ps s1 r s2 new2 ->
  built host plan (new1 ++ new2) s2 pl.
Proof.
  intros ((n & Hn) & e & He & Hs) (_ & _ & Hsl & _). split.
  - destruct (Hsl (Deploy.targetVersion plan) pl (Deploy.profile plan))
      as [E|(_ & _ & _ & _ & n' & e' & Hx & _)].
    + exists n. rewrite E. exact Hn.
    + exists n'. exact Hx.
  - exists e. split; [|exact Hs]. apply in_or_app. left. exact He.
Qed.

Lemma built_later (host : Exec.Host) (plan : Deploy.Plan) (pl : Platform)
      (s : Exec.Session) (before new : list (string * Exec.child_end)) :
  built host plan new s pl -> built host plan (before ++ new) s pl.
Proof.
  intros (Hn & e & He & Hs). split; [exact Hn|].
  exists e. split; [|exact Hs]. apply in_or_app. right. exact He.
Qed.

Lemma submitted_more (plan : Deploy.Plan) (pl : Platform)
      (before new after : list (string * Exec.child_end)) :
  submitted plan new pl -> submitted plan (before ++ new ++ after) pl.
Proof.
  intros (e & He & Hs). exists e. split; [|exact Hs].
  apply in_or_app. right. apply in_or_app. left. exact He.
Qed.

Lemma same_commands (s s' : Exec.Session)
      (new1 new2 : list (string * Exec.child_end)) :
  Exec.trace s' = (Exec.trace s ++ new1)%list ->
  Exec.trace s' = (Exec.trace s ++ new2)%list -> new1 = new2.
Proof. intros H1 H2. rewrite H1 in H2. exact (app_inv_head _ _ _ H2). Qed.

Lemma build_step_success (host : Exec.Host) (plan : Deploy.Plan)
      (ps : list Platform) (pl : Platform) (s s' : Exec.Session) :
  In pl ps ->
  Deploy.build_step host plan pl s = (JS.Returns tt, s') ->
  exists new,
    frame host plan ps s (JS.Returns tt) s' new
    /\ (Deploy.shouldBuild plan = true -> built host plan new s' pl).
Proof.
  intros Hin H.
  destruct (framed_build_step host plan ps pl Hin _ _ _ H) as (new & F).
  exists new. split; [exact F|]. intros Hb.
  unfold Deploy.build_step, Builder.runBuild in H. rewrite Hb in H.
  destruct (bindM_inv _ _ _ _ _ H) as [(a & s1 & H1 & H2)|(e & _ & He)];
    [|discriminate He].
  destruct (execInteractive_spec _ _ _ _ _ H1) as (Ht1 & _ & _ & Hr).
  fold (build_command plan pl) in Ht1, Hr.
  destruct (Exec.spawn host (List.length (Exec.trace s)) (build_command plan pl))
    as [code|e] eqn:E; [|discriminate Hr].
  injection Hr as ->.
  destruct (Z.eqb_spec (code ?? 0) 0) as [Hz|Hne]; cbn [negb] in H2;
    [|discriminate H2].
  destruct (record_deployment_spec _ _ _ _ _ _ H2)
    as (Ht2 & _ & [(_ & _ & Hnew & _)|(Hr & _)]); [|discriminate Hr].
  rewrite Ht1 in Ht2. destruct F as (Ht & _).
  rewrite (same_commands _ _ _ _ Ht Ht2). split.
  - eexists. exact Hnew.
  - exists (Exec.Close code). split; [left; reflexivity|].
    rewrite succeeded_code. apply Z.eqb_eq. exact Hz.
Qed.

Lemma submit_step_success (host : Exec.Host) (plan : Deploy.Plan)
      (ps : list Platform) (pl : Platform) (s s' : Exec.Session) :
  In pl ps ->
  Deploy.submit_step host plan pl s = (JS.Returns tt, s') ->
  exists new,
    frame host plan ps s (JS.Returns tt) s' new
    /\ (Deploy.shouldSubmit plan = true -> submitted plan new pl).
Proof.
  intros Hin H.
  destruct (framed_submit_step host plan ps pl Hin _ _ _ H) as (new & F).
  exists new. split; [exact F|]. intros Hb.
  unfold Deploy.submit_step, Submitter.runSubmit in H. rewrite Hb in H.
  destruct (bindM_inv _ _ _ _ _ H) as [(a & s1 & H1 & H2)|(e & _ & He)];
    [|discriminate He].
  destruct (execInteractive_spec _ _ _ _ _ H1) as (Ht1 & _ & _ & Hr).
  fold (submit_command plan pl) in Ht1, Hr.
  destruct (Exec.spawn host (List.length (Exec.trace s)) (submit_command plan pl))
    as [code|e] eqn:E; [|discriminate Hr].
  injection Hr as ->.
  destruct (Z.eqb_spec (code ?? 0) 0) as [Hz|Hne]; cbn [negb] in H2;
    [|discriminate H2].
  injection H2 as <-. destruct F as (Ht & _).
  rewrite (same_commands _ _ _ _ Ht Ht1).
  exists (Exec.Close code). split; [left; reflexivity|].
  rewrite succeeded_code. apply Z.eqb_eq. exact Hz.
Qed.

Lemma platform_step_success (host : Exec.Host) (plan : Deploy.Plan)
      (ps : list Platform) (pl : Platform) (s s' : Exec.Session) :
  In pl ps ->
  Deploy.platform_step host plan pl s = (JS.Returns tt, s') ->
  exists new,
    frame host plan ps s (JS.Returns tt) s' new
    /\ (Deploy.shouldBuild plan = true -> built host plan new s' pl)
    /\ (Deploy.shouldSubmit plan = true -> submitted plan new pl).
Proof.
  intros Hin H. unfold Deploy.platform_step in H.
  destruct (bindM_inv _ _ _ _ _ H) as [([] & s1 & H1 & H')|(e & _ & He)];
    [clear H|discriminate He].
  destruct (bindM_inv _ _ _ _ _ H') as [([] & s2 & H2 & H)|(e & _ & He)];
    [clear H'|discriminate He].
  destruct (bindM_inv _ _ _ _ _ H) as [([] & s3 & H3 & H4)|(e & _ & He)];
    [clear H|discriminate He].
  destruct (build_step_success _ _ ps _ _ _ Hin H1) as (new1 & F1 & B1).
  destruct (framed_hook host plan ps _ _ _ _ _ H2) as (new2 & F2).
  destruct (framed_hook host plan ps _ _ _ _ _ H3) as (new3 & F3).
  destruct (submit_step_success _ _ ps _ _ _ Hin H4) as (new4 & F4 & S4).
  exists (new1 ++ new2 ++ new3 ++ new4)%list. split; [|split].
  - exact (frame_seq _ _ _ _ _ _ _ _ _ _ F1
             (frame_seq _ _ _ _ _ _ _ _ _ _ F2
                (frame_seq _ _ _ _ _ _ _ _ _ _ F3 F4))).
  - intros Hb.
    exact (built_frame _ _ _ _ _ _ _ _ _ (B1 Hb)
             (frame_seq _ _ _ _ _ _ _ _ _ _ F2
                (frame_seq _ _ _ _ _ _ _ _ _ _ F3 F4))).
  - intros Hs.
    pose proof (submitted_more plan pl (new1 ++ new2 ++ new3) new4 [] (S4 Hs))
      as S.
    rewrite app_nil_r, <- !app_assoc in S. exact S.
Qed.

Lemma for_each_success (host : Exec.Host) (plan : Deploy.Plan)
      (ps qs : list Platform) (s s' : Exec.Session) :
  incl qs ps ->
  Deploy.for_each qs (Deploy.platform_step host plan) s = (JS.Returns tt, s') ->
  exists new,
    frame host plan ps s (JS.Returns tt) s' new
    /\ (Deploy.shouldBuild plan = true ->
        forall pl, In pl qs -> built host plan new s' pl)
    /\ (Deploy.shouldSubmit plan = true ->
        forall pl, In pl qs -> submitted plan new pl).
Proof.
  revert s. induction qs as [|q qs IH]; intros s Hincl H;
    cbn [Deploy.for_each] in H.
  - injection H as <-. exists []. split; [apply frame_ret; reflexivity|].
    split; intros _ pl [].
  - destruct (bindM_inv _ _ _ _ _ H) as [([] & s1 & H1 & H2)|(e & _ & He)];
      [|discriminate He].
    assert (Hq : In q ps) by (apply Hincl; left; reflexivity).
    assert (Hqs : incl qs ps) by (intros x Hx; apply Hincl; right; exact Hx).
    destruct (platform_step_success _ _ ps _ _ _ Hq H1) as (new1 & F1 & B1 & S1).
    destruct (IH s1 Hqs H2) as (new2 & F2 & B2 & S2).
    exists (new1 ++ new2)%list. split; [|split].
    + exact (frame_seq _ _ _ _ _ _ _ _ _ _ F1 F2).
    + intros Hb pl [<-|Hin].
      * exact (built_frame _ _ _ _ _ _ _ _ _ (B1 Hb) F2).
      * apply built_later. exact (B2 Hb pl Hin).
    + intros Hs pl [<-|Hin].
      * pose proof (submitted_more plan q [] new1 new2 (S1 Hs)) as S. exact S.
      * pose proof (submitted_more plan pl new1 new2 [] (S2 Hs pl Hin)) as S.
        rewrite app_nil_r in S. exact S.
Qed.

Lemma deployment_success (host : Exec.Host) (plan : Deploy.Plan)
      (s s' : Exec.Session) (missing : list Platform) :
  Deploy.deployment host plan s = (JS.Returns missing, s') ->
  exists new,
    Exec.trace s' = (Exec.trace s ++ new)%list
    /\ (Deploy.shouldBuild plan = true ->
        forall pl, In pl (Deploy.enabledPlatforms plan) ->
                   built host plan new s' pl)
    /\ (Deploy.shouldSubmit plan = true ->
        forall pl, In pl (Deploy.enabledPlatforms plan) ->
                   submitted plan new pl)
    /\ recordable (Exec.tracker s') (Deploy.targetVersion plan)
    /\ JS.Returns missing
       = DeploymentTracker.getMissingPlatforms (Exec.tracker s')
           (Deploy.targetVersion plan) (Deploy.profile plan).
Proof.
  intros H. unfold Deploy.deployment in H.
  destruct (bindM_inv _ _ _ _ _ H) as [([] & s1 & H1 & H')|(e & _ & He)];
    [clear H|discriminate He].
  destruct (bindM_inv _ _ _ _ _ H') as [([] & s2 & H2 & H)|(e & _ & He)];
    [clear H'|discriminate He].
  destruct (bindM_inv _ _ _ _ _ H) as [([] & s3 & H3 & H')|(e & _ & He)];
    [clear H|discriminate He].
  destruct (bindM_inv _ _ _ _ _ H') as [([] & s4 & H4 & H)|(e & _ & He)];
    [clear H'|discriminate He].
  destruct (final_status_spec plan s4 s' _ H)
    as (-> & [(Hv & Hm & _)|(_ & Hr)]); [|discriminate Hr].
  set (ps := Deploy.enabledPlatforms plan) in *.
  destruct (framed_preBuild_step host plan ps _ _ _ H1) as (new1 & F1).
  destruct (framed_bump_step host plan ps _ _ _ H2) as (new2 & F2).
  destruct (for_each_success host plan ps ps _ _ (incl_refl _) H3)
    as (new3 & F3 & B3 & S3).
  destruct (framed_hook host plan ps _ _ _ _ _ H4) as (new4 & F4).
  exists (new1 ++ new2 ++ new3 ++ new4)%list.
  split; [|split; [|split; [|split; [exact Hv | exact Hm]]]].
  - exact (proj1 (frame_seq _ _ _ _ _ _ _ _ _ _ F1
                    (frame_seq _ _ _ _ _ _ _ _ _ _ F2
                       (frame_seq _ _ _ _ _ _ _ _ _ _ F3 F4)))).
  - intros Hb pl Hin. rewrite app_assoc. apply built_later.
    exact (built_frame _ _ _ _ _ _ _ _ _ (B3 Hb pl Hin) F4).
  - intros Hs pl Hin.
    pose proof (submitted_more plan pl (new1 ++ new2) new3 new4 (S3 Hs pl Hin))
      as S.
    rewrite <- app_assoc in S. exact S.
Qed.


(** X16.  A deployment changes the ledger only where a build succeeded: a
    slot that differs after the run is the slot of the target version and
    the profile of the plan, for an enabled platform whose build command
    ended successfully among the commands of this run (with exit code 0,
    or without one because a signal ended it, which [execInteractive]
    reports as 0), and it holds a timestamp of the host; a configuration
    snapshot that differs belongs to such a platform; and a run that does
    not build leaves the ledger as it was. *)
Theorem deployment_records_only_successful_builds :
  forall (host : Exec.Host) (plan : Deploy.Plan) (s s' : Exec.Session)
         (r : JS.outcome (list Platform)),
    Deploy.deployment host plan s = (r, s') ->
    exists new,
      Exec.trace s' = (Exec.trace s ++ new)%list
      /\ (forall v pl pr,
            ledger_slot s' v pl pr <> ledger_slot s v pl pr ->
            v = Deploy.targetVersion plan /\ pr = Deploy.profile plan
            /\ Deploy.shouldBuild plan = true
            /\ In pl (Deploy.enabledPlatforms plan)
            /\ stamped_by host plan new pl (ledger_slot s' v pl pr))
      /\ (forall pl,
            ledger_snapshot s' pl <> ledger_snapshot s pl ->
            Deploy.shouldBuild plan = true
            /\ In pl (Deploy.enabledPlatforms plan)
            /\ exists e, In (build_command plan pl, e) new
                         /\ succeeded e = true)
      /\ (Deploy.shouldBuild plan = false -> ledger s' = ledger s).
Proof.
  intros host plan s s' r H.
  destruct (framed_deployment host plan _ _ _ H) as (new & Ht & Hl & Hs & Hc & _).
  exists new. split; [exact Ht|]. split; [|split; [|exact Hl]].
  - intros v pl pr Hne. destruct (Hs v pl pr) as [E|Hst]; [contradiction|exact Hst].
  - intros pl Hne. destruct (Hc pl) as [E|Hst]; [contradiction|exact Hst].
Qed.

Lemma deployment_records_only_successful_builds_witness :
  exists new,
    stamped_by android_failing_host (release_plan None) new ios
      (ledger_slot
         (snd (Deploy.deployment android_failing_host (release_plan None)
                 first_session))
         "1.0.1" ios production).
Proof.
  destruct (deployment_records_only_successful_builds android_failing_host
              (release_plan None) first_session _ _
              (surjective_pairing _))
    as (new & _ & Hs & _).
  exists new. apply (Hs "1.0.1" ios production). vm_compute. discriminate.
Defined.

(** X17.  A deployment that returns has run every step to a successful
    end: when it builds, the build command of every enabled platform
    succeeded and the slot of that platform holds a timestamp of the host;
    when it submits, the submit command of every enabled platform
    succeeded.  Its result is [getMissingPlatforms] on the ledger it leaves,
    which, on a host with non-empty timestamps, names no platform that was
    built. *)
Theorem deployment_returns_after_all_succeeded :
  forall (host : Exec.Host) (plan : Deploy.Plan) (s s' : Exec.Session)
         (missing : list Platform),
    Deploy.deployment host plan s = (JS.Returns missing, s') ->
    exists new,
      Exec.trace s' = (Exec.trace s ++ new)%list
      /\ (Deploy.shouldBuild plan = true ->
          forall pl, In pl (Deploy.enabledPlatforms plan) ->
            (exists n,
               ledger_slot s' (Deploy.targetVersion plan) pl (Deploy.profile plan)
               = Stamp (Exec.toISOString host n))
            /\ exists e, In (build_command plan pl, e) new
                         /\ succeeded e = true)
      /\ (Deploy.shouldSubmit plan = true ->
          forall pl, In pl (Deploy.enabledPlatforms plan) ->
            exists e, In (submit_command plan pl, e) new /\ succeeded e = true)
      /\ JS.Returns missing
         = DeploymentTracker.getMissingPlatforms (Exec.tracker s')
             (Deploy.targetVersion plan) (Deploy.profile plan)
      /\ (Deploy.shouldBuild plan = true ->
          (forall n, Exec.toISOString host n <> EmptyString) ->
          forall pl, In pl (Deploy.enabledPlatforms plan) -> ~ In pl missing).
Proof.
  intros host plan s s' missing H.
  destruct (deployment_success _ _ _ _ _ H) as (new & Ht & Hb & Hs & Hv & Hm).
  exists new. split; [exact Ht|]. split; [exact Hb|]. split; [exact Hs|].
  split; [exact Hm|].
  intros Hbuild Hstamp pl Hin Hmiss.
  rewrite (getMissingPlatforms_cases _ _ (Deploy.profile plan) Hv) in Hm.
  injection Hm as Hm. rewrite Hm in Hmiss.
  apply missing_iff in Hmiss. destruct Hmiss as [_ Hfalse].
  destruct (Hb Hbuild pl Hin) as ((n & Hn) & _).
  unfold ledger_slot in Hn. rewrite Hn in Hfalse.
  rewrite (truthy_stamp _ (Hstamp n)) in Hfalse. discriminate Hfalse.
Qed.

Lemma deployment_returns_after_all_succeeded_witness :
  exists new,
    Exec.trace
      (snd (Deploy.deployment hook_failing_host
              (release_plan (Some notifying_config)) first_session))
    = (Exec.trace first_session ++ new)%list
    /\ exists e,
         In (submit_command (release_plan (Some notifying_config)) android, e)
            new
         /\ succeeded e = true.
Proof.
  destruct (deployment_returns_after_all_succeeded hook_failing_host
              (release_plan (Some notifying_config)) first_session
              (snd (Deploy.deployment hook_failing_host
                      (release_plan (Some notifying_config)) first_session))
              [] ltac:(vm_compute; reflexivity))
    as (new & Ht & _ & Hs & _).
  exists new. split; [exact Ht|].
  apply Hs; [reflexivity|right; left; reflexivity].
Defined.

(** X18.  A deployment that throws either stops at the command that did
    not succeed, or ends with a [TypeError] of the engine.  In the first
    case that command is the last one run, and the exception is the error
    of a spawn that failed, [Pre-build hook failed] for the pre-build hook,
    [Build failed for <platform>] for the build command of an enabled
    platform, or [Submit failed for <platform>] for its submit command.  In
    the second case the plan bumps the version and [app.json] parses to a
    document without [expo] entry, or the target version is not tracked
    and its text is the name of a member of [Object.prototype]. *)
Theorem deployment_stops_at_first_failure :
  forall (host : Exec.Host) (plan : Deploy.Plan) (s s' : Exec.Session)
         (err : JS.exn),
    Deploy.deployment host plan s = (JS.Throws err, s') ->
    (exists before c e,
       Exec.trace s' = (Exec.trace s ++ before ++ [(c, e)])%list
       /\ e = Exec.spawn host (List.length (Exec.trace s ++ before)) c
       /\ succeeded e = false
       /\ stop_reason plan (Deploy.enabledPlatforms plan) c e err)
    \/ (err = JS.TypeError
        /\ ((Deploy.is_none (Deploy.versionBump plan) = false
             /\ lacks_expo (DeploymentTracker.disk (Exec.tracker s')) = true)
            \/ ~ recordable (Exec.tracker s') (Deploy.targetVersion plan))).
Proof.
  intros host plan s s' err H.
  destruct (framed_deployment host plan _ _ _ H) as (new & Ht & _ & _ & _ & He).
  destruct (He err eq_refl) as [(before & c & e & Hn & Hspawn & Hs & Hw)|Hengine].
  - left. exists before, c, e. rewrite Ht, Hn. auto.
  - right. exact Hengine.
Qed.

Lemma deployment_stops_at_first_failure_witness :
  exists before c e,
    Exec.trace
      (snd (Deploy.deployment android_failing_host (release_plan None)
              first_session))
    = (Exec.trace first_session ++ before ++ [(c, e)])%list
    /\ e = Exec.spawn android_failing_host
             (List.length (Exec.trace first_session ++ before)) c
    /\ succeeded e = false
    /\ stop_reason (release_plan None)
         (Deploy.enabledPlatforms (release_plan None)) c e
         (JS.Error "Build failed for android").
Proof.
  destruct (deployment_stops_at_first_failure android_failing_host
              (release_plan None) first_session
              (snd (Deploy.deployment android_failing_host (release_plan None)
                      first_session))
              (JS.Error "Build failed for android")
              ltac:(vm_compute; reflexivity))
    as [H|[H _]]; [exact H | discriminate H].
Defined.

(** Both failures of the engine occur: a bump in a project whose
    [app.json] is the document [{}] ends the deployment before any command
    is run, and a build for the target version ["constructor"] succeeds and
    then cannot be recorded. *)
Example deployment_fails_without_expo_entry :
  Deploy.deployment obliging_host (release_plan None)
    {| Exec.tracker := DeploymentTracker.construct bare_disk 0;
       Exec.trace := [] |}
  = (JS.Throws JS.TypeError,
     {| Exec.tracker := DeploymentTracker.construct bare_disk 0;
        Exec.trace := [] |}).
Proof. vm_compute. reflexivity. Qed.

Example deployment_fails_for_inherited_name :
  let plan := {| Deploy.shouldBuild := true;
                 Deploy.shouldSubmit := false;
                 Deploy.versionBump := none;
                 Deploy.targetVersion := "constructor";
                 Deploy.enabledPlatforms := [ios];
                 Deploy.profile := production;
                 Deploy.clearCache := fun _ => false;
                 Deploy.config := None |} in
  fst (Deploy.deployment obliging_host plan first_session)
  = JS.Throws JS.TypeError
  /\ Exec.trace (snd (Deploy.deployment obliging_host plan first_session))
     = [(build_command plan ios, Exec.Close (Some 0))]
  /\ ledger (snd (Deploy.deployment obliging_host plan first_session))
     = ledger first_session.
Proof. vm_compute. repeat split; reflexivity. Qed.

(** ** The manifests during a deployment *)

Lemma quiet_ret {A : Type} (host : Exec.Host) (a : A) : quiet host (Exec.ret a).
Proof. intros _ s r s' H. injection H as <- <-. reflexivity. Qed.

Lemma quiet_throw {A : Type} (host : Exec.Host) (e : JS.exn) :
  quiet host (Exec.throw (A := A) e).
Proof. intros _ s r s' H. injection H as <- <-. reflexivity. Qed.

Lemma quiet_bind {A B : Type} (host : Exec.Host) (m : Exec.M A)
      (k : A -> Exec.M B) :
  quiet host m -> (forall a, quiet host (k a)) -> quiet host (Exec.bindM m k).
Proof.
  intros Hm Hk Hkeeps s r s' H.
  destruct (bindM_inv _ _ _ _ _ H) as [(a & s1 & H1 & H2)|(e & H1 & ->)].
  - rewrite (Hk a Hkeeps _ _ _ H2). exact (Hm Hkeeps _ _ _ H1).
  - exact (Hm Hkeeps _ _ _ H1).
Qed.

Lemma quiet_exec (host : Exec.Host) (command : string) :
  quiet host (Exec.execInteractive host command).
Proof.
  intros Hkeeps s r s' H.
  destruct (execInteractive_spec _ _ _ _ _ H) as (_ & _ & Hm & _).
  exact (Hm Hkeeps).
Qed.

Lemma quiet_checked (host : Exec.Host) (command : string) (err : JS.exn) :
  quiet host
    (code <~ Exec.execInteractive host command ;;
     if negb (code =? 0) then Exec.throw err else Exec.ret tt).
Proof.
  apply quiet_bind; [apply quiet_exec|].
  intros code. destruct (negb (code =? 0)); [apply quiet_throw|apply quiet_ret].
Qed.

Lemma quiet_when_hook (host : Exec.Host) (h : option string)
      (condition : bool) (body : string -> Exec.M unit) :
  (forall command, quiet host (body command)) ->
  quiet host (Deploy.when_hook h condition body).
Proof.
  intros Hb. unfold Deploy.when_hook.
  destruct (truthy_string h && condition); [|apply quiet_ret].
  destruct h; [apply Hb|apply quiet_ret].
Qed.

Lemma quiet_hook (host : Exec.Host) (h : option string) (condition : bool) :
  quiet host (Deploy.when_hook h condition (Deploy.run_hook host)).
Proof.
  apply quiet_when_hook. intros command. unfold Deploy.run_hook.
  apply quiet_bind; [apply quiet_exec|]. intros _. apply quiet_ret.
Qed.

Lemma quiet_platform_step (host : Exec.Host) (plan : Deploy.Plan)
      (pl : Platform) :
  quiet host (Deploy.platform_step host plan pl).
Proof.
  unfold Deploy.platform_step. apply quiet_bind.
  { unfold Deploy.build_step, Builder.runBuild.
    destruct (Deploy.shouldBuild plan); [|apply quiet_ret].
    apply quiet_bind; [apply quiet_exec|].
    intros code. destruct (negb (code =? 0)); [apply quiet_throw|].
    intros _ s r s' H.
    destruct (record_deployment_spec _ _ _ _ _ _ H) as (_ & Hm & _).
    exact Hm. }
  intros _. apply quiet_bind; [apply quiet_hook|].
  intros _. apply quiet_bind; [apply quiet_hook|].
  intros _. unfold Deploy.submit_step, Submitter.runSubmit.
  destruct (Deploy.shouldSubmit plan); [apply quiet_checked|apply quiet_ret].
Qed.

Lemma quiet_for_each (host : Exec.Host) (plan : Deploy.Plan)
      (ps : list Platform) :
  quiet host (Deploy.for_each ps (Deploy.platform_step host plan)).
Proof.
  induction ps as [|pl ps IH]; cbn [Deploy.for_each]; [apply quiet_ret|].
  apply quiet_bind; [apply quiet_platform_step|]. intros _. exact IH.
Qed.

Lemma write_package_reads_manifests (v : string) (d1 d0 : Disk) :
  app_json d1 = app_json d0 -> package_json d1 = package_json d0 ->
  app_json (VersionManager.write_package v d1)
  = app_json (VersionManager.write_package v d0)
  /\ package_json (VersionManager.write_package v d1)
     = package_json (VersionManager.write_package v d0).
Proof.
  intros Ha Hp. unfold VersionManager.write_package. rewrite Hp.
  destruct (Fs.readJsonFile (package_json d0));
    cbn [package_json app_json write_package_json]; auto.
Qed.

Lemma write_both_reads_manifests (v : string) (d1 d0 : Disk) :
  app_json d1 = app_json d0 -> package_json d1 = package_json d0 ->
  fst (VersionManager.write_both v d1) = fst (VersionManager.write_both v d0)
  /\ app_json (snd (VersionManager.write_both v d1))
     = app_json (snd (VersionManager.write_both v d0))
  /\ package_json (snd (VersionManager.write_both v d1))
     = package_json (snd (VersionManager.write_both v d0)).
Proof.
  intros Ha Hp. unfold VersionManager.write_both. rewrite Ha.
  destruct (Fs.readJsonFile (app_json d0)) as [appJson|].
  - destruct (VersionManager.set_app_version appJson v) as [appJson'|e];
      cbn [fst snd]; [|auto].
    split; [reflexivity|].
    apply write_package_reads_manifests; reflexivity || exact Hp.
  - cbn [fst snd]. split; [reflexivity|].
    apply write_package_reads_manifests; assumption.
Qed.

Lemma bump_reads_manifests (k : VersionBumpType) (d1 d0 : Disk) :
  app_json d1 = app_json d0 -> package_json d1 = package_json d0 ->
  app_json (snd (VersionManager.bump k d1))
  = app_json (snd (VersionManager.bump k d0))
  /\ package_json (snd (VersionManager.bump k d1))
     = package_json (snd (VersionManager.bump k d0)).
Proof.
  intros Ha Hp. unfold VersionManager.bump, VersionManager.getCurrentVersion.
  rewrite Ha.
  set (v := VersionManager.calculateNewVersion
              (VersionManager.version_of (Fs.readJsonFile (app_json d0))
               ?? "0.0.0") k).
  destruct (write_both_reads_manifests v d1 d0 Ha Hp) as (Hf & Ha' & Hp').
  destruct (VersionManager.write_both v d1) as [r1 e1].
  destruct (VersionManager.write_both v d0) as [r0 e0].
  cbn [fst snd] in Hf, Ha', Hp'. subst r1.
  destruct k; cbn [snd]; try (destruct r0; cbn [snd]; auto); auto.
Qed.

Lemma bump_step_manifests (plan : Deploy.Plan) (s s1 s2 : Exec.Session)
      (r : JS.outcome unit) :
  manifests s1 = manifests s ->
  Deploy.bump_step plan s1 = (r, s2) ->
  manifests s2
  = (app_json (bumped plan (DeploymentTracker.disk (Exec.tracker s))),
     package_json (bumped plan (DeploymentTracker.disk (Exec.tracker s)))).
Proof.
  intros Hm H. destruct (bump_step_spec _ _ _ _ H) as (_ & _ & Hd & _).
  unfold manifests in *. rewrite Hd. injection Hm as Ha Hp.
  unfold bumped.
  destruct (Deploy.is_none (Deploy.versionBump plan));
    [rewrite Ha, Hp; reflexivity|].
  destruct (bump_reads_manifests (Deploy.versionBump plan) _ _ Ha Hp)
    as [-> ->].
  reflexivity.
Qed.

Lemma preBuild_step_spec (host : Exec.Host) (plan : Deploy.Plan)
      (s s1 : Exec.Session) (r : JS.outcome unit) :
  Deploy.preBuild_step host plan s = (r, s1) ->
  ledger s1 = ledger s
  /\ (keeps_manifests host -> manifests s1 = manifests s)
  /\ match preBuild_hook plan with
     | None => r = JS.Returns tt /\ Exec.trace s1 = Exec.trace s
     | Some c =>
         Exec.trace s1
         = (Exec.trace s
            ++ [(c, Exec.spawn host (List.length (Exec.trace s)) c)])%list
         /\ if succeeded (Exec.spawn host (List.length (Exec.trace s)) c)
            then r = JS.Returns tt
            else exists err, r = JS.Throws err
     end.
Proof.
  unfold Deploy.preBuild_step, Deploy.when_hook, preBuild_hook.
  destruct (truthy_string (Deploy.hook preBuild (Deploy.config plan))
            && Deploy.shouldBuild plan) eqn:Hh.
  - destruct (Deploy.hook preBuild (Deploy.config plan)) as [c|] eqn:Hc;
      [|discriminate Hh].
    intros H.
    destruct (bindM_inv _ _ _ _ _ H) as [(a & s' & H1 & H2)|(e & H1 & ->)];
      destruct (execInteractive_spec _ _ _ _ _ H1) as (Ht & Hl & Hm & Hr);
      destruct (Exec.spawn host (List.length (Exec.trace s)) c)
        as [code|e'] eqn:E; try discriminate Hr.
    + injection Hr as ->. rewrite succeeded_code.
      destruct (Z.eqb_spec (code ?? 0) 0) as [Hz|Hne]; cbn [negb] in H2;
        injection H2 as <- <-; repeat split; auto.
      eexists. reflexivity.
    + injection Hr as ->. repeat split; auto. eexists. reflexivity.
  - intros H. injection H as <- <-. repeat split; reflexivity.
Qed.

Lemma deployment_manifests :
  forall (host : Exec.Host) (plan : Deploy.Plan) (s s' : Exec.Session)
         (r : JS.outcome (list Platform)),
    keeps_manifests host ->
    Deploy.deployment host plan s = (r, s') ->
    if preBuild_passes host plan s
    then manifests s'
         = (app_json (bumped plan (DeploymentTracker.disk (Exec.tracker s))),
            package_json (bumped plan (DeploymentTracker.disk (Exec.tracker s))))
    else ledger s' = ledger s
         /\ manifests s' = manifests s
         /\ (exists err, r = JS.Throws err)
         /\ exists c,
              preBuild_hook plan = Some c
              /\ Exec.trace s'
                 = (Exec.trace s
                    ++ [(c, Exec.spawn host (List.length (Exec.trace s)) c)])%list.
Proof.
  intros host plan s s' r Hkeeps H. unfold Deploy.deployment in H.
  destruct (bindM_inv _ _ _ _ _ H) as [([] & s1 & H1 & H')|(e & H1 & ->)].
  - destruct (preBuild_step_spec _ _ _ _ _ H1) as (_ & Hm1 & Hpre).
    assert (Hpass : preBuild_passes host plan s = true).
    { unfold preBuild_passes. destruct (preBuild_hook plan) as [c|];
        [|reflexivity].
      destruct Hpre as [_ Hr].
      destruct (succeeded (Exec.spawn host (List.length (Exec.trace s)) c));
        [reflexivity|]. destruct Hr as (err & Hr). discriminate Hr. }
    rewrite Hpass. clear H.
    assert (Hrest : forall s2 (r2 : JS.outcome unit),
               Deploy.bump_step plan s1 = (r2, s2) ->
               forall s3 (r3 : JS.outcome (list Platform)),
                 (_ <~ Deploy.for_each (Deploy.enabledPlatforms plan)
                         (Deploy.platform_step host plan) ;;
                  _ <~ Deploy.when_hook
                         (Deploy.hook postSubmit (Deploy.config plan))
                         (Deploy.shouldSubmit plan) (Deploy.run_hook host) ;;
                  fun s =>
                    let finalStatus :=
                      DeploymentTracker.getVersionStatus (Exec.tracker s)
                        (Deploy.targetVersion plan) in
                    (_ <- Deploy.displayVersionStatus finalStatus ;;
                     DeploymentTracker.getMissingPlatforms (Exec.tracker s)
                       (Deploy.targetVersion plan) (Deploy.profile plan),
                     s)) s2 = (r3, s3) ->
                 manifests s3
                 = (app_json
                      (bumped plan (DeploymentTracker.disk (Exec.tracker s))),
                    package_json
                      (bumped plan (DeploymentTracker.disk (Exec.tracker s))))).
    { intros s2 r2 H2 s3 r3 H3.
      rewrite <- (bump_step_manifests plan s s1 s2 r2 (Hm1 Hkeeps) H2).
      refine (quiet_bind host _ _ (quiet_for_each host plan _) _ Hkeeps
                _ _ _ H3).
      intros _. apply quiet_bind; [apply quiet_hook|].
      intros _ _ s4 r4 s5 H5. injection H5 as <- <-. reflexivity. }
    destruct (bindM_inv _ _ _ _ _ H') as [([] & s2 & H2 & H3)|(e & H2 & ->)].
    + exact (Hrest _ _ H2 _ _ H3).
    + exact (bump_step_manifests plan s s1 s' _ (Hm1 Hkeeps) H2).
  - destruct (preBuild_step_spec _ _ _ _ _ H1) as (Hl & Hm1 & Hpre).
    unfold preBuild_passes. destruct (preBuild_hook plan) as [c|];
      [|destruct Hpre as [Hr _]; discriminate Hr].
    destruct Hpre as [Ht Hr].
    destruct (succeeded (Exec.spawn host (List.length (Exec.trace s)) c));
      [discriminate Hr|].
    split; [exact Hl|]. split; [exact (Hm1 Hkeeps)|].
    split; [exists e; reflexivity|]. exists c. auto.
Qed.


Lemma lacks_expo_app_json (d d' : Disk) :
  app_json d' = app_json d -> lacks_expo d' = lacks_expo d.
Proof. intros H. unfold lacks_expo. rewrite H. reflexivity. Qed.

Lemma write_both_keeps_expo (v : string) (d : Disk) :
  lacks_expo d = false ->
  lacks_expo (snd (VersionManager.write_both v d)) = false.
Proof.
  intros Hd. pose proof (write_both_cases v d) as Hc.
  unfold lacks_expo in *.
  destruct (Fs.readJsonFile (app_json d)) as [appJson|] eqn:Happ.
  - destruct (expo appJson) as [e|]; [|discriminate Hd].
    rewrite Hc. cbn [snd]. rewrite app_json_write_package.
    cbn [app_json write_app_json]. rewrite readJsonFile_written. reflexivity.
  - rewrite Hc. cbn [snd]. rewrite app_json_write_package, Happ. reflexivity.
Qed.

Lemma bumped_keeps_expo (plan : Deploy.Plan) (d : Disk) :
  lacks_expo d = false -> lacks_expo (bumped plan d) = false.
Proof.
  intros Hd. unfold bumped.
  destruct (Deploy.is_none (Deploy.versionBump plan)); [exact Hd|].
  unfold VersionManager.bump.
  pose proof (write_both_keeps_expo
                (VersionManager.calculateNewVersion
                   (VersionManager.getCurrentVersion d)
                   (Deploy.versionBump plan)) d Hd) as Hw.
  destruct (VersionManager.write_both _ d) as [[[]|e] d'];
    destruct (Deploy.versionBump plan); cbn [snd] in *; assumption.
Qed.

(** X19.  The engine's own failures apart, only the pre-build hook, the
    builds and the submissions can fail a deployment.  Take a target
    version whose text is not the name of a member of [Object.prototype],
    and a plan that bumps nothing or a project whose [app.json] is missing,
    unreadable or has an [expo] entry and whose manifests the commands
    leave alone: on a host where every command can be spawned and the
    pre-build hook, the builds and the submissions succeed, the deployment
    returns, whatever exit codes the post-build, pre-submit and post-submit
    hooks end with. *)
Theorem deployment_ignores_exit_codes_of_later_hooks :
  forall (host : Exec.Host) (plan : Deploy.Plan) (s : Exec.Session),
    (forall n c, exists code, Exec.spawn host n c = Exec.Close code) ->
    (forall n c, preBuild_hook plan = Some c ->
                 succeeded (Exec.spawn host n c) = true) ->
    (forall n pl, In pl (Deploy.enabledPlatforms plan) ->
                  succeeded (Exec.spawn host n (build_command plan pl)) = true) ->
    (forall n pl, In pl (Deploy.enabledPlatforms plan) ->
                  succeeded (Exec.spawn host n (submit_command plan pl)) = true) ->
    Json.inherited_name (Deploy.targetVersion plan) = false ->
    Deploy.is_none (Deploy.versionBump plan) = true
    \/ (keeps_manifests host
        /\ lacks_expo (DeploymentTracker.disk (Exec.tracker s)) = false) ->
    exists missing,
      fst (Deploy.deployment host plan s) = JS.Returns missing.
Proof.
  intros host plan s Hspawn Hpre Hbuild Hsubmit Hname Hbump.
  destruct (Deploy.deployment host plan s) as [[missing|err] s'] eqn:H.
  - exists missing. reflexivity.
  - exfalso.
    destruct (framed_deployment host plan _ _ _ H) as (new & _ & _ & _ & _ & He).
    destruct (He err eq_refl)
      as [(before & c & e & _ & Hspawned & Hs & Hw)
         |(_ & [(Hnone & Hlacks)|Hno])].
    + rewrite Hspawned in Hs.
      destruct Hw as [err|code Hhook|pl code Hin Hc|pl code Hin Hc].
      * destruct (Hspawn (List.length (Exec.trace s ++ before)) c) as (code & Hc).
        congruence.
      * rewrite (Hpre _ _ Hhook) in Hs. discriminate Hs.
      * rewrite Hc, (Hbuild _ _ Hin) in Hs. discriminate Hs.
      * rewrite Hc, (Hsubmit _ _ Hin) in Hs. discriminate Hs.
    + destruct Hbump as [Hb|(Hkeeps & Hexpo)]; [congruence|].
      pose proof (deployment_manifests _ _ _ _ _ Hkeeps H) as Hm.
      assert (Happ : lacks_expo (DeploymentTracker.disk (Exec.tracker s'))
                     = false).
      { destruct (preBuild_passes host plan s).
        - unfold manifests in Hm. injection Hm as Ha _.
          rewrite (lacks_expo_app_json _ _ Ha).
          apply bumped_keeps_expo, Hexpo.
        - destruct Hm as (_ & Hm & _). unfold manifests in Hm.
          injection Hm as Ha _.
          rewrite (lacks_expo_app_json _ _ Ha). exact Hexpo. }
      congruence.
    + apply Hno. right. exact Hname.
Qed.

Lemma deployment_ignores_exit_codes_of_later_hooks_witness :
  exists missing,
    fst (Deploy.deployment hook_failing_host
           (release_plan (Some notifying_config)) first_session)
    = JS.Returns missing.
Proof.
  apply (deployment_ignores_exit_codes_of_later_hooks hook_failing_host
           (release_plan (Some notifying_config)) first_session).
  - intros n c. cbn [Exec.spawn hook_failing_host].
    destruct (String.eqb c "npm run notify"); eexists; reflexivity.
  - intros n c H. discriminate H.
  - intros n pl [<-|[<-|[]]]; reflexivity.
  - intros n pl [<-|[<-|[]]]; reflexivity.
  - reflexivity.
  - right. split; [intros n c d; split; reflexivity | reflexivity].
Defined.

(** X20.  The version bump is written before the first build starts.  When
    the commands leave the manifests alone, a deployment whose pre-build
    hook passes (or that has none) ends with the manifests the bump wrote,
    whether or not the builds and submissions that follow succeed; a
    deployment whose pre-build hook fails stops after the hook with an
    exception, the ledger and the manifests as they were. *)
Theorem version_bump_precedes_builds :
  forall (host : Exec.Host) (plan : Deploy.Plan) (s s' : Exec.Session)
         (r : JS.outcome (list Platform)),
    keeps_manifests host ->
    Deploy.deployment host plan s = (r, s') ->
    if preBuild_passes host plan s
    then manifests s'
         = (app_json (bumped plan (DeploymentTracker.disk (Exec.tracker s))),
            package_json (bumped plan (DeploymentTracker.disk (Exec.tracker s))))
    else ledger s' = ledger s
         /\ manifests s' = manifests s
         /\ (exists err, r = JS.Throws err)
         /\ exists c,
              preBuild_hook plan = Some c
              /\ Exec.trace s'
                 = (Exec.trace s
                    ++ [(c, Exec.spawn host (List.length (Exec.trace s)) c)])%list.
Proof. exact deployment_manifests. Qed.

Lemma version_bump_precedes_builds_witness :
  manifests
    (snd (Deploy.deployment android_failing_host (release_plan None)
            first_session))
  = (app_json
       (bumped (release_plan None)
          (DeploymentTracker.disk (Exec.tracker first_session))),
     package_json
       (bumped (release_plan None)
          (DeploymentTracker.disk (Exec.tracker first_session)))).
Proof.
  apply (version_bump_precedes_builds android_failing_host (release_plan None)
           first_session _ _ ltac:(intros n c d; split; reflexivity)
           (surjective_pairing _)).
Defined.

(** ** The wizard *)

Lemma detectConfigChanges_keeps (pl : Platform) (t : DeploymentTracker.Tracker)
      (criticalKeys : option (list string)) :
  DeploymentTracker.data
    (snd (ConfigDetector.detectConfigChanges pl t criticalKeys))
  = DeploymentTracker.data t
  /\ DeploymentTracker.disk
       (snd (ConfigDetector.detectConfigChanges pl t criticalKeys))
     = DeploymentTracker.disk t.
Proof. split; reflexivity. Qed.

Lemma clear_cache_loop_spec (cfg : option ShipkitConfig)
      (ask : list ConfigChange -> bool) (t0 : DeploymentTracker.Tracker)
      (platforms : list Platform) :
  forall (t : DeploymentTracker.Tracker) (clearCache : Platform -> bool),
    DeploymentTracker.data t = DeploymentTracker.data t0 ->
    DeploymentTracker.disk t = DeploymentTracker.disk t0 ->
    let asked pl :=
      In pl platforms
      /\ exists t',
           DeploymentTracker.data t' = DeploymentTracker.data t0
           /\ DeploymentTracker.disk t' = DeploymentTracker.disk t0
           /\ fst (ConfigDetector.detectConfigChanges pl t'
                     (criticalConfig_of cfg pl)) <> []
           /\ ask (fst (ConfigDetector.detectConfigChanges pl t'
                          (criticalConfig_of cfg pl))) = true in
    let r := Deploy.clear_cache_loop cfg ask platforms t clearCache in
    DeploymentTracker.data (snd r) = DeploymentTracker.data t0
    /\ DeploymentTracker.disk (snd r) = DeploymentTracker.disk t0
    /\ forall pl, fst r pl = true -> clearCache pl = true \/ asked pl.
Proof.
  induction platforms as [|q qs IH]; intros t clearCache Hd Hk;
    cbn [Deploy.clear_cache_loop].
  - cbn [fst snd]. auto.
  - destruct (ConfigDetector.detectConfigChanges q t (criticalConfig_of cfg q))
      as [changes t1] eqn:E.
    assert (Hchanges : changes
                       = fst (ConfigDetector.detectConfigChanges q t
                                (criticalConfig_of cfg q)))
      by (rewrite E; reflexivity).
    assert (Ht1 : t1 = snd (ConfigDetector.detectConfigChanges q t
                              (criticalConfig_of cfg q)))
      by (rewrite E; reflexivity).
    destruct (detectConfigChanges_keeps q t (criticalConfig_of cfg q))
      as [Hd1 Hk1].
    rewrite <- Ht1 in Hd1, Hk1.
    specialize (IH t1
                  (if Nat.ltb 0 (List.length changes)
                   then Deploy.set_clearCache clearCache q (ask changes)
                   else clearCache)
                  (eq_trans Hd1 Hd) (eq_trans Hk1 Hk)).
    cbv zeta in IH. destruct IH as (Hd' & Hk' & IH).
    split; [exact Hd'|]. split; [exact Hk'|].
    intros pl Hpl. destruct (IH pl Hpl) as [Hset|(Hin & Hasked)].
    + destruct (Nat.ltb 0 (List.length changes)) eqn:Hlen; [|left; exact Hset].
      unfold Deploy.set_clearCache in Hset.
      destruct (Platform_eqb pl q) eqn:Heq; [|left; exact Hset].
      assert (pl = q) by (destruct pl, q; first [reflexivity|discriminate Heq]).
      subst pl. right. split; [left; reflexivity|].
      exists t. split; [exact Hd|]. split; [exact Hk|].
      rewrite <- Hchanges. split; [|exact Hset].
      intros ->. discriminate Hlen.
    + right. split; [right; exact Hin|exact Hasked].
Qed.

Lemma wizard_proceeds (cfg : option ShipkitConfig) (choices : Deploy.Choices)
      (t t1 : DeploymentTracker.Tracker) (plan : Deploy.Plan) :
  Deploy.wizard cfg choices t = Deploy.Proceed plan t1 ->
  DeploymentTracker.data t1 = DeploymentTracker.data t
  /\ DeploymentTracker.disk t1 = DeploymentTracker.disk t
  /\ Deploy.config plan = cfg
  /\ Deploy.shouldBuild plan
     = match Deploy.action choices with
       | Deploy.submit => false
       | _ => true
       end
  /\ Deploy.versionBump plan
     = (if Deploy.shouldBuild plan then Deploy.bumpChoice choices else none)
  /\ Deploy.targetVersion plan
     = (if Deploy.is_none (Deploy.versionBump plan)
        then VersionManager.getCurrentVersion (DeploymentTracker.disk t)
        else VersionManager.calculateNewVersion
               (VersionManager.getCurrentVersion (DeploymentTracker.disk t))
               (Deploy.versionBump plan))
  /\ Deploy.enabledPlatforms plan
     = Deploy.enabled_platforms cfg
         match Deploy.platformChoice choices with
         | None => [ios; android]
         | Some p => [p]
         end
  /\ forall pl,
       Deploy.clearCache plan pl = true ->
       Deploy.shouldBuild plan = true
       /\ option_map build_autoClearCache cfg = Some true
       /\ In pl (Deploy.enabledPlatforms plan)
       /\ exists t',
            DeploymentTracker.data t' = DeploymentTracker.data t
            /\ DeploymentTracker.disk t' = DeploymentTracker.disk t
            /\ fst (ConfigDetector.detectConfigChanges pl t'
                      (criticalConfig_of cfg pl)) <> []
            /\ Deploy.promptClearCache choices
                 (fst (ConfigDetector.detectConfigChanges pl t'
                         (criticalConfig_of cfg pl))) = true.
Proof.
  unfold Deploy.wizard.
  set (shouldBuild := match Deploy.action choices with
                      | Deploy.build | Deploy.build_submit => true
                      | Deploy.submit => false
                      end).
  set (ps := Deploy.enabled_platforms cfg _).
  destruct (Nat.eqb (List.length ps) 0); [discriminate|].
  destruct (shouldBuild && (option_map build_autoClearCache cfg ?? false))
    eqn:Hauto.
  - pose proof (clear_cache_loop_spec cfg (Deploy.promptClearCache choices) t ps
                  t (fun _ => false) eq_refl eq_refl) as Hloop.
    cbv zeta in Hloop.
    destruct (Deploy.clear_cache_loop cfg (Deploy.promptClearCache choices) ps t
                (fun _ => false)) as [clearCache t'] eqn:E.
    cbn [fst snd] in Hloop. destruct Hloop as (Hd & Hk & Hc).
    destruct (negb (Deploy.confirmed choices)); [discriminate|].
    intros H. injection H as <- <-.
    cbn [Deploy.config Deploy.shouldBuild Deploy.versionBump
         Deploy.targetVersion Deploy.enabledPlatforms Deploy.clearCache].
    apply andb_prop in Hauto. destruct Hauto as [Hb Ha].
    split; [exact Hd|]. split; [exact Hk|]. split; [reflexivity|].
    split; [unfold shouldBuild; destruct (Deploy.action choices); reflexivity|].
    split; [reflexivity|].
    split.
    { rewrite Hb. cbn [andb].
      destruct (Deploy.is_none (Deploy.bumpChoice choices)); reflexivity. }
    split; [reflexivity|].
    intros pl Hpl. destruct (Hc pl Hpl) as [Hf|(Hin & Hasked)];
      [discriminate Hf|].
    split; [exact Hb|]. split; [|split; [exact Hin|exact Hasked]].
    destruct cfg as [c|]; [|discriminate Ha]. cbn in Ha |- *. rewrite Ha.
    reflexivity.
  - destruct (negb (Deploy.confirmed choices)); [discriminate|].
    intros H. injection H as <- <-.
    cbn [Deploy.config Deploy.shouldBuild Deploy.versionBump
         Deploy.targetVersion Deploy.enabledPlatforms Deploy.clearCache].
    split; [reflexivity|]. split; [reflexivity|]. split; [reflexivity|].
    split; [unfold shouldBuild; destruct (Deploy.action choices); reflexivity|].
    split; [reflexivity|].
    split.
    { destruct shouldBuild; cbn [andb];
        [destruct (Deploy.is_none (Deploy.bumpChoice choices))|];
        reflexivity. }
    split; [reflexivity|].
    intros pl Hpl. discriminate Hpl.
Qed.

(** X21.  The version a deployment records is the version it leaves in
    [app.json].  For a plan of the wizard, in a project whose [app.json]
    can be read and has an [expo] entry, and on a host whose commands leave
    the manifests alone, a run that gets past the pre-build hook ends with
    [app.json] at the target version of the plan, and every slot of the
    ledger that changed during the run is a slot of that version. *)
Theorem deployed_version_is_manifest_version :
  forall (cfg : option ShipkitConfig) (choices : Deploy.Choices)
         (t t1 : DeploymentTracker.Tracker) (plan : Deploy.Plan)
         (host : Exec.Host) (commands : list (string * Exec.child_end))
         (s' : Exec.Session) (r : JS.outcome (list Platform)),
    Deploy.wizard cfg choices t = Deploy.Proceed plan t1 ->
    keeps_manifests host ->
    Fs.readJsonFile (app_json (DeploymentTracker.disk t)) <> None ->
    lacks_expo (DeploymentTracker.disk t) = false ->
    preBuild_passes host plan
      {| Exec.tracker := t1; Exec.trace := commands |} = true ->
    Deploy.deployment host plan
      {| Exec.tracker := t1; Exec.trace := commands |} = (r, s') ->
    VersionManager.getCurrentVersion (DeploymentTracker.disk (Exec.tracker s'))
    = Deploy.targetVersion plan
    /\ forall v pl pr,
         ledger_slot s' v pl pr
         <> ledger_slot {| Exec.tracker := t1; Exec.trace := commands |} v pl pr ->
         v = VersionManager.getCurrentVersion
               (DeploymentTracker.disk (Exec.tracker s')).
Proof.
  intros cfg choices t t1 plan host commands s' r Hw Hkeeps Hread Hexpo Hpass H.
  destruct (wizard_proceeds _ _ _ _ _ Hw)
    as (_ & Hdisk & _ & _ & Hbump & Htarget & _).
  assert (Hv : VersionManager.getCurrentVersion
                 (DeploymentTracker.disk (Exec.tracker s'))
               = Deploy.targetVersion plan).
  { pose proof (deployment_manifests _ _ _ _ _ Hkeeps H) as Hm.
    rewrite Hpass in Hm. cbn [Exec.tracker] in Hm. rewrite Hdisk in Hm.
    unfold manifests in Hm. injection Hm as Ha _.
    unfold VersionManager.getCurrentVersion at 1. rewrite Ha.
    fold (VersionManager.getCurrentVersion
            (bumped plan (DeploymentTracker.disk t))).
    rewrite Htarget. unfold bumped.
    destruct (Deploy.is_none (Deploy.versionBump plan)) eqn:Hnone;
      [reflexivity|].
    destruct (Fs.readJsonFile (app_json (DeploymentTracker.disk t)))
      as [appJson|] eqn:Happ; [|contradiction].
    assert (He : expo appJson <> None).
    { unfold lacks_expo in Hexpo. rewrite Happ in Hexpo.
      destruct (expo appJson); [discriminate | discriminate Hexpo]. }
    destruct (write_both_current
                (VersionManager.calculateNewVersion
                   (VersionManager.getCurrentVersion (DeploymentTracker.disk t))
                   (Deploy.versionBump plan))
                (DeploymentTracker.disk t) appJson Happ He) as (d' & Hwb & Hcur).
    unfold VersionManager.bump. rewrite Hwb.
    destruct (Deploy.versionBump plan); try discriminate Hnone; cbn [snd];
      exact Hcur. }
  split; [exact Hv|].
  intros v pl pr Hne.
  destruct (framed_deployment host plan _ _ _ H) as (new & _ & _ & Hs & _).
  destruct (Hs v pl pr) as [E|(-> & _)]; [contradiction|].
  symmetry. exact Hv.
Qed.

Lemma deployed_version_is_manifest_version_witness :
  VersionManager.getCurrentVersion
    (DeploymentTracker.disk
       (Exec.tracker
          (snd (Deploy.deployment android_failing_host (release_plan None)
                  first_session))))
  = "1.0.1".
Proof.
  apply (deployed_version_is_manifest_version None
           (release_choices Deploy.build_submit)
           (DeploymentTracker.construct test_disk 0)
           (DeploymentTracker.construct test_disk 0)
           (release_plan None) android_failing_host [] _ _
           eq_refl
           ltac:(intros n c d; split; reflexivity)
           ltac:(discriminate)
           eq_refl
           eq_refl
           (surjective_pairing _)).
Defined.

(** X22.  A submit-only run of the wizard writes nothing: whatever bump
    was asked for, the plan bumps nothing and targets the current version,
    asks for no cache to be cleared, and its deployment leaves the ledger
    as it was and, when the commands leave the manifests alone, the
    manifests too. *)
Theorem submit_only_run_writes_nothing :
  forall (cfg : option ShipkitConfig) (choices : Deploy.Choices)
         (t t1 : DeploymentTracker.Tracker) (plan : Deploy.Plan)
         (host : Exec.Host) (commands : list (string * Exec.child_end))
         (s' : Exec.Session) (r : JS.outcome (list Platform)),
    Deploy.action choices = Deploy.submit ->
    Deploy.wizard cfg choices t = Deploy.Proceed plan t1 ->
    Deploy.deployment host plan
      {| Exec.tracker := t1; Exec.trace := commands |} = (r, s') ->
    Deploy.versionBump plan = none
    /\ Deploy.targetVersion plan
       = VersionManager.getCurrentVersion (DeploymentTracker.disk t)
    /\ (forall pl, Deploy.clearCache plan pl = false)
    /\ ledger s' = DeploymentTracker.data t
    /\ (keeps_manifests host ->
        manifests s'
        = (app_json (DeploymentTracker.disk t),
           package_json (DeploymentTracker.disk t))).
Proof.
  intros cfg choices t t1 plan host commands s' r Hact Hw H.
  destruct (wizard_proceeds _ _ _ _ _ Hw)
    as (Hdata & Hdisk & _ & Hbuild & Hbump & Htarget & _ & Hclear).
  rewrite Hact in Hbuild. rewrite Hbuild in Hbump.
  rewrite Hbump in Htarget. cbn [Deploy.is_none] in Htarget.
  split; [exact Hbump|]. split; [exact Htarget|]. split; [|split].
  - intros pl. destruct (Deploy.clearCache plan pl) eqn:E; [|reflexivity].
    destruct (Hclear pl E) as (Hb & _). congruence.
  - destruct (framed_deployment host plan _ _ _ H) as (new & _ & Hl & _).
    rewrite (Hl Hbuild). exact Hdata.
  - intros Hkeeps.
    pose proof (deployment_manifests _ _ _ _ _ Hkeeps H) as Hm.
    unfold preBuild_passes, preBuild_hook in Hm. rewrite Hbuild in Hm.
    rewrite andb_false_r in Hm. unfold bumped in Hm. rewrite Hbump in Hm.
    cbn [Deploy.is_none Exec.tracker] in Hm. rewrite Hdisk in Hm. exact Hm.
Qed.

Lemma submit_only_run_writes_nothing_witness :
  ledger
    (snd (Deploy.deployment obliging_host
            {| Deploy.shouldBuild := false;
               Deploy.shouldSubmit := true;
               Deploy.versionBump := none;
               Deploy.targetVersion := "1.0.0";
               Deploy.enabledPlatforms := [ios; android];
               Deploy.profile := production;
               Deploy.clearCache := fun _ => false;
               Deploy.config := None |}
            first_session))
  = DeploymentTracker.data (DeploymentTracker.construct test_disk 0).
Proof.
  apply (submit_only_run_writes_nothing None (release_choices Deploy.submit)
           (DeploymentTracker.construct test_disk 0)
           (DeploymentTracker.construct test_disk 0)
           _ obliging_host [] _ _ eq_refl eq_refl (surjective_pairing _)).
Defined.

(** X23.  The wizard has the cache cleared only on request: a platform
    gets [clearCache] only when the run builds, [build.autoClearCache] is
    on, the platform is enabled, [detectConfigChanges] reported changes for
    it against the ledger and the project as they are, and the user agreed
    when asked about these changes.  The wizard itself changes neither the
    ledger nor the documents. *)
Theorem cache_cleared_only_on_request :
  forall (cfg : option ShipkitConfig) (choices : Deploy.Choices)
         (t t1 : DeploymentTracker.Tracker) (plan : Deploy.Plan),
    Deploy.wizard cfg choices t = Deploy.Proceed plan t1 ->
    DeploymentTracker.data t1 = DeploymentTracker.data t
    /\ DeploymentTracker.disk t1 = DeploymentTracker.disk t
    /\ forall pl,
         Deploy.clearCache plan pl = true ->
         Deploy.shouldBuild plan = true
         /\ option_map build_autoClearCache cfg = Some true
         /\ In pl (Deploy.enabledPlatforms plan)
         /\ exists t',
              DeploymentTracker.data t' = DeploymentTracker.data t
              /\ DeploymentTracker.disk t' = DeploymentTracker.disk t
              /\ fst (ConfigDetector.detectConfigChanges pl t'
                        (criticalConfig_of cfg pl)) <> []
              /\ Deploy.promptClearCache choices
                   (fst (ConfigDetector.detectConfigChanges pl t'
                           (criticalConfig_of cfg pl))) = true.
Proof.
  intros cfg choices t t1 plan Hw.
  destruct (wizard_proceeds _ _ _ _ _ Hw)
    as (Hdata & Hdisk & _ & _ & _ & _ & _ & Hclear).
  auto.
Qed.

Lemma cache_cleared_only_on_request_witness :
  exists plan t1,
    Deploy.wizard (Some notifying_config) (release_choices Deploy.build)
      maven_tracker
    = Deploy.Proceed plan t1
    /\ Deploy.clearCache plan android = true
    /\ DeploymentTracker.data t1 = DeploymentTracker.data maven_tracker.
Proof.
  eexists _, _. split; [vm_compute; reflexivity|]. split; [reflexivity|].
  refine (proj1 (cache_cleared_only_on_request (Some notifying_config)
                   (release_choices Deploy.build) maven_tracker _ _ _)).
  vm_compute. reflexivity.
Defined.

(** ** [runBuilds] and [runSubmits] *)

Lemma runBuilds_from_run_each (host : Exec.Host) (pr : Profile)
      (clearCacheMap : Platform -> bool) (cfg : option ShipkitConfig)
      (platforms : list Platform) :
  forall results s,
    Builder.runBuilds_from host platforms pr clearCacheMap cfg results s
    = run_each host
        (fun pl => Builder.buildEasCommand
                     {| Builder.platform := pl;
                        Builder.profile := pr;
                        Builder.clearCache := Some (clearCacheMap pl);
                        Builder.config := cfg |})
        platforms results s.
Proof.
  induction platforms as [|pl rest IH]; intros results s; [reflexivity|].
  cbn [Builder.runBuilds_from run_each]. unfold Exec.bindM, Builder.runBuild.
  destruct (Exec.execInteractive host _ s) as [[code|e] s1]; [|reflexivity].
  destruct (negb (code =? 0)); [reflexivity|apply IH].
Qed.

Lemma runSubmits_from_run_each (host : Exec.Host) (pr : Profile)
      (platforms : list Platform) :
  forall results s,
    Submitter.runSubmits_from host platforms pr results s
    = run_each host (fun pl => Submitter.buildSubmitCommand pl pr)
        platforms results s.
Proof.
  induction platforms as [|pl rest IH]; intros results s; [reflexivity|].
  cbn [Submitter.runSubmits_from run_each].
  unfold Exec.bindM, Submitter.runSubmit.
  destruct (Exec.execInteractive host _ s) as [[code|e] s1]; [|reflexivity].
  destruct (negb (code =? 0)); [reflexivity|apply IH].
Qed.

Lemma map_set_new (results : list (Platform * Z)) (pl : Platform) (code : Z) :
  ~ In pl (map fst results) ->
  Builder.map_set results pl code = (results ++ [(pl, code)])%list.
Proof.
  induction results as [|[q c] rest IH]; intros Hnot; [reflexivity|].
  cbn [Builder.map_set app].
  destruct (Platform_eqb q pl) eqn:E.
  - exfalso. apply Hnot. left. destruct q, pl; first [reflexivity|discriminate E].
  - rewrite IH; [reflexivity|]. intros Hin. apply Hnot. right. exact Hin.
Qed.

Lemma run_each_spec (host : Exec.Host) (command : Platform -> string)
      (platforms : list Platform) :
  forall (results out : list (Platform * Z)) (s s' : Exec.Session),
    NoDup platforms ->
    (forall p, In p platforms -> ~ In p (map fst results)) ->
    run_each host command platforms results s = (JS.Returns out, s') ->
    exists new rest,
      Exec.trace s' = (Exec.trace s ++ new)%list
      /\ ledger s' = ledger s
      /\ out = (results ++ rest)%list
      /\ ran_until_failure command platforms new rest.
Proof.
  induction platforms as [|pl ps IH]; intros results out s s' Hnd Hfresh H;
    cbn [run_each] in H.
  - injection H as <- <-. exists [], []. rewrite !app_nil_r.
    split; [reflexivity|]. split; [reflexivity|]. split; [reflexivity|].
    left. repeat split. constructor.
  - destruct (bindM_inv _ _ _ _ _ H) as [(code & s1 & H1 & H2)|(e & _ & He)];
      [|discriminate He].
    destruct (execInteractive_spec _ _ _ _ _ H1) as (Ht1 & Hl1 & _ & Hr).
    destruct (Exec.spawn host (List.length (Exec.trace s)) (command pl))
      as [c|e] eqn:E; [|discriminate Hr].
    injection Hr as ->.
    rewrite map_set_new in H2 by (apply Hfresh; left; reflexivity).
    inversion Hnd as [|x xs Hnotin Hnd' Heq]; subst x xs.
    destruct (Z.eqb_spec (c ?? 0) 0) as [Hz|Hne]; cbn [negb] in H2.
    + assert (Hfresh' : forall p, In p ps ->
                                  ~ In p (map fst (results ++ [(pl, c ?? 0)]))).
      { intros p Hp Hin. rewrite map_app in Hin.
        apply in_app_or in Hin. destruct Hin as [Hin|[Hin|[]]].
        - exact (Hfresh p (or_intror Hp) Hin).
        - cbn in Hin. subst p. exact (Hnotin Hp). }
      destruct (IH _ _ _ _ Hnd' Hfresh' H2)
        as (new & rest & Ht & Hl & Hout & Hran).
      exists ((command pl, Exec.Close c) :: new), ((pl, 0) :: rest).
      split; [rewrite Ht, Ht1, <- app_assoc; reflexivity|].
      split; [congruence|].
      split; [rewrite Hout, Hz, <- app_assoc; reflexivity|].
      assert (Hok : succeeded (Exec.Close c) = true)
        by (rewrite succeeded_code; apply Z.eqb_eq; exact Hz).
      destruct Hran as [(Hrest & Hcmds & Hall)
                       |(done & failed & later & code & good
                         & Hps & Hcode & Hrest & Hnew & Hgood & Hall)].
      * left. split; [rewrite Hrest; reflexivity|].
        split; [cbn [map fst]; rewrite Hcmds; reflexivity|].
        constructor; assumption.
      * right. exists (pl :: done), failed, later, code,
                      ((command pl, Exec.Close c) :: good).
        split; [rewrite Hps; reflexivity|]. split; [exact Hcode|].
        split; [rewrite Hrest; reflexivity|].
        split; [rewrite Hnew; reflexivity|].
        split; [cbn [map fst]; rewrite Hgood; reflexivity|].
        constructor; assumption.
    + injection H2 as <- <-.
      exists [(command pl, Exec.Close c)], [(pl, c ?? 0)].
      split; [exact Ht1|]. split; [exact Hl1|]. split; [reflexivity|].
      right. exists [], pl, ps, (c ?? 0), [].
      split; [reflexivity|]. split; [exact Hne|]. split; [reflexivity|].
      split; [|split; [reflexivity|constructor]].
      destruct c as [code|]; [reflexivity|]. exfalso. apply Hne. reflexivity.
Qed.

(** X24.  [runBuilds] and [runSubmits] stop at the first failure.  Over
    distinct platforms, when they return, either every command succeeded
    and the map holds the code 0 for every platform, in the order given, or
    the commands run end with the first one whose exit code is not zero and
    the map ends with that platform and its code: the platforms after it
    are neither run nor entered.  Neither function touches the ledger. *)
Theorem runBuilds_runSubmits_stop_at_first_failure :
  forall (host : Exec.Host) (platforms : list Platform) (pr : Profile)
         (clearCacheMap : Platform -> bool) (cfg : option ShipkitConfig)
         (s s' : Exec.Session) (results : list (Platform * Z)),
    NoDup platforms ->
    (Builder.runBuilds host platforms pr clearCacheMap cfg s
     = (JS.Returns results, s') ->
     exists new,
       Exec.trace s' = (Exec.trace s ++ new)%list
       /\ ledger s' = ledger s
       /\ ran_until_failure
            (fun pl => Builder.buildEasCommand
                         {| Builder.platform := pl;
                            Builder.profile := pr;
                            Builder.clearCache := Some (clearCacheMap pl);
                            Builder.config := cfg |})
            platforms new results)
    /\ (Submitter.runSubmits host platforms pr s = (JS.Returns results, s') ->
        exists new,
          Exec.trace s' = (Exec.trace s ++ new)%list
          /\ ledger s' = ledger s
          /\ ran_until_failure
               (fun pl => Submitter.buildSubmitCommand pl pr)
               platforms new results).
Proof.
  intros host platforms pr clearCacheMap cfg s s' results Hnd. split; intros H.
  - unfold Builder.runBuilds in H. rewrite runBuilds_from_run_each in H.
    destruct (run_each_spec _ _ _ [] _ _ _ Hnd (fun _ _ H => H) H)
      as (new & rest & Ht & Hl & -> & Hran).
    exists new. auto.
  - unfold Submitter.runSubmits in H. rewrite runSubmits_from_run_each in H.
    destruct (run_each_spec _ _ _ [] _ _ _ Hnd (fun _ _ H => H) H)
      as (new & rest & Ht & Hl & -> & Hran).
    exists new. auto.
Qed.

Lemma runBuilds_runSubmits_stop_at_first_failure_witness :
  exists new,
    Exec.trace
      (snd (Builder.runBuilds android_failing_host [android; ios] production
              (fun _ => false) None first_session))
    = (Exec.trace first_session ++ new)%list
    /\ ledger
         (snd (Builder.runBuilds android_failing_host [android; ios] production
                 (fun _ => false) None first_session))
       = ledger first_session
    /\ ran_until_failure
         (fun pl => Builder.buildEasCommand
                      {| Builder.platform := pl;
                         Builder.profile := production;
                         Builder.clearCache := Some false;
                         Builder.config := None |})
         [android; ios] new [(android, 1)].
Proof.
  apply (proj1 (runBuilds_runSubmits_stop_at_first_failure android_failing_host
                  [android; ios] production (fun _ => false) None first_session
                  _ [(android, 1)]
                  ltac:(repeat constructor; cbn; intuition discriminate))).
  vm_compute. reflexivity.
Defined.

(* ================================================================== *)
(** * Environment files                                                *)
(* ================================================================== *)

(** ** Strings *)

Lemma split_not_nil (s : string) (sep : ascii) : JSString.split s sep <> [].
Proof.
  destruct s as [|c r]; cbn [JSString.split]; [discriminate|].
  destruct (Ascii.eqb c sep); [discriminate|].
  destruct (JSString.split r sep); discriminate.
Qed.

Lemma split_app (a b : string) (sep : ascii) :
  JSString.split (a ++ String sep b) sep
  = (JSString.split a sep ++ JSString.split b sep)%list.
Proof.
  induction a as [|c r IH]; cbn [append JSString.split].
  - rewrite Ascii.eqb_refl. reflexivity.
  - destruct (Ascii.eqb c sep); [rewrite IH; reflexivity|].
    rewrite IH. pose proof (split_not_nil r sep) as Hne.
    destruct (JSString.split r sep) as [|p ps]; [contradiction|reflexivity].
Qed.

Lemma split_every (s : string) (sep : ascii) :
  JSString.split s sep = [s] <-> every (fun c => negb (Ascii.eqb c sep)) s = true.
Proof.
  induction s as [|c r IH]; cbn [JSString.split every]; [tauto|].
  destruct (Ascii.eqb c sep) eqn:E; cbn [negb andb].
  - split; [|discriminate]. intros H. injection H as H _. discriminate H.
  - rewrite <- IH. pose proof (split_not_nil r sep) as Hne.
    destruct (JSString.split r sep) as [|p ps]; [contradiction|].
    split; intros H.
    + injection H as -> ->. reflexivity.
    + injection H as -> ->. reflexivity.
Qed.

Lemma every_app (p : ascii -> bool) (a b : string) :
  every p (a ++ b) = every p a && every p b.
Proof.
  induction a as [|c r IH]; cbn [append every]; [reflexivity|].
  rewrite IH. apply andb_assoc.
Qed.

Lemma single_line_app (a b : string) :
  single_line a -> single_line b -> single_line (a ++ b).
Proof.
  unfold single_line. rewrite !split_every, every_app.
  intros -> ->. reflexivity.
Qed.

Lemma split_pieces (s : string) (sep : ascii) (piece : string) :
  In piece (JSString.split s sep) ->
  every (fun c => negb (Ascii.eqb c sep)) piece = true.
Proof.
  revert piece. induction s as [|c r IH]; intros piece; cbn [JSString.split].
  - intros [<-|[]]. reflexivity.
  - destruct (Ascii.eqb c sep) eqn:E.
    + intros [<-|H]; [reflexivity|exact (IH _ H)].
    + pose proof (split_not_nil r sep) as Hne.
      destruct (JSString.split r sep) as [|p ps]; [contradiction|].
      intros [<-|H].
      * cbn [every]. rewrite E. cbn [negb andb]. apply IH. left. reflexivity.
      * apply IH. right. exact H.
Qed.

Lemma every_trimStart (p : ascii -> bool) (s : string) :
  every p s = true -> every p (JSString.trimStart s) = true.
Proof.
  induction s as [|c r IH]; cbn [JSString.trimStart every]; [auto|].
  intros H. apply andb_prop in H. destruct H as [Hc Hr].
  destruct (JSString.is_white_space c); [exact (IH Hr)|].
  cbn [every]. rewrite Hc, Hr. reflexivity.
Qed.

Lemma every_trimEnd (p : ascii -> bool) (s : string) :
  every p s = true -> every p (JSString.trimEnd s) = true.
Proof.
  induction s as [|c r IH]; cbn [JSString.trimEnd every]; [auto|].
  intros H. apply andb_prop in H. destruct H as [Hc Hr].
  specialize (IH Hr).
  destruct (JSString.trimEnd r) as [|c' r'].
  - destruct (JSString.is_white_space c); [reflexivity|].
    cbn [every]. rewrite Hc. reflexivity.
  - cbn [every] in IH |- *. rewrite Hc, IH. reflexivity.
Qed.

Lemma every_trim (p : ascii -> bool) (s : string) :
  every p s = true -> every p (JSString.trim s) = true.
Proof. intros H. apply every_trimEnd, every_trimStart, H. Qed.

Lemma every_substring (p : ascii -> bool) (s : string) :
  every p s = true -> forall n m, every p (String.substring n m s) = true.
Proof.
  induction s as [|c r IH]; intros H n m.
  - destruct n, m; reflexivity.
  - cbn [every] in H. apply andb_prop in H. destruct H as [Hc Hr].
    destruct n as [|n]; cbn [String.substring].
    + destruct m as [|m]; [reflexivity|].
      cbn [every]. rewrite Hc. exact (IH Hr 0%nat m).
    + exact (IH Hr n m).
Qed.

Lemma every_slice (p : ascii -> bool) (s : string) (start : Z)
      (end_ : option Z) :
  every p s = true -> every p (JSString.slice s start end_) = true.
Proof. intros H. unfold JSString.slice. apply every_substring, H. Qed.

(** ** Lines and bindings *)

Lemma parse_line_cases (line : string) :
  (binding line = None /\ forall env, Environment.parse_line env line = env)
  \/ exists k v,
       binding line = Some (k, v)
       /\ k <> EmptyString /\ k <> "__proto__"
       /\ forall env, Environment.parse_line env line = Json.set env k v.
Proof.
  unfold binding, Environment.parse_line.
  destruct (negb (JSString.truthy (JSString.trim line))
            || JSString.startsWith (JSString.trim line) "#");
    [left; auto|].
  destruct (JSString.indexOf (JSString.trim line) "=") as [eqIndex|];
    [|left; auto].
  cbv zeta.
  match goal with
  | |- context [if JSString.truthy ?key then Environment.assign _ ?key ?value
                else _] =>
      set (k := key); set (v := value)
  end.
  destruct (JSString.truthy k) eqn:Hk; [|left; auto].
  unfold Environment.assign.
  destruct (String.eqb k "__proto__") eqn:Hp; [left; auto|].
  right. exists k, v. split; [reflexivity|].
  split; [intros E; rewrite E in Hk; discriminate Hk|].
  split; [apply String.eqb_neq; exact Hp|]. reflexivity.
Qed.

Lemma get_parse_line (env : Json.object string) (line k : string) :
  Json.get (Environment.parse_line env line) k
  = match Json.get (Environment.parse_line [] line) k with
    | Some v => Some v
    | None => Json.get env k
    end.
Proof.
  destruct (parse_line_cases line) as [[_ H]|(k' & v & _ & _ & _ & H)];
    rewrite !H.
  - reflexivity.
  - cbn [Json.set Json.get].
    destruct (String.eqb k' k) eqn:E.
    + apply String.eqb_eq in E. subst k'. apply get_set_same.
    + apply get_set_other. apply String.eqb_neq. exact E.
Qed.

Lemma get_parse_lines (lines : list string) :
  forall (env : Json.object string) (k : string),
    Json.get (fold_left Environment.parse_line lines env) k
    = match Json.get (fold_left Environment.parse_line lines []) k with
      | Some v => Some v
      | None => Json.get env k
      end.
Proof.
  induction lines as [|line lines IH]; intros env k; cbn [fold_left].
  - reflexivity.
  - rewrite (IH (Environment.parse_line env line)).
    rewrite (IH (Environment.parse_line [] line)).
    rewrite get_parse_line.
    destruct (Json.get (fold_left Environment.parse_line lines []) k);
      reflexivity.
Qed.

(** X25.  [parseEnvFile] reads a file line by line and the last binding of
    a key wins: the result for two texts joined by a line feed is the
    result for the first text overwritten by the result for the second,
    key by key. *)
Theorem parseEnvFile_later_lines_win :
  forall (a b k : string),
    Json.get
      (Environment.parseEnvFile (a ++ String JSString.line_feed b)) k
    = match Json.get (Environment.parseEnvFile b) k with
      | Some v => Some v
      | None => Json.get (Environment.parseEnvFile a) k
      end.
Proof.
  intros a b k. unfold Environment.parseEnvFile.
  rewrite split_app, fold_left_app. apply get_parse_lines.
Qed.

(** ** Trimming, searching and slicing a line *)

Lemma length_app (a b : string) :
  String.length (a ++ b) = (String.length a + String.length b)%nat.
Proof. induction a as [|c r IH]; cbn; [reflexivity|]. rewrite IH. reflexivity. Qed.

Lemma app_assoc_string (a b c : string) : (a ++ b) ++ c = a ++ (b ++ c).
Proof. induction a as [|x r IH]; cbn; [reflexivity|]. rewrite IH. reflexivity. Qed.

Lemma trimStart_length (s : string) :
  (String.length (JSString.trimStart s) <= String.length s)%nat.
Proof.
  induction s as [|c r IH]; cbn [JSString.trimStart]; [apply le_n|].
  destruct (JSString.is_white_space c); cbn [String.length]; lia.
Qed.

Lemma trimStart_fixed (s : string) :
  JSString.trimStart s = s ->
  match s with
  | EmptyString => True
  | String c _ => JSString.is_white_space c = false
  end.
Proof.
  destruct s as [|c r]; [exact (fun _ => I)|]. cbn [JSString.trimStart].
  destruct (JSString.is_white_space c); [|reflexivity].
  intros H. pose proof (trimStart_length r) as Hlen. rewrite H in Hlen.
  cbn [String.length] in Hlen. lia.
Qed.

Lemma trimStart_app (a b : string) :
  a <> EmptyString -> JSString.trimStart a = a ->
  JSString.trimStart (a ++ b) = a ++ b.
Proof.
  intros Hne H. pose proof (trimStart_fixed a H) as Hc.
  destruct a as [|c r]; [contradiction|].
  cbn [append JSString.trimStart]. rewrite Hc. reflexivity.
Qed.

Lemma trimEnd_app (a b : string) :
  b <> EmptyString -> JSString.trimEnd b = b ->
  JSString.trimEnd (a ++ b) = a ++ b.
Proof.
  intros Hne H. induction a as [|c r IH]; cbn [append JSString.trimEnd];
    [exact H|].
  rewrite IH. destruct (r ++ b) as [|x y] eqn:E; [|reflexivity].
  destruct r; [cbn in E; contradiction|discriminate E].
Qed.

Lemma trimEnd_cons (c : ascii) (s : string) :
  JSString.is_white_space c = false -> JSString.trimEnd s = s ->
  JSString.trimEnd (String c s) = String c s.
Proof.
  intros Hc H. cbn [JSString.trimEnd]. rewrite H, Hc.
  destruct s; reflexivity.
Qed.

Lemma trimEnd_tail (c : ascii) (s : string) :
  s <> EmptyString -> JSString.trimEnd (String c s) = String c s ->
  JSString.trimEnd s = s.
Proof.
  intros Hne. cbn [JSString.trimEnd].
  destruct (JSString.trimEnd s) as [|x y] eqn:E.
  - destruct (JSString.is_white_space c); intros H; [discriminate H|].
    injection H as H. congruence.
  - intros H. injection H as H. exact H.
Qed.

Lemma trim_tight (s : string) : tight s -> JSString.trim s = s.
Proof. intros [Hs He]. unfold JSString.trim. rewrite Hs. exact He. Qed.

Lemma prefix_char (c x : ascii) (r : string) :
  String.prefix (String c EmptyString) (String x r) = Ascii.eqb c x.
Proof.
  cbn [String.prefix]. destruct (ascii_dec c x) as [->|Hne].
  - rewrite Ascii.eqb_refl. destruct r; reflexivity.
  - symmetry. apply Ascii.eqb_neq. exact Hne.
Qed.

Lemma indexOf_char_app (key rest : string) (c : ascii) :
  JSString.indexOf key (String c EmptyString) = None ->
  JSString.indexOf (key ++ String c rest) (String c EmptyString)
  = Some (String.length key).
Proof.
  induction key as [|x r IH]; cbn [append JSString.indexOf String.length].
  - rewrite prefix_char, Ascii.eqb_refl. reflexivity.
  - rewrite !prefix_char. destruct (Ascii.eqb c x); [discriminate|].
    destruct (JSString.indexOf r (String c EmptyString)); [discriminate|].
    intros _. rewrite IH by reflexivity. reflexivity.
Qed.

Lemma substring_prefix (a b : string) :
  String.substring 0 (String.length a) (a ++ b) = a.
Proof.
  induction a as [|c r IH]; cbn [append String.length String.substring].
  - destruct b; reflexivity.
  - rewrite IH. reflexivity.
Qed.

Lemma substring_all (s : string) : String.substring 0 (String.length s) s = s.
Proof.
  induction s as [|c r IH]; cbn [String.length String.substring];
    [reflexivity|]. rewrite IH. reflexivity.
Qed.

Lemma substring_skip (a s : string) (m : nat) :
  String.substring (String.length a) m (a ++ s) = String.substring 0 m s.
Proof.
  induction a as [|c r IH]; cbn [append String.length String.substring];
    [reflexivity|exact IH].
Qed.

Ltac slice_bounds :=
  unfold JSString.slice; cbn [String.length]; rewrite ?length_app;
  cbn [String.length];
  repeat match goal with
         | |- context [?a <? 0] =>
             first [ is_var a; fail 1
                   | destruct (Z.ltb_spec a 0); try lia ]
         end.

Lemma slice_prefix (a b : string) :
  JSString.slice (a ++ b) 0 (Some (Z.of_nat (String.length a))) = a.
Proof.
  slice_bounds.
  match goal with
  | |- String.substring ?n _ _ = _ => replace n with 0%nat by lia
  end.
  match goal with
  | |- String.substring _ ?m _ = _ => replace m with (String.length a); [|lia]
  end.
  apply substring_prefix.
Qed.

Lemma slice_suffix (a b : string) (c : ascii) :
  JSString.slice (a ++ String c b) (Z.of_nat (String.length a) + 1) None = b.
Proof.
  slice_bounds.
  match goal with
  | |- String.substring ?n _ _ = _ =>
      replace n with (String.length (a ++ String c EmptyString))
        by (rewrite length_app; cbn [String.length]; lia)
  end.
  match goal with
  | |- String.substring _ ?m _ = _ => replace m with (String.length b); [|lia]
  end.
  replace (a ++ String c b) with ((a ++ String c EmptyString) ++ b)
    by (rewrite app_assoc_string; reflexivity).
  rewrite substring_skip. apply substring_all.
Qed.

Lemma slice_inner (q q' : ascii) (v : string) :
  JSString.slice (String q (v ++ String q' EmptyString)) 1 (Some (-1)) = v.
Proof.
  slice_bounds.
  match goal with
  | |- String.substring ?n _ _ = _ => replace n with 1%nat by lia
  end.
  match goal with
  | |- String.substring _ ?m _ = _ => replace m with (String.length v); [|lia]
  end.
  cbn [String.substring]. apply substring_prefix.
Qed.

Lemma endsWith_app (a t : string) : JSString.endsWith (a ++ t) t = true.
Proof.
  induction a as [|c r IH]; cbn [append].
  - destruct t; cbn [JSString.endsWith]; rewrite String.eqb_refl; reflexivity.
  - cbn [JSString.endsWith]. rewrite IH.
    destruct (String.eqb (String c (r ++ t)) t); reflexivity.
Qed.

Lemma indexOf_comment (value rest : string) :
  JSString.trimEnd value = value ->
  JSString.indexOf value " #" = None ->
  JSString.indexOf (value ++ String " " (String "#" rest)) " #"
  = Some (String.length value).
Proof.
  induction value as [|c r IH]; intros Hend Hnone.
  - cbn. destruct rest; reflexivity.
  - cbn [append JSString.indexOf String.length] in Hnone |- *.
    assert (Hr : JSString.trimEnd r = r).
    { destruct r as [|x r']; [reflexivity|].
      apply (trimEnd_tail c); [discriminate|exact Hend]. }
    assert (Hp : String.prefix " #" (String c (r ++ String " " (String "#" rest)))
                 = String.prefix " #" (String c r)).
    { cbn [String.prefix]. destruct (ascii_dec " " c) as [<-|]; [|reflexivity].
      destruct r as [|x r']; [discriminate Hend|].
      cbn [append]. rewrite !prefix_char. reflexivity. }
    rewrite Hp. destruct (String.prefix " #" (String c r)); [discriminate|].
    destruct (JSString.indexOf r " #") eqn:E; [discriminate|].
    rewrite (IH Hr eq_refl). reflexivity.
Qed.

Lemma trimStart_idempotent (s : string) :
  JSString.trimStart (JSString.trimStart s) = JSString.trimStart s.
Proof.
  induction s as [|c r IH]; cbn [JSString.trimStart]; [reflexivity|].
  destruct (JSString.is_white_space c) eqn:E; [exact IH|].
  cbn [JSString.trimStart]. rewrite E. reflexivity.
Qed.

Lemma trimEnd_idempotent (s : string) :
  JSString.trimEnd (JSString.trimEnd s) = JSString.trimEnd s.
Proof.
  induction s as [|c r IH]; cbn [JSString.trimEnd]; [reflexivity|].
  destruct (JSString.trimEnd r) as [|x y] eqn:E.
  - destruct (JSString.is_white_space c) eqn:Hc; [reflexivity|].
    cbn [JSString.trimEnd]. rewrite Hc. reflexivity.
  - cbn [JSString.trimEnd]. cbn [JSString.trimEnd] in IH.
    rewrite IH. reflexivity.
Qed.

Lemma trimEnd_head (c : ascii) (r : string) :
  JSString.is_white_space c = false ->
  exists r', JSString.trimEnd (String c r) = String c r'.
Proof.
  intros Hc. cbn [JSString.trimEnd].
  destruct (JSString.trimEnd r) as [|x y]; [rewrite Hc|]; eexists; reflexivity.
Qed.

Lemma trimStart_trimEnd (s : string) :
  JSString.trimStart s = s ->
  JSString.trimStart (JSString.trimEnd s) = JSString.trimEnd s.
Proof.
  intros H. pose proof (trimStart_fixed s H) as Hc.
  destruct s as [|c r]; [reflexivity|].
  destruct (trimEnd_head c r Hc) as (r' & ->).
  cbn [JSString.trimStart]. rewrite Hc. reflexivity.
Qed.

Lemma tight_trim (s : string) : tight (JSString.trim s).
Proof.
  unfold tight, JSString.trim. split.
  - apply trimStart_trimEnd, trimStart_idempotent.
  - apply trimEnd_idempotent.
Qed.

Lemma parse_line_trim (env : Json.object string) (line : string) :
  Environment.parse_line env (JSString.trim line)
  = Environment.parse_line env line.
Proof.
  unfold Environment.parse_line.
  rewrite (trim_tight _ (tight_trim line)). reflexivity.
Qed.

Lemma trimEnd_app_any (a b : string) :
  JSString.trimEnd (a ++ b)
  = match JSString.trimEnd b with
    | EmptyString => JSString.trimEnd a
    | String c r => a ++ String c r
    end.
Proof.
  induction a as [|x a IH]; cbn [append].
  - destruct (JSString.trimEnd b); reflexivity.
  - cbn [JSString.trimEnd]. rewrite IH.
    destruct (JSString.trimEnd b) as [|c r]; [reflexivity|].
    destruct a; reflexivity.
Qed.

(** What a line of the shape [key=raw] binds. *)
Lemma parse_line_key_value (env : Json.object string) (key raw : string) :
  env_key key -> tight raw ->
  Environment.parse_line env (key ++ String "=" raw)
  = Json.set env key
      (if quoted raw then JSString.slice raw 1 (Some (-1))
       else match JSString.indexOf raw " #" with
            | Some commentIndex =>
                JSString.trimEnd
                  (JSString.slice raw 0 (Some (Z.of_nat commentIndex)))
            | None => raw
            end).
Proof.
  intros (Hne & Hproto & [Hks Hke] & _ & Heq & Hhash) [Hrs Hre].
  assert (Htrim : JSString.trim (key ++ String "=" raw) = key ++ String "=" raw).
  { unfold JSString.trim. rewrite (trimStart_app _ _ Hne Hks).
    apply trimEnd_app; [discriminate|].
    apply trimEnd_cons; [reflexivity|exact Hre]. }
  unfold Environment.parse_line. rewrite Htrim.
  assert (Htruthy : JSString.truthy (key ++ String "=" raw) = true)
    by (destruct key; [contradiction|reflexivity]).
  assert (Hstart : JSString.startsWith (key ++ String "=" raw) "#" = false).
  { unfold JSString.startsWith in Hhash |- *.
    destruct key as [|c r]; [contradiction|].
    cbn [append]. rewrite prefix_char in Hhash |- *. exact Hhash. }
  rewrite Htruthy, Hstart. cbn [negb orb].
  rewrite (indexOf_char_app key raw "="%char Heq).
  cbv zeta. rewrite slice_prefix, slice_suffix.
  rewrite (trim_tight key (conj Hks Hke)), (trim_tight raw (conj Hrs Hre)).
  fold (quoted raw).
  assert (Hk : JSString.truthy key = true)
    by (destruct key; [contradiction|reflexivity]).
  rewrite Hk. unfold Environment.assign.
  apply String.eqb_neq in Hproto. rewrite Hproto.
  destruct (quoted raw); reflexivity.
Qed.

Lemma parseEnvFile_single_line (line : string) :
  single_line line ->
  Environment.parseEnvFile line = Environment.parse_line [] line.
Proof. intros H. unfold Environment.parseEnvFile. rewrite H. reflexivity. Qed.

Lemma single_line_binding (key raw : string) :
  single_line key -> single_line raw -> single_line (key ++ String "=" raw).
Proof.
  intros Hk Hr. apply single_line_app; [exact Hk|].
  apply (single_line_app "=" raw); [reflexivity|exact Hr].
Qed.

(** X26.  What is written is what is read.  For a key that a line can
    bind, [parseEnvFile] reads [key=value] as the binding of [key] to
    [value] when the value can stand without quotes; it reads
    [key="value"] and [key='value'] as the binding to [value] for every
    one-line value, with the blanks, quotes and [#] inside it; and it reads
    [key=value #comment] as the binding to [value], the comment dropped,
    when the value does not start with a quote. *)
Theorem parseEnvFile_reads_back_bindings :
  forall (key value : string),
    env_key key ->
    (bare_value value ->
     Environment.parseEnvFile (key ++ "=" ++ value) = [(key, value)])
    /\ (single_line value ->
        forall q,
          q = JSString.double_quote \/ q = JSString.single_quote ->
          Environment.parseEnvFile
            (key ++ "=" ++ String q (value ++ String q EmptyString))
          = [(key, value)])
    /\ (bare_value value ->
        value <> EmptyString ->
        JSString.startsWith value (String JSString.double_quote EmptyString)
        = false ->
        JSString.startsWith value (String JSString.single_quote EmptyString)
        = false ->
        forall comment,
          single_line comment ->
          Environment.parseEnvFile (key ++ "=" ++ value ++ " #" ++ comment)
          = [(key, value)]).
Proof.
  intros key value Hkey.
  assert (Hkl : single_line key) by (destruct Hkey as (_ & _ & _ & H & _); exact H).
  split; [|split].
  - intros (Htight & Hline & Hq & Hc).
    change (key ++ "=" ++ value) with (key ++ String "=" value).
    rewrite parseEnvFile_single_line by (apply single_line_binding; assumption).
    rewrite (parse_line_key_value [] key value Hkey Htight), Hq, Hc.
    reflexivity.
  - intros Hline q Hquote.
    set (raw := String q (value ++ String q EmptyString)).
    change (key ++ "=" ++ raw) with (key ++ String "=" raw).
    assert (Hqs : JSString.is_white_space q = false)
      by (destruct Hquote as [-> | ->]; reflexivity).
    assert (Htight : tight raw).
    { split.
      - unfold raw. cbn [JSString.trimStart]. rewrite Hqs. reflexivity.
      - unfold raw.
        change (String q (value ++ String q EmptyString))
          with (String q value ++ String q EmptyString).
        apply trimEnd_app; [discriminate|].
        apply trimEnd_cons; [exact Hqs|reflexivity]. }
    assert (Hrl : single_line raw).
    { unfold raw.
      apply (single_line_app (String q EmptyString)
               (value ++ String q EmptyString)).
      - destruct Hquote as [-> | ->]; reflexivity.
      - apply single_line_app; [exact Hline|].
        destruct Hquote as [-> | ->]; reflexivity. }
    rewrite parseEnvFile_single_line by (apply single_line_binding; assumption).
    rewrite (parse_line_key_value [] key raw Hkey Htight).
    assert (Hquoted : quoted raw = true).
    { unfold quoted, JSString.startsWith, raw. rewrite !prefix_char.
      change (String q (value ++ String q EmptyString))
        with (String q value ++ String q EmptyString).
      destruct Hquote as [-> | ->].
      - rewrite endsWith_app. reflexivity.
      - rewrite endsWith_app.
        replace (Ascii.eqb JSString.double_quote JSString.single_quote)
          with false by reflexivity.
        reflexivity. }
    rewrite Hquoted. unfold raw. rewrite slice_inner. reflexivity.
  - intros ([Hvs Hve] & Hline & Hq & Hc) Hne Hdq Hsq comment Hcl.
    assert (Hwhole : single_line (key ++ "=" ++ value ++ " #" ++ comment)).
    { apply (single_line_binding key (value ++ " #" ++ comment) Hkl).
      apply single_line_app; [exact Hline|].
      apply (single_line_app " #" comment); [reflexivity|exact Hcl]. }
    rewrite (parseEnvFile_single_line _ Hwhole).
    set (raw := value ++ String " " (String "#" (JSString.trimEnd comment))).
    assert (Htrim : JSString.trim (key ++ "=" ++ value ++ " #" ++ comment)
                    = key ++ String "=" raw).
    { destruct Hkey as (Hkne & _ & [Hks _] & _).
      unfold JSString.trim.
      rewrite (trimStart_app key _ Hkne Hks).
      replace (key ++ "=" ++ value ++ " #" ++ comment)
        with ((key ++ "=" ++ value ++ " #") ++ comment)
        by (rewrite !app_assoc_string; reflexivity).
      rewrite trimEnd_app_any.
      destruct (JSString.trimEnd comment) as [|c r] eqn:E.
      - replace (key ++ "=" ++ value ++ " #")
          with ((key ++ "=" ++ value ++ " ") ++ "#")
          by (rewrite !app_assoc_string; reflexivity).
        rewrite trimEnd_app by (first [discriminate|reflexivity]).
        unfold raw. rewrite !app_assoc_string. reflexivity.
      - unfold raw. rewrite !app_assoc_string. reflexivity. }
    rewrite <- (parse_line_trim [] (key ++ "=" ++ value ++ " #" ++ comment)),
      Htrim.
    assert (Htight : tight raw).
    { split.
      - unfold raw. apply trimStart_app; assumption.
      - unfold raw.
        replace (value ++ String " " (String "#" (JSString.trimEnd comment)))
          with ((value ++ " ") ++ String "#" (JSString.trimEnd comment))
          by (rewrite app_assoc_string; reflexivity).
        apply trimEnd_app; [discriminate|].
        apply trimEnd_cons; [reflexivity|apply trimEnd_idempotent]. }
    rewrite (parse_line_key_value [] key raw Hkey Htight).
    assert (Hquoted : quoted raw = false).
    { unfold quoted, JSString.startsWith, raw in *.
      destruct value as [|c r]; [contradiction|]. cbn [append].
      rewrite prefix_char in Hdq, Hsq |- *. rewrite prefix_char.
      rewrite Hdq, Hsq. reflexivity. }
    rewrite Hquoted. unfold raw.
    rewrite (indexOf_comment value _ Hve Hc), slice_prefix, Hve.
    reflexivity.
Qed.

Lemma parseEnvFile_reads_back_bindings_witness :
  Environment.parseEnvFile ("API_URL" ++ "=" ++ "https://example.com/v1 beta")
  = [("API_URL", "https://example.com/v1 beta")].
Proof.
  apply (proj1 (parseEnvFile_reads_back_bindings "API_URL"
                  "https://example.com/v1 beta"
                  ltac:(repeat split; try discriminate; reflexivity))).
  repeat split; reflexivity.
Defined.

(** ** The shape of the bindings *)

Lemma indexOf_char_prefix (s : string) (c : ascii) :
  forall i,
    JSString.indexOf s (String c EmptyString) = Some i ->
    (i <= String.length s)%nat
    /\ every (fun x => negb (Ascii.eqb x c)) (String.substring 0 i s) = true.
Proof.
  induction s as [|x r IH]; intros i; cbn [JSString.indexOf].
  - cbn. discriminate.
  - rewrite prefix_char. destruct (Ascii.eqb c x) eqn:E.
    + intros H. injection H as <-. split; [apply Nat.le_0_l|reflexivity].
    + destruct (JSString.indexOf r (String c EmptyString)) as [j|];
        [|discriminate].
      intros H. injection H as <-. destruct (IH j eq_refl) as [Hle Hall].
      split; [cbn [String.length]; lia|].
      cbn [String.substring every]. rewrite Hall.
      rewrite Ascii.eqb_sym, E. reflexivity.
Qed.

Lemma every_indexOf_char (s : string) (c : ascii) :
  every (fun x => negb (Ascii.eqb x c)) s = true ->
  JSString.indexOf s (String c EmptyString) = None.
Proof.
  induction s as [|x r IH]; cbn [every JSString.indexOf]; [reflexivity|].
  intros H. apply andb_prop in H. destruct H as [Hx Hr].
  rewrite prefix_char, Ascii.eqb_sym.
  apply negb_true_iff in Hx. rewrite Hx, (IH Hr). reflexivity.
Qed.

Lemma slice_to (s : string) (i : nat) :
  (i <= String.length s)%nat ->
  JSString.slice s 0 (Some (Z.of_nat i)) = String.substring 0 i s.
Proof.
  intros Hle. slice_bounds.
  match goal with
  | |- String.substring ?n _ _ = _ => replace n with 0%nat by lia
  end.
  match goal with
  | |- String.substring _ ?m _ = _ => replace m with i; [|lia]
  end.
  reflexivity.
Qed.

(** What a line binds has the shape of a key and of a one-line value. *)
Lemma binding_shape (line k v : string) :
  every (fun c => negb (Ascii.eqb c JSString.line_feed)) line = true ->
  binding line = Some (k, v) ->
  env_key k /\ single_line v.
Proof.
  intros Hline. unfold binding, Environment.parse_line.
  set (trimmed := JSString.trim line).
  assert (Hall : every (fun c => negb (Ascii.eqb c JSString.line_feed)) trimmed
                 = true) by (apply every_trim, Hline).
  assert (Htight : tight trimmed) by apply tight_trim.
  destruct (JSString.truthy trimmed) eqn:Htruthy; cbn [negb orb];
    [|discriminate].
  destruct (JSString.startsWith trimmed "#") eqn:Hhash; [discriminate|].
  destruct (JSString.indexOf trimmed "=") as [eqIndex|] eqn:Heq;
    [|discriminate].
  cbv zeta.
  match goal with
  | |- context [if JSString.truthy ?a then Environment.assign _ ?a ?b
                else _] =>
      set (key := a); set (value := b)
  end.
  destruct (JSString.truthy key) eqn:Hk; [|discriminate].
  unfold Environment.assign.
  destruct (String.eqb key "__proto__") eqn:Hp; [discriminate|].
  cbn [Json.set]. intros H. injection H as <- <-.
  destruct (indexOf_char_prefix _ _ _ Heq) as [Hle Hnoeq].
  assert (Hpre : JSString.slice trimmed 0 (Some (Z.of_nat eqIndex))
                 = String.substring 0 eqIndex trimmed) by (apply slice_to, Hle).
  split; [split; [|split; [|split; [|split; [|split]]]]|].
  - intros E. rewrite E in Hk. discriminate Hk.
  - apply String.eqb_neq. exact Hp.
  - apply tight_trim.
  - apply split_every. unfold key. apply every_trim, every_slice, Hall.
  - apply every_indexOf_char. unfold key. rewrite Hpre.
    apply every_trim, Hnoeq.
  - unfold key in Hk |- *. rewrite Hpre in Hk |- *.
    destruct Htight as [Hstart _].
    pose proof (trimStart_fixed _ Hstart) as Hc.
    destruct trimmed as [|c r]; [discriminate Htruthy|].
    destruct eqIndex as [|n]; [discriminate Hk|].
    cbn [String.substring]. unfold JSString.trim.
    cbn [JSString.trimStart]. rewrite Hc.
    destruct (trimEnd_head c (String.substring 0 n r) Hc) as (r' & ->).
    unfold JSString.startsWith in Hhash |- *.
    rewrite prefix_char in Hhash |- *. exact Hhash.
  - apply split_every. unfold value.
    repeat match goal with
           | |- context [if ?b then _ else _] => destruct b
           | |- context [match ?o with Some _ => _ | None => _ end] =>
               destruct o
           end;
      repeat first [ exact Hall | apply every_trim | apply every_trimEnd
                   | apply every_trimStart | apply every_slice ].
Qed.

Lemma parse_lines_shape (lines : list string) :
  (forall line, In line lines ->
     every (fun c => negb (Ascii.eqb c JSString.line_feed)) line = true) ->
  forall env,
    (forall k v, Json.get env k = Some v -> env_key k /\ single_line v) ->
    forall k v,
      Json.get (fold_left Environment.parse_line lines env) k = Some v ->
      env_key k /\ single_line v.
Proof.
  induction lines as [|line lines IH]; intros Hlines env Henv;
    cbn [fold_left]; [exact Henv|].
  apply IH; [intros l Hl; apply Hlines; right; exact Hl|].
  intros k v.
  destruct (parse_line_cases line) as [[_ H]|(k' & v' & Hb & _ & _ & H)];
    rewrite H; [apply Henv|].
  destruct (String.eqb k' k) eqn:E.
  - apply String.eqb_eq in E. subst k'. rewrite get_set_same.
    intros Hv. injection Hv as <-.
    apply (binding_shape line); [apply Hlines; left; reflexivity|exact Hb].
  - rewrite get_set_other by (apply String.eqb_neq; exact E). apply Henv.
Qed.

(** X27.  Every binding [parseEnvFile] returns has a key that a line can
    bind: the key is not empty and not [__proto__], has no white space
    around it, holds no [=] and no line feed, and does not start with [#];
    and its value holds no line feed. *)
Theorem parseEnvFile_binds_proper_keys :
  forall (content k v : string),
    Json.get (Environment.parseEnvFile content) k = Some v ->
    env_key k /\ single_line v.
Proof.
  intros content k v. unfold Environment.parseEnvFile.
  apply parse_lines_shape.
  - intros line. apply split_pieces.
  - intros k' v' H. discriminate H.
Qed.

Lemma parseEnvFile_binds_proper_keys_witness :
  env_key "B"
  /\ single_line "two words".
Proof.
  apply (parseEnvFile_binds_proper_keys
           ("# settings" ++ String JSString.line_feed " B = two words # note")
           "B" "two words").
  reflexivity.
Defined.

(** ** [loadEnvFiles] *)

Lemma parse_lines_unique (lines : list string) :
  forall env,
    NoDup (Json.keys env) ->
    NoDup (Json.keys (fold_left Environment.parse_line lines env)).
Proof.
  induction lines as [|line lines IH]; intros env H; cbn [fold_left];
    [exact H|].
  apply IH.
  destruct (parse_line_cases line) as [[_ E]|(k & v & _ & _ & _ & E)];
    rewrite E; [exact H|apply keys_set_unique, H].
Qed.

Lemma get_first (o : Json.object string) (k0 k v0 : string) :
  ~ In k0 (Json.keys o) ->
  Json.get ((k0, v0) :: o) k
  = if String.eqb k0 k then Some v0 else Json.get o k.
Proof. reflexivity. Qed.

Lemma get_Object_assign (parsed : Json.object string) :
  NoDup (Json.keys parsed) ->
  ~ In "__proto__" (Json.keys parsed) ->
  forall env k,
    Json.get (Environment.Object_assign env parsed) k
    = match Json.get parsed k with
      | Some v => Some v
      | None => Json.get env k
      end.
Proof.
  unfold Environment.Object_assign.
  induction parsed as [|[k0 v0] rest IH]; intros Hnd Hproto env k;
    cbn [fold_left fst snd]; [reflexivity|].
  cbn [Json.keys map fst] in Hnd, Hproto.
  inversion Hnd as [|x xs Hnotin Hnd' E]; subst x xs.
  assert (Hk0 : String.eqb k0 "__proto__" = false).
  { apply String.eqb_neq. intros ->. apply Hproto. left. reflexivity. }
  unfold Environment.assign at 2. rewrite Hk0.
  rewrite IH; [|exact Hnd'|intros H; apply Hproto; right; exact H].
  cbn [Json.get]. destruct (String.eqb k0 k) eqn:E.
  - apply String.eqb_eq in E. subst k.
    assert (Hnone : Json.get rest k0 = None).
    { destruct (Json.get rest k0) eqn:G; [|reflexivity].
      exfalso. apply Hnotin. apply keys_get. congruence. }
    rewrite Hnone. apply get_set_same.
  - destruct (Json.get rest k); [reflexivity|].
    apply get_set_other. apply String.eqb_neq. exact E.
Qed.

Lemma get_assign_bindings (env : Json.object string) (e : Environment.entry)
      (k : string) :
  Json.get (Environment.Object_assign env (bindings_of e)) k
  = match Json.get (bindings_of e) k with
    | Some v => Some v
    | None => Json.get env k
    end.
Proof.
  apply get_Object_assign.
  - unfold bindings_of. destruct (Environment.readFile e); [|constructor].
    apply parse_lines_unique. constructor.
  - intros Hin. apply keys_get in Hin.
    destruct (Json.get (bindings_of e) "__proto__") as [v|] eqn:G;
      [|contradiction].
    unfold bindings_of in G. destruct (Environment.readFile e) as [content|];
      [|discriminate G].
    pose proof (parse_lines_shape
                  (JSString.split content JSString.line_feed)
                  (fun line => split_pieces content JSString.line_feed line)
                  [] (fun k' v' H => ltac:(discriminate H))
                  "__proto__" v G) as [(_ & Hp & _) _].
    apply Hp. reflexivity.
Qed.

Lemma load_step (env : Json.object string) (e : Environment.entry) :
  (if Environment.fileExists e
   then match Environment.readFile e with
        | Some content =>
            if JSString.truthy content
            then Environment.Object_assign env (Environment.parseEnvFile content)
            else env
        | None => env
        end
   else env)
  = Environment.Object_assign env (bindings_of e).
Proof.
  unfold bindings_of. destruct e as [| |content]; try reflexivity.
  cbn [Environment.fileExists Environment.readFile].
  destruct content; reflexivity.
Qed.

(** X28.  [loadEnvFiles] gives the files the priority its comment states.
    The value of a key is taken from the first of [.env.<profile>.local],
    [.env.local], [.env.<profile>] and [.env] that binds it; a file that
    is missing, cannot be read or is empty binds nothing; and without a
    profile, or with the empty profile, only [.env.local] and [.env] are
    read. *)
Theorem loadEnvFiles_priority :
  forall (profile : option string) (dir : string -> Environment.entry)
         (k : string),
    Json.get (Environment.loadEnvFiles profile dir) k
    = first_defined
        match profile with
        | Some (String c p) =>
            [ bindings_of (dir (".env." ++ String c p ++ ".local"));
              bindings_of (dir ".env.local");
              bindings_of (dir (".env." ++ String c p));
              bindings_of (dir ".env") ]
        | _ =>
            [ bindings_of (dir ".env.local"); bindings_of (dir ".env") ]
        end
        k.
Proof.
  intros profile dir k. unfold Environment.loadEnvFiles.
  destruct profile as [[|c p]|];
    cbn [JSString.truthy flat_map Datatypes.app fold_left first_defined];
    rewrite ?append_empty_r, !load_step, !get_assign_bindings;
    repeat match goal with
           | |- context [Json.get (bindings_of ?e) k] =>
               destruct (Json.get (bindings_of e) k)
           end;
    reflexivity.
Qed.

(* ================================================================== *)
(** * The status command                                               *)
(* ================================================================== *)

Lemma getAllVersions_sorted (t : DeploymentTracker.Tracker) :
  Forall (fun v => numeric_version v = true)
         (Json.keys (versions (DeploymentTracker.data t))) ->
  StronglySorted not_older (DeploymentTracker.getAllVersions t).
Proof.
  intros Hnum. unfold DeploymentTracker.getAllVersions.
  apply (Array_sort_sorted DeploymentTracker.newest_first
           (fun v => numeric_version v = true) not_older).
  - intros x y z _ _ _. apply not_older_trans.
  - apply newest_first_goes_first.
  - apply newest_first_may_follow.
  - exact Hnum.
Qed.

Lemma StronglySorted_filter {A : Type} (R : A -> A -> Prop) (f : A -> bool)
      (l : list A) :
  StronglySorted R l -> StronglySorted R (filter f l).
Proof.
  induction 1 as [|a l Hs IH Ha]; cbn [filter]; [constructor|].
  destruct (f a); [|exact IH].
  constructor; [exact IH|].
  rewrite Forall_forall in *. intros x Hx. apply Ha.
  apply filter_In in Hx. exact (proj1 Hx).
Qed.

Lemma StronglySorted_split {A : Type} (R : A -> A -> Prop) (l1 l2 : list A) :
  StronglySorted R (l1 ++ l2) ->
  StronglySorted R l1 /\ forall x y, In x l1 -> In y l2 -> R x y.
Proof.
  induction l1 as [|a l1 IH]; cbn [Datatypes.app]; intros H.
  - split; [constructor|]. intros x y [].
  - inversion H as [|? ? Hs Ha]; subst. destruct (IH Hs) as [Hs1 Hcross].
    rewrite Forall_forall in Ha. split.
    + constructor; [exact Hs1|]. rewrite Forall_forall. intros x Hx.
      apply Ha. apply in_or_app. left. exact Hx.
    + intros x y [<-|Hx] Hy.
      * apply Ha. apply in_or_app. right. exact Hy.
      * exact (Hcross x y Hx Hy).
Qed.

Lemma NoDup_prefix {A : Type} (l1 l2 : list A) : NoDup (l1 ++ l2) -> NoDup l1.
Proof.
  induction l1 as [|a l1 IH]; cbn [Datatypes.app]; intros H; [constructor|].
  inversion H as [|? ? Hnotin Hnd]; subst. constructor; [|exact (IH Hnd)].
  intros Hin. apply Hnotin. apply in_or_app. left. exact Hin.
Qed.

(** X29.  The status command lists the newest previous versions.  On a
    ledger whose version keys are numeric, the section [Previous versions]
    shows tracked versions other than the current one, each once and with
    its own record, newest first; without [--all] it shows at most three,
    and every version it leaves out is not newer than any version shown;
    the number it prints for those left out is their count. *)
Theorem status_shows_newest_previous_versions :
  forall (all : bool) (t : DeploymentTracker.Tracker),
    versions_unique t ->
    Forall (fun v => numeric_version v = true)
           (Json.keys (versions (DeploymentTracker.data t))) ->
    let current :=
      VersionManager.getCurrentVersion (DeploymentTracker.disk t) in
    let shown := map fst (fst (Status.previous_section all t)) in
    let left_out := match snd (Status.previous_section all t) with
                    | Some n => n
                    | None => O
                    end in
    (forall v r,
       In (v, r) (fst (Status.previous_section all t)) ->
       tracked t v /\ v <> current
       /\ r = DeploymentTracker.getVersionStatus t v)
    /\ NoDup shown
    /\ StronglySorted not_older shown
    /\ (all = false -> (List.length shown <= 3)%nat)
    /\ (forall v,
          tracked t v -> v <> current -> ~ In v shown ->
          all = false /\ List.length shown = 3%nat /\ (0 < left_out)%nat
          /\ forall s, In s shown -> not_older s v)
    /\ (List.length shown + left_out)%nat
       = List.length
           (Status.previousVersions (DeploymentTracker.getAllVersions t)
              current).
Proof.
  intros all t Huniq Hnum current shown left_out.
  set (previous := Status.previousVersions
                     (DeploymentTracker.getAllVersions t) current).
  assert (Hshown : shown = Status.versionsToShow all previous).
  { unfold shown, Status.previous_section. cbn [fst].
    rewrite map_map. cbn [fst]. apply map_id. }
  assert (Hleft : left_out = match Status.more all previous with
                             | Some n => n
                             | None => O
                             end) by reflexivity.
  assert (Hsorted : StronglySorted not_older previous).
  { apply StronglySorted_filter, getAllVersions_sorted, Hnum. }
  assert (Hnd : NoDup previous).
  { apply NoDup_filter.
    apply (Permutation_NoDup
             (Permutation_sym
                (Array_sort_perm DeploymentTracker.newest_first _))).
    exact Huniq. }
  assert (Hin : forall v, In v previous <-> tracked t v /\ v <> current).
  { intros v. unfold previous, Status.previousVersions.
    rewrite filter_In, getAllVersions_in, negb_true_iff, String.eqb_neq.
    reflexivity. }
  assert (Hsub : forall v, In v shown -> In v previous).
  { intros v. rewrite Hshown. unfold Status.versionsToShow.
    destruct all; [auto|]. intros H.
    rewrite <- (firstn_skipn 3 previous). apply in_or_app. left. exact H. }
  split; [|split; [|split; [|split; [|split]]]].
  - intros v r H. unfold Status.previous_section in H. cbn [fst] in H.
    apply in_map_iff in H. destruct H as (v' & E & Hv). injection E as -> <-.
    change (In v (Status.versionsToShow all previous)) in Hv.
    rewrite <- Hshown in Hv.
    destruct (proj1 (Hin v) (Hsub v Hv)) as [Ht Hc]. auto.
  - rewrite Hshown. unfold Status.versionsToShow.
    destruct all; [exact Hnd|].
    apply (NoDup_prefix _ (skipn 3 previous)). rewrite firstn_skipn. exact Hnd.
  - rewrite Hshown. unfold Status.versionsToShow.
    destruct all; [exact Hsorted|].
    apply (StronglySorted_split not_older _ (skipn 3 previous)).
    rewrite firstn_skipn. exact Hsorted.
  - intros ->. rewrite Hshown. cbn [Status.versionsToShow].
    apply firstn_le_length.
  - intros v Ht Hc Hnot.
    assert (Hprev : In v previous) by (apply Hin; auto).
    rewrite Hshown in Hnot |- *. rewrite Hleft.
    unfold Status.more, Status.versionsToShow in *.
    destruct all; [contradiction|]. cbn [negb andb].
    rewrite <- (firstn_skipn 3 previous) in Hprev, Hsorted.
    apply in_app_or in Hprev. destruct Hprev as [Hf|Hskip]; [contradiction|].
    assert (Hlen : (3 < List.length previous)%nat).
    { destruct (Nat.le_gt_cases (List.length previous) 3) as [Hle|Hgt];
        [|exact Hgt].
      rewrite (skipn_all2 _ Hle) in Hskip. destruct Hskip. }
    assert (Hthree : List.length (firstn 3 previous) = 3%nat)
      by (rewrite length_firstn; lia).
    rewrite Hthree.
    replace (Nat.ltb 0 3) with true by reflexivity.
    destruct (Nat.ltb_spec 3 (List.length previous)) as [_|Hle]; [|lia].
    cbn [andb].
    split; [reflexivity|]. split; [reflexivity|]. split; [lia|].
    intros s Hs.
    exact (proj2 (StronglySorted_split not_older _ _ Hsorted) s v Hs Hskip).
  - rewrite Hshown, Hleft. fold previous.
    unfold Status.more, Status.versionsToShow.
    destruct all; cbn [negb andb].
    + rewrite andb_false_r. lia.
    + rewrite length_firstn.
      destruct (Nat.ltb_spec 3 (List.length previous)) as [Hgt|Hle].
      * replace (Nat.min 3 (List.length previous)) with 3%nat by lia.
        cbn [Nat.ltb Nat.leb andb]. lia.
      * rewrite andb_false_r. lia.
Qed.

Lemma status_shows_newest_previous_versions_witness :
  StronglySorted not_older
    (map fst (fst (Status.previous_section false five_versions)))
  /\ (List.length (map fst (fst (Status.previous_section false five_versions)))
      <= 3)%nat.
Proof.
  pose proof (status_shows_newest_previous_versions false five_versions
                ltac:(repeat constructor; cbn; intuition discriminate)
                ltac:(repeat constructor))
    as (_ & _ & Hsorted & Hlen & _).
  split; [exact Hsorted|exact (Hlen eq_refl)].
Defined.

(* ================================================================== *)
(** * Error suggestions                                                *)
(* ================================================================== *)

(** ** The matcher finds what the expression denotes *)

Lemma append_is_empty (a b : string) :
  a ++ b = EmptyString -> a = EmptyString /\ b = EmptyString.
Proof. destruct a; cbn; [auto|discriminate]. Qed.

Lemma nullable_lang (r : RegExp.regex) :
  RegExp.nullable r = true <-> lang r EmptyString.
Proof.
  split.
  - induction r as [| |a|r1 IH1 r2 IH2|r1 IH1 r2 IH2|r IH];
      cbn [RegExp.nullable]; intros H; try discriminate H.
    + constructor.
    + apply andb_prop in H. destruct H as [H1 H2].
      exact (lang_seq r1 r2 EmptyString EmptyString (IH1 H1) (IH2 H2)).
    + apply orb_prop in H. destruct H as [H|H];
        [apply lang_alt_l, IH1, H|apply lang_alt_r, IH2, H].
    + constructor.
  - intros H. remember EmptyString as s eqn:Es.
    induction H as [|a x Hx|r1 r2 s1 s2 H1 IH1 H2 IH2|r1 r2 s H IH
                   |r1 r2 s H IH|r|r s1 s2 H1 IH1 H2 IH2];
      cbn [RegExp.nullable]; try reflexivity.
    + discriminate Es.
    + destruct (append_is_empty _ _ Es) as [E1 E2].
      rewrite (IH1 E1), (IH2 E2). reflexivity.
    + rewrite (IH Es). reflexivity.
    + rewrite (IH Es). apply orb_true_r.
Qed.

Lemma after_sound (x : ascii) (r : RegExp.regex) :
  forall s, lang (RegExp.after x r) s -> lang r (String x s).
Proof.
  induction r as [| |a|r1 IH1 r2 IH2|r1 IH1 r2 IH2|r IH]; intros s;
    cbn [RegExp.after]; intros H.
  - inversion H.
  - inversion H.
  - destruct (RegExp.atom_test a x) eqn:E; inversion H; subst.
    constructor. exact E.
  - assert (Hseq : forall w, lang (RegExp.Seq (RegExp.after x r1) r2) w ->
                             lang (RegExp.Seq r1 r2) (String x w)).
    { intros w Hw. inversion Hw as [| |? ? s1 s2 Ha Hb| | | |]; subst.
      exact (lang_seq r1 r2 (String x s1) s2 (IH1 _ Ha) Hb). }
    destruct (RegExp.nullable r1) eqn:N; [|exact (Hseq _ H)].
    inversion H as [| | |? ? ? Ha|? ? ? Hb| |]; subst; [exact (Hseq _ Ha)|].
    apply nullable_lang in N.
    exact (lang_seq r1 r2 EmptyString (String x s) N (IH2 _ Hb)).
  - inversion H as [| | |? ? ? Ha|? ? ? Hb| |]; subst;
      [apply lang_alt_l, IH1, Ha|apply lang_alt_r, IH2, Hb].
  - inversion H as [| |? ? s1 s2 Ha Hb| | | |]; subst.
    exact (lang_star_more r (String x s1) s2 (IH _ Ha) Hb).
Qed.

Lemma after_complete (r : RegExp.regex) (w : string) :
  lang r w -> forall x s, w = String x s -> lang (RegExp.after x r) s.
Proof.
  induction 1 as [|a y Hy|r1 r2 s1 s2 H1 IH1 H2 IH2|r1 r2 w H IH
                 |r1 r2 w H IH|r|r s1 s2 H1 IH1 H2 IH2];
    intros x s E; cbn [RegExp.after].
  - discriminate E.
  - injection E as -> <-. rewrite Hy. constructor.
  - destruct s1 as [|y s1'].
    + cbn [append] in E. apply nullable_lang in H1. rewrite H1.
      apply lang_alt_r. exact (IH2 _ _ E).
    + cbn [append] in E. injection E as -> <-.
      pose proof (lang_seq _ r2 _ s2 (IH1 _ _ eq_refl) H2) as Hseq.
      destruct (RegExp.nullable r1); [apply lang_alt_l|]; exact Hseq.
  - apply lang_alt_l. exact (IH _ _ E).
  - apply lang_alt_r. exact (IH _ _ E).
  - discriminate E.
  - destruct s1 as [|y s1'].
    + cbn [append] in E. exact (IH2 _ _ E).
    + cbn [append] in E. injection E as -> <-.
      exact (lang_seq _ _ _ s2 (IH1 _ _ eq_refl) H2).
Qed.

Lemma matches_here_spec (s : string) :
  forall r,
    RegExp.matches_here r s = true
    <-> exists part rest, s = part ++ rest /\ lang r part.
Proof.
  induction s as [|x s IH]; intros r; cbn [RegExp.matches_here].
  - rewrite orb_false_r, nullable_lang. split.
    + intros H. exists EmptyString, EmptyString. auto.
    + intros (part & rest & E & H).
      destruct (append_is_empty _ _ (eq_sym E)) as [-> _]. exact H.
  - split.
    + intros H. apply orb_prop in H. destruct H as [H|H].
      * exists EmptyString, (String x s). split; [reflexivity|].
        apply nullable_lang, H.
      * apply IH in H. destruct H as (part & rest & -> & H).
        exists (String x part), rest. split; [reflexivity|].
        apply after_sound, H.
    + intros (part & rest & E & H). destruct part as [|y part].
      * apply nullable_lang in H. rewrite H. reflexivity.
      * cbn [append] in E. injection E as <- ->.
        apply orb_true_iff. right. apply IH.
        exists part, rest. split; [reflexivity|].
        exact (after_complete _ _ H _ _ eq_refl).
Qed.

Lemma test_spec (r : RegExp.regex) (s : string) :
  RegExp.test r s = true <-> found_in r s.
Proof.
  unfold found_in. induction s as [|x s IH]; cbn [RegExp.test].
  - rewrite orb_false_r, matches_here_spec. split.
    + intros (part & rest & E & H). exists EmptyString, part, rest. auto.
    + intros (before & part & rest & E & H).
      destruct (append_is_empty _ _ (eq_sym E)) as [-> E'].
      exists part, rest. auto.
  - rewrite orb_true_iff, matches_here_spec, IH. split.
    + intros [(part & rest & E & H)|(before & part & rest & E & H)].
      * exists EmptyString, part, rest. auto.
      * exists (String x before), part, rest. rewrite E. auto.
    + intros (before & part & rest & E & H). destruct before as [|y before].
      * left. exists part, rest. auto.
      * cbn [append] in E. injection E as <- ->. right.
        exists before, part, rest. auto.
Qed.

Lemma test_Alt (r1 r2 : RegExp.regex) (s : string) :
  RegExp.test (RegExp.Alt r1 r2) s = RegExp.test r1 s || RegExp.test r2 s.
Proof.
  apply eq_true_iff_eq. rewrite orb_true_iff, !test_spec. unfold found_in.
  split.
  - intros (before & part & rest & E & H).
    inversion H; subst; [left|right]; exists before, part, rest; auto.
  - intros [(before & part & rest & E & H)|(before & part & rest & E & H)];
      exists before, part, rest; split; try exact E;
      [apply lang_alt_l|apply lang_alt_r]; exact H.
Qed.

Lemma test_Seq (r1 r2 : RegExp.regex) (s : string) :
  RegExp.test (RegExp.Seq r1 r2) s = true ->
  RegExp.test r1 s = true /\ RegExp.test r2 s = true.
Proof.
  rewrite !test_spec. unfold found_in.
  intros (before & part & rest & E & H).
  inversion H as [| |? ? s1 s2 H1 H2| | | |]; subst. split.
  - exists before, s1, (s2 ++ rest). split; [|exact H1].
    rewrite app_assoc_string. reflexivity.
  - exists (before ++ s1), s2, rest. split; [|exact H2].
    rewrite !app_assoc_string. reflexivity.
Qed.

(** ** The order of the patterns *)

Lemma filter_step {A : Type} (f : A -> bool) (x : A) (l : list A) :
  filter f (x :: l) = if f x then x :: filter f l else filter f l.
Proof. reflexivity. Qed.

Lemma getBestSuggestion_first (m : string) :
  ErrorSuggestions.getBestSuggestion m
  = hd_error (ErrorSuggestions.findSuggestions m).
Proof.
  unfold ErrorSuggestions.getBestSuggestion.
  destruct (ErrorSuggestions.findSuggestions m); reflexivity.
Qed.

Ltac next_pattern m :=
  rewrite filter_step; cbv beta; cbn [ErrorSuggestions.pattern];
  match goal with
  | |- context [if RegExp.test ?r m then _ else _] =>
      destruct (RegExp.test r m) eqn:?
  end.

Ltac next_pattern_in H m :=
  rewrite filter_step in H; cbv beta in H;
  cbn [ErrorSuggestions.pattern] in H;
  match type of H with
  | context [if RegExp.test ?r m then _ else _] =>
      destruct (RegExp.test r m) eqn:?
  end.

(** X30.  The suggestion [Expired Certificate/Profile] is out of reach for
    a message about a certificate.  Whenever the message holds the word
    [certificate], in any case, [getBestSuggestion] returns a suggestion
    with another title, since the pattern of [Code Signing Issue] comes
    first and matches.  [getBestSuggestion] returns [Expired
    Certificate/Profile] only for a message without that word in which
    [provisioning] is followed by [expired] on the same line, and then it
    is the only suggestion [findSuggestions] returns. *)
Theorem expired_certificate_is_shadowed :
  forall m : string,
    (RegExp.test (RegExp.text "certificate") m = true ->
     exists s,
       ErrorSuggestions.getBestSuggestion m = Some s
       /\ ErrorSuggestions.title s <> "Expired Certificate/Profile")
    /\ (forall s,
          ErrorSuggestions.getBestSuggestion m = Some s ->
          ErrorSuggestions.title s = "Expired Certificate/Profile" ->
          RegExp.test (RegExp.text "certificate") m = false
          /\ RegExp.test
               (RegExp.seq [RegExp.text "provisioning";
                            ErrorSuggestions.anything;
                            RegExp.text "expired"]) m = true
          /\ ErrorSuggestions.findSuggestions m = [s]).
Proof.
  intros m. rewrite getBestSuggestion_first. split.
  - intros Hc. unfold ErrorSuggestions.findSuggestions,
                      ErrorSuggestions.ERROR_PATTERNS.
    do 9 (next_pattern m;
          [cbn [map hd_error ErrorSuggestions.suggestion]; eexists;
           split; [reflexivity|cbn [ErrorSuggestions.title]; discriminate]|]).
    next_pattern m.
    + cbn [map hd_error ErrorSuggestions.suggestion]. eexists.
      split; [reflexivity|cbn [ErrorSuggestions.title]; discriminate].
    + match goal with
      | H : RegExp.test (RegExp.alt _) m = false |- _ =>
          cbn [RegExp.alt] in H; rewrite !test_Alt, Hc, !orb_true_r in H;
          discriminate H
      end.
  - intros s H Htitle.
    unfold ErrorSuggestions.findSuggestions,
           ErrorSuggestions.ERROR_PATTERNS in H |- *.
    do 12 (next_pattern_in H m;
           [cbn [map hd_error ErrorSuggestions.suggestion] in H;
            injection H as <-; cbn [ErrorSuggestions.title] in Htitle;
            discriminate Htitle|]).
    next_pattern_in H m; [|discriminate H].
    cbn [map hd_error ErrorSuggestions.suggestion] in H. injection H as <-.
    match goal with
    | H : RegExp.test
            (RegExp.alt [RegExp.seq [RegExp.text "code"; _; _]; _; _]) m
          = false |- _ => rename H into Hsigning
    end.
    match goal with
    | H : RegExp.test
            (RegExp.alt [RegExp.seq [RegExp.text "provisioning"; _; _]; _; _])
            m = true |- _ => rename H into Hexpired
    end.
    assert (Hcert : RegExp.test (RegExp.text "certificate") m = false).
    { pose proof Hsigning as H. cbn [RegExp.alt] in H.
      rewrite !test_Alt in H.
      apply orb_false_iff in H. destruct H as [_ H].
      apply orb_false_iff in H. destruct H as [_ H]. exact H. }
    split; [exact Hcert|]. split.
    + pose proof Hexpired as H. cbn [RegExp.alt] in H.
      rewrite !test_Alt in H.
      apply orb_prop in H. destruct H as [H|H]; [exact H|].
      apply orb_prop in H. destruct H as [H|H]; exfalso.
      * cbn [RegExp.seq] in H. apply test_Seq in H. destruct H as [H _].
        congruence.
      * cbn [RegExp.seq] in H. apply test_Seq in H. destruct H as [_ H].
        apply test_Seq in H. destruct H as [_ H]. congruence.
    + repeat (rewrite filter_step; cbv beta; cbn [ErrorSuggestions.pattern];
              match goal with
              | H : RegExp.test ?r m = _ |- context [RegExp.test ?r m] =>
                  rewrite H
              end).
      reflexivity.
Qed.

Lemma expired_certificate_is_shadowed_witness :
  exists s,
    ErrorSuggestions.getBestSuggestion "Distribution Certificate has expired"
    = Some s
    /\ ErrorSuggestions.title s <> "Expired Certificate/Profile".
Proof.
  apply (proj1 (expired_certificate_is_shadowed
                  "Distribution Certificate has expired")).
  vm_compute. reflexivity.
Defined.
